(** * LMS6002D front-end control: a shallow embedding of [lms.c]

    The development follows [host/libraries/libbladeRF/src/lms.c].  C
    integers are [Z] with their wrap-around written out, the register
    bus is a deterministic transport whose answers may depend on every
    transaction made so far, and the driver functions are written in a
    small state-and-error monad over the bus history. *)

From Stdlib Require Import ZArith List Bool Lia.
Import ListNotations.
Local Open Scope Z_scope.

(* ------------------------------------------------------------------ *)
(** * Fixed-width integers *)

Definition u8  (x : Z) : Z := x mod 2 ^ 8.
Definition u16 (x : Z) : Z := x mod 2 ^ 16.
Definition u32 (x : Z) : Z := x mod 2 ^ 32.
Definition u64 (x : Z) : Z := x mod 2 ^ 64.
(** [int8_t]: two's complement on 8 bits. *)
Definition s8  (x : Z) : Z := (x + 128) mod 2 ^ 8 - 128.

Definition kHz (x : Z) : Z := x * 1000.
Definition MHz (x : Z) : Z := x * 1000000.

(* ------------------------------------------------------------------ *)
(** * Constants of the public header *)

(** Modelled from the spec: the error taxonomy of section 7.  The
    numeric codes live in [libbladeRF.h], which is not part of the
    sources at hand; they are the negative codes of that header. *)
Definition BLADERF_ERR_UNEXPECTED : Z := -1.
(** Modelled from the spec: [InvalidArgument] of section 7. *)
Definition BLADERF_ERR_INVAL : Z := -3.
(** Modelled from the spec: [IoError] of section 7. *)
Definition BLADERF_ERR_IO : Z := -5.

(** Modelled from the spec: the documented range of each gain stage
    (section 3); [libbladeRF.h] is absent.  RXVGA1 is floored at 5 dB and
    its value-to-code table has 31 entries; RXVGA2 moves 3 dB per code;
    TXVGA1 is an offset-35 code; TXVGA2 codes 25..31 all mean 25 dB. *)
Definition BLADERF_RXVGA1_GAIN_MIN : Z := 5.
Definition BLADERF_RXVGA1_GAIN_MAX : Z := 30.
Definition BLADERF_RXVGA2_GAIN_MIN : Z := 0.
Definition BLADERF_RXVGA2_GAIN_MAX : Z := 30.
Definition BLADERF_TXVGA1_GAIN_MIN : Z := -35.
Definition BLADERF_TXVGA1_GAIN_MAX : Z := -4.
Definition BLADERF_TXVGA2_GAIN_MIN : Z := 0.
Definition BLADERF_TXVGA2_GAIN_MAX : Z := 25.

(** Modelled from the spec: the supported tuning range (section 4.4,
    step 1); [libbladeRF.h] is absent.  The band table follows the LMS
    FREQSEL table, whose first row starts at 232.5 MHz and whose last
    row is applied up to 3.8 GHz. *)
Definition BLADERF_FREQUENCY_MIN : Z := 232500000.
Definition BLADERF_FREQUENCY_MAX : Z := 3800000000.
(** Modelled from the spec: the high/low band split of section 4.4,
    step 6 ([bladerf_priv.h] is absent). *)
Definition BLADERF_BAND_HIGH : Z := 1500000000.

Inductive bladerf_module := BLADERF_MODULE_RX | BLADERF_MODULE_TX.

Inductive bladerf_lpf_mode :=
  BLADERF_LPF_NORMAL | BLADERF_LPF_BYPASSED | BLADERF_LPF_DISABLED.

(** [bladerf_lna_gain]: a 2-bit enumeration, stored as is in the
    register field. *)
Inductive bladerf_lna_gain :=
  | BLADERF_LNA_GAIN_UNKNOWN
  | BLADERF_LNA_GAIN_BYPASS
  | BLADERF_LNA_GAIN_MID
  | BLADERF_LNA_GAIN_MAX.

Definition lna_gain_code (g : bladerf_lna_gain) : Z :=
  match g with
  | BLADERF_LNA_GAIN_UNKNOWN => 0
  | BLADERF_LNA_GAIN_BYPASS => 1
  | BLADERF_LNA_GAIN_MID => 2
  | BLADERF_LNA_GAIN_MAX => 3
  end.

Definition lna_gain_of_code (c : Z) : bladerf_lna_gain :=
  if c =? 1 then BLADERF_LNA_GAIN_BYPASS
  else if c =? 2 then BLADERF_LNA_GAIN_MID
  else if c =? 3 then BLADERF_LNA_GAIN_MAX
  else BLADERF_LNA_GAIN_UNKNOWN.

(** The eight loopback modes; [BLADERF_LB_FIRMWARE] stands for the
    values of the C enumeration that the LMS does not implement and that
    reach the [default] branches. *)
Inductive bladerf_loopback :=
  | BLADERF_LB_FIRMWARE
  | BLADERF_LB_BB_TXLPF_RXVGA2
  | BLADERF_LB_BB_TXVGA1_RXVGA2
  | BLADERF_LB_BB_TXLPF_RXLPF
  | BLADERF_LB_BB_TXVGA1_RXLPF
  | BLADERF_LB_RF_LNA1
  | BLADERF_LB_RF_LNA2
  | BLADERF_LB_RF_LNA3
  | BLADERF_LB_NONE.

Inductive bladerf_cal_module :=
  | BLADERF_DC_CAL_LPF_TUNING
  | BLADERF_DC_CAL_TX_LPF
  | BLADERF_DC_CAL_RX_LPF
  | BLADERF_DC_CAL_RXVGA2.

(** [lms_bw]: the enumerators are declared in table order, so that the
    enumerator's value is its index in [uint_bandwidths]. *)
Inductive lms_bw :=
  | BW_28MHz | BW_20MHz | BW_14MHz | BW_12MHz | BW_10MHz | BW_8p75MHz
  | BW_7MHz | BW_6MHz | BW_5p5MHz | BW_5MHz | BW_3p84MHz | BW_3MHz
  | BW_2p75MHz | BW_2p5MHz | BW_1p75MHz | BW_1p5MHz.

Definition lms_bw_code (bw : lms_bw) : Z :=
  match bw with
  | BW_28MHz => 0 | BW_20MHz => 1 | BW_14MHz => 2 | BW_12MHz => 3
  | BW_10MHz => 4 | BW_8p75MHz => 5 | BW_7MHz => 6 | BW_6MHz => 7
  | BW_5p5MHz => 8 | BW_5MHz => 9 | BW_3p84MHz => 10 | BW_3MHz => 11
  | BW_2p75MHz => 12 | BW_2p5MHz => 13 | BW_1p75MHz => 14 | BW_1p5MHz => 15
  end.

(* ------------------------------------------------------------------ *)
(** * Static lookup tables *)

(** LPF conversion table *)
Definition uint_bandwidths : list Z :=
  [ MHz 28; MHz 20; MHz 14; MHz 12; MHz 10; kHz 8750; MHz 7; MHz 6;
    kHz 5500; MHz 5; kHz 3840; MHz 3; kHz 2750; kHz 2500; kHz 1750;
    kHz 1500 ].

Record freq_range := FREQ_RANGE { low : Z; high : Z; value : Z }.

(** Frequency range table; corresponds to the LMS FREQSEL table. *)
Definition bands : list freq_range :=
  [ FREQ_RANGE BLADERF_FREQUENCY_MIN 285625000 0x27;
    FREQ_RANGE 285625000 336875000 0x2f;
    FREQ_RANGE 336875000 405000000 0x37;
    FREQ_RANGE 405000000 465000000 0x3f;
    FREQ_RANGE 465000000 571250000 0x26;
    FREQ_RANGE 571250000 673750000 0x2e;
    FREQ_RANGE 673750000 810000000 0x36;
    FREQ_RANGE 810000000 930000000 0x3e;
    FREQ_RANGE 930000000 1142500000 0x25;
    FREQ_RANGE 1142500000 1347500000 0x2d;
    FREQ_RANGE 1347500000 1620000000 0x35;
    FREQ_RANGE 1620000000 1860000000 0x3d;
    FREQ_RANGE 1860000000 2285000000 0x24;
    FREQ_RANGE 2285000000 2695000000 0x2c;
    FREQ_RANGE 2695000000 3240000000 0x34;
    FREQ_RANGE 3240000000 BLADERF_FREQUENCY_MAX 0x3c ].

Definition rxvga1_lut_code2val : list Z :=
  [ 5;  5;  5;  5;  5;  5;  5;  5;  6;  6;  6;  6;  6;  6;  6;  6;  6;  6;  6;
    6;  6;  7;  7;  7;  7;  7;  7;  7;  7;  7;  7;  7;  8;  8;  8;  8;  8;  8;
    8;  8;  8;  8;  8;  9;  9;  9;  9;  9;  9;  9;  9;  9;  10; 10; 10; 10; 10;
    10; 10; 10; 11; 11; 11; 11; 11; 11; 11; 12; 12; 12; 12; 12; 12; 12; 13; 13;
    13; 13; 13; 13; 14; 14; 14; 14; 14; 15; 15; 15; 15; 15; 16; 16; 16; 16; 17;
    17; 17; 18; 18; 18; 18; 19; 19; 19; 20; 20; 21; 21; 22; 22; 22; 23; 24; 24;
    25; 25; 26; 27; 28; 29; 30 ].

(** Indices 0 - 4 are clamped to 5 dB. *)
Definition rxvga1_lut_val2code : list Z :=
  [ 2;  2;  2;  2;   2;   2;   14;  26;  37;  47;  56;  63;  70;  76;  82;  87;
    91; 95; 99; 102; 104; 107; 109; 111; 113; 114; 116; 117; 118; 119; 120 ].

(** Array indexing; the driver never indexes out of bounds, where this
    model answers 0. *)
Definition index (t : list Z) (i : Z) : Z := nth (Z.to_nat i) t 0.

(* ------------------------------------------------------------------ *)
(** * Bandwidth selection *)

Definition lms_uint2bw (req : Z) : lms_bw :=
  if req <=? kHz 1500 then BW_1p5MHz
  else if req <=? kHz 1750 then BW_1p75MHz
  else if req <=? kHz 2500 then BW_2p5MHz
  else if req <=? kHz 2750 then BW_2p75MHz
  else if req <=? MHz 3 then BW_3MHz
  else if req <=? kHz 3840 then BW_3p84MHz
  else if req <=? MHz 5 then BW_5MHz
  else if req <=? kHz 5500 then BW_5p5MHz
  else if req <=? MHz 6 then BW_6MHz
  else if req <=? MHz 7 then BW_7MHz
  else if req <=? kHz 8750 then BW_8p75MHz
  else if req <=? MHz 10 then BW_10MHz
  else if req <=? MHz 12 then BW_12MHz
  else if req <=? MHz 14 then BW_14MHz
  else if req <=? MHz 20 then BW_20MHz
  else BW_28MHz.

(** Return the table entry *)
Definition lms_bw2uint (bw : lms_bw) : Z :=
  let idx := Z.land (lms_bw_code bw) 0xf in
  index uint_bandwidths idx.

(* ------------------------------------------------------------------ *)
(** * PLL arithmetic *)

Record lms_freq := mk_lms_freq {
  x : Z;          (* VCO division ratio *)
  nint : Z;       (* integer portion of the divider *)
  nfrac : Z;      (* fractional portion of the divider *)
  freqsel : Z;    (* band selection code *)
  reference : Z   (* reference clock, Hz *)
}.

(** Converts frequency structure to Hz.  [div] is 0 when [x f] is 0, as
    for a descriptor that [lms_get_frequency] reads from registers whose
    FREQSEL has its low three bits below 3: the C division is then a
    division by zero, which kills the program, where the division of
    [Z] gives 0.  The function stands for the C code on descriptors
    whose [x] is not 0 only. *)
Definition lms_frequency_to_hz (f : lms_freq) : Z :=
  let pll_coeff := u64 (u64 (Z.shiftl (nint f) 23) + nfrac f) in
  let div := u32 (Z.shiftl (x f) 23) in
  u32 (u64 (u64 (reference f * pll_coeff) + Z.shiftr div 1) / div).

(** Clamp out of range values ([lms_set_frequency], first step). *)
Definition clamp_frequency (freq : Z) : Z :=
  if freq <? BLADERF_FREQUENCY_MIN then BLADERF_FREQUENCY_MIN
  else if freq >? BLADERF_FREQUENCY_MAX then BLADERF_FREQUENCY_MAX
  else freq.

(** The [while (i < 16)] search of [lms_set_frequency]: the first band,
    in table order, that contains [freq]; [dflt] when no band does. *)
Fixpoint find_freqsel (bs : list freq_range) (freq dflt : Z) : Z :=
  match bs with
  | [] => dflt
  | b :: bs' =>
      if (freq >=? low b) && (freq <=? high b) then value b
      else find_freqsel bs' freq dflt
  end.

Definition ref_clock : Z := 38400000.

(** The descriptor [f] that [lms_set_frequency] computes before it
    touches the bus. *)
Definition hz_to_descriptor (freq0 : Z) : lms_freq :=
  let freq := clamp_frequency freq0 in
  (* Figure out freqsel *)
  let freqsel := find_freqsel bands freq (value (hd (FREQ_RANGE 0 0 0) bands)) in
  (* Calculate integer portion of the frequency value *)
  let vco_x := u64 (Z.shiftl 1 (Z.land freqsel 7 - 3)) in
  let temp := u64 (vco_x * freq) / ref_clock in
  let nint := u16 temp in
  (* Calculate the fractional portion, rounding to the nearest value *)
  let temp := u64 (Z.shiftl 1 23 * u64 (u64 (vco_x * freq) - u64 (nint * ref_clock))) in
  let temp := u64 (temp + ref_clock / 2) / ref_clock in
  let nfrac := u32 temp in
  mk_lms_freq (u8 vco_x) nint nfrac freqsel (u32 ref_clock).

(** The four divider registers written by [lms_set_frequency]. *)
Definition pack_divider (nint nfrac : Z) : Z * Z * Z * Z :=
  ( u8 (Z.shiftr nint 1),
    u8 (Z.lor (Z.shiftl (Z.land nint 1) 7) (Z.land (Z.shiftr nfrac 16) 0x7f)),
    u8 (Z.land (Z.shiftr nfrac 8) 0xff),
    u8 (Z.land nfrac 0xff) ).

(** The decoding of the same four registers by [lms_get_frequency]:
    [nint] is a [uint16_t], [nfrac] a [uint32_t]. *)
Definition unpack_divider (r : Z * Z * Z * Z) : Z * Z :=
  let '(d0, d1, d2, d3) := r in
  let nint := u16 (Z.shiftl d0 1) in
  let nint := u16 (Z.lor nint (Z.shiftr (Z.land d1 0x80) 7)) in
  let nfrac := u32 (Z.shiftl (Z.land d1 0x7f) 16) in
  let nfrac := u32 (Z.lor nfrac (u32 (Z.shiftl d2 8))) in
  let nfrac := u32 (Z.lor nfrac d3) in
  (nint, nfrac).

(* ------------------------------------------------------------------ *)
(** * The register bus *)

(** One bus transaction, as the driver saw it: the address, the 8-bit
    value read or written, and the status the transport returned. *)
Inductive xact :=
  | Rd (addr val status : Z)
  | Wr (addr val status : Z).

(** The bus history, most recent transaction first. *)
Definition hist := list xact.

(** Modelled from the spec: the register transport of section 4.1
    ([LMS_READ] and [LMS_WRITE] are macros of the absent [lms.h]).  The
    device is an external collaborator: what it answers may depend on
    everything done so far.  A status of 0 is success. *)
Record bladerf := mk_bladerf {
  lms_read  : hist -> Z -> Z * Z;        (* status, value *)
  lms_write : hist -> Z -> Z -> Z        (* status *)
}.

(** The result of a driver function: its out-parameter on success, the
    (non-zero) [int] status otherwise. *)
Inductive res (A : Type) :=
  | Ok (a : A)
  | Err (status : Z).
Arguments Ok {A} a.
Arguments Err {A} status.

Definition status_of {A} (r : res A) : Z :=
  match r with Ok _ => 0 | Err s => s end.

(** Driver code threads a state [S] (the bus history, or the history
    together with the calibration state) and leaves at the first
    failure. *)
Definition M (S A : Type) : Type := S -> res A * S.

Definition ret {S A} (a : A) : M S A := fun s => (Ok a, s).
Definition fail {S A} (status : Z) : M S A := fun s => (Err status, s).
Definition bind {S A B} (m : M S A) (k : A -> M S B) : M S B :=
  fun s => match m s with
           | (Ok a, s') => k a s'
           | (Err e, s') => (Err e, s')
           end.

Notation "x <- c1 ;; c2" := (bind c1 (fun x => c2))
  (at level 61, c1 at next level, right associativity).
Notation "' pat <- c1 ;; c2" := (bind c1 (fun x => match x with pat => c2 end))
  (at level 61, pat pattern, c1 at next level, right associativity).
Notation "c1 ;; c2" := (bind c1 (fun _ => c2))
  (at level 61, right associativity).

Definition LMS_READ (dev : bladerf) (addr : Z) : M hist Z :=
  fun h =>
    let '(status, v) := lms_read dev h addr in
    let data := u8 v in
    (if status =? 0 then Ok data else Err status, Rd addr data status :: h).

Definition LMS_WRITE (dev : bladerf) (addr val : Z) : M hist unit :=
  fun h =>
    let data := u8 val in
    let status := lms_write dev h addr data in
    (if status =? 0 then Ok tt else Err status, Wr addr data status :: h).

(** Modelled from the spec: [set(addr, mask)], a read-modify-write
    helper built from read and write (section 4.1; [lms.h] is absent). *)
Definition lms_set (dev : bladerf) (addr mask : Z) : M hist unit :=
  regval <- LMS_READ dev addr ;;
  LMS_WRITE dev addr (Z.lor regval mask).

(** Modelled from the spec: [clear(addr, mask)], a read-modify-write
    helper built from read and write (section 4.1; [lms.h] is absent). *)
Definition lms_clear (dev : bladerf) (addr mask : Z) : M hist unit :=
  regval <- LMS_READ dev addr ;;
  LMS_WRITE dev addr (Z.land regval (Z.lnot mask)).

(** A register file that never fails: a read answers the value last
    written to the address, or [init addr]. *)
Fixpoint last_write (init : Z -> Z) (h : hist) (addr : Z) : Z :=
  match h with
  | [] => init addr
  | Wr a v _ :: h' => if a =? addr then v else last_write init h' addr
  | Rd _ _ _ :: h' => last_write init h' addr
  end.

Definition regfile (init : Z -> Z) : bladerf :=
  mk_bladerf (fun h addr => (0, last_write init h addr)) (fun _ _ _ => 0).

Definition xact_status (t : xact) : Z :=
  match t with Rd _ _ s => s | Wr _ _ s => s end.

(** The status of the first failed transaction, 0 when none failed. *)
Fixpoint first_error (ts : list xact) : Z :=
  match ts with
  | [] => 0
  | t :: ts' => if xact_status t =? 0 then first_error ts' else xact_status t
  end.

(* ------------------------------------------------------------------ *)
(** * LPF mode *)

Definition lpf_reg (module : bladerf_module) : Z :=
  match module with BLADERF_MODULE_RX => 0x54 | BLADERF_MODULE_TX => 0x34 end.

Definition lms_lpf_get_mode (dev : bladerf) (module : bladerf_module)
  : M hist bladerf_lpf_mode :=
  let reg := lpf_reg module in
  data_l <- LMS_READ dev reg ;;
  data_h <- LMS_READ dev (reg + 1) ;;
  let lpf_enabled := negb (Z.land data_l (Z.shiftl 1 1) =? 0) in
  let lpf_bypassed := negb (Z.land data_h (Z.shiftl 1 6) =? 0) in
  if lpf_enabled && negb lpf_bypassed then ret BLADERF_LPF_NORMAL
  else if negb lpf_enabled && lpf_bypassed then ret BLADERF_LPF_BYPASSED
  else if negb lpf_enabled && negb lpf_bypassed then ret BLADERF_LPF_DISABLED
  else (* Invalid LPF configuration *) fail BLADERF_ERR_INVAL.

(* ------------------------------------------------------------------ *)
(** * Gain stages *)

(** Set the gain on the LNA *)
Definition lms_lna_set_gain (dev : bladerf) (gain : bladerf_lna_gain)
  : M hist unit :=
  match gain with
  | BLADERF_LNA_GAIN_BYPASS | BLADERF_LNA_GAIN_MID | BLADERF_LNA_GAIN_MAX =>
      data <- LMS_READ dev 0x75 ;;
      (* Clear out previous gain setting *)
      let data := u8 (Z.land data (Z.lnot (Z.shiftl 3 6))) in
      (* Update gain value *)
      let data := u8 (Z.lor data (Z.shiftl (Z.land (lna_gain_code gain) 3) 6)) in
      LMS_WRITE dev 0x75 data
  | BLADERF_LNA_GAIN_UNKNOWN => fail BLADERF_ERR_INVAL
  end.

Definition lms_lna_get_gain (dev : bladerf) : M hist bladerf_lna_gain :=
  data <- LMS_READ dev 0x75 ;;
  let data := Z.shiftr data 6 in
  let data := Z.land data 3 in
  match lna_gain_of_code data with
  | BLADERF_LNA_GAIN_UNKNOWN => fail BLADERF_ERR_INVAL
  | gain => ret gain
  end.

(** The clamp of [lms_rxvga1_set_gain]. *)
Definition rxvga1_clamp (gain : Z) : Z :=
  if gain >? BLADERF_RXVGA1_GAIN_MAX then BLADERF_RXVGA1_GAIN_MAX
  else if gain <? BLADERF_RXVGA1_GAIN_MIN then BLADERF_RXVGA1_GAIN_MIN
  else gain.

(** Set the RFB_TIA_RXFE mixer gain *)
Definition lms_rxvga1_set_gain (dev : bladerf) (gain : Z) : M hist unit :=
  let gain := rxvga1_clamp gain in
  LMS_WRITE dev 0x76 (index rxvga1_lut_val2code gain).

(** Get the RFB_TIA_RXFE mixer gain *)
Definition lms_rxvga1_get_gain (dev : bladerf) : M hist Z :=
  data <- LMS_READ dev 0x76 ;;
  let data := Z.land data 0x7f in
  let data := if data >? 120 then 120 else data in
  ret (index rxvga1_lut_code2val data).

(** The clamp of [lms_rxvga2_set_gain]. *)
Definition rxvga2_clamp (gain : Z) : Z :=
  if gain >? BLADERF_RXVGA2_GAIN_MAX then BLADERF_RXVGA2_GAIN_MAX
  else if gain <? BLADERF_RXVGA2_GAIN_MIN then BLADERF_RXVGA2_GAIN_MIN
  else gain.

(** Set the gain on RXVGA2 *)
Definition lms_rxvga2_set_gain (dev : bladerf) (gain : Z) : M hist unit :=
  let gain := rxvga2_clamp gain in
  (* 3 dB per register code *)
  LMS_WRITE dev 0x65 (Z.quot gain 3).

Definition lms_rxvga2_get_gain (dev : bladerf) : M hist Z :=
  data <- LMS_READ dev 0x65 ;;
  (* 3 dB per code *)
  let data := u8 (data * 3) in
  ret data.

(** The clamp of [lms_txvga2_set_gain]; the lower bound is the literal 0
    of the source. *)
Definition txvga2_clamp (gain_int : Z) : Z :=
  if gain_int >? BLADERF_TXVGA2_GAIN_MAX then s8 BLADERF_TXVGA2_GAIN_MAX
  else if gain_int <? BLADERF_TXVGA2_GAIN_MIN then s8 0
  else s8 gain_int.

Definition lms_txvga2_set_gain (dev : bladerf) (gain_int : Z) : M hist unit :=
  let gain := txvga2_clamp gain_int in
  data <- LMS_READ dev 0x45 ;;
  let data := u8 (Z.land data (Z.lnot (Z.shiftl 0x1f 3))) in
  let data := u8 (Z.lor data (Z.shiftl (Z.land gain 0x1f) 3)) in
  LMS_WRITE dev 0x45 data.

Definition lms_txvga2_get_gain (dev : bladerf) : M hist Z :=
  data <- LMS_READ dev 0x45 ;;
  let gain := Z.land (Z.shiftr data 3) 0x1f in
  (* Register values of 25-31 all correspond to 25 dB *)
  ret (if gain >? 25 then 25 else gain).

(** The clamp of [lms_txvga1_set_gain]. *)
Definition txvga1_clamp (gain_int : Z) : Z :=
  if gain_int <? BLADERF_TXVGA1_GAIN_MIN then s8 BLADERF_TXVGA1_GAIN_MIN
  else if gain_int >? BLADERF_TXVGA1_GAIN_MAX then s8 BLADERF_TXVGA1_GAIN_MAX
  else s8 gain_int.

Definition lms_txvga1_set_gain (dev : bladerf) (gain_int : Z) : M hist unit :=
  let gain := txvga1_clamp gain_int in
  (* Apply offset to convert gain to register table index *)
  let gain := s8 (gain + 35) in
  (* Since 0x41 is only VGA1GAIN, we don't need to RMW *)
  LMS_WRITE dev 0x41 gain.

Definition lms_txvga1_get_gain (dev : bladerf) : M hist Z :=
  data <- LMS_READ dev 0x41 ;;
  (* Clamp to max value *)
  let data := Z.land data 0x1f in
  (* Convert table index to value *)
  ret (data - 35).

(* ------------------------------------------------------------------ *)
(** * Loopback *)

(** Register 0x08: RF loopback config and additional BB config *)
Definition LBEN_OPIN : Z := Z.shiftl 1 4.
Definition LBEN_VGA2IN : Z := Z.shiftl 1 5.
Definition LBEN_LPFIN : Z := Z.shiftl 1 6.
Definition LBEN_MASK : Z := Z.lor (Z.lor LBEN_OPIN LBEN_VGA2IN) LBEN_LPFIN.

Definition LBRFEN_LNA1 : Z := 1.
Definition LBRFEN_LNA2 : Z := 2.
Definition LBRFEN_LNA3 : Z := 3.
Definition LBRFEN_MASK : Z := 0xf.   (* [3:2] are marked reserved *)

(** Register 0x46: Baseband loopback config *)
Definition LOOPBBEN_TXLPF : Z := Z.shiftl 1 2.
Definition LOOPBBEN_TXVGA : Z := Z.shiftl 2 2.
Definition LOOPBBEN_ENVPK : Z := Z.shiftl 3 2.
Definition LOOBBBEN_MASK : Z := Z.shiftl 3 2.

(** The [switch] of [loopback_path]: the two register images for [mode],
    [None] on the [default] branch. *)
Definition loopback_path_bits (mode : bladerf_loopback) (loopbben lben_lbrf : Z)
  : option (Z * Z) :=
  match mode with
  | BLADERF_LB_BB_TXLPF_RXVGA2 =>
      Some (u8 (Z.lor loopbben LOOPBBEN_TXLPF), u8 (Z.lor lben_lbrf LBEN_VGA2IN))
  | BLADERF_LB_BB_TXLPF_RXLPF =>
      Some (u8 (Z.lor loopbben LOOPBBEN_TXLPF), u8 (Z.lor lben_lbrf LBEN_LPFIN))
  | BLADERF_LB_BB_TXVGA1_RXVGA2 =>
      Some (u8 (Z.lor loopbben LOOPBBEN_TXVGA), u8 (Z.lor lben_lbrf LBEN_VGA2IN))
  | BLADERF_LB_BB_TXVGA1_RXLPF =>
      Some (u8 (Z.lor loopbben LOOPBBEN_TXVGA), u8 (Z.lor lben_lbrf LBEN_LPFIN))
  | BLADERF_LB_RF_LNA1 => Some (loopbben, u8 (Z.lor lben_lbrf LBRFEN_LNA1))
  | BLADERF_LB_RF_LNA2 => Some (loopbben, u8 (Z.lor lben_lbrf LBRFEN_LNA2))
  | BLADERF_LB_RF_LNA3 => Some (loopbben, u8 (Z.lor lben_lbrf LBRFEN_LNA3))
  | BLADERF_LB_NONE => Some (loopbben, lben_lbrf)
  | BLADERF_LB_FIRMWARE => None
  end.

(** Configure "switches" in loopback path *)
Definition loopback_path (dev : bladerf) (mode : bladerf_loopback) : M hist unit :=
  loopbben <- LMS_READ dev 0x46 ;;
  lben_lbrf <- LMS_READ dev 0x08 ;;
  (* Default to baseband loopback being disabled *)
  let loopbben := u8 (Z.land loopbben (Z.lnot LOOBBBEN_MASK)) in
  (* Default to RF and BB loopback options being disabled *)
  let lben_lbrf := u8 (Z.land lben_lbrf (Z.lnot (Z.lor LBRFEN_MASK LBEN_MASK))) in
  match loopback_path_bits mode loopbben lben_lbrf with
  | None => fail BLADERF_ERR_INVAL
  | Some (loopbben, lben_lbrf) =>
      LMS_WRITE dev 0x46 loopbben ;;
      LMS_WRITE dev 0x08 lben_lbrf
  end.

(** The two [switch] statements of [lms_get_loopback_mode] on the raw
    register values. *)
Definition loopback_decode (lben_lbrfen loopbben : Z) : bladerf_loopback :=
  let rf := Z.land lben_lbrfen 0x7 in
  if rf =? LBRFEN_LNA1 then BLADERF_LB_RF_LNA1
  else if rf =? LBRFEN_LNA2 then BLADERF_LB_RF_LNA2
  else if rf =? LBRFEN_LNA3 then BLADERF_LB_RF_LNA3
  else
    let bb := Z.land lben_lbrfen LBEN_MASK in
    if bb =? LBEN_VGA2IN then
      if negb (Z.land loopbben LOOPBBEN_TXLPF =? 0) then BLADERF_LB_BB_TXLPF_RXVGA2
      else if negb (Z.land loopbben LOOPBBEN_TXVGA =? 0) then BLADERF_LB_BB_TXVGA1_RXVGA2
      else BLADERF_LB_NONE
    else if bb =? LBEN_LPFIN then
      if negb (Z.land loopbben LOOPBBEN_TXLPF =? 0) then BLADERF_LB_BB_TXLPF_RXLPF
      else if negb (Z.land loopbben LOOPBBEN_TXVGA =? 0) then BLADERF_LB_BB_TXVGA1_RXLPF
      else BLADERF_LB_NONE
    else BLADERF_LB_NONE.

Definition lms_get_loopback_mode (dev : bladerf) : M hist bladerf_loopback :=
  lben_lbrfen <- LMS_READ dev 0x08 ;;
  loopbben <- LMS_READ dev 0x46 ;;
  ret (loopback_decode lben_lbrfen loopbben).

(** Returns the failing status, or else whether loopback is engaged
    (as the [int] 0 or 1). *)
Definition is_loopback_enabled (dev : bladerf) : hist -> Z * hist :=
  fun h =>
    match lms_get_loopback_mode dev h with
    | (Err status, h') => (status, h')
    | (Ok loopback, h') =>
        (match loopback with BLADERF_LB_NONE => 0 | _ => 1 end, h')
    end.

(* ------------------------------------------------------------------ *)
(** * Frequency synthesizer *)

Definition pll_base (module : bladerf_module) : Z :=
  match module with BLADERF_MODULE_RX => 0x20 | BLADERF_MODULE_TX => 0x10 end.

Definition write_pll_config (dev : bladerf) (module : bladerf_module)
    (frequency freqsel : Z) : M hist unit :=
  let addr := match module with
              | BLADERF_MODULE_TX => 0x15
              | BLADERF_MODULE_RX => 0x25
              end in
  regval <- LMS_READ dev addr ;;
  fun h =>
    let '(status, h1) := is_loopback_enabled dev h in
    if status <? 0 then (Err status, h1)
    else
      let regval :=
        if status =? 0 then
          (* Loopback not enabled - update the PLL output buffer. *)
          let selout := if frequency <? BLADERF_BAND_HIGH then 1 else 2 in
          u8 (Z.lor (Z.shiftl freqsel 2) selout)
        else
          (* Loopback is enabled - don't touch PLL output buffer. *)
          u8 (Z.lor (Z.land regval (Z.lnot 0xfc)) (Z.shiftl freqsel 2)) in
      LMS_WRITE dev addr regval h1.

(** Get the frequency structure *)
Definition lms_get_frequency (dev : bladerf) (module : bladerf_module)
  : M hist lms_freq :=
  let base := pll_base module in
  d0 <- LMS_READ dev (base + 0) ;;
  d1 <- LMS_READ dev (base + 1) ;;
  d2 <- LMS_READ dev (base + 2) ;;
  d3 <- LMS_READ dev (base + 3) ;;
  let '(nint, nfrac) := unpack_divider (d0, d1, d2, d3) in
  data <- LMS_READ dev (base + 5) ;;
  let freqsel := Z.shiftr data 2 in
  ret (mk_lms_freq (u8 (Z.shiftl 1 (Z.land freqsel 7 - 3))) nint nfrac freqsel 38400000).

Definition VCO_HIGH : Z := 0x02.
Definition VCO_NORM : Z := 0x00.
Definition VCO_LOW : Z := 0x01.

(** The [for (i = 0; i < 6; i++)] loop of [tune_vcocap], [n] iterations
    from now; it hands back [vcocap] and the last [vtune]. *)
Fixpoint vcocap_search (dev : bladerf) (base data : Z) (n : nat)
    (vcocap step vtune : Z) : M hist (Z * Z) :=
  match n with
  | O => ret (vcocap, vtune)
  | S n' =>
      LMS_WRITE dev (base + 9) (Z.lor vcocap data) ;;
      vtune <- LMS_READ dev (base + 10) ;;
      let vtune := Z.shiftr vtune 6 in
      if vtune =? VCO_NORM then ret (vcocap, vtune)
      else if vtune =? VCO_HIGH then
        vcocap_search dev base data n' (u8 (vcocap + step)) (Z.shiftr step 1) vtune
      else if vtune =? VCO_LOW then
        vcocap_search dev base data n' (u8 (vcocap - step)) (Z.shiftr step 1) vtune
      else (* Invalid VTUNE value encountered *) fail BLADERF_ERR_UNEXPECTED
  end.

(** [while (start_i > 0 && vtune != VCO_HIGH)]: every iteration
    decrements [start_i], so that [fuel = start_i] iterations are all the
    loop can make. *)
Fixpoint vcocap_scan_down (dev : bladerf) (base data : Z) (fuel : nat)
    (start_i vtune : Z) : M hist (Z * Z) :=
  match fuel with
  | O => ret (start_i, vtune)
  | S fuel' =>
      if (start_i >? 0) && negb (vtune =? VCO_HIGH) then
        let start_i := start_i - 1 in
        LMS_WRITE dev (base + 9) (Z.lor start_i data) ;;
        vtune <- LMS_READ dev (base + 10) ;;
        vcocap_scan_down dev base data fuel' start_i (Z.shiftr vtune 6)
      else ret (start_i, vtune)
  end.

(** [while (stop_i < 64 && vtune != VCO_LOW)]: every iteration
    increments [stop_i], so that [fuel = 64 - stop_i] iterations are all
    the loop can make. *)
Fixpoint vcocap_scan_up (dev : bladerf) (base data : Z) (fuel : nat)
    (stop_i vtune : Z) : M hist (Z * Z) :=
  match fuel with
  | O => ret (stop_i, vtune)
  | S fuel' =>
      if (stop_i <? 64) && negb (vtune =? VCO_LOW) then
        let stop_i := stop_i + 1 in
        LMS_WRITE dev (base + 9) (Z.lor stop_i data) ;;
        vtune <- LMS_READ dev (base + 10) ;;
        vcocap_scan_up dev base data fuel' stop_i (Z.shiftr vtune 6)
      else ret (stop_i, vtune)
  end.

(** Phase A of [tune_vcocap]: the register read, the search loop and
    the lock check that follows it.  [vtune] is not initialised before
    the loop, whose body runs at least once. *)
Definition tune_vcocap_search (dev : bladerf) (base : Z)
  : M hist (Z * Z * Z) :=
  data <- LMS_READ dev (base + 9) ;;
  let data := u8 (Z.land data (Z.lnot 0x3f)) in
  let vcocap := 32 in
  let step := Z.shiftr vcocap 1 in
  '(vcocap, vtune) <- vcocap_search dev base data 6 vcocap step 0 ;;
  if negb (vtune =? VCO_NORM) then
    (* VTUNE is not locked at the end of initial loop *)
    fail BLADERF_ERR_UNEXPECTED
  else ret (data, vcocap, vtune).

(** Phase B: the lower and the upper limit of the locked range around
    [vcocap]. *)
Definition tune_vcocap_limits (dev : bladerf) (base data vcocap vtune : Z)
  : M hist (Z * Z) :=
  '(start_i, _) <- vcocap_scan_down dev base data (Z.to_nat vcocap) vcocap vtune ;;
  let start_i := start_i + 1 in
  LMS_WRITE dev (base + 9) (Z.lor vcocap data) ;;
  vtune <- LMS_READ dev (base + 10) ;;
  let vtune := Z.shiftr vtune 6 in
  '(stop_i, _) <- vcocap_scan_up dev base data (Z.to_nat (64 - vcocap)) vcocap vtune ;;
  let stop_i := stop_i - 1 in
  ret (start_i, stop_i).

(** Phase C: program the middle of the range and check the lock. *)
Definition tune_vcocap_center (dev : bladerf) (base data start_i stop_i : Z)
  : M hist unit :=
  let vcocap := u8 (Z.shiftr (start_i + stop_i) 1) in
  LMS_WRITE dev (base + 9) (Z.lor vcocap data) ;;
  vtune <- LMS_READ dev (base + 10) ;;
  let vtune := Z.shiftr vtune 6 in
  if negb (vtune =? VCO_NORM) then
    (* VCOCAP could not converge and VTUNE is not locked *)
    fail BLADERF_ERR_UNEXPECTED
  else ret tt.

(** [tune_vcocap]; its [data] argument is overwritten before use. *)
Definition tune_vcocap (dev : bladerf) (base : Z) (data : Z) : M hist unit :=
  '(data, vcocap, vtune) <- tune_vcocap_search dev base ;;
  '(start_i, stop_i) <- tune_vcocap_limits dev base data vcocap vtune ;;
  tune_vcocap_center dev base data start_i stop_i.

(** Turn on the DSMs (the first bus accesses of [lms_set_frequency]). *)
Definition dsm_enable (dev : bladerf) : M hist unit :=
  data <- LMS_READ dev 0x09 ;;
  LMS_WRITE dev 0x09 (Z.lor data 0x05).

(** Turn off the DSMs (the code under [lms_set_frequency_error]). *)
Definition dsm_disable (dev : bladerf) : M hist unit :=
  data <- LMS_READ dev 0x09 ;;
  LMS_WRITE dev 0x09 (Z.land data (Z.lnot 0x05)).

(** The part of [lms_set_frequency] between the DSM enable and the
    label: every failure in it jumps to [lms_set_frequency_error]. *)
Definition pll_program (dev : bladerf) (module : bladerf_module)
    (freq : Z) (f : lms_freq) : M hist unit :=
  let base := pll_base module in
  write_pll_config dev module freq (freqsel f) ;;
  let '(d0, d1, d2, d3) := pack_divider (nint f) (nfrac f) in
  LMS_WRITE dev (base + 0) d0 ;;
  LMS_WRITE dev (base + 1) d1 ;;
  LMS_WRITE dev (base + 2) d2 ;;
  LMS_WRITE dev (base + 3) d3 ;;
  (* Set the PLL Ichp, Iup and Idn currents *)
  data <- LMS_READ dev (base + 6) ;;
  LMS_WRITE dev (base + 6) (Z.lor (u8 (Z.land data (Z.lnot 0x1f))) 0x0c) ;;
  data <- LMS_READ dev (base + 7) ;;
  LMS_WRITE dev (base + 7) (Z.land data (Z.lnot 0x1f)) ;;
  data <- LMS_READ dev (base + 8) ;;
  let data := u8 (Z.land data (Z.lnot 0x1f)) in
  LMS_WRITE dev (base + 8) data ;;
  (* Loop through the VCOCAP to figure out optimal values *)
  tune_vcocap dev base data.

(** The label [lms_set_frequency_error], reached with the current
    [status]: turn off the DSMs and return. *)
Definition lms_set_frequency_error (dev : bladerf) (status : Z)
  : hist -> Z * hist :=
  fun h =>
    let '(r, h') := dsm_disable dev h in
    let dsm_status := status_of r in
    (if status =? 0 then dsm_status else status, h').

(** Set the frequency of a module *)
Definition lms_set_frequency (dev : bladerf) (module : bladerf_module)
    (freq : Z) : hist -> Z * hist :=
  fun h =>
    let f := hz_to_descriptor freq in
    let freq := clamp_frequency freq in
    match dsm_enable dev h with
    | (Err status, h1) => (* Failed to turn on DSMs *) (status, h1)
    | (Ok _, h1) =>
        let '(r, h2) := pll_program dev module freq f h1 in
        lms_set_frequency_error dev (status_of r) h2
    end.

(* ------------------------------------------------------------------ *)
(** * DC calibration *)

Record dc_cal_state := mk_dc_cal_state {
  clk_en : Z;                     (* Backup of clock enables *)
  reg0x71 : Z;                    (* Backup of registers *)
  reg0x7c : Z;
  lna_gain : bladerf_lna_gain;    (* Backup of gain values *)
  rxvga1_gain : Z;
  rxvga2_gain : Z;
  base_addr : Z;                  (* Base address of DC cal regs *)
  num_submodules : Z;             (* # of DC cal submodules to operate on *)
  rxvga1_curr_gain : Z;           (* Current gains used in retry loops *)
  rxvga2_curr_gain : Z
}.

(** [memset(state, 0, sizeof(state[0]))] *)
Definition dc_cal_state_zero : dc_cal_state :=
  mk_dc_cal_state 0 0 0 BLADERF_LNA_GAIN_UNKNOWN 0 0 0 0 0 0.

(** Calibration code works on the [struct dc_cal_state] it is handed and
    on the bus. *)
Definition cal_world : Type := dc_cal_state * hist.

Definition on_bus {A} (m : M hist A) : M cal_world A :=
  fun w => let '(r, h') := m (snd w) in (r, (fst w, h')).

Definition get_state : M cal_world dc_cal_state :=
  fun w => (Ok (fst w), w).

Definition set_state (f : dc_cal_state -> dc_cal_state) : M cal_world unit :=
  fun w => (Ok tt, (f (fst w), snd w)).

Definition set_clk_en v s :=
  mk_dc_cal_state v (reg0x71 s) (reg0x7c s) (lna_gain s) (rxvga1_gain s)
    (rxvga2_gain s) (base_addr s) (num_submodules s) (rxvga1_curr_gain s)
    (rxvga2_curr_gain s).
Definition set_reg0x71 v s :=
  mk_dc_cal_state (clk_en s) v (reg0x7c s) (lna_gain s) (rxvga1_gain s)
    (rxvga2_gain s) (base_addr s) (num_submodules s) (rxvga1_curr_gain s)
    (rxvga2_curr_gain s).
Definition set_reg0x7c v s :=
  mk_dc_cal_state (clk_en s) (reg0x71 s) v (lna_gain s) (rxvga1_gain s)
    (rxvga2_gain s) (base_addr s) (num_submodules s) (rxvga1_curr_gain s)
    (rxvga2_curr_gain s).
Definition set_lna_gain v s :=
  mk_dc_cal_state (clk_en s) (reg0x71 s) (reg0x7c s) v (rxvga1_gain s)
    (rxvga2_gain s) (base_addr s) (num_submodules s) (rxvga1_curr_gain s)
    (rxvga2_curr_gain s).
Definition set_rxvga1_gain v s :=
  mk_dc_cal_state (clk_en s) (reg0x71 s) (reg0x7c s) (lna_gain s) v
    (rxvga2_gain s) (base_addr s) (num_submodules s) (rxvga1_curr_gain s)
    (rxvga2_curr_gain s).
Definition set_rxvga2_gain v s :=
  mk_dc_cal_state (clk_en s) (reg0x71 s) (reg0x7c s) (lna_gain s)
    (rxvga1_gain s) v (base_addr s) (num_submodules s) (rxvga1_curr_gain s)
    (rxvga2_curr_gain s).
Definition set_module_regs base num s :=
  mk_dc_cal_state (clk_en s) (reg0x71 s) (reg0x7c s) (lna_gain s)
    (rxvga1_gain s) (rxvga2_gain s) base num (rxvga1_curr_gain s)
    (rxvga2_curr_gain s).
Definition set_rxvga1_curr_gain v s :=
  mk_dc_cal_state (clk_en s) (reg0x71 s) (reg0x7c s) (lna_gain s)
    (rxvga1_gain s) (rxvga2_gain s) (base_addr s) (num_submodules s) v
    (rxvga2_curr_gain s).
Definition set_rxvga2_curr_gain v s :=
  mk_dc_cal_state (clk_en s) (reg0x71 s) (reg0x7c s) (lna_gain s)
    (rxvga1_gain s) (rxvga2_gain s) (base_addr s) (num_submodules s)
    (rxvga1_curr_gain s) v.

(** Main loop checking the calibration:
    [for (i = 0; i < max_cal_count && !done; i++)], [n] iterations from
    now, with the test of [done] that follows the loop. *)
Fixpoint dc_cal_poll (dev : bladerf) (base : Z) (n : nat) : M hist Z :=
  match n with
  | O => (* DC calibration loop did not converge. *)
      fail BLADERF_ERR_UNEXPECTED
  | S n' =>
      (* Read active low DC_CLBR_DONE *)
      val <- LMS_READ dev (base + 0x01) ;;
      (* Check if calibration is done *)
      if Z.land (Z.shiftr val 1) 1 =? 0 then
        dc_regval <- LMS_READ dev base ;;
        ret (Z.land dc_regval 0x3f)
      else dc_cal_poll dev base n'
  end.

Definition max_cal_count : nat := 25.

(** Reference LMS6002D calibration guide, section 4.1 flow chart *)
Definition lms_dc_cal_loop (dev : bladerf) (base cal_address dc_cntval : Z)
  : M hist Z :=
  (* Set the calibration address for the block, and start it up *)
  val <- LMS_READ dev (base + 0x03) ;;
  let val := u8 (Z.land val (Z.lnot 0x07)) in
  let val := u8 (Z.lor val (Z.land (u8 cal_address) 0x07)) in
  LMS_WRITE dev (base + 0x03) val ;;
  (* Set and latch the DC_CNTVAL *)
  LMS_WRITE dev (base + 0x02) dc_cntval ;;
  let val := u8 (Z.lor val (Z.shiftl 1 4)) in
  LMS_WRITE dev (base + 0x03) val ;;
  let val := u8 (Z.land val (Z.lnot (Z.shiftl 1 4))) in
  LMS_WRITE dev (base + 0x03) val ;;
  (* Start the calibration by toggling DC_START_CLBR *)
  let val := u8 (Z.lor val (Z.shiftl 1 5)) in
  LMS_WRITE dev (base + 0x03) val ;;
  let val := u8 (Z.land val (Z.lnot (Z.shiftl 1 5))) in
  LMS_WRITE dev (base + 0x03) val ;;
  dc_cal_poll dev base max_cal_count.

Definition is_rx_cal (module : bladerf_cal_module) : bool :=
  match module with
  | BLADERF_DC_CAL_RX_LPF | BLADERF_DC_CAL_RXVGA2 => true
  | _ => false
  end.

Definition dc_cal_backup (dev : bladerf) (module : bladerf_cal_module)
  : M cal_world unit :=
  set_state (fun _ => dc_cal_state_zero) ;;
  v <- on_bus (LMS_READ dev 0x09) ;;
  set_state (set_clk_en v) ;;
  if is_rx_cal module then
    v <- on_bus (LMS_READ dev 0x71) ;;
    set_state (set_reg0x71 v) ;;
    v <- on_bus (LMS_READ dev 0x7c) ;;
    set_state (set_reg0x7c v) ;;
    g <- on_bus (lms_lna_get_gain dev) ;;
    set_state (set_lna_gain g) ;;
    g <- on_bus (lms_rxvga1_get_gain dev) ;;
    set_state (set_rxvga1_gain g) ;;
    g <- on_bus (lms_rxvga2_get_gain dev) ;;
    set_state (set_rxvga2_gain g)
  else ret tt.

Definition dc_cal_module_init (dev : bladerf) (module : bladerf_cal_module)
  : M cal_world unit :=
  let '(cal_clock, base, num) :=
    match module with
    | BLADERF_DC_CAL_LPF_TUNING => (Z.shiftl 1 5, 0x00, 1)
    | BLADERF_DC_CAL_TX_LPF => (Z.shiftl 1 1, 0x30, 2)
    | BLADERF_DC_CAL_RX_LPF => (Z.shiftl 1 3, 0x50, 2)
    | BLADERF_DC_CAL_RXVGA2 => (Z.shiftl 1 4, 0x60, 5)
    end in
  set_state (set_module_regs base num) ;;
  state <- get_state ;;
  (* Enable the appropriate clock based on the module *)
  on_bus (LMS_WRITE dev 0x09 (Z.lor (clk_en state) cal_clock)) ;;
  match module with
  | BLADERF_DC_CAL_LPF_TUNING => (* Nothing special to do *) ret tt
  | BLADERF_DC_CAL_RX_LPF | BLADERF_DC_CAL_RXVGA2 =>
      (match module with
       | BLADERF_DC_CAL_RXVGA2 => on_bus (lms_clear dev 0x6e (Z.shiftl 3 6))
       | _ => (* Power up RX LPF DC calibration comparator *)
           on_bus (lms_clear dev 0x5f (Z.shiftl 1 7))
       end) ;;
      (* Connect LNA to the external pads and internally terminate *)
      on_bus (LMS_WRITE dev 0x71 (Z.land (reg0x71 state) (Z.lnot (Z.shiftl 1 7)))) ;;
      on_bus (LMS_WRITE dev 0x7c (Z.lor (reg0x7c state) (Z.shiftl 1 2))) ;;
      (* Attempt to calibrate at max gain. *)
      on_bus (lms_lna_set_gain dev BLADERF_LNA_GAIN_MAX) ;;
      set_state (set_rxvga1_curr_gain BLADERF_RXVGA1_GAIN_MAX) ;;
      on_bus (lms_rxvga1_set_gain dev BLADERF_RXVGA1_GAIN_MAX) ;;
      set_state (set_rxvga2_curr_gain BLADERF_RXVGA2_GAIN_MAX) ;;
      on_bus (lms_rxvga2_set_gain dev BLADERF_RXVGA2_GAIN_MAX)
  | BLADERF_DC_CAL_TX_LPF =>
      (* The DAC should be turned off or set to generate minimum DC *)
      on_bus (lms_set dev 0x36 (Z.shiftl 1 7)) ;;
      (* Ensure TX LPF DC calibration comparator is powered up *)
      on_bus (lms_clear dev 0x3f (Z.shiftl 1 7))
  end.

(** The [switch (submodule)] that [dc_cal_submodule] runs for the RXVGA2
    module. *)
Definition rxvga2_submodule_setup (dev : bladerf) (submodule : Z) : M hist unit :=
  if submodule =? 0 then
    (* Disable RXVGA2 DECODE *)
    lms_clear dev 0x64 (Z.shiftl 1 0) ;;
    (* VGA2GAINA = 0, VGA2GAINB = 0 *)
    LMS_WRITE dev 0x68 0x01
  else if submodule =? 1 then
    (* Set to direct control signals: RXVGA2 Decode = 1 *)
    lms_set dev 0x64 (Z.shiftl 1 0) ;;
    (* VGA2GAINA = 0110, VGA2GAINB = 0 *)
    LMS_WRITE dev 0x68 0x06
  else if submodule =? 2 then ret tt
  else if submodule =? 3 then
    (* VGA2GAINA = 0, VGA2GAINB = 0110 *)
    LMS_WRITE dev 0x68 0x60
  else if submodule =? 4 then ret tt
  else (* Invalid submodule *) fail BLADERF_ERR_UNEXPECTED.

(** The module-specific part at the head of [dc_cal_submodule]. *)
Definition dc_cal_submodule_setup (dev : bladerf) (module : bladerf_cal_module)
    (submodule : Z) : M hist unit :=
  match module with
  | BLADERF_DC_CAL_RXVGA2 => rxvga2_submodule_setup dev submodule
  | _ => ret tt
  end.

(** Special case for LPF tuning module where results are written to
    TX/RX LPF DCCAL *)
Definition lpf_tuning_store (dev : bladerf) (dc_regval : Z) : M hist unit :=
  val <- LMS_READ dev 0x35 ;;
  LMS_WRITE dev 0x35 (Z.lor (u8 (Z.land val (Z.lnot 0x3f))) dc_regval) ;;
  val <- LMS_READ dev 0x55 ;;
  LMS_WRITE dev 0x55 (Z.lor (u8 (Z.land val (Z.lnot 0x3f))) dc_regval).

(** The two runs of the calibration loop in [dc_cal_submodule]: the
    value to use, or [None] where the source logs "Bad DC_REGVAL
    detected. DC cal failed." and returns 0 at once. *)
Definition dc_cal_regval (dev : bladerf) (base submodule : Z) : M hist (option Z) :=
  dc_regval <- lms_dc_cal_loop dev base submodule 31 ;;
  if dc_regval =? 31 then
    (* DC_REGVAL suboptimal value - retrying DC cal loop. *)
    dc_regval <- lms_dc_cal_loop dev base submodule 0 ;;
    if dc_regval =? 0 then ret None else ret (Some dc_regval)
  else ret (Some dc_regval).

(** [dc_cal_submodule]: the result carries [*converged]. *)
Definition dc_cal_submodule (dev : bladerf) (module : bladerf_cal_module)
    (submodule : Z) : M cal_world bool :=
  (* *converged = false *)
  on_bus (dc_cal_submodule_setup dev module submodule) ;;
  state <- get_state ;;
  r <- on_bus (dc_cal_regval dev (base_addr state) submodule) ;;
  match r with
  | None => ret false
  | Some dc_regval =>
      match module with
      | BLADERF_DC_CAL_LPF_TUNING => on_bus (lpf_tuning_store dev dc_regval)
      | _ => ret tt
      end ;;
      (* *converged = true *)
      ret true
  end.

(** [dc_cal_retry_adjustment]: the result carries [*limit_reached],
    which the function leaves as it found it unless it sets it. *)
Definition dc_cal_retry_adjustment (dev : bladerf) (module : bladerf_cal_module)
    (limit_reached : bool) : M cal_world bool :=
  state <- get_state ;;
  match module with
  | BLADERF_DC_CAL_LPF_TUNING | BLADERF_DC_CAL_TX_LPF =>
      (* Nothing to adjust here *)
      ret true
  | BLADERF_DC_CAL_RX_LPF =>
      if rxvga1_curr_gain state >? BLADERF_RXVGA1_GAIN_MIN then
        let gain := rxvga1_curr_gain state - 1 in
        set_state (set_rxvga1_curr_gain gain) ;;
        on_bus (lms_rxvga1_set_gain dev gain) ;;
        ret limit_reached
      else ret true
  | BLADERF_DC_CAL_RXVGA2 =>
      if rxvga1_curr_gain state >? BLADERF_RXVGA1_GAIN_MIN then
        let gain := rxvga1_curr_gain state - 1 in
        set_state (set_rxvga1_curr_gain gain) ;;
        on_bus (lms_rxvga1_set_gain dev gain) ;;
        ret limit_reached
      else if rxvga2_curr_gain state >? BLADERF_RXVGA2_GAIN_MIN then
        let gain := rxvga2_curr_gain state - 3 in
        set_state (set_rxvga2_curr_gain gain) ;;
        on_bus (lms_rxvga2_set_gain dev gain) ;;
        ret limit_reached
      else ret true
  end.

Definition dc_cal_module_deinit (dev : bladerf) (module : bladerf_cal_module)
  : M cal_world unit :=
  match module with
  | BLADERF_DC_CAL_LPF_TUNING => (* Nothing special to do here *) ret tt
  | BLADERF_DC_CAL_RX_LPF =>
      (* Power down RX LPF calibration comparator *)
      on_bus (lms_set dev 0x5f (Z.shiftl 1 7))
  | BLADERF_DC_CAL_RXVGA2 =>
      (* Restore defaults: VGA2GAINA = 1, VGA2GAINB = 0 *)
      on_bus (LMS_WRITE dev 0x68 0x01) ;;
      (* Disable decode control signals: RXVGA2 Decode = 0 *)
      on_bus (lms_clear dev 0x64 (Z.shiftl 1 0)) ;;
      (* Power DC comparitors down *)
      on_bus (lms_set dev 0x6e (Z.shiftl 3 6))
  | BLADERF_DC_CAL_TX_LPF =>
      (* Power down TX LPF DC calibration comparator *)
      on_bus (lms_set dev 0x3f (Z.shiftl 1 7)) ;;
      (* Re-enable the DACs *)
      on_bus (lms_clear dev 0x36 (Z.shiftl 1 7))
  end.

(** [dc_cal_restore] goes through every write whatever fails and
    returns [ret]. *)
Definition dc_cal_restore (dev : bladerf) (module : bladerf_cal_module)
  : cal_world -> Z * cal_world :=
  fun w =>
    let state := fst w in
    let ret := 0 in
    let '(r, w) := on_bus (LMS_WRITE dev 0x09 (clk_en state)) w in
    let status := status_of r in
    let ret := if negb (status =? 0) then status else ret in
    if is_rx_cal module then
      let '(r, w) := on_bus (LMS_WRITE dev 0x71 (reg0x71 state)) w in
      let status := status_of r in
      let ret := if negb (status =? 0) && (ret =? 0) then status else ret in
      let '(r, w) := on_bus (LMS_WRITE dev 0x7c (reg0x7c state)) w in
      let status := status_of r in
      let ret := if negb (status =? 0) && (ret =? 0) then status else ret in
      let '(r, w) := on_bus (lms_lna_set_gain dev (lna_gain state)) w in
      let status := status_of r in
      let ret := if negb (status =? 0) && (ret =? 0) then status else ret in
      let '(r, w) := on_bus (lms_rxvga1_set_gain dev (rxvga1_gain state)) w in
      let status := status_of r in
      let ret := if negb (status =? 0) && (ret =? 0) then status else ret in
      let '(r, w) := on_bus (lms_rxvga2_set_gain dev (rxvga2_gain state)) w in
      let status := status_of r in
      let ret := if negb (status =? 0) then status else ret in
      (ret, w)
    else (ret, w).

(** The loop of [dc_cal_module] from submodule [i] on, with [n]
    submodules left: it stops at the first submodule that fails or does
    not converge. *)
Fixpoint dc_cal_submodules (dev : bladerf) (module : bladerf_cal_module)
    (n : nat) (i : Z) : M cal_world bool :=
  match n with
  | O => ret true
  | S n' =>
      converged <- dc_cal_submodule dev module i ;;
      if converged then dc_cal_submodules dev module n' (i + 1)
      else ret false
  end.

Definition dc_cal_module (dev : bladerf) (module : bladerf_cal_module)
  : M cal_world bool :=
  state <- get_state ;;
  dc_cal_submodules dev module (Z.to_nat (num_submodules state)) 0.

(** The [while (!converged && !limit_reached && status == 0)] loop of
    [lms_calibrate_dc] with the values of its three variables; [None]
    when [fuel] iterations were not enough to leave it. *)
Fixpoint dc_cal_converge (dev : bladerf) (module : bladerf_cal_module)
    (fuel : nat) (converged limit_reached : bool) (status : Z) (w : cal_world)
  : option (bool * Z * cal_world) :=
  if negb converged && negb limit_reached && (status =? 0) then
    match fuel with
    | O => None
    | S fuel' =>
        match dc_cal_module dev module w with
        | (Err status, w) =>
            dc_cal_converge dev module fuel' false limit_reached status w
        | (Ok true, w) =>
            dc_cal_converge dev module fuel' true limit_reached 0 w
        | (Ok false, w) =>
            match dc_cal_retry_adjustment dev module limit_reached w with
            | (Err status, w) =>
                dc_cal_converge dev module fuel' false limit_reached status w
            | (Ok limit_reached, w) =>
                dc_cal_converge dev module fuel' false limit_reached 0 w
            end
        end
    end
  else Some (converged, status, w).

(** The label [error] of [lms_calibrate_dc], reached with the current
    [status]: deinit and restore always run. *)
Definition lms_calibrate_dc_error (dev : bladerf) (module : bladerf_cal_module)
    (status : Z) : cal_world -> Z * cal_world :=
  fun w =>
    let '(r, w) := dc_cal_module_deinit dev module w in
    let tmp_status := status_of r in
    let status := if negb (status =? 0) then status else tmp_status in
    let '(tmp_status, w) := dc_cal_restore dev module w in
    let status := if negb (status =? 0) then status else tmp_status in
    (status, w).

(** [lms_calibrate_dc] on the history [h]; [None] when the converge loop
    needs more than [fuel] iterations. *)
Definition lms_calibrate_dc (fuel : nat) (dev : bladerf)
    (module : bladerf_cal_module) (h : hist) : option (Z * hist) :=
  match dc_cal_backup dev module (dc_cal_state_zero, h) with
  | (Err status, w) => Some (status, snd w)
  | (Ok _, w) =>
      match dc_cal_module_init dev module w with
      | (Err status, w) =>
          let '(status, w) := lms_calibrate_dc_error dev module status w in
          Some (status, snd w)
      | (Ok _, w) =>
          match dc_cal_converge dev module fuel false false 0 w with
          | None => None
          | Some (converged, status, w) =>
              let status :=
                if negb converged && (status =? 0) then
                  (* DC Calibration failed to converge. *)
                  BLADERF_ERR_UNEXPECTED
                else status in
              let '(status, w) := lms_calibrate_dc_error dev module status w in
              Some (status, snd w)
          end
      end
  end.

(* ------------------------------------------------------------------ *)
(** * LPF control *)

(** Enable or disable the LPF of a module; a bypassed LPF is switched
    back to normal operation. *)
Definition lms_lpf_enable (dev : bladerf) (module : bladerf_module) (enable : bool)
  : M hist unit :=
  let reg := lpf_reg module in
  data <- LMS_READ dev reg ;;
  let data := if enable then u8 (Z.lor data (Z.shiftl 1 1))
              else u8 (Z.land data (Z.lnot (Z.shiftl 1 1))) in
  LMS_WRITE dev reg data ;;
  (* Check to see if we are bypassed *)
  data <- LMS_READ dev (reg + 1) ;;
  if negb (Z.land data (Z.shiftl 1 6) =? 0) then
    (* Bypass is enabled; switch back to normal operation *)
    LMS_WRITE dev (reg + 1) (u8 (Z.land data (Z.lnot (Z.shiftl 1 6))))
  else ret tt.

(** The three enumerators of [bladerf_lpf_mode] are the three cases of
    the [switch]; its [default] branch is out of their reach. *)
Definition lms_lpf_set_mode (dev : bladerf) (module : bladerf_module)
    (mode : bladerf_lpf_mode) : M hist unit :=
  let reg := lpf_reg module in
  data_l <- LMS_READ dev reg ;;
  data_h <- LMS_READ dev (reg + 1) ;;
  let '(data_l, data_h) :=
    match mode with
    | BLADERF_LPF_NORMAL =>
        (u8 (Z.lor data_l (Z.shiftl 1 1)),               (* Enable LPF *)
         u8 (Z.land data_h (Z.lnot (Z.shiftl 1 6))))     (* Disable LPF bypass *)
    | BLADERF_LPF_BYPASSED =>
        (u8 (Z.land data_l (Z.lnot (Z.shiftl 1 1))),     (* Power down LPF *)
         u8 (Z.lor data_h (Z.shiftl 1 6)))               (* Enable LPF bypass *)
    | BLADERF_LPF_DISABLED =>
        (u8 (Z.land data_l (Z.lnot (Z.shiftl 1 1))),     (* Power down LPF *)
         u8 (Z.land data_h (Z.lnot (Z.shiftl 1 6))))     (* Disable LPF bypass *)
    end in
  LMS_WRITE dev reg data_l ;;
  LMS_WRITE dev (reg + 1) data_h.

Definition lms_set_bandwidth (dev : bladerf) (module : bladerf_module) (bw : lms_bw)
  : M hist unit :=
  let reg := lpf_reg module in
  data <- LMS_READ dev reg ;;
  (* Clear out previous bandwidth setting *)
  let data := u8 (Z.land data (Z.lnot 0x3c)) in
  (* Apply new bandwidth setting *)
  let data := u8 (Z.lor data (Z.shiftl (lms_bw_code bw) 2)) in
  LMS_WRITE dev reg data.

(** The cast [(lms_bw)data] of a table index. *)
Definition lms_bw_of_code (c : Z) : lms_bw :=
  nth (Z.to_nat c)
    [ BW_28MHz; BW_20MHz; BW_14MHz; BW_12MHz; BW_10MHz; BW_8p75MHz; BW_7MHz;
      BW_6MHz; BW_5p5MHz; BW_5MHz; BW_3p84MHz; BW_3MHz; BW_2p75MHz; BW_2p5MHz;
      BW_1p75MHz; BW_1p5MHz ] BW_28MHz.

Definition lms_get_bandwidth (dev : bladerf) (module : bladerf_module)
  : M hist lms_bw :=
  let reg := lpf_reg module in
  data <- LMS_READ dev reg ;;
  (* Fetch bandwidth table index from reg[5:2] *)
  let data := Z.shiftr data 2 in
  let data := Z.land data 0xf in
  ret (lms_bw_of_code data).

(* ------------------------------------------------------------------ *)
(** * PLL and top-level control *)

(** The register of the PLL that holds its enable and dither bits. *)
Definition pll_ctrl_reg (module : bladerf_module) : Z :=
  match module with BLADERF_MODULE_RX => 0x24 | BLADERF_MODULE_TX => 0x14 end.

(** Enable dithering on the module PLL; [nbits] is a [uint8_t]. *)
Definition lms_dither_enable (dev : bladerf) (module : bladerf_module)
    (nbits : Z) (enable : bool) : M hist unit :=
  let reg := pll_ctrl_reg module in
  (* Valid range is 1 - 8 bits (inclusive) *)
  if (nbits <? 1) || (nbits >? 8) then fail BLADERF_ERR_INVAL
  else
    (* Read what we currently have in there *)
    data <- LMS_READ dev reg ;;
    let data :=
      if enable then
        (* Enable dithering *)
        let data := u8 (Z.lor data (Z.shiftl 1 7)) in
        (* Clear out the previous setting of the number of bits to dither *)
        let data := u8 (Z.land data (Z.lnot (Z.shiftl 7 4))) in
        (* Update with the desired number of bits to dither *)
        u8 (Z.lor data (Z.shiftl (Z.land (nbits - 1) 7) 4))
      else
        (* Clear dithering enable bit *)
        u8 (Z.land data (Z.lnot (Z.shiftl 1 7))) in
    (* Write it out *)
    LMS_WRITE dev reg data.

(** Soft reset of the LMS *)
Definition lms_soft_reset (dev : bladerf) : M hist unit :=
  LMS_WRITE dev 0x05 0x12 ;;
  LMS_WRITE dev 0x05 0x32.

(** Top level power down of the LMS *)
Definition lms_power_down (dev : bladerf) : M hist unit :=
  data <- LMS_READ dev 0x05 ;;
  LMS_WRITE dev 0x05 (u8 (Z.land data (Z.lnot (Z.shiftl 1 4)))).

(** Enable the PLL of a module *)
Definition lms_pll_enable (dev : bladerf) (module : bladerf_module) (enable : bool)
  : M hist unit :=
  let reg := pll_ctrl_reg module in
  data <- LMS_READ dev reg ;;
  let data := if enable then u8 (Z.lor data (Z.shiftl 1 3))
              else u8 (Z.land data (Z.lnot (Z.shiftl 1 3))) in
  LMS_WRITE dev reg data.

(** Enable the RX subsystem *)
Definition lms_rx_enable (dev : bladerf) (enable : bool) : M hist unit :=
  data <- LMS_READ dev 0x05 ;;
  let data := if enable then u8 (Z.lor data (Z.shiftl 1 2))
              else u8 (Z.land data (Z.lnot (Z.shiftl 1 2))) in
  LMS_WRITE dev 0x05 data.

(** Enable the TX subsystem *)
Definition lms_tx_enable (dev : bladerf) (enable : bool) : M hist unit :=
  data <- LMS_READ dev 0x05 ;;
  let data := if enable then u8 (Z.lor data (Z.shiftl 1 3))
              else u8 (Z.land data (Z.lnot (Z.shiftl 1 3))) in
  LMS_WRITE dev 0x05 data.

Definition lms_enable_rffe (dev : bladerf) (module : bladerf_module) (enable : bool)
  : M hist unit :=
  let addr := match module with
              | BLADERF_MODULE_TX => 0x40
              | BLADERF_MODULE_RX => 0x70
              end in
  data <- LMS_READ dev addr ;;
  let data :=
    match module with
    | BLADERF_MODULE_TX =>
        if enable then u8 (Z.lor data (Z.shiftl 1 1))
        else u8 (Z.land data (Z.lnot (Z.shiftl 1 1)))
    | BLADERF_MODULE_RX =>
        if enable then u8 (Z.lor data (Z.shiftl 1 0))
        else u8 (Z.land data (Z.lnot (Z.shiftl 1 0)))
    end in
  LMS_WRITE dev addr data.

(* ------------------------------------------------------------------ *)
(** * LNA, RXVGA and PA control *)

(** Modelled from the spec: the LNA selection of section 4.5 ("LNA
    selection to None", the LNA1/2/3 paths); [lms_lna] is declared in
    the absent [lms.h].  The enumerator's value is the code of the 2-bit
    field: [loopback_rx] computes 1, 2 or 3 and hands it to
    [lms_select_lna] as LNA 1, 2 or 3. *)
Inductive lms_lna := LNA_NONE | LNA_1 | LNA_2 | LNA_3.

Definition lms_lna_code (lna : lms_lna) : Z :=
  match lna with LNA_NONE => 0 | LNA_1 => 1 | LNA_2 => 2 | LNA_3 => 3 end.

Definition lms_lna_of_code (c : Z) : lms_lna :=
  if c =? 1 then LNA_1 else if c =? 2 then LNA_2 else if c =? 3 then LNA_3
  else LNA_NONE.

(** Select which LNA to enable *)
Definition lms_select_lna (dev : bladerf) (lna : lms_lna) : M hist unit :=
  data <- LMS_READ dev 0x75 ;;
  let data := u8 (Z.land data (Z.lnot (Z.shiftl 3 4))) in
  let data := u8 (Z.lor data (Z.shiftl (Z.land (lms_lna_code lna) 3) 4)) in
  LMS_WRITE dev 0x75 data.

(** On a failed read the source stores [LNA_NONE] in its out-parameter
    and returns the status. *)
Definition lms_get_lna (dev : bladerf) : M hist lms_lna :=
  data <- LMS_READ dev 0x75 ;;
  ret (lms_lna_of_code (Z.land (Z.shiftr data 4) 0x3)).

(** The enable bit is in a reserved register; it is active low. *)
Definition lms_rxvga1_enable (dev : bladerf) (enable : bool) : M hist unit :=
  data <- LMS_READ dev 0x7d ;;
  let data := if enable then u8 (Z.land data (Z.lnot (Z.shiftl 1 3)))
              else u8 (Z.lor data (Z.shiftl 1 3)) in
  LMS_WRITE dev 0x7d data.

(** Enable RXVGA2 *)
Definition lms_rxvga2_enable (dev : bladerf) (enable : bool) : M hist unit :=
  data <- LMS_READ dev 0x64 ;;
  let data := if enable then u8 (Z.lor data (Z.shiftl 1 1))
              else u8 (Z.land data (Z.lnot (Z.shiftl 1 1))) in
  LMS_WRITE dev 0x64 data.

(** Modelled from the spec: the PA selection [{Aux, Pa1, Pa2, None}] of
    section 4.3; [lms_pa] is declared in the absent [lms.h]. *)
Inductive lms_pa := PA_AUX | PA_1 | PA_2 | PA_NONE.

(** The source tests the status of the read only before the write: a
    failed read returns its status without a write.  The four
    enumerators are the four cases of the [switch]. *)
Definition lms_select_pa (dev : bladerf) (pa : lms_pa) : M hist unit :=
  data <- LMS_READ dev 0x44 ;;
  (* Disable PA1, PA2, and AUX PA - we'll enable as requested below. *)
  let data := u8 (Z.land data (Z.lnot 0x1C)) in
  (* AUX PA powered down *)
  let data := u8 (Z.lor data (Z.shiftl 1 1)) in
  let data :=
    match pa with
    | PA_AUX => u8 (Z.land data (Z.lnot (Z.shiftl 1 1)))  (* Power up the AUX PA *)
    | PA_1 => u8 (Z.lor data (Z.shiftl 2 2))    (* PA_EN[2:0] = 010 - Enable PA1 *)
    | PA_2 => u8 (Z.lor data (Z.shiftl 4 2))    (* PA_EN[2:0] = 100 - Enable PA2 *)
    | PA_NONE => data
    end in
  LMS_WRITE dev 0x44 data.

(** The peak detector is enabled by clearing its bit. *)
Definition lms_peakdetect_enable (dev : bladerf) (enable : bool) : M hist unit :=
  data <- LMS_READ dev 0x44 ;;
  let data := if enable then u8 (Z.land data (Z.lnot (Z.shiftl 1 0)))
              else u8 (Z.lor data (Z.shiftl 1 0)) in
  LMS_WRITE dev 0x44 data.

Definition enable_lna_power (dev : bladerf) (enable : bool) : M hist unit :=
  (* Magic test register to power down LNAs *)
  regval <- LMS_READ dev 0x7d ;;
  let regval := if enable then u8 (Z.land regval (Z.lnot (Z.shiftl 1 0)))
                else u8 (Z.lor regval (Z.shiftl 1 0)) in
  LMS_WRITE dev 0x7d regval ;;
  (* Decode test registers *)
  regval <- LMS_READ dev 0x70 ;;
  let regval := if enable then u8 (Z.land regval (Z.lnot (Z.shiftl 1 1)))
                else u8 (Z.lor regval (Z.shiftl 1 1)) in
  LMS_WRITE dev 0x70 regval.

(** Power up/down RF loopback switch *)
Definition enable_rf_loopback_switch (dev : bladerf) (enable : bool) : M hist unit :=
  regval <- LMS_READ dev 0x0b ;;
  let regval := if enable then u8 (Z.lor regval (Z.shiftl 1 0))
                else u8 (Z.land regval (Z.lnot (Z.shiftl 1 0))) in
  LMS_WRITE dev 0x0b regval.

(* ------------------------------------------------------------------ *)
(** * Band selection and the loopback state machine *)

(** A callee that returns its [int] status, used where the caller leaves
    on a non-zero status. *)
Definition checked (c : hist -> Z * hist) : M hist unit :=
  fun h => let '(status, h') := c h in
           (if status =? 0 then Ok tt else Err status, h').

Definition lms_select_band (dev : bladerf) (module : bladerf_module) (freq : Z)
  : hist -> Z * hist :=
  fun h =>
    (* If loopback mode disabled, avoid changing the PA or LNA selection,
       as these need to remain are powered down or disabled *)
    let '(status, h1) := is_loopback_enabled dev h in
    if status <? 0 then (status, h1)
    else if status >? 0 then (0, h1)
    else
      let lna := if freq >=? BLADERF_BAND_HIGH then LNA_2 else LNA_1 in
      let pa := if freq >=? BLADERF_BAND_HIGH then PA_2 else PA_1 in
      let '(r, h2) :=
        match module with
        | BLADERF_MODULE_TX => lms_select_pa dev pa h1
        | BLADERF_MODULE_RX => lms_select_lna dev lna h1
        end in
      (status_of r, h2).

(** Configure TX-side of loopback *)
Definition loopback_tx (dev : bladerf) (mode : bladerf_loopback) : M hist unit :=
  match mode with
  | BLADERF_LB_BB_TXLPF_RXVGA2 | BLADERF_LB_BB_TXLPF_RXLPF
  | BLADERF_LB_BB_TXVGA1_RXVGA2 | BLADERF_LB_BB_TXVGA1_RXLPF => ret tt
  | BLADERF_LB_RF_LNA1 | BLADERF_LB_RF_LNA2 | BLADERF_LB_RF_LNA3 =>
      lms_select_pa dev PA_AUX
  | BLADERF_LB_NONE =>
      (* Restore proper settings (PA) for this frequency *)
      f <- lms_get_frequency dev BLADERF_MODULE_TX ;;
      checked (lms_set_frequency dev BLADERF_MODULE_TX (lms_frequency_to_hz f)) ;;
      checked (lms_select_band dev BLADERF_MODULE_TX (lms_frequency_to_hz f))
  | BLADERF_LB_FIRMWARE => fail BLADERF_ERR_INVAL
  end.

(** Enable the RXLPF if needed *)
Definition rxlpf_enable_if_disabled (dev : bladerf) (lpf_mode : bladerf_lpf_mode)
  : M hist unit :=
  match lpf_mode with
  | BLADERF_LPF_DISABLED => lms_lpf_set_mode dev BLADERF_MODULE_RX BLADERF_LPF_NORMAL
  | _ => ret tt
  end.

(** [lna = mode - BLADERF_LB_RF_LNA1 + 1] for the three RF modes. *)
Definition loopback_lna (mode : bladerf_loopback) : lms_lna :=
  match mode with
  | BLADERF_LB_RF_LNA1 => LNA_1
  | BLADERF_LB_RF_LNA2 => LNA_2
  | BLADERF_LB_RF_LNA3 => LNA_3
  | _ => LNA_NONE
  end.

(** Configure RX-side of loopback *)
Definition loopback_rx (dev : bladerf) (mode : bladerf_loopback) : M hist unit :=
  lpf_mode <- lms_lpf_get_mode dev BLADERF_MODULE_RX ;;
  match mode with
  | BLADERF_LB_BB_TXLPF_RXVGA2 | BLADERF_LB_BB_TXVGA1_RXVGA2 =>
      (* Ensure RXVGA2 is enabled *)
      lms_rxvga2_enable dev true ;;
      (* RXLPF must be disabled *)
      lms_lpf_set_mode dev BLADERF_MODULE_RX BLADERF_LPF_DISABLED
  | BLADERF_LB_BB_TXLPF_RXLPF | BLADERF_LB_BB_TXVGA1_RXLPF =>
      (* RXVGA1 must be disabled *)
      lms_rxvga1_enable dev false ;;
      rxlpf_enable_if_disabled dev lpf_mode ;;
      (* Ensure RXVGA2 is enabled *)
      lms_rxvga2_enable dev true
  | BLADERF_LB_RF_LNA1 | BLADERF_LB_RF_LNA2 | BLADERF_LB_RF_LNA3 =>
      let lna := loopback_lna mode in
      (* Power down LNAs *)
      enable_lna_power dev false ;;
      (* Ensure RXVGA1 is enabled *)
      lms_rxvga1_enable dev true ;;
      rxlpf_enable_if_disabled dev lpf_mode ;;
      (* Ensure RXVGA2 is enabled *)
      lms_rxvga2_enable dev true ;;
      (* Select output buffer in RX PLL and select the desired LNA *)
      regval <- LMS_READ dev 0x25 ;;
      let regval := u8 (Z.land regval (Z.lnot 0x03)) in
      let regval := u8 (Z.lor regval (lms_lna_code lna)) in
      LMS_WRITE dev 0x25 regval ;;
      lms_select_lna dev lna ;;
      (* Enable RF loopback switch *)
      enable_rf_loopback_switch dev true
  | BLADERF_LB_NONE =>
      (* Ensure all RX blocks are enabled *)
      lms_rxvga1_enable dev true ;;
      rxlpf_enable_if_disabled dev lpf_mode ;;
      lms_rxvga2_enable dev true ;;
      (* Disable RF loopback switch *)
      enable_rf_loopback_switch dev false ;;
      (* Power up LNAs *)
      enable_lna_power dev true ;;
      (* Restore proper settings (LNA, RX PLL) for this frequency *)
      f <- lms_get_frequency dev BLADERF_MODULE_RX ;;
      checked (lms_set_frequency dev BLADERF_MODULE_RX (lms_frequency_to_hz f)) ;;
      checked (lms_select_band dev BLADERF_MODULE_RX (lms_frequency_to_hz f))
  | BLADERF_LB_FIRMWARE => fail BLADERF_ERR_INVAL
  end.

Definition lms_set_loopback_mode (dev : bladerf) (mode : bladerf_loopback)
  : M hist unit :=
  (* Verify a valid mode is provided before shutting anything down *)
  match mode with
  | BLADERF_LB_FIRMWARE => fail BLADERF_ERR_INVAL
  | _ =>
      (* Disable all PA/LNAs while entering loopback mode or making changes *)
      lms_select_pa dev PA_NONE ;;
      lms_select_lna dev LNA_NONE ;;
      (* Disconnect loopback paths while we re-configure blocks *)
      loopback_path dev BLADERF_LB_NONE ;;
      (* Configure the RX side of the loopback path *)
      loopback_rx dev mode ;;
      (* Configure the TX side of the path *)
      loopback_tx dev mode ;;
      (* Configure "switches" along the loopback path *)
      loopback_path dev mode
  end.

(* ------------------------------------------------------------------ *)
(** * Register dump *)

Definition lms_reg_dumpset : list Z :=
  [ (* Top level configuration *)
    0x00; 0x01; 0x02; 0x03; 0x04; 0x05; 0x06; 0x07; 0x08; 0x09; 0x0A; 0x0B;
    0x0E; 0x0F;
    (* TX PLL Configuration *)
    0x10; 0x11; 0x12; 0x13; 0x14; 0x15; 0x16; 0x17; 0x18; 0x19; 0x1A; 0x1B;
    0x1C; 0x1D; 0x1E; 0x1F;
    (* RX PLL Configuration *)
    0x20; 0x21; 0x22; 0x23; 0x24; 0x25; 0x26; 0x27; 0x28; 0x29; 0x2A; 0x2B;
    0x2C; 0x2D; 0x2E; 0x2F;
    (* TX LPF Modules Configuration *)
    0x30; 0x31; 0x32; 0x33; 0x34; 0x35; 0x36;
    (* TX RF Modules Configuration *)
    0x40; 0x41; 0x42; 0x43; 0x44; 0x45; 0x46; 0x47; 0x48; 0x49; 0x4A; 0x4B;
    0x4C; 0x4D; 0x4E; 0x4F;
    (* RX LPF, ADC, and DAC Modules Configuration *)
    0x50; 0x51; 0x52; 0x53; 0x54; 0x55; 0x56; 0x57; 0x58; 0x59; 0x5A; 0x5B;
    0x5C; 0x5D; 0x5E; 0x5F;
    (* RX VGA2 Configuration *)
    0x60; 0x61; 0x62; 0x63; 0x64; 0x65; 0x66; 0x67; 0x68;
    (* RX FE Modules Configuration *)
    0x70; 0x71; 0x72; 0x73; 0x74; 0x75; 0x76; 0x77; 0x78; 0x79; 0x7A; 0x7B; 0x7C ].

(** The [for] loop of [lms_dump_registers] over what is left of the
    dump set. *)
Fixpoint dump_registers_from (dev : bladerf) (regs : list Z) : M hist unit :=
  match regs with
  | [] => ret tt
  | r :: regs' =>
      _ <- LMS_READ dev r ;;
      dump_registers_from dev regs'
  end.

Definition lms_dump_registers (dev : bladerf) : M hist unit :=
  dump_registers_from dev lms_reg_dumpset.

(* ------------------------------------------------------------------ *)
(** * Stored DC calibration values *)

(** Modelled from the spec: the DcCalValue of section 3, a signed
    integer of which a negative value means "leave unset"; [struct
    bladerf_lms_dc_cals] is declared in the absent [libbladeRF.h] and
    its ten [int16_t] fields are the ones [lms.c] names. *)
Record bladerf_lms_dc_cals := mk_dc_cals {
  lpf_tuning : Z;
  tx_lpf_i : Z;
  tx_lpf_q : Z;
  rx_lpf_i : Z;
  rx_lpf_q : Z;
  dc_ref : Z;
  rxvga2a_i : Z;
  rxvga2a_q : Z;
  rxvga2b_i : Z;
  rxvga2b_q : Z
}.

Definition enable_lpf_cal_clock (dev : bladerf) (enable : bool) : M hist unit :=
  let mask := Z.shiftl 1 5 in
  if enable then lms_set dev 0x09 mask else lms_clear dev 0x09 mask.

Definition enable_rxvga2_dccal_clock (dev : bladerf) (enable : bool) : M hist unit :=
  let mask := Z.shiftl 1 4 in
  if enable then lms_set dev 0x09 mask else lms_clear dev 0x09 mask.

Definition enable_rxlpf_dccal_clock (dev : bladerf) (enable : bool) : M hist unit :=
  let mask := Z.shiftl 1 3 in
  if enable then lms_set dev 0x09 mask else lms_clear dev 0x09 mask.

Definition enable_txlpf_dccal_clock (dev : bladerf) (enable : bool) : M hist unit :=
  let mask := Z.shiftl 1 1 in
  if enable then lms_set dev 0x09 mask else lms_clear dev 0x09 mask.

Definition set_dc_cal_value (dev : bladerf) (base dc_addr value : Z) : M hist unit :=
  let new_value := u8 value in
  let regval := u8 (Z.lor 0x08 dc_addr) in
  (* Keep reset inactive, cal disable, load addr *)
  LMS_WRITE dev (base + 3) regval ;;
  (* Update DC_CNTVAL *)
  LMS_WRITE dev (base + 2) new_value ;;
  (* Strobe DC_LOAD *)
  let regval := u8 (Z.lor regval (Z.shiftl 1 4)) in
  LMS_WRITE dev (base + 3) regval ;;
  let regval := u8 (Z.land regval (Z.lnot (Z.shiftl 1 4))) in
  LMS_WRITE dev (base + 3) regval ;;
  _ <- LMS_READ dev base ;;
  ret tt.

(** On a failed read the source stores -1 in its out-parameter and
    returns the status. *)
Definition get_dc_cal_value (dev : bladerf) (base dc_addr : Z) : M hist Z :=
  (* Keep reset inactive, cal disable, load addr *)
  LMS_WRITE dev (base + 3) (Z.lor 0x08 dc_addr) ;;
  (* Fetch value from DC_REGVAL *)
  regval <- LMS_READ dev base ;;
  ret regval.

(** [if (c) { ... }] around a block that leaves on failure. *)
Definition when {S} (c : bool) (m : M S unit) : M S unit :=
  if c then m else ret tt.

Definition lms_set_dc_cals (dev : bladerf) (dc_cals : bladerf_lms_dc_cals)
  : M hist unit :=
  let cal_tx_lpf := (tx_lpf_i dc_cals >=? 0) || (tx_lpf_q dc_cals >=? 0) in
  let cal_rx_lpf := (rx_lpf_i dc_cals >=? 0) || (rx_lpf_q dc_cals >=? 0) in
  let cal_rxvga2 :=
    (dc_ref dc_cals >=? 0) ||
    (rxvga2a_i dc_cals >=? 0) || (rxvga2a_q dc_cals >=? 0) ||
    (rxvga2b_i dc_cals >=? 0) || (rxvga2b_q dc_cals >=? 0) in
  when (lpf_tuning dc_cals >=? 0)
    (enable_lpf_cal_clock dev true ;;
     set_dc_cal_value dev 0x00 0 (lpf_tuning dc_cals) ;;
     enable_lpf_cal_clock dev false) ;;
  when cal_tx_lpf
    (enable_txlpf_dccal_clock dev true ;;
     when (tx_lpf_i dc_cals >=? 0) (set_dc_cal_value dev 0x30 0 (tx_lpf_i dc_cals)) ;;
     when (tx_lpf_q dc_cals >=? 0) (set_dc_cal_value dev 0x30 1 (tx_lpf_q dc_cals)) ;;
     enable_txlpf_dccal_clock dev false) ;;
  when cal_rx_lpf
    (enable_rxlpf_dccal_clock dev true ;;
     when (rx_lpf_i dc_cals >=? 0) (set_dc_cal_value dev 0x50 0 (rx_lpf_i dc_cals)) ;;
     when (rx_lpf_q dc_cals >=? 0) (set_dc_cal_value dev 0x50 1 (rx_lpf_q dc_cals)) ;;
     enable_rxlpf_dccal_clock dev false) ;;
  when cal_rxvga2
    (enable_rxvga2_dccal_clock dev true ;;
     when (dc_ref dc_cals >=? 0) (set_dc_cal_value dev 0x60 0 (dc_ref dc_cals)) ;;
     when (rxvga2a_i dc_cals >=? 0) (set_dc_cal_value dev 0x60 1 (rxvga2a_i dc_cals)) ;;
     when (rxvga2a_q dc_cals >=? 0) (set_dc_cal_value dev 0x60 2 (rxvga2a_q dc_cals)) ;;
     when (rxvga2b_i dc_cals >=? 0) (set_dc_cal_value dev 0x60 3 (rxvga2b_i dc_cals)) ;;
     when (rxvga2b_q dc_cals >=? 0) (set_dc_cal_value dev 0x60 4 (rxvga2b_q dc_cals)) ;;
     enable_rxvga2_dccal_clock dev false).

Definition lms_get_dc_cals (dev : bladerf) : M hist bladerf_lms_dc_cals :=
  lpf_tuning <- get_dc_cal_value dev 0x00 0 ;;
  tx_lpf_i <- get_dc_cal_value dev 0x30 0 ;;
  tx_lpf_q <- get_dc_cal_value dev 0x30 1 ;;
  rx_lpf_i <- get_dc_cal_value dev 0x50 0 ;;
  rx_lpf_q <- get_dc_cal_value dev 0x50 1 ;;
  dc_ref <- get_dc_cal_value dev 0x60 0 ;;
  rxvga2a_i <- get_dc_cal_value dev 0x60 1 ;;
  rxvga2a_q <- get_dc_cal_value dev 0x60 2 ;;
  rxvga2b_i <- get_dc_cal_value dev 0x60 3 ;;
  rxvga2b_q <- get_dc_cal_value dev 0x60 4 ;;
  ret (mk_dc_cals lpf_tuning tx_lpf_i tx_lpf_q rx_lpf_i rx_lpf_q dc_ref
         rxvga2a_i rxvga2a_q rxvga2b_i rxvga2b_q).

(* ------------------------------------------------------------------ *)
(** * Sampling selection *)

(** The three enumerators of [bladerf_sampling] that [lms.c] names;
    [BLADERF_SAMPLING_UNKNOWN] takes the final [else] of
    [lms_select_sampling]. *)
Inductive bladerf_sampling :=
  | BLADERF_SAMPLING_UNKNOWN
  | BLADERF_SAMPLING_INTERNAL
  | BLADERF_SAMPLING_EXTERNAL.

Definition lms_select_sampling (dev : bladerf) (sampling : bladerf_sampling)
  : M hist unit :=
  match sampling with
  | BLADERF_SAMPLING_INTERNAL =>
      (* Disconnect the ADC input from the outside world *)
      val <- LMS_READ dev 0x09 ;;
      LMS_WRITE dev 0x09 (u8 (Z.land val (Z.lnot (Z.shiftl 1 7)))) ;;
      (* Turn on RXVGA2 *)
      val <- LMS_READ dev 0x64 ;;
      LMS_WRITE dev 0x64 (u8 (Z.lor val (Z.shiftl 1 1)))
  | BLADERF_SAMPLING_EXTERNAL =>
      (* Turn off RXVGA2 *)
      val <- LMS_READ dev 0x64 ;;
      LMS_WRITE dev 0x64 (u8 (Z.land val (Z.lnot (Z.shiftl 1 1)))) ;;
      (* Connect the external ADC pins to the internal ADC input *)
      val <- LMS_READ dev 0x09 ;;
      LMS_WRITE dev 0x09 (u8 (Z.lor val (Z.shiftl 1 7)))
  | BLADERF_SAMPLING_UNKNOWN => fail BLADERF_ERR_INVAL
  end.

Definition lms_get_sampling (dev : bladerf) : M hist bladerf_sampling :=
  val <- LMS_READ dev 0x09 ;;
  let external := if negb (Z.land val (Z.shiftl 1 7) =? 0) then 1 else 0 in
  val <- LMS_READ dev 0x64 ;;
  let external :=
    Z.lor external (if negb (Z.land val (Z.shiftl 1 1) =? 0) then 0 else 2) in
  ret (if external =? 0 then BLADERF_SAMPLING_INTERNAL
       else if external =? 3 then BLADERF_SAMPLING_EXTERNAL
       else BLADERF_SAMPLING_UNKNOWN).

(* ------------------------------------------------------------------ *)
(** * Simulated devices *)

(** A register file in which the reads of [addr] are scripted. *)
Definition reads_of (addr : Z) (h : hist) : nat :=
  length (filter (fun t => match t with Rd a _ _ => a =? addr | _ => false end) h).

Definition regfile_with (init : Z -> Z) (addr : Z) (script : list Z) (dflt : Z)
  : bladerf :=
  mk_bladerf (fun h a => if a =? addr then (0, nth (reads_of addr h) script dflt)
                         else (0, last_write init h a))
             (fun _ _ _ => 0).

(** A register file whose [k]-th transaction (counting from 0) fails
    with [status]. *)
Definition failing_at (init : Z -> Z) (k : nat) (status : Z) : bladerf :=
  mk_bladerf (fun h a => (if Nat.eqb (length h) k then status else 0,
                          last_write init h a))
             (fun h _ _ => if Nat.eqb (length h) k then status else 0).

(* ------------------------------------------------------------------ *)
(** * Specification-level definitions *)

(** Values of the successful reads of [addr] in a trace (oldest first). *)
Fixpoint reads_at (addr : Z) (ts : list xact) : list Z :=
  match ts with
  | [] => []
  | Rd a v s :: ts' =>
      if (a =? addr) && (s =? 0) then v :: reads_at addr ts' else reads_at addr ts'
  | Wr _ _ _ :: ts' => reads_at addr ts'
  end.

(** Values put on the bus for [addr] in a trace (oldest first). *)
Fixpoint writes_at (addr : Z) (ts : list xact) : list Z :=
  match ts with
  | [] => []
  | Wr a v _ :: ts' => if a =? addr then v :: writes_at addr ts' else writes_at addr ts'
  | Rd _ _ _ :: ts' => writes_at addr ts'
  end.

(** Following the spec (section 4.4, phase A): from the tune statuses
    read, the trim codes tried in turn and the code locked on, if any.
    Each iteration reads the status, stops on Normal, adds the step on
    High, subtracts it on Low, and halves the step. *)
Fixpoint vcocap_search_spec (iters : nat) (code step : Z) (statuses : list Z)
  : list Z * option Z :=
  match iters, statuses with
  | S k, s :: rest =>
      if s =? VCO_NORM then ([code], Some code)
      else if s =? VCO_HIGH then
        let '(codes, r) := vcocap_search_spec k (code + step) (step / 2) rest in
        (code :: codes, r)
      else if s =? VCO_LOW then
        let '(codes, r) := vcocap_search_spec k (code - step) (step / 2) rest in
        (code :: codes, r)
      else ([code], None)
  | S k, [] => ([code], None)
  | O, _ => ([], None)
  end.

(* ------------------------------------------------------------------ *)
(** * Wrap-free PLL arithmetic *)

(** The arithmetic of the two conversions without any wrap-around. *)
Definition nint_of (X f : Z) : Z := X * f / ref_clock.
Definition nfrac_of (X f : Z) : Z :=
  (2 ^ 23 * (X * f - nint_of X f * ref_clock) + ref_clock / 2) / ref_clock.
Definition hz_of (X ni nf : Z) : Z :=
  (ref_clock * (ni * 2 ^ 23 + nf) + X * 2 ^ 23 / 2) / (X * 2 ^ 23).

(* ------------------------------------------------------------------ *)
(** * Properties of bus traces and of driver code *)

(** No transaction of [ts] failed. *)
Definition clean (ts : list xact) : Prop :=
  Forall (fun t => xact_status t = 0) ts.

(** [ts] (oldest first) stops at its first failure, of status [s]. *)
Definition stops_at (ts : list xact) (s : Z) : Prop :=
  exists ts' t, ts = ts' ++ [t] /\ clean ts' /\ xact_status t = s.

(** A computation that leaves at the first failed transaction with the
    status of that transaction; without such a failure it succeeds or
    reports [BLADERF_ERR_UNEXPECTED]. *)
Definition failfast {A} (m : M hist A) : Prop :=
  forall h, exists ts,
    snd (m h) = rev ts ++ h /\
    match fst (m h) with
    | Ok _ => clean ts
    | Err s => s <> 0 /\ (stops_at ts s \/ (clean ts /\ s = BLADERF_ERR_UNEXPECTED))
    end.

(** The transport reports failures as negative codes. *)
Definition negative_errors (dev : bladerf) : Prop :=
  (forall h addr, fst (lms_read dev h addr) <= 0) /\
  (forall h addr v, lms_write dev h addr v <= 0).

Definition memory_at (dev : bladerf) (init : Z -> Z) (addr : Z) : Prop :=
  forall h, lms_read dev h addr = (0, last_write init h addr).

(** Errors carry a non-zero status. *)
Definition nonzero_err {S A} (m : M S A) : Prop :=
  forall w e w', m w = (Err e, w') -> e <> 0.

(** The calibration state is left as it was. *)
Definition keeps_state {A} (m : M cal_world A) : Prop :=
  forall w, fst (snd (m w)) = fst w.

(* ------------------------------------------------------------------ *)
(** * Checks over register values *)

(** Exhaustive checks over the 256 values of a register. *)
Definition all_u8 (p : Z -> bool) : bool :=
  forallb p (map Z.of_nat (seq 0 256)).

Definition loopback_eqb (a b : bladerf_loopback) : bool :=
  match a, b with
  | BLADERF_LB_FIRMWARE, BLADERF_LB_FIRMWARE
  | BLADERF_LB_BB_TXLPF_RXVGA2, BLADERF_LB_BB_TXLPF_RXVGA2
  | BLADERF_LB_BB_TXVGA1_RXVGA2, BLADERF_LB_BB_TXVGA1_RXVGA2
  | BLADERF_LB_BB_TXLPF_RXLPF, BLADERF_LB_BB_TXLPF_RXLPF
  | BLADERF_LB_BB_TXVGA1_RXLPF, BLADERF_LB_BB_TXVGA1_RXLPF
  | BLADERF_LB_RF_LNA1, BLADERF_LB_RF_LNA1
  | BLADERF_LB_RF_LNA2, BLADERF_LB_RF_LNA2
  | BLADERF_LB_RF_LNA3, BLADERF_LB_RF_LNA3
  | BLADERF_LB_NONE, BLADERF_LB_NONE => true
  | _, _ => false
  end.

(** What [loopback_path] leaves in the two registers, from what it read
    there. *)
Definition loopback_path_regs (mode : bladerf_loopback) (r46 r08 : Z) : option (Z * Z) :=
  loopback_path_bits mode
    (u8 (Z.land r46 (Z.lnot LOOBBBEN_MASK)))
    (u8 (Z.land r08 (Z.lnot (Z.lor LBRFEN_MASK LBEN_MASK)))).

Definition roundtrip_check (mode : bladerf_loopback) (r46 r08 : Z) : bool :=
  match loopback_path_regs mode r46 r08 with
  | Some (v46, v08) =>
      loopback_eqb (loopback_decode v08 v46) mode
      && (u8 v46 =? v46) && (u8 v08 =? v08)
  | None => false
  end.

Definition decodes_none (lben loopbben : Z) : bool :=
  let rf := Z.land lben 0x7 in
  let bb := Z.land lben LBEN_MASK in
  negb ((rf =? 1) || (rf =? 2) || (rf =? 3))
  && negb (((bb =? LBEN_VGA2IN) || (bb =? LBEN_LPFIN))
           && negb (Z.land loopbben LOOBBBEN_MASK =? 0)).

(** The documented clamp: the nearest value of [lo, hi]. *)
Definition clamp (lo hi v : Z) : Z := Z.max lo (Z.min hi v).

(** The image of register 0x45 once TXVGA2 holds the 5-bit code [g]. *)
Definition txvga2_field (data g : Z) : Z :=
  u8 (Z.lor (u8 (Z.land data (Z.lnot (Z.shiftl 0x1f 3)))) (Z.shiftl (Z.land g 0x1f) 3)).

Definition txvga2_field_check (data g : Z) : bool :=
  let v := txvga2_field data g in
  (Z.land (Z.shiftr v 3) 0x1f =? g) && (Z.land v 0x7 =? Z.land data 0x7).

(** The search stays inside the 6-bit trim range. *)
Definition search_inv (c s : Z) : Prop :=
  0 <= s /\ 2 * s <= c /\ c + 2 * s <= 64 /\ 1 <= c <= 63.

(** A trim code next to the two upper bits of register base + 9. *)
Definition code_ok (data : Z) : Prop := 0 <= data < 256 /\ Z.land data 0x3f = 0.

Definition cal_done (v : Z) : bool := Z.land (Z.shiftr v 1) 1 =? 0.

(** What the bus trace of a run of the calibration loop says about its
    polls of the status register [base + 1] (oldest first): at most 25,
    and, when no transaction failed, the 6-bit value read at [base] after
    the first poll that shows "done", or [BLADERF_ERR_UNEXPECTED] after
    25 polls that do not. *)
Definition poll_outcome (base : Z) (m : M hist Z) : Prop :=
  forall h, exists ts,
    snd (m h) = rev ts ++ h /\
    let polls := reads_at (base + 1) ts in
    (length polls <= 25)%nat /\
    (clean ts ->
     match find cal_done polls with
     | Some _ =>
         exists v, reads_at base ts = [v] /\ fst (m h) = Ok (Z.land v 0x3f)
     | None =>
         length polls = 25%nat /\ fst (m h) = Err BLADERF_ERR_UNEXPECTED
     end).

(* ------------------------------------------------------------------ *)
(** * Devices of the examples *)

Definition lpf_enabled_and_bypassed : bladerf :=
  regfile (fun a => if a =? 0x54 then 0x02 else if a =? 0x55 then 0x40 else 0).

(** The registers hold 0x21 and 0x00: no mode is encoded so, and the
    decoder answers LNA1. *)
Definition lb_stray : bladerf := regfile (fun a => if a =? 0x08 then 0x21 else 0).

(** A TX LPF whose result register reads 31 and then 0. *)
Definition txlpf_31_then_0 : bladerf := regfile_with (fun _ => 0) 0x30 [31; 0] 0.

(** A VCO that locks on 24: statuses Low, High, Normal for the search,
    Normal down to 21 (High at 20), Normal up to 27 (Low at 28). *)
Definition vco_script : list Z :=
  [ 0x40; 0x80; 0x00;                   (* 32: low, 16: high, 24: locked *)
    0x00; 0x00; 0x00; 0x80;             (* 23, 22, 21: locked, 20: high *)
    0x00;                               (* back at 24 *)
    0x00; 0x00; 0x00; 0x40;             (* 25, 26, 27: locked, 28: low *)
    0x00 ].                             (* the middle *)

Definition vco_dev : bladerf := regfile_with (fun _ => 0) 0x2a vco_script 0xc0.

(** An RX LPF whose result register reads 31, then 0, over and over. *)
Definition rxlpf_stuck : bladerf :=
  regfile_with (fun a => if a =? 0x75 then 0xc0 else 0) 0x50
    (concat (repeat [31; 0] 40)) 31.

Definition io_fails_at_7 : bladerf := failing_at (fun _ => 0) 7 BLADERF_ERR_IO.

(* ------------------------------------------------------------------ *)
(** * Register contents *)

(** What a read of the memory register [addr] returns after [h]. *)
Definition stored (init : Z -> Z) (h : hist) (addr : Z) : Z :=
  u8 (last_write init h addr).

(** [m] switches bit [k] of the memory register [addr]: after a
    successful run the bit is [level], the other bits of the register
    and the other registers are as they were. *)
Definition toggles (dev : bladerf) (m : M hist unit) (addr k : Z) (level : bool)
  : Prop :=
  forall init h h1,
    memory_at dev init addr -> m h = (Ok tt, h1) ->
    (forall j, 0 <= j ->
       Z.testbit (stored init h1 addr) j
       = if j =? k then level else Z.testbit (stored init h addr) j) /\
    (forall b, b <> addr -> stored init h1 b = stored init h b).

(* ------------------------------------------------------------------ *)
(** * The footprint of a run *)

Definition xact_addr (t : xact) : Z :=
  match t with Rd a _ _ => a | Wr a _ _ => a end.

(** The addresses written in a trace. *)
Definition written (ts : list xact) : list Z :=
  flat_map (fun t => match t with Wr a _ _ => [a] | Rd _ _ _ => [] end) ts.

(** Whatever the device answers, [m] extends the history and writes only
    at addresses that satisfy [A]. *)
Definition writes_only {R} (A : Z -> bool) (m : M hist R) : Prop :=
  forall h, exists ts, snd (m h) = rev ts ++ h /\ forallb A (written ts) = true.

(** No address at all. *)
Definition nowhere (a : Z) : bool := false.

(** The registers of the PLL of [module] that tuning programs, and the
    clock register 0x09 that holds the DSM enables. *)
Definition tuning_regs (module : bladerf_module) (a : Z) : bool :=
  (a =? 0x09) ||
  ((pll_base module <=? a) && (a <=? pll_base module + 9)
   && negb (a =? pll_base module + 4)).

(* ------------------------------------------------------------------ *)
(** * Stored DC calibration values *)

(** Bit [j] of the clock register 0x09 is the calibration clock of a
    group for which [c] holds a value to load. *)
Definition dc_cals_clock (c : bladerf_lms_dc_cals) (j : Z) : bool :=
  ((j =? 5) && (lpf_tuning c >=? 0)) ||
  ((j =? 1) && ((tx_lpf_i c >=? 0) || (tx_lpf_q c >=? 0))) ||
  ((j =? 3) && ((rx_lpf_i c >=? 0) || (rx_lpf_q c >=? 0))) ||
  ((j =? 4) && ((dc_ref c >=? 0) ||
                (rxvga2a_i c >=? 0) || (rxvga2a_q c >=? 0) ||
                (rxvga2b_i c >=? 0) || (rxvga2b_q c >=? 0))).

(** The address registers of the four DC calibration modules. *)
Definition dc_addr_regs (a : Z) : bool :=
  (a =? 0x03) || (a =? 0x33) || (a =? 0x53) || (a =? 0x63).

(* ------------------------------------------------------------------ *)
(** * DC calibration: footprint and saved state *)

(** The bus went from [h] to [h1] with writes at addresses of [A]
    only. *)
Definition wrote (A : Z -> bool) (h h1 : hist) : Prop :=
  exists ts, h1 = rev ts ++ h /\ forallb A (written ts) = true.

(** The part of the calibration state that [dc_cal_backup] fills in for
    [dc_cal_restore]. *)
Definition backup_fields (s : dc_cal_state)
  : Z * Z * Z * bladerf_lna_gain * Z * Z :=
  (clk_en s, reg0x71 s, reg0x7c s, lna_gain s, rxvga1_gain s, rxvga2_gain s).

(** Base address of the DC calibration registers of a module. *)
Definition cal_base (module : bladerf_cal_module) : Z :=
  match module with
  | BLADERF_DC_CAL_LPF_TUNING => 0x00
  | BLADERF_DC_CAL_TX_LPF => 0x30
  | BLADERF_DC_CAL_RX_LPF => 0x50
  | BLADERF_DC_CAL_RXVGA2 => 0x60
  end.

(** Registers of the receive path that the RX calibrations save and
    restore: LNA connection (0x71, 0x7c) and the three gains. *)
Definition rx_path_regs (a : Z) : bool :=
  (a =? 0x71) || (a =? 0x7c) || (a =? 0x75) || (a =? 0x76) || (a =? 0x65).

(** Registers a calibration of [module] may write. *)
Definition cal_regs (module : bladerf_cal_module) (a : Z) : bool :=
  (a =? 0x09) || (a =? cal_base module + 2) || (a =? cal_base module + 3) ||
  match module with
  | BLADERF_DC_CAL_LPF_TUNING => (a =? 0x35) || (a =? 0x55)
  | BLADERF_DC_CAL_TX_LPF => (a =? 0x36) || (a =? 0x3f)
  | BLADERF_DC_CAL_RX_LPF => (a =? 0x5f) || rx_path_regs a
  | BLADERF_DC_CAL_RXVGA2 =>
      (a =? 0x6e) || (a =? 0x64) || (a =? 0x68) || rx_path_regs a
  end.

(** Calibration code that writes nothing. *)
Definition cal_reads {R} (m : M cal_world R) : Prop :=
  forall w, wrote nowhere (snd w) (snd (snd (m w))).

(** Calibration code that, run on a state set up for [module], leaves
    the saved values and the base address alone and writes registers of
    [cal_regs module] only. *)
Definition cal_keeps {R} (module : bladerf_cal_module) (m : M cal_world R) : Prop :=
  forall w, base_addr (fst w) = cal_base module ->
    backup_fields (fst (snd (m w))) = backup_fields (fst w) /\
    base_addr (fst (snd (m w))) = cal_base module /\
    wrote (cal_regs module) (snd w) (snd (snd (m w))).

(* ------------------------------------------------------------------ *)
(** * DC calibration: the retry loop in the words of the specification *)

(** A gain lowered [n] times by [step], from [gain]. *)
Fixpoint lowered (step gain : Z) (n : nat) : list Z :=
  match n with
  | O => []
  | S n' => (gain - step) :: lowered step (gain - step) n'
  end.

(** RXVGA1 lowered by 1 dB from its maximum down to its minimum:
    29, 28, ..., 5. *)
Definition rxvga1_retry_gains : list Z :=
  lowered 1 BLADERF_RXVGA1_GAIN_MAX
    (Z.to_nat (BLADERF_RXVGA1_GAIN_MAX - BLADERF_RXVGA1_GAIN_MIN)).

(** RXVGA2 lowered by 3 dB from its maximum down to its minimum:
    27, 24, ..., 0. *)
Definition rxvga2_retry_gains : list Z :=
  lowered 3 BLADERF_RXVGA2_GAIN_MAX
    (Z.to_nat ((BLADERF_RXVGA2_GAIN_MAX - BLADERF_RXVGA2_GAIN_MIN) / 3)).

(** The adjustments of a module, one after each attempt that does not
    converge: RX LPF and RXVGA2 lower RXVGA1 by 1 dB down to its
    minimum, RXVGA2 then lowers RXVGA2 by 3 dB; LPF tuning and TX LPF
    have none. *)
Definition retry_plan (dev : bladerf) (module : bladerf_cal_module)
  : list (M hist unit) :=
  match module with
  | BLADERF_DC_CAL_LPF_TUNING | BLADERF_DC_CAL_TX_LPF => []
  | BLADERF_DC_CAL_RX_LPF => map (lms_rxvga1_set_gain dev) rxvga1_retry_gains
  | BLADERF_DC_CAL_RXVGA2 =>
      map (lms_rxvga1_set_gain dev) rxvga1_retry_gains ++
      map (lms_rxvga2_set_gain dev) rxvga2_retry_gains
  end.

(** The submodules of a module, in the order they are calibrated. *)
Definition submodule_ids (module : bladerf_cal_module) : list Z :=
  match module with
  | BLADERF_DC_CAL_LPF_TUNING => [0]
  | BLADERF_DC_CAL_TX_LPF | BLADERF_DC_CAL_RX_LPF => [0; 1]
  | BLADERF_DC_CAL_RXVGA2 => [0; 1; 2; 3; 4]
  end.

(** One attempt: the submodules in order, up to the first that fails or
    does not converge. *)
Fixpoint attempt_spec (dev : bladerf) (module : bladerf_cal_module)
    (submodules : list Z) : M cal_world bool :=
  match submodules with
  | [] => ret true
  | i :: rest =>
      converged <- dc_cal_submodule dev module i ;;
      if converged then attempt_spec dev module rest else ret false
  end.

(** Attempts and adjustments in turn, from the bus history [h] with the
    calibration state [s] of the initialisation: the status at the end
    of the retry loop and the history then.  An error ends the loop with
    its status, a converged attempt with 0, and an attempt that does not
    converge when no adjustment is left with UnexpectedState. *)
Fixpoint retry_spec (dev : bladerf) (module : bladerf_cal_module)
    (plan : list (M hist unit)) (s : dc_cal_state) (h : hist) : Z * hist :=
  match attempt_spec dev module (submodule_ids module) (s, h) with
  | (Err e, w) => (e, snd w)
  | (Ok true, w) => (0, snd w)
  | (Ok false, w) =>
      match plan with
      | [] => (BLADERF_ERR_UNEXPECTED, snd w)
      | adjust :: plan' =>
          match adjust (snd w) with
          | (Err e, h') => (e, h')
          | (Ok _, h') => retry_spec dev module plan' s h'
          end
      end
  end.

(** The calibration of a module: backup, initialisation, the retry loop
    and the exit path that [lms_calibrate_dc] shares with its
    failures. *)
Definition calibrate_dc_spec (dev : bladerf) (module : bladerf_cal_module)
    (h : hist) : Z * hist :=
  match dc_cal_backup dev module (dc_cal_state_zero, h) with
  | (Err status, w) => (status, snd w)
  | (Ok _, w0) =>
      match dc_cal_module_init dev module w0 with
      | (Err status, w1) =>
          let '(status, w) := lms_calibrate_dc_error dev module status w1 in
          (status, snd w)
      | (Ok _, w1) =>
          let '(status, h2) :=
            retry_spec dev module (retry_plan dev module) (fst w1) (snd w1) in
          let '(status, w) :=
            lms_calibrate_dc_error dev module status (fst w1, h2) in
          (status, snd w)
      end
  end.

(* ------------------------------------------------------------------ *)
(** * Devices of the clean-up examples *)

(** A register file on which the read of the DSM clean-up of a tuning
    to 2412 MHz fails: its transaction 151, after 151 transactions that
    succeed. *)
Definition cleanup_read_fails : bladerf :=
  failing_at (fun _ => 0) 151 BLADERF_ERR_IO.

(** A transport that answers the first read of the loopback lookup of a
    tuning (its transaction 3) with the positive status 1. *)
Definition lookup_status_positive : bladerf := failing_at (fun _ => 0) 3 1.

(* ------------------------------------------------------------------ *)
(** * Sanity checks *)

Example uint2bw_8MHz : lms_bw2uint (lms_uint2bw 8000000) = 8750000.
Proof. reflexivity. Qed.

Example descriptor_1GHz :
  hz_to_descriptor 1000000000 = mk_lms_freq 4 104 1398101 0x25 38400000.
Proof. vm_compute. reflexivity. Qed.

Example roundtrip_1GHz :
  lms_frequency_to_hz (hz_to_descriptor 1000000000) = 1000000000.
Proof. vm_compute. reflexivity. Qed.

Example calibrate_txlpf_regfile :
  option_map fst (lms_calibrate_dc 40 (regfile (fun _ => 0)) BLADERF_DC_CAL_TX_LPF [])
  = Some 0.
Proof. vm_compute. reflexivity. Qed.

(* ------------------------------------------------------------------ *)
(** * The monad and the bus *)

Lemma bind_ok {S A B} (m : M S A) (k : A -> M S B) s a s' :
  m s = (Ok a, s') -> bind m k s = k a s'.
Proof. unfold bind. intros ->. reflexivity. Qed.

Lemma u8_range (v : Z) : 0 <= u8 v < 256.
Proof. unfold u8. apply Z.mod_pos_bound. reflexivity. Qed.

Lemma u8_small (v : Z) : 0 <= v < 256 -> u8 v = v.
Proof. unfold u8. apply Z.mod_small. Qed.

Lemma LMS_READ_ok dev h addr v :
  lms_read dev h addr = (0, v) ->
  LMS_READ dev addr h = (Ok (u8 v), Rd addr (u8 v) 0 :: h).
Proof. unfold LMS_READ. intros ->. reflexivity. Qed.

Lemma LMS_WRITE_ok dev h addr v :
  lms_write dev h addr (u8 v) = 0 ->
  LMS_WRITE dev addr v h = (Ok tt, Wr addr (u8 v) 0 :: h).
Proof. unfold LMS_WRITE. intros ->. reflexivity. Qed.

Lemma all_u8_spec (p : Z -> bool) :
  all_u8 p = true -> forall v, 0 <= v < 256 -> p v = true.
Proof.
  unfold all_u8. rewrite forallb_forall. intros H v Hv.
  apply H. apply in_map_iff. exists (Z.to_nat v). split; [lia |].
  apply in_seq. lia.
Qed.

Lemma land_bit (d k : Z) :
  0 <= k -> (Z.land d (Z.shiftl 1 k) =? 0) = negb (Z.testbit d k).
Proof.
  intros Hk. rewrite Z.shiftl_mul_pow2, Z.mul_1_l by assumption.
  assert (E : Z.land d (2 ^ k) = if Z.testbit d k then 2 ^ k else 0).
  { apply Z.bits_inj'. intros n Hn. rewrite Z.land_spec, Z.pow2_bits_eqb by assumption.
    destruct (Z.eqb_spec k n) as [-> | Hne].
    - rewrite andb_true_r. destruct (Z.testbit d n) eqn:E.
      + rewrite Z.pow2_bits_true by assumption. reflexivity.
      + rewrite Z.bits_0. reflexivity.
    - rewrite andb_false_r. destruct (Z.testbit d k).
      + rewrite Z.pow2_bits_false by assumption. reflexivity.
      + rewrite Z.bits_0. reflexivity. }
  rewrite E. destruct (Z.testbit d k); simpl.
  - apply Z.eqb_neq. apply Z.pow_nonzero; lia.
  - reflexivity.
Qed.

Lemma testbit_u8 (v k : Z) : 0 <= k < 8 -> Z.testbit (u8 v) k = Z.testbit v k.
Proof. intros Hk. unfold u8. apply Z.mod_pow2_bits_low. lia. Qed.

Lemma on_bus_run {A} (m : M hist A) (state : dc_cal_state) (h : hist) :
  on_bus m (state, h) = (fst (m h), (state, snd (m h))).
Proof. unfold on_bus. simpl. destruct (m h). reflexivity. Qed.

Lemma bind_on_bus {A B} (m : M hist A) (k : A -> M cal_world B) state h :
  bind (on_bus m) k (state, h) =
  match m h with
  | (Ok a, h') => k a (state, h')
  | (Err e, h') => (Err e, (state, h'))
  end.
Proof. unfold bind, on_bus. simpl. destruct (m h) as [[a | e] h']; reflexivity. Qed.

Lemma bind_get_state {B} (k : dc_cal_state -> M cal_world B) w :
  bind get_state k w = k (fst w) w.
Proof. reflexivity. Qed.

Lemma bind_set_state {B} f (k : unit -> M cal_world B) w :
  bind (set_state f) k w = k tt (f (fst w), snd w).
Proof. reflexivity. Qed.

(* ------------------------------------------------------------------ *)
(** * Fail-fast driver code *)

Lemma clean_app ts1 ts2 : clean ts1 -> clean ts2 -> clean (ts1 ++ ts2).
Proof. unfold clean. intros. apply Forall_app. auto. Qed.

Lemma stops_at_app ts1 ts2 s : clean ts1 -> stops_at ts2 s -> stops_at (ts1 ++ ts2) s.
Proof.
  intros C (ts' & t & -> & C' & E). exists (ts1 ++ ts'), t.
  rewrite app_assoc. auto using clean_app.
Qed.

Lemma first_error_clean ts : clean ts -> first_error ts = 0.
Proof.
  induction 1 as [| t ts Ht _ IH]; simpl; [reflexivity |].
  rewrite Ht. simpl. exact IH.
Qed.

Lemma first_error_app_clean ts1 ts2 :
  clean ts1 -> first_error (ts1 ++ ts2) = first_error ts2.
Proof.
  induction 1 as [| t ts Ht _ IH]; simpl; [reflexivity |].
  rewrite Ht. simpl. exact IH.
Qed.

Lemma first_error_stops ts s : s <> 0 -> stops_at ts s -> first_error ts = s.
Proof.
  intros Hs (ts' & t & -> & C & E). rewrite first_error_app_clean by assumption.
  simpl. rewrite E. apply Z.eqb_neq in Hs. rewrite Hs. reflexivity.
Qed.

Lemma trace_unique (h : hist) ts ts' : rev ts ++ h = rev ts' ++ h -> ts = ts'.
Proof.
  intros E. apply app_inv_tail in E.
  rewrite <- (rev_involutive ts), E. apply rev_involutive.
Qed.

Lemma failfast_ret {A} (a : A) : failfast (ret a).
Proof. intros h. exists []. split; [reflexivity | constructor]. Qed.

Lemma failfast_unexpected {A} : failfast (@fail hist A BLADERF_ERR_UNEXPECTED).
Proof.
  intros h. exists []. split; [reflexivity |]. simpl.
  split; [discriminate | right; split; [constructor | reflexivity]].
Qed.

Lemma failfast_bind {A B} (m : M hist A) (k : A -> M hist B) :
  failfast m -> (forall a, failfast (k a)) -> failfast (bind m k).
Proof.
  intros Hm Hk h. destruct (Hm h) as (ts1 & E1 & P1).
  unfold bind. destruct (m h) as [[a | e] h1]; simpl in *.
  - destruct (Hk a h1) as (ts2 & E2 & P2). exists (ts1 ++ ts2). split.
    + rewrite E2, E1, rev_app_distr, app_assoc. reflexivity.
    + destruct (fst (k a h1)) as [b | e].
      * apply clean_app; assumption.
      * destruct P2 as [Hne [S | [C ->]]]; (split; [assumption |]).
        -- left. apply stops_at_app; assumption.
        -- right. split; [apply clean_app; assumption | reflexivity].
  - exists ts1. auto.
Qed.

Lemma failfast_read dev addr : failfast (LMS_READ dev addr).
Proof.
  intros h. unfold LMS_READ. destruct (lms_read dev h addr) as [st v].
  exists [Rd addr (u8 v) st]. split; [reflexivity |]. simpl.
  destruct (Z.eqb_spec st 0) as [-> | Hne].
  - repeat constructor.
  - split; [assumption |]. left. exists [], (Rd addr (u8 v) st).
    repeat split. constructor.
Qed.

Lemma failfast_write dev addr v : failfast (LMS_WRITE dev addr v).
Proof.
  intros h. unfold LMS_WRITE.
  exists [Wr addr (u8 v) (lms_write dev h addr (u8 v))]. split; [reflexivity |]. simpl.
  destruct (Z.eqb_spec (lms_write dev h addr (u8 v)) 0) as [E | Hne].
  - repeat constructor. exact E.
  - split; [assumption |]. left. exists [], (Wr addr (u8 v) (lms_write dev h addr (u8 v))).
    repeat split. constructor.
Qed.

Lemma failfast_if {A} (b : bool) (m1 m2 : M hist A) :
  failfast m1 -> failfast m2 -> failfast (if b then m1 else m2).
Proof. destruct b; auto. Qed.

Lemma failfast_ext {A} (m m' : M hist A) :
  (forall h, m h = m' h) -> failfast m' -> failfast m.
Proof. intros E F h. rewrite E. apply F. Qed.

Create HintDb failfast.

#[local] Hint Resolve failfast_ret failfast_unexpected failfast_read failfast_write : failfast.

Ltac ff :=
  repeat first
    [ solve [ auto with failfast nocore ]
    | apply failfast_bind; [ | intros ? ]
    | apply failfast_if
    | match goal with
      | |- failfast (match ?p with (_, _) => _ end) => destruct p
      | |- failfast (match ?p with Some _ => _ | None => _ end) => destruct p
      end ].

Lemma failfast_nonzero {A} (m : M hist A) : failfast m -> nonzero_err m.
Proof.
  intros F h e h' E. destruct (F h) as (ts & _ & P). rewrite E in P. simpl in P. tauto.
Qed.

Lemma nonzero_on_bus {A} (m : M hist A) : nonzero_err m -> nonzero_err (on_bus m).
Proof.
  intros N [s h] e w'. unfold on_bus. simpl.
  destruct (m h) as [[a | e'] h'] eqn:E; intros [= <- <-]. eapply N; eauto.
Qed.

Lemma keeps_on_bus {A} (m : M hist A) : keeps_state (on_bus m).
Proof. intros [s h]. unfold on_bus. simpl. destruct (m h). reflexivity. Qed.

Lemma nonzero_bind {S A B} (m : M S A) (k : A -> M S B) :
  nonzero_err m -> (forall a, nonzero_err (k a)) -> nonzero_err (bind m k).
Proof.
  intros Nm Nk w e w'. unfold bind.
  destruct (m w) as [[a | e'] w1] eqn:E.
  - apply Nk.
  - intros [= <- <-]. eapply Nm; eauto.
Qed.

Lemma keeps_bind {A B} (m : M cal_world A) (k : A -> M cal_world B) :
  keeps_state m -> (forall a, keeps_state (k a)) -> keeps_state (bind m k).
Proof.
  intros Km Kk w. unfold bind. specialize (Km w).
  destruct (m w) as [[a | e'] w1] eqn:E; simpl in *.
  - rewrite Kk. exact Km.
  - exact Km.
Qed.

Lemma nonzero_ret {S A} (a : A) : nonzero_err (@ret S A a).
Proof. intros w e w'. discriminate. Qed.

Lemma keeps_ret {A} (a : A) : keeps_state (ret a).
Proof. intros w. reflexivity. Qed.

Lemma nonzero_get_state : nonzero_err get_state.
Proof. intros w e w'. discriminate. Qed.

Lemma keeps_get_state : keeps_state get_state.
Proof. intros w. reflexivity. Qed.

Lemma nonzero_set_state f : nonzero_err (set_state f).
Proof. intros w e w'. discriminate. Qed.

(* ------------------------------------------------------------------ *)
(** * Bandwidth selection *)

Ltac leb_chain tac :=
  lazymatch goal with
  | |- context [if ?a <=? ?b then _ else _] =>
      destruct (Z.leb_spec a b); cbv iota; [ tac | leb_chain tac ]
  | _ => tac
  end.

Lemma In_uint_bandwidths (t : Z) :
  In t uint_bandwidths ->
  t = 28000000 \/ t = 20000000 \/ t = 14000000 \/ t = 12000000 \/
  t = 10000000 \/ t = 8750000 \/ t = 7000000 \/ t = 6000000 \/
  t = 5500000 \/ t = 5000000 \/ t = 3840000 \/ t = 3000000 \/
  t = 2750000 \/ t = 2500000 \/ t = 1750000 \/ t = 1500000.
Proof.
  unfold uint_bandwidths, kHz, MHz. simpl. intuition lia.
Qed.

Lemma bandwidth_selection_cases (req : Z) :
  let e := lms_bw2uint (lms_uint2bw req) in
  In e uint_bandwidths /\
  (req <= MHz 28 ->
     req <= e /\ forall t, In t uint_bandwidths -> req <= t -> e <= t) /\
  (MHz 28 < req -> e = MHz 28) /\
  lms_bw2uint (lms_uint2bw 8000000) = kHz 8750 /\
  lms_bw2uint (lms_uint2bw 30000000) = MHz 28.
Proof.
  cbv zeta.
  assert (E1 : lms_bw2uint (lms_uint2bw 8000000) = kHz 8750) by reflexivity.
  assert (E2 : lms_bw2uint (lms_uint2bw 30000000) = MHz 28) by reflexivity.
  revert E1 E2.
  generalize (lms_bw2uint (lms_uint2bw 8000000)) (lms_bw2uint (lms_uint2bw 30000000)).
  intros e1 e2 E1 E2.
  unfold lms_uint2bw.
  leb_chain ltac:(
    match goal with
    | |- context [lms_bw2uint ?b] =>
        let v := eval vm_compute in (lms_bw2uint b) in
        change (lms_bw2uint b) with v
    end;
    split; [ vm_compute; tauto | ];
    split; [ intros Hle; split;
              [ unfold kHz, MHz in *; lia
              | intros t Ht Hreq; apply In_uint_bandwidths in Ht;
                unfold kHz, MHz in *; lia ]
            | ];
    split; [ intros Hgt; unfold kHz, MHz in *; try lia; reflexivity | ];
    split; assumption).
Qed.

(** Claim C8 (bandwidth selection).  For every requested bandwidth the
    selected entry is one of the 16 table entries; whenever some entry
    is at least the request, the selected entry is at least the request
    and at most that entry, that is, it is the smallest entry greater
    than or equal to the request; when the request exceeds all entries
    the widest one, 28 MHz, is selected.  Requesting 8,000,000 Hz selects
    the 8.75 MHz entry and requesting 30,000,000 Hz the 28 MHz entry. *)
Theorem bandwidth_selection (req : Z) :
  let e := lms_bw2uint (lms_uint2bw req) in
  In e uint_bandwidths /\
  (forall t, In t uint_bandwidths -> req <= t -> req <= e /\ e <= t) /\
  ((forall t, In t uint_bandwidths -> t < req) -> e = MHz 28) /\
  lms_bw2uint (lms_uint2bw 8000000) = kHz 8750 /\
  lms_bw2uint (lms_uint2bw 30000000) = MHz 28.
Proof.
  destruct (bandwidth_selection_cases req) as (Hin & Hle & Hgt & E1 & E2).
  cbv zeta in *. split; [exact Hin |]. split; [| split; [| split; assumption]].
  - intros t Ht Hreq.
    assert (Hmax : t <= MHz 28) by (apply In_uint_bandwidths in Ht; unfold MHz; lia).
    destruct (Hle ltac:(lia)) as [A B]. split; [exact A | exact (B t Ht Hreq)].
  - intros Hall. apply Hgt. apply Hall. simpl. tauto.
Qed.

Lemma bandwidth_selection_witness :
  In (kHz 8750) uint_bandwidths /\ 8000000 <= kHz 8750 /\
  8000000 <= lms_bw2uint (lms_uint2bw 8000000) /\
  lms_bw2uint (lms_uint2bw 8000000) <= kHz 8750.
Proof.
  assert (I : In (kHz 8750) uint_bandwidths) by (simpl; tauto).
  assert (J : 8000000 <= kHz 8750) by (unfold kHz; lia).
  split; [exact I |]. split; [exact J |].
  exact (proj1 (proj2 (bandwidth_selection 8000000)) _ I J).
Defined.

(* ------------------------------------------------------------------ *)
(** * The PLL dividers *)

Lemma high_bits_clear (k b n : Z) :
  0 <= k <= n -> 0 <= b < 2 ^ k -> Z.testbit b n = false.
Proof.
  intros Hk Hb. replace b with (b mod 2 ^ k) by (apply Z.mod_small; exact Hb).
  apply Z.mod_pow2_bits_high. exact Hk.
Qed.

Lemma lor_add (k a b : Z) :
  0 <= k -> 0 <= b < 2 ^ k -> Z.lor (a * 2 ^ k) b = a * 2 ^ k + b.
Proof.
  intros Hk Hb.
  assert (D : Z.land (a * 2 ^ k) b = 0).
  { apply Z.bits_inj'. intros n Hn.
    rewrite Z.land_spec, Z.bits_0.
    destruct (Z.lt_ge_cases n k) as [Hlt | Hge].
    - rewrite Z.mul_pow2_bits_low by lia. reflexivity.
    - rewrite (high_bits_clear k b n) by lia. apply andb_false_r. }
  rewrite <- Z.lxor_lor by exact D.
  symmetry. apply Z.add_nocarry_lxor. exact D.
Qed.

Lemma land_bit7 (d : Z) : Z.shiftr (Z.land d 0x80) 7 = (d / 2 ^ 7) mod 2.
Proof.
  rewrite Z.shiftr_land. change (Z.shiftr 0x80 7) with (Z.ones 1).
  rewrite Z.land_ones by lia. rewrite Z.shiftr_div_pow2 by lia. reflexivity.
Qed.

Lemma pack_divider_eq (nint nfrac : Z) :
  0 <= nint < 2 ^ 9 -> 0 <= nfrac < 2 ^ 23 ->
  pack_divider nint nfrac =
    (nint / 2, (nint mod 2) * 2 ^ 7 + nfrac / 2 ^ 16,
     (nfrac / 2 ^ 8) mod 2 ^ 8, nfrac mod 2 ^ 8).
Proof.
  intros Hi Hf. unfold pack_divider, u8.
  change 0x7f with (Z.ones 7). change 0xff with (Z.ones 8).
  change 1 with (Z.ones 1) at 2.
  rewrite !Z.land_ones, !Z.shiftr_div_pow2, !Z.shiftl_mul_pow2 by lia.
  change (2 ^ 1) with 2.
  assert (0 <= nint / 2 < 2 ^ 8) by (split; [apply Z.div_pos | apply Z.div_lt_upper_bound]; lia).
  assert (0 <= nfrac / 2 ^ 16 < 2 ^ 7) by (split; [apply Z.div_pos | apply Z.div_lt_upper_bound]; lia).
  assert (0 <= nint mod 2 < 2) by (apply Z.mod_pos_bound; lia).
  rewrite (Z.mod_small (nfrac / 2 ^ 16) (2 ^ 7)) by lia.
  rewrite lor_add by lia.
  rewrite (Z.mod_small (nint / 2)) by lia.
  rewrite (Z.mod_small (_ + _) (2 ^ 8)) by lia.
  rewrite (Z.mod_small (_ mod 2 ^ 8) (2 ^ 8)) by (apply Z.mod_pos_bound; lia).
  rewrite (Z.mod_small (nfrac mod 2 ^ 8) (2 ^ 8)) by (apply Z.mod_pos_bound; lia).
  reflexivity.
Qed.

(** Claim C10 (divider packing).  For every [nint < 2^9] and
    [nfrac < 2^23], packing them into the four divider registers as
    [lms_set_frequency] does and decoding those registers as
    [lms_get_frequency] does gives [nint] and [nfrac] back. *)
Theorem divider_roundtrip (nint nfrac : Z) :
  0 <= nint < 2 ^ 9 -> 0 <= nfrac < 2 ^ 23 ->
  unpack_divider (pack_divider nint nfrac) = (nint, nfrac).
Proof.
  intros Hi Hf. rewrite pack_divider_eq by assumption.
  unfold unpack_divider, u16, u32.
  assert (Hq : 0 <= nint / 2 < 2 ^ 8) by (split; [apply Z.div_pos | apply Z.div_lt_upper_bound]; lia).
  assert (Ha : 0 <= nfrac / 2 ^ 16 < 2 ^ 7) by (split; [apply Z.div_pos | apply Z.div_lt_upper_bound]; lia).
  assert (Hb : 0 <= nint mod 2 < 2) by (apply Z.mod_pos_bound; lia).
  assert (Hc : 0 <= (nfrac / 2 ^ 8) mod 2 ^ 8 < 2 ^ 8) by (apply Z.mod_pos_bound; lia).
  assert (Hd : 0 <= nfrac mod 2 ^ 8 < 2 ^ 8) by (apply Z.mod_pos_bound; lia).
  rewrite land_bit7. change 0x7f with (Z.ones 7).
  rewrite Z.land_ones, !Z.shiftl_mul_pow2 by lia.
  assert (E1 : (nint mod 2 * 2 ^ 7 + nfrac / 2 ^ 16) / 2 ^ 7 = nint mod 2).
  { rewrite Z.add_comm, Z.div_add by lia. rewrite Z.div_small by lia. lia. }
  assert (E2 : (nint mod 2 * 2 ^ 7 + nfrac / 2 ^ 16) mod 2 ^ 7 = nfrac / 2 ^ 16).
  { rewrite Z.add_comm, Z.mod_add by lia. apply Z.mod_small; lia. }
  rewrite E1, E2. rewrite (Z.mod_small (nint mod 2) 2) by lia.
  f_equal.
  - rewrite (Z.mod_small (nint / 2 * 2 ^ 1)) by lia.
    rewrite lor_add by (change (2 ^ 1) with 2; lia).
    change (2 ^ 1) with 2.
    rewrite Z.mod_small by lia.
    pose proof (Z.div_mod nint 2). lia.
  - rewrite (Z.mod_small (nfrac / 2 ^ 16 * 2 ^ 16)) by lia.
    rewrite (Z.mod_small (_ * 2 ^ 8) (2 ^ 32)) by lia.
    rewrite lor_add by lia.
    rewrite (Z.mod_small (_ + _) (2 ^ 32)) by lia.
    replace (nfrac / 2 ^ 16 * 2 ^ 16 + (nfrac / 2 ^ 8) mod 2 ^ 8 * 2 ^ 8)
      with ((nfrac / 2 ^ 16 * 2 ^ 8 + (nfrac / 2 ^ 8) mod 2 ^ 8) * 2 ^ 8) by lia.
    rewrite lor_add by lia.
    rewrite Z.mod_small by lia.
    pose proof (Z.div_mod nfrac (2 ^ 8)).
    pose proof (Z.div_mod (nfrac / 2 ^ 8) (2 ^ 8)).
    replace (nfrac / 2 ^ 16) with (nfrac / 2 ^ 8 / 2 ^ 8) by (rewrite Z.div_div by lia; reflexivity).
    lia.
Qed.

Lemma divider_roundtrip_witness :
  0 <= 125 < 2 ^ 9 /\ 0 <= 5242880 < 2 ^ 23 /\
  unpack_divider (pack_divider 125 5242880) = (125, 5242880).
Proof.
  assert (H1 : 0 <= 125 < 2 ^ 9) by lia.
  assert (H2 : 0 <= 5242880 < 2 ^ 23) by lia.
  split; [exact H1 |]. split; [exact H2 |].
  exact (divider_roundtrip 125 5242880 H1 H2).
Defined.

Lemma pll_arith (X f : Z) :
  X = 2 \/ X = 4 \/ X = 8 \/ X = 16 ->
  0 <= f -> X * f <= 7600000000 ->
  0 <= nint_of X f < 198 /\
  0 <= nfrac_of X f <= 2 ^ 23 /\
  Z.abs (hz_of X (nint_of X f) (nfrac_of X f) - f) <= 1.
Proof.
  intros HX Hf Hb. unfold hz_of, nfrac_of, nint_of, ref_clock.
  change (2 ^ 23) with 8388608.
  destruct HX as [-> | [-> | [-> | ->]]];
    Z.to_euclidean_division_equations; lia.
Qed.

Lemma find_freqsel_first (bs : list freq_range) (f dflt : Z) :
  (exists b, In b bs /\ low b <= f <= high b) ->
  exists pre b post,
    bs = pre ++ b :: post /\ low b <= f <= high b /\
    (forall c, In c pre -> ~ (low c <= f <= high c)) /\
    find_freqsel bs f dflt = value b.
Proof.
  induction bs as [| b0 bs IH]; intros [b [Hin Hb]].
  - contradiction.
  - simpl. destruct (Z.geb_spec f (low b0)) as [Hlo | Hlo];
      [ destruct (Z.leb_spec f (high b0)) as [Hhi | Hhi] | ]; simpl.
    + exists [], b0, bs. repeat split; try lia. intros c [].
    + destruct Hin as [-> | Hin]; [lia |].
      destruct IH as (pre & b1 & post & -> & Hb1 & Hpre & Hv); [eauto |].
      exists (b0 :: pre), b1, post. repeat split; try lia; try assumption.
      intros c [<- | Hc]; [lia | auto].
    + destruct Hin as [-> | Hin]; [lia |].
      destruct IH as (pre & b1 & post & -> & Hb1 & Hpre & Hv); [eauto |].
      exists (b0 :: pre), b1, post. repeat split; try lia; try assumption.
      intros c [<- | Hc]; [lia | auto].
Qed.

Ltac pick_in := (left; reflexivity) + (right; pick_in).

Lemma band_covers (f : Z) :
  BLADERF_FREQUENCY_MIN <= f <= BLADERF_FREQUENCY_MAX ->
  exists b, In b bands /\ low b <= f <= high b.
Proof.
  unfold BLADERF_FREQUENCY_MIN, BLADERF_FREQUENCY_MAX. intros Hf.
  assert (C : f <= 285625000 \/ 285625000 <= f <= 336875000 \/
              336875000 <= f <= 405000000 \/ 405000000 <= f <= 465000000 \/
              465000000 <= f <= 571250000 \/ 571250000 <= f <= 673750000 \/
              673750000 <= f <= 810000000 \/ 810000000 <= f <= 930000000 \/
              930000000 <= f <= 1142500000 \/ 1142500000 <= f <= 1347500000 \/
              1347500000 <= f <= 1620000000 \/ 1620000000 <= f <= 1860000000 \/
              1860000000 <= f <= 2285000000 \/ 2285000000 <= f <= 2695000000 \/
              2695000000 <= f <= 3240000000 \/ 3240000000 <= f) by lia.
  unfold bands.
  repeat (destruct C as [C | C];
          [ eexists; split; [ simpl; pick_in | simpl; unfold BLADERF_FREQUENCY_MIN, BLADERF_FREQUENCY_MAX; lia ] | ]).
  eexists; split; [ simpl; pick_in | simpl; unfold BLADERF_FREQUENCY_MIN, BLADERF_FREQUENCY_MAX; lia ].
Qed.

(** Every band of the table divides the VCO by 2, 4, 8 or 16, and keeps
    the VCO frequency below 7.6 GHz. *)
Lemma band_vco (b : freq_range) (f : Z) :
  In b bands -> low b <= f <= high b ->
  let X := Z.shiftl 1 (Z.land (value b) 7 - 3) in
  (X = 2 \/ X = 4 \/ X = 8 \/ X = 16) /\ X * f <= 7600000000.
Proof.
  unfold bands. intros Hin Hf. cbv zeta.
  simpl in Hin.
  repeat (destruct Hin as [<- | Hin];
          [ cbn [value low high] in *; unfold BLADERF_FREQUENCY_MAX in *;
            match goal with
            | |- context [Z.shiftl 1 ?e] =>
                let v := eval vm_compute in (Z.shiftl 1 e) in
                change (Z.shiftl 1 e) with v
            end; split; [ tauto | lia ] | ]).
  contradiction.
Qed.

Lemma u_small (k x : Z) : 0 <= x < 2 ^ k -> x mod 2 ^ k = x.
Proof. apply Z.mod_small. Qed.

Lemma descriptor_eq (X fs f : Z) :
  X = 2 \/ X = 4 \/ X = 8 \/ X = 16 ->
  0 <= f -> X * f <= 7600000000 ->
  let vco_x := u64 X in
  let temp := u64 (vco_x * f) / ref_clock in
  let nint := u16 temp in
  let temp := u64 (Z.shiftl 1 23 * u64 (u64 (vco_x * f) - u64 (nint * ref_clock))) in
  let temp := u64 (temp + ref_clock / 2) / ref_clock in
  let nfrac := u32 temp in
  mk_lms_freq (u8 vco_x) nint nfrac fs (u32 ref_clock)
  = mk_lms_freq X (nint_of X f) (nfrac_of X f) fs ref_clock.
Proof.
  intros HX Hf Hb.
  pose proof (pll_arith X f HX Hf Hb) as (Hn & Hfr & _).
  cbv zeta. unfold u8, u16, u32, u64.
  assert (HX' : 0 < X <= 16) by lia.
  rewrite (u_small 64 X) by lia.
  rewrite (u_small 64 (X * f)) by lia.
  fold (nint_of X f).
  rewrite (u_small 16 (nint_of X f)) by lia.
  assert (Hr : 0 <= X * f - nint_of X f * ref_clock < ref_clock).
  { unfold nint_of, ref_clock. Z.to_euclidean_division_equations; lia. }
  rewrite (u_small 64 (nint_of X f * ref_clock)) by (unfold ref_clock in *; lia).
  rewrite (u_small 64 (X * f - _)) by (unfold ref_clock in *; lia).
  change (Z.shiftl 1 23) with (2 ^ 23).
  rewrite (u_small 64 (2 ^ 23 * _)) by (unfold ref_clock in *; lia).
  change (ref_clock / 2) with 19200000.
  rewrite (u_small 64 (2 ^ 23 * _ + _)) by (unfold ref_clock in *; lia).
  change 19200000 with (ref_clock / 2).
  fold (nfrac_of X f).
  rewrite (u_small 32 (nfrac_of X f)) by lia.
  rewrite (u_small 8 X) by lia.
  rewrite (u_small 32 ref_clock) by (unfold ref_clock; lia).
  reflexivity.
Qed.

Lemma to_hz_eq (X ni nf fs : Z) :
  X = 2 \/ X = 4 \/ X = 8 \/ X = 16 ->
  0 <= ni < 198 -> 0 <= nf <= 2 ^ 23 ->
  lms_frequency_to_hz (mk_lms_freq X ni nf fs ref_clock)
  = u32 (hz_of X ni nf).
Proof.
  intros HX Hn Hf. unfold lms_frequency_to_hz, hz_of. cbn [x nint nfrac reference].
  unfold u64, u32. rewrite !Z.shiftl_mul_pow2, Z.shiftr_div_pow2 by lia.
  assert (HX' : 0 < X <= 16) by lia.
  rewrite (u_small 64 (ni * 2 ^ 23)) by lia.
  rewrite (u_small 64 (ni * 2 ^ 23 + nf)) by lia.
  rewrite (u_small 32 (X * 2 ^ 23)) by lia.
  rewrite (u_small 64 (ref_clock * _)) by (unfold ref_clock; lia).
  change (2 ^ 1) with 2.
  assert (0 <= X * 2 ^ 23 / 2 <= 2 ^ 27) by (Z.to_euclidean_division_equations; lia).
  rewrite (u_small 64 (ref_clock * _ + _)) by (unfold ref_clock; lia).
  reflexivity.
Qed.

(** Claim C3 (frequency round trip).  For every frequency [f] of the
    supported range, the descriptor computed by [lms_set_frequency] has
    its [freqsel] from the first band, in table order, that contains
    [f], [x = 2^((freqsel & 7) - 3)], [nint = floor (x f / reference)]
    and [nfrac] the quotient of [2^23 (x f - nint reference)], biased by
    half the reference, by the reference; and converting it back with
    [lms_frequency_to_hz] gives a value that differs from [f] by at most
    [x reference / 2^23]. *)
Theorem frequency_roundtrip (f : Z) :
  BLADERF_FREQUENCY_MIN <= f <= BLADERF_FREQUENCY_MAX ->
  let d := hz_to_descriptor f in
  (exists pre b post,
      bands = pre ++ b :: post /\ low b <= f <= high b /\
      (forall c, In c pre -> ~ (low c <= f <= high c)) /\
      freqsel d = value b) /\
  x d = 2 ^ (Z.land (freqsel d) 7 - 3) /\
  nint d = x d * f / reference d /\
  nfrac d = (2 ^ 23 * (x d * f - nint d * reference d) + reference d / 2) / reference d /\
  reference d = 38400000 /\
  Z.abs (lms_frequency_to_hz d - f) * 2 ^ 23 <= x d * reference d.
Proof.
  intros Hf.
  destruct (find_freqsel_first bands f (value (hd (FREQ_RANGE 0 0 0) bands)) (band_covers f Hf))
    as (pre & b & post & Hbands & Hb & Hpre & Hsel).
  assert (Hin : In b bands) by (rewrite Hbands; apply in_or_app; right; left; reflexivity).
  pose proof (band_vco b f Hin Hb) as [HX HXf]. cbv zeta in HX, HXf.
  assert (Hf0 : 0 <= f) by (unfold BLADERF_FREQUENCY_MIN in Hf; lia).
  pose proof (pll_arith _ f HX Hf0 HXf) as (Hn & Hfr & Herr).
  assert (Hd : hz_to_descriptor f =
               mk_lms_freq (Z.shiftl 1 (Z.land (value b) 7 - 3))
                 (nint_of (Z.shiftl 1 (Z.land (value b) 7 - 3)) f)
                 (nfrac_of (Z.shiftl 1 (Z.land (value b) 7 - 3)) f)
                 (value b) ref_clock).
  { unfold hz_to_descriptor, clamp_frequency.
    replace (f <? BLADERF_FREQUENCY_MIN) with false by (symmetry; apply Z.ltb_ge; lia).
    replace (f >? BLADERF_FREQUENCY_MAX) with false
      by (symmetry; rewrite Z.gtb_ltb; apply Z.ltb_ge; lia).
    rewrite Hsel.
    rewrite <- (descriptor_eq _ (value b) f HX Hf0 HXf).
    reflexivity. }
  cbv zeta. rewrite Hd. cbn [x nint nfrac freqsel reference].
  rewrite to_hz_eq by assumption.
  set (X := Z.shiftl 1 (Z.land (value b) 7 - 3)) in *.
  assert (HX2 : X = 2 ^ (Z.land (value b) 7 - 3)).
  { subst X. rewrite Z.shiftl_mul_pow2; [lia |].
    revert Hin. clear. unfold bands. simpl.
    intros Hin. repeat (destruct Hin as [<- | Hin]; [ vm_compute; discriminate | ]).
    contradiction. }
  split; [ exists pre, b, post; auto | ].
  split; [ exact HX2 | ].
  split; [ reflexivity | ].
  split; [ reflexivity | ].
  split; [ reflexivity | ].
  unfold u32. rewrite u_small.
  - unfold ref_clock. lia.
  - unfold BLADERF_FREQUENCY_MIN, BLADERF_FREQUENCY_MAX in Hf. lia.
Qed.

Lemma frequency_roundtrip_witness :
  BLADERF_FREQUENCY_MIN <= 2412000000 <= BLADERF_FREQUENCY_MAX /\
  Z.abs (lms_frequency_to_hz (hz_to_descriptor 2412000000) - 2412000000) * 2 ^ 23
    <= x (hz_to_descriptor 2412000000) * reference (hz_to_descriptor 2412000000).
Proof.
  assert (H : BLADERF_FREQUENCY_MIN <= 2412000000 <= BLADERF_FREQUENCY_MAX)
    by (unfold BLADERF_FREQUENCY_MIN, BLADERF_FREQUENCY_MAX; lia).
  split; [exact H |].
  exact (proj2 (proj2 (proj2 (proj2 (proj2 (frequency_roundtrip 2412000000 H)))))).
Defined.

(* ------------------------------------------------------------------ *)
(** * LPF mode *)

(** Claim C2 (LPF mode decoding), as amended.  For every module, when
    both register reads succeed, [lms_lpf_get_mode] returns the mode
    Normal, Bypassed or Disabled for the three valid combinations of the
    enable bit (bit 1 of the first register) and the bypass bit (bit 6
    of the second), and for "enabled and bypassed" it returns the error
    [BLADERF_ERR_INVAL] (InvalidArgument), not UnexpectedState. *)
Theorem lpf_get_mode_decoding dev module h vl vh :
  lms_read dev h (lpf_reg module) = (0, vl) ->
  lms_read dev (Rd (lpf_reg module) (u8 vl) 0 :: h) (lpf_reg module + 1) = (0, vh) ->
  fst (lms_lpf_get_mode dev module h) =
    match Z.testbit vl 1, Z.testbit vh 6 with
    | true, false => Ok BLADERF_LPF_NORMAL
    | false, true => Ok BLADERF_LPF_BYPASSED
    | false, false => Ok BLADERF_LPF_DISABLED
    | true, true => Err BLADERF_ERR_INVAL
    end.
Proof.
  intros Hl Hh. unfold lms_lpf_get_mode.
  rewrite (bind_ok _ _ _ _ _ (LMS_READ_ok _ _ _ _ Hl)).
  rewrite (bind_ok _ _ _ _ _ (LMS_READ_ok _ _ _ _ Hh)).
  rewrite !land_bit by lia. rewrite !testbit_u8 by lia.
  destruct (Z.testbit vl 1), (Z.testbit vh 6); reflexivity.
Qed.

Lemma lpf_get_mode_decoding_witness :
  lms_read lpf_enabled_and_bypassed [] (lpf_reg BLADERF_MODULE_RX) = (0, 0x02) /\
  lms_read lpf_enabled_and_bypassed
    [Rd (lpf_reg BLADERF_MODULE_RX) (u8 0x02) 0] (lpf_reg BLADERF_MODULE_RX + 1)
    = (0, 0x40) /\
  fst (lms_lpf_get_mode lpf_enabled_and_bypassed BLADERF_MODULE_RX [])
    = Err BLADERF_ERR_INVAL.
Proof.
  split; [reflexivity |]. split; [reflexivity |].
  exact (lpf_get_mode_decoding lpf_enabled_and_bypassed BLADERF_MODULE_RX []
           0x02 0x40 eq_refl eq_refl).
Defined.

Lemma lpf_enabled_and_bypassed_is_inval :
  fst (lms_lpf_get_mode lpf_enabled_and_bypassed BLADERF_MODULE_RX [])
    = Err BLADERF_ERR_INVAL /\
  fst (lms_lpf_get_mode lpf_enabled_and_bypassed BLADERF_MODULE_RX [])
    <> Err BLADERF_ERR_UNEXPECTED.
Proof. split; [ reflexivity | vm_compute; discriminate ]. Qed.

(* ------------------------------------------------------------------ *)
(** * Gain stages *)

Lemma rxvga1_clamp_eq g :
  rxvga1_clamp g = clamp BLADERF_RXVGA1_GAIN_MIN BLADERF_RXVGA1_GAIN_MAX g.
Proof.
  unfold rxvga1_clamp, clamp, BLADERF_RXVGA1_GAIN_MIN, BLADERF_RXVGA1_GAIN_MAX.
  destruct (Z.gtb_spec g 30), (Z.ltb_spec g 5); lia.
Qed.

Lemma rxvga2_clamp_eq g :
  rxvga2_clamp g = clamp BLADERF_RXVGA2_GAIN_MIN BLADERF_RXVGA2_GAIN_MAX g.
Proof.
  unfold rxvga2_clamp, clamp, BLADERF_RXVGA2_GAIN_MIN, BLADERF_RXVGA2_GAIN_MAX.
  destruct (Z.gtb_spec g 30), (Z.ltb_spec g 0); lia.
Qed.

Lemma s8_small v : -128 <= v < 128 -> s8 v = v.
Proof. intros H. unfold s8. rewrite Z.mod_small; lia. Qed.

Lemma txvga1_clamp_eq g :
  txvga1_clamp g = clamp BLADERF_TXVGA1_GAIN_MIN BLADERF_TXVGA1_GAIN_MAX g.
Proof.
  unfold txvga1_clamp, clamp, BLADERF_TXVGA1_GAIN_MIN, BLADERF_TXVGA1_GAIN_MAX.
  destruct (Z.gtb_spec g (-4)), (Z.ltb_spec g (-35)); rewrite s8_small; lia.
Qed.

Lemma txvga2_clamp_eq g :
  txvga2_clamp g = clamp BLADERF_TXVGA2_GAIN_MIN BLADERF_TXVGA2_GAIN_MAX g.
Proof.
  unfold txvga2_clamp, clamp, BLADERF_TXVGA2_GAIN_MIN, BLADERF_TXVGA2_GAIN_MAX.
  destruct (Z.gtb_spec g 25), (Z.ltb_spec g 0); rewrite s8_small; lia.
Qed.

Lemma txvga2_field_all :
  all_u8 (fun data => forallb (fun g => txvga2_field_check data g)
                        (map Z.of_nat (seq 0 26))) = true.
Proof. vm_compute. reflexivity. Qed.

Lemma txvga2_field_spec data g :
  0 <= data < 256 -> 0 <= g <= 25 ->
  Z.land (Z.shiftr (txvga2_field data g) 3) 0x1f = g /\
  Z.land (txvga2_field data g) 0x7 = Z.land data 0x7.
Proof.
  intros Hd Hg.
  pose proof (all_u8_spec _ txvga2_field_all data Hd) as C. cbv beta in C.
  rewrite forallb_forall in C.
  assert (Hin : In g (map Z.of_nat (seq 0 26))).
  { apply in_map_iff. exists (Z.to_nat g). split; [lia | apply in_seq; lia]. }
  specialize (C g Hin). unfold txvga2_field_check in C.
  apply andb_prop in C as [C1 C2]. split; apply Z.eqb_eq; assumption.
Qed.

Lemma clamp_range lo hi v : lo <= hi -> lo <= clamp lo hi v <= hi.
Proof. unfold clamp. lia. Qed.

(** Claim C9 (gain clamping), as amended.  For RXVGA1, RXVGA2, TXVGA1
    and TXVGA2 and every requested gain, the set operation puts on the
    bus the code of the request clamped into the stage's range (the
    table entry, a third, the offset by 35, the 5-bit field next to the
    untouched low bits); it fails only when a bus transaction fails,
    with the status of that transaction; and what it returns is that
    status alone: the effective gain is not returned. *)
Theorem gain_set_clamps dev h (gain : Z) :
  (* RXVGA1 *)
  (let g := clamp BLADERF_RXVGA1_GAIN_MIN BLADERF_RXVGA1_GAIN_MAX gain in
   let code := index rxvga1_lut_val2code g in
   let st := lms_write dev h 0x76 code in
   lms_rxvga1_set_gain dev gain h
   = (if st =? 0 then Ok tt else Err st, Wr 0x76 code st :: h)) /\
  (* RXVGA2 *)
  (let g := clamp BLADERF_RXVGA2_GAIN_MIN BLADERF_RXVGA2_GAIN_MAX gain in
   let code := g / 3 in
   let st := lms_write dev h 0x65 code in
   lms_rxvga2_set_gain dev gain h
   = (if st =? 0 then Ok tt else Err st, Wr 0x65 code st :: h)) /\
  (* TXVGA1 *)
  (let g := clamp BLADERF_TXVGA1_GAIN_MIN BLADERF_TXVGA1_GAIN_MAX gain in
   let code := g + 35 in
   let st := lms_write dev h 0x41 code in
   lms_txvga1_set_gain dev gain h
   = (if st =? 0 then Ok tt else Err st, Wr 0x41 code st :: h)) /\
  (* TXVGA2 *)
  (let g := clamp BLADERF_TXVGA2_GAIN_MIN BLADERF_TXVGA2_GAIN_MAX gain in
   let '(rst, v) := lms_read dev h 0x45 in
   let h1 := Rd 0x45 (u8 v) rst :: h in
   let code := txvga2_field (u8 v) g in
   let st := lms_write dev h1 0x45 code in
   lms_txvga2_set_gain dev gain h
   = (if rst =? 0 then (if st =? 0 then Ok tt else Err st, Wr 0x45 code st :: h1)
      else (Err rst, h1)) /\
   Z.land (Z.shiftr code 3) 0x1f = g /\ Z.land code 0x7 = Z.land (u8 v) 0x7).
Proof.
  repeat apply conj.
  - cbv zeta. unfold lms_rxvga1_set_gain, LMS_WRITE. rewrite rxvga1_clamp_eq.
    pose proof (clamp_range BLADERF_RXVGA1_GAIN_MIN BLADERF_RXVGA1_GAIN_MAX gain) as R.
    set (g := clamp _ _ gain) in *.
    assert (E : u8 (index rxvga1_lut_val2code g) = index rxvga1_lut_val2code g).
    { unfold BLADERF_RXVGA1_GAIN_MIN, BLADERF_RXVGA1_GAIN_MAX in R.
      assert (C : forallb (fun g => u8 (index rxvga1_lut_val2code g) =? index rxvga1_lut_val2code g)
                    (map Z.of_nat (seq 0 31)) = true) by (vm_compute; reflexivity).
      rewrite forallb_forall in C. apply Z.eqb_eq, C.
      apply in_map_iff. exists (Z.to_nat g). split; [lia | apply in_seq; lia]. }
    rewrite E. reflexivity.
  - cbv zeta. unfold lms_rxvga2_set_gain, LMS_WRITE. rewrite rxvga2_clamp_eq.
    pose proof (clamp_range BLADERF_RXVGA2_GAIN_MIN BLADERF_RXVGA2_GAIN_MAX gain) as R.
    set (g := clamp _ _ gain) in *.
    unfold BLADERF_RXVGA2_GAIN_MIN, BLADERF_RXVGA2_GAIN_MAX in R.
    rewrite Z.quot_div_nonneg by lia.
    rewrite u8_small by (Z.to_euclidean_division_equations; lia).
    reflexivity.
  - cbv zeta. unfold lms_txvga1_set_gain, LMS_WRITE. rewrite txvga1_clamp_eq.
    pose proof (clamp_range BLADERF_TXVGA1_GAIN_MIN BLADERF_TXVGA1_GAIN_MAX gain) as R.
    set (g := clamp _ _ gain) in *.
    unfold BLADERF_TXVGA1_GAIN_MIN, BLADERF_TXVGA1_GAIN_MAX in R.
    rewrite s8_small by lia. rewrite u8_small by lia. reflexivity.
  - cbv zeta.
    pose proof (clamp_range BLADERF_TXVGA2_GAIN_MIN BLADERF_TXVGA2_GAIN_MAX gain) as R.
    unfold lms_txvga2_set_gain, bind, LMS_READ, LMS_WRITE. rewrite txvga2_clamp_eq.
    set (g := clamp _ _ gain) in *.
    unfold BLADERF_TXVGA2_GAIN_MIN, BLADERF_TXVGA2_GAIN_MAX in R.
    destruct (lms_read dev h 69) as [rst v].
    assert (E : u8 (txvga2_field (u8 v) g) = txvga2_field (u8 v) g).
    { apply u8_small. unfold txvga2_field. apply u8_range. }
    split; [ | apply txvga2_field_spec; [apply u8_range | lia] ].
    destruct (rst =? 0); [ | reflexivity ].
    fold (txvga2_field (u8 v) g). rewrite E. reflexivity.
Qed.

Lemma set_gain_returns_status_only :
  status_of (fst (lms_rxvga1_set_gain (regfile (fun _ => 0)) 100 [])) = 0 /\
  clamp BLADERF_RXVGA1_GAIN_MIN BLADERF_RXVGA1_GAIN_MAX 100 = 30 /\
  lms_rxvga1_set_gain (regfile (fun _ => 0)) 100 []
    = lms_rxvga1_set_gain (regfile (fun _ => 0)) 30 [] /\
  fst (lms_lna_set_gain (regfile (fun _ => 0)) BLADERF_LNA_GAIN_UNKNOWN [])
    = Err BLADERF_ERR_INVAL.
Proof. repeat split. Qed.

(* ------------------------------------------------------------------ *)
(** * Loopback *)

Lemma loopback_eqb_eq a b : loopback_eqb a b = true -> a = b.
Proof. destruct a, b; simpl; intros H; congruence. Qed.

Lemma loopback_eqb_refl a : loopback_eqb a a = true.
Proof. destruct a; reflexivity. Qed.

Lemma roundtrip_all :
  forallb (fun mode => all_u8 (fun r46 => all_u8 (fun r08 => roundtrip_check mode r46 r08)))
    [ BLADERF_LB_BB_TXLPF_RXVGA2; BLADERF_LB_BB_TXVGA1_RXVGA2;
      BLADERF_LB_BB_TXLPF_RXLPF; BLADERF_LB_BB_TXVGA1_RXLPF;
      BLADERF_LB_RF_LNA1; BLADERF_LB_RF_LNA2; BLADERF_LB_RF_LNA3;
      BLADERF_LB_NONE ] = true.
Proof. vm_compute. reflexivity. Qed.

Lemma loopback_regs_decode (mode : bladerf_loopback) (r46 r08 : Z) :
  mode <> BLADERF_LB_FIRMWARE -> 0 <= r46 < 256 -> 0 <= r08 < 256 ->
  exists v46 v08,
    loopback_path_regs mode r46 r08 = Some (v46, v08) /\
    u8 v46 = v46 /\ u8 v08 = v08 /\
    loopback_decode v08 v46 = mode.
Proof.
  intros Hm H46 H08.
  pose proof roundtrip_all as H. rewrite forallb_forall in H.
  assert (Hin : In mode [ BLADERF_LB_BB_TXLPF_RXVGA2; BLADERF_LB_BB_TXVGA1_RXVGA2;
      BLADERF_LB_BB_TXLPF_RXLPF; BLADERF_LB_BB_TXVGA1_RXLPF;
      BLADERF_LB_RF_LNA1; BLADERF_LB_RF_LNA2; BLADERF_LB_RF_LNA3;
      BLADERF_LB_NONE ]) by (destruct mode; simpl; tauto).
  specialize (H mode Hin).
  pose proof (all_u8_spec _ (all_u8_spec _ H r46 H46) r08 H08) as C.
  unfold roundtrip_check in C.
  destruct (loopback_path_regs mode r46 r08) as [[v46 v08] |]; [| discriminate].
  apply andb_prop in C as [C C3]. apply andb_prop in C as [C1 C2].
  exists v46, v08. repeat split.
  - apply Z.eqb_eq. exact C2.
  - apply Z.eqb_eq. exact C3.
  - apply loopback_eqb_eq. exact C1.
Qed.

Lemma loopback_roundtrip dev init mode h h1 :
  mode <> BLADERF_LB_FIRMWARE ->
  memory_at dev init 0x08 -> memory_at dev init 0x46 ->
  loopback_path dev mode h = (Ok tt, h1) ->
  fst (lms_get_loopback_mode dev h1) = Ok mode.
Proof.
  intros Hm M08 M46 Hset.
  unfold loopback_path in Hset.
  rewrite (bind_ok _ _ _ _ _ (LMS_READ_ok _ _ _ _ (M46 h))) in Hset.
  rewrite (bind_ok _ _ _ _ _ (LMS_READ_ok _ _ _ _ (M08 _))) in Hset.
  set (r46 := u8 (last_write init h 0x46)) in *.
  set (r08 := u8 (last_write init _ 0x08)) in *.
  destruct (loopback_regs_decode mode r46 r08 Hm (u8_range _) (u8_range _))
    as (v46 & v08 & Hregs & E46 & E08 & Hdec).
  unfold loopback_path_regs in Hregs. rewrite Hregs in Hset.
  unfold bind, LMS_WRITE in Hset. rewrite E46, E08 in Hset.
  destruct (lms_write dev _ 0x46 v46 =? 0); [| discriminate].
  destruct (lms_write dev _ 0x08 v08 =? 0); [| discriminate].
  injection Hset as <-.
  unfold lms_get_loopback_mode.
  rewrite (bind_ok _ _ _ _ _ (LMS_READ_ok _ _ _ _ (M08 _))).
  rewrite (bind_ok _ _ _ _ _ (LMS_READ_ok _ _ _ _ (M46 _))).
  simpl. rewrite E46, E08, Hdec. reflexivity.
Qed.

Lemma decode_none_all :
  all_u8 (fun lben => all_u8 (fun loopbben =>
    Bool.eqb (loopback_eqb (loopback_decode lben loopbben) BLADERF_LB_NONE)
             (decodes_none lben loopbben))) = true.
Proof. vm_compute. reflexivity. Qed.

Lemma decode_none_iff (lben loopbben : Z) :
  0 <= lben < 256 -> 0 <= loopbben < 256 ->
  loopback_decode lben loopbben = BLADERF_LB_NONE <->
  decodes_none lben loopbben = true.
Proof.
  intros H1 H2.
  pose proof (all_u8_spec _ (all_u8_spec _ decode_none_all lben H1) loopbben H2) as C.
  apply Bool.eqb_prop in C. rewrite <- C. split.
  - intros ->. reflexivity.
  - apply loopback_eqb_eq.
Qed.

(** Claim C5 (loopback round trip), as amended.  On a device that keeps
    registers 0x08 and 0x46 as memory, [lms_get_loopback_mode] after a
    successful [loopback_path] for any of the eight modes returns that
    mode.  When both reads succeed [lms_get_loopback_mode] never fails;
    it returns None exactly when the low three bits of register 0x08 are
    not 1, 2 or 3 and it is not the case that the LBEN field is exactly
    VGA2IN or LPFIN while a LOOPBBEN bit is set; other raw combinations
    decode to the mode their RF field or their LBEN field names. *)
Theorem loopback_modes dev :
  (forall init mode h h1,
      mode <> BLADERF_LB_FIRMWARE ->
      memory_at dev init 0x08 -> memory_at dev init 0x46 ->
      loopback_path dev mode h = (Ok tt, h1) ->
      fst (lms_get_loopback_mode dev h1) = Ok mode) /\
  (forall h v08 v46,
      lms_read dev h 0x08 = (0, v08) ->
      lms_read dev (Rd 0x08 (u8 v08) 0 :: h) 0x46 = (0, v46) ->
      fst (lms_get_loopback_mode dev h) = Ok (loopback_decode (u8 v08) (u8 v46)) /\
      (loopback_decode (u8 v08) (u8 v46) = BLADERF_LB_NONE <->
       decodes_none (u8 v08) (u8 v46) = true)).
Proof.
  split.
  - intros init mode h h1. apply loopback_roundtrip.
  - intros h v08 v46 H08 H46. split.
    + unfold lms_get_loopback_mode.
      rewrite (bind_ok _ _ _ _ _ (LMS_READ_ok _ _ _ _ H08)).
      rewrite (bind_ok _ _ _ _ _ (LMS_READ_ok _ _ _ _ H46)).
      reflexivity.
    + apply decode_none_iff; apply u8_range.
Qed.

Lemma loopback_modes_witness :
  BLADERF_LB_RF_LNA2 <> BLADERF_LB_FIRMWARE /\
  memory_at (regfile (fun _ => 0xff)) (fun _ => 0xff) 0x08 /\
  memory_at (regfile (fun _ => 0xff)) (fun _ => 0xff) 0x46 /\
  fst (lms_get_loopback_mode (regfile (fun _ => 0xff))
         (snd (loopback_path (regfile (fun _ => 0xff)) BLADERF_LB_RF_LNA2 [])))
  = Ok BLADERF_LB_RF_LNA2.
Proof.
  assert (H1 : BLADERF_LB_RF_LNA2 <> BLADERF_LB_FIRMWARE) by discriminate.
  assert (H2 : forall a, memory_at (regfile (fun _ => 0xff)) (fun _ => 0xff) a)
    by (intros a h; reflexivity).
  split; [ exact H1 | ]. split; [ apply H2 | ]. split; [ apply H2 | ].
  apply (proj1 (loopback_modes (regfile (fun _ => 0xff))) (fun _ => 0xff)
           BLADERF_LB_RF_LNA2 []); auto.
Defined.

Lemma loopback_stray_bits_decode_lna1 :
  (forall mode, loopback_path_bits mode 0 0
                <> Some (Z.land 0x00 LOOBBBEN_MASK,
                         Z.land 0x21 (Z.lor LBRFEN_MASK LBEN_MASK))) /\
  fst (lms_get_loopback_mode lb_stray []) = Ok BLADERF_LB_RF_LNA1 /\
  fst (lms_get_loopback_mode lb_stray []) <> Ok BLADERF_LB_NONE.
Proof.
  split; [ | split ].
  - intros mode. destruct mode; vm_compute; discriminate.
  - reflexivity.
  - vm_compute. discriminate.
Qed.

(* ------------------------------------------------------------------ *)
(** * VCO capacitor tuning *)

Lemma failfast_vcocap_search dev base data n vcocap step vtune :
  failfast (vcocap_search dev base data n vcocap step vtune).
Proof.
  revert vcocap step vtune. induction n as [| n IH]; intros; simpl.
  - ff.
  - ff.
Qed.

Lemma failfast_scan_down dev base data fuel start_i vtune :
  failfast (vcocap_scan_down dev base data fuel start_i vtune).
Proof.
  revert start_i vtune. induction fuel as [| n IH]; intros; simpl.
  - ff.
  - ff.
Qed.

Lemma failfast_scan_up dev base data fuel stop_i vtune :
  failfast (vcocap_scan_up dev base data fuel stop_i vtune).
Proof.
  revert stop_i vtune. induction fuel as [| n IH]; intros; simpl.
  - ff.
  - ff.
Qed.

#[local] Hint Resolve failfast_vcocap_search failfast_scan_down failfast_scan_up : failfast.

Lemma failfast_tune_vcocap dev base data : failfast (tune_vcocap dev base data).
Proof.
  unfold tune_vcocap, tune_vcocap_search, tune_vcocap_limits, tune_vcocap_center.
  ff.
Qed.
#[local] Hint Resolve failfast_tune_vcocap : failfast.

Lemma failfast_tune_vcocap_search dev base : failfast (tune_vcocap_search dev base).
Proof. unfold tune_vcocap_search. ff. Qed.

Lemma search_inv_up c s : search_inv c s -> search_inv (c + s) (s / 2).
Proof. unfold search_inv. intros. Z.to_euclidean_division_equations. lia. Qed.

Lemma search_inv_down c s : search_inv c s -> search_inv (c - s) (s / 2).
Proof. unfold search_inv. intros. Z.to_euclidean_division_equations. lia. Qed.

Lemma search_inv_start : search_inv 32 (Z.shiftr 32 1).
Proof. unfold search_inv. change (Z.shiftr 32 1) with 16. lia. Qed.

Lemma lor_code data c :
  code_ok data -> 0 <= c <= 63 ->
  u8 (Z.lor c data) = c + data /\ Z.land (c + data) 0x3f = c.
Proof.
  intros [Hd Hz] Hc.
  assert (C : all_u8 (fun d => implb (Z.land d 0x3f =? 0)
                 (forallb (fun c => (u8 (Z.lor c d) =? c + d) && (Z.land (c + d) 0x3f =? c))
                    (map Z.of_nat (seq 0 64)))) = true) by (vm_compute; reflexivity).
  pose proof (all_u8_spec _ C data Hd) as C'. cbv beta in C'.
  apply Z.eqb_eq in Hz. rewrite Hz in C'. cbn [implb] in C'.
  rewrite forallb_forall in C'.
  assert (Hin : In c (map Z.of_nat (seq 0 64))).
  { apply in_map_iff. exists (Z.to_nat c). split; [lia | apply in_seq; lia]. }
  specialize (C' c Hin). apply andb_prop in C' as [C1 C2].
  split; apply Z.eqb_eq; assumption.
Qed.

Lemma code_ok_masked d : code_ok (u8 (Z.land (u8 d) (Z.lnot 0x3f))).
Proof.
  split; [apply u8_range |].
  assert (C : all_u8 (fun d => Z.land (u8 (Z.land d (Z.lnot 0x3f))) 0x3f =? 0) = true)
    by (vm_compute; reflexivity).
  apply Z.eqb_eq. apply (all_u8_spec _ C). apply u8_range.
Qed.

Lemma shiftr6_cases v :
  0 <= v < 256 ->
  Z.shiftr v 6 = 0 \/ Z.shiftr v 6 = 1 \/ Z.shiftr v 6 = 2 \/ Z.shiftr v 6 = 3.
Proof.
  intros Hv. rewrite Z.shiftr_div_pow2 by lia. change (2 ^ 6) with 64.
  Z.to_euclidean_division_equations. lia.
Qed.

Lemma vcocap_search_S dev base data n c s vt0 h :
  vcocap_search dev base data (S n) c s vt0 h =
  let w := u8 (Z.lor c data) in
  let ws := lms_write dev h (base + 9) w in
  let h1 := Wr (base + 9) w ws :: h in
  if ws =? 0 then
    let '(rs, v) := lms_read dev h1 (base + 10) in
    let h2 := Rd (base + 10) (u8 v) rs :: h1 in
    if rs =? 0 then
      let vt := Z.shiftr (u8 v) 6 in
      if vt =? VCO_NORM then (Ok (c, vt), h2)
      else if vt =? VCO_HIGH then
        vcocap_search dev base data n (u8 (c + s)) (Z.shiftr s 1) vt h2
      else if vt =? VCO_LOW then
        vcocap_search dev base data n (u8 (c - s)) (Z.shiftr s 1) vt h2
      else (Err BLADERF_ERR_UNEXPECTED, h2)
    else (Err rs, h2)
  else (Err ws, h1).
Proof.
  simpl. unfold bind, LMS_WRITE, LMS_READ. cbv zeta.
  destruct (lms_write dev h (base + 9) (u8 (Z.lor c data)) =? 0); [| reflexivity].
  destruct (lms_read dev _ (base + 10)) as [rs v].
  destruct (rs =? 0); [| reflexivity].
  destruct (Z.shiftr (u8 v) 6 =? VCO_NORM); [reflexivity |].
  destruct (Z.shiftr (u8 v) 6 =? VCO_HIGH); [reflexivity |].
  destruct (Z.shiftr (u8 v) 6 =? VCO_LOW); reflexivity.
Qed.

Lemma vcocap_search_refines dev base data n :
  code_ok data ->
  forall c s vt0 h,
  search_inv c s -> (n = O -> vt0 <> VCO_NORM) ->
  exists ts,
    snd (vcocap_search dev base data n c s vt0 h) = rev ts ++ h /\
    let sts := map (fun v => Z.shiftr v 6) (reads_at (base + 10) ts) in
    (length sts <= n)%nat /\
    (clean ts ->
     map (fun v => Z.land v 0x3f) (writes_at (base + 9) ts)
       = fst (vcocap_search_spec n c s sts) /\
     match snd (vcocap_search_spec n c s sts) with
     | Some c' => fst (vcocap_search dev base data n c s vt0 h) = Ok (c', VCO_NORM)
                  /\ 1 <= c' <= 63
     | None =>
         fst (vcocap_search dev base data n c s vt0 h) = Err BLADERF_ERR_UNEXPECTED \/
         exists c' vt, fst (vcocap_search dev base data n c s vt0 h) = Ok (c', vt)
                       /\ vt <> VCO_NORM
     end).
Proof.
  intros Hdata. induction n as [| n IH]; intros c s vt0 h Inv Hvt.
  - exists []. simpl. repeat split; auto. right. eauto.
  - rewrite vcocap_search_S. cbv zeta.
    destruct (lor_code data c Hdata ltac:(unfold search_inv in Inv; lia)) as [Ew Ec].
    rewrite Ew.
    set (ws := lms_write dev h (base + 9) (c + data)).
    destruct (Z.eqb_spec ws 0) as [Hws | Hws].
    2:{ exists [Wr (base + 9) (c + data) ws]. simpl. split; [reflexivity |].
        split; [lia |]. intros C. inversion C; subst. simpl in *. contradiction. }
    set (h1 := Wr (base + 9) (c + data) ws :: h).
    destruct (lms_read dev h1 (base + 10)) as [rs v] eqn:R.
    destruct (Z.eqb_spec rs 0) as [Hrs | Hrs].
    2:{ exists [Wr (base + 9) (c + data) ws; Rd (base + 10) (u8 v) rs]. simpl.
        split; [reflexivity |].
        replace (base + 10 =? base + 10) with true by (symmetry; apply Z.eqb_refl).
        apply Z.eqb_neq in Hrs. rewrite Hrs. simpl. split; [lia |].
        intros C. inversion C as [| ? ? _ C']; subst. inversion C'; subst.
        simpl in *. apply Z.eqb_neq in Hrs. contradiction. }
    subst rs.
    set (vt := Z.shiftr (u8 v) 6).
    assert (Hsh : vt = 0 \/ vt = 1 \/ vt = 2 \/ vt = 3) by (apply shiftr6_cases, u8_range).
    set (h2 := Rd (base + 10) (u8 v) 0 :: h1).
    assert (Hpre : forall ts', 
               map (fun v => Z.shiftr v 6)
                 (reads_at (base + 10) ([Wr (base + 9) (c + data) ws; Rd (base + 10) (u8 v) 0] ++ ts'))
               = vt :: map (fun v => Z.shiftr v 6) (reads_at (base + 10) ts')).
    { intros ts'. simpl. rewrite Z.eqb_refl. simpl. reflexivity. }
    assert (Hprew : forall ts',
               map (fun v => Z.land v 0x3f)
                 (writes_at (base + 9) ([Wr (base + 9) (c + data) ws; Rd (base + 10) (u8 v) 0] ++ ts'))
               = c :: map (fun v => Z.land v 0x3f) (writes_at (base + 9) ts')).
    { intros ts'. simpl. rewrite Z.eqb_refl. simpl. rewrite Ec. reflexivity. }
    destruct Hsh as [E | [E | [E | E]]]; rewrite E.
    + (* Normal *)
      change (0 =? VCO_NORM) with true. cbv iota.
      exists [Wr (base + 9) (c + data) ws; Rd (base + 10) (u8 v) 0].
      split; [reflexivity |]. cbv zeta.
      rewrite <- (app_nil_r [Wr _ _ _; Rd _ _ _]), Hpre, Hprew. simpl.
      split; [lia |]. intros _. rewrite E. simpl.
      unfold search_inv in Inv. repeat split; lia.
    + (* Low *)
      change (1 =? VCO_NORM) with false. change (1 =? VCO_HIGH) with false.
      change (1 =? VCO_LOW) with true. cbv iota.
      assert (Eu : u8 (c - s) = c - s).
      { apply u8_small. pose proof (search_inv_down c s Inv). unfold search_inv in *. lia. }
      rewrite Eu. rewrite Z.shiftr_div_pow2 by lia. change (2 ^ 1) with 2.
      destruct (IH (c - s) (s / 2) 1 h2 (search_inv_down c s Inv) ltac:(intros _; discriminate))
        as (ts & Ets & Hlen & Hclean).
      exists ([Wr (base + 9) (c + data) ws; Rd (base + 10) (u8 v) 0] ++ ts).
      split; [rewrite Ets, rev_app_distr, <- app_assoc; reflexivity |].
      cbv zeta. rewrite Hpre, Hprew. cbv zeta in Hlen, Hclean.
      split; [simpl; lia |].
      intros C. apply Forall_app in C as [_ C]. specialize (Hclean C).
      cbn [vcocap_search_spec]. rewrite E.
      change (1 =? VCO_NORM) with false. change (1 =? VCO_HIGH) with false.
      change (1 =? VCO_LOW) with true. cbv iota.
      destruct (vcocap_search_spec n (c - s) (s / 2) _) as [codes out].
      simpl in *. destruct Hclean as [Hw Ho]. rewrite Hw. split; [reflexivity | exact Ho].
    + (* High *)
      change (2 =? VCO_NORM) with false. change (2 =? VCO_HIGH) with true. cbv iota.
      assert (Eu : u8 (c + s) = c + s).
      { apply u8_small. pose proof (search_inv_up c s Inv). unfold search_inv in *. lia. }
      rewrite Eu. rewrite Z.shiftr_div_pow2 by lia. change (2 ^ 1) with 2.
      destruct (IH (c + s) (s / 2) 2 h2 (search_inv_up c s Inv) ltac:(intros _; discriminate))
        as (ts & Ets & Hlen & Hclean).
      exists ([Wr (base + 9) (c + data) ws; Rd (base + 10) (u8 v) 0] ++ ts).
      split; [rewrite Ets, rev_app_distr, <- app_assoc; reflexivity |].
      cbv zeta. rewrite Hpre, Hprew. cbv zeta in Hlen, Hclean.
      split; [simpl; lia |].
      intros C. apply Forall_app in C as [_ C]. specialize (Hclean C).
      cbn [vcocap_search_spec]. rewrite E.
      change (2 =? VCO_NORM) with false. change (2 =? VCO_HIGH) with true. cbv iota.
      destruct (vcocap_search_spec n (c + s) (s / 2) _) as [codes out].
      simpl in *. destruct Hclean as [Hw Ho]. rewrite Hw. split; [reflexivity | exact Ho].
    + (* not a tune status *)
      change (3 =? VCO_NORM) with false. change (3 =? VCO_HIGH) with false.
      change (3 =? VCO_LOW) with false. cbv iota.
      exists [Wr (base + 9) (c + data) ws; Rd (base + 10) (u8 v) 0].
      split; [reflexivity |]. cbv zeta.
      rewrite <- (app_nil_r [Wr _ _ _; Rd _ _ _]), Hpre, Hprew. simpl.
      split; [lia |]. intros _. rewrite E. simpl. auto.
Qed.

Lemma tune_vcocap_search_run dev base h :
  tune_vcocap_search dev base h =
  let '(rs, d) := lms_read dev h (base + 9) in
  let h0 := Rd (base + 9) (u8 d) rs :: h in
  if rs =? 0 then
    let data := u8 (Z.land (u8 d) (Z.lnot 0x3f)) in
    match vcocap_search dev base data 6 32 (Z.shiftr 32 1) 0 h0 with
    | (Ok (c, vt), h1) =>
        if negb (vt =? VCO_NORM) then (Err BLADERF_ERR_UNEXPECTED, h1)
        else (Ok (data, c, vt), h1)
    | (Err e, h1) => (Err e, h1)
    end
  else (Err rs, h0).
Proof.
  unfold tune_vcocap_search, bind, LMS_READ.
  destruct (lms_read dev h (base + 9)) as [rs d]. cbv zeta.
  destruct (rs =? 0); [| reflexivity].
  destruct (vcocap_search dev base _ 6 32 (Z.shiftr 32 1) 0 _) as [[[c vt] | e] h1];
    [| reflexivity].
  destruct (negb (vt =? VCO_NORM)); reflexivity.
Qed.

(** Phase A as a whole. *)
Lemma tune_vcocap_search_refines dev base h :
  exists ts,
    snd (tune_vcocap_search dev base h) = rev ts ++ h /\
    let sts := map (fun v => Z.shiftr v 6) (reads_at (base + 10) ts) in
    (length sts <= 6)%nat /\
    (clean ts ->
     map (fun v => Z.land v 0x3f) (writes_at (base + 9) ts)
       = fst (vcocap_search_spec 6 32 16 sts) /\
     match snd (vcocap_search_spec 6 32 16 sts) with
     | Some c =>
         exists data, code_ok data /\ 1 <= c <= 63 /\
           fst (tune_vcocap_search dev base h) = Ok (data, c, VCO_NORM)
     | None => fst (tune_vcocap_search dev base h) = Err BLADERF_ERR_UNEXPECTED
     end).
Proof.
  rewrite tune_vcocap_search_run.
  destruct (lms_read dev h (base + 9)) as [rs d]. cbv zeta.
  assert (Ne : (base + 9 =? base + 10) = false) by (apply Z.eqb_neq; lia).
  destruct (Z.eqb_spec rs 0) as [-> | Hrs].
  2:{ exists [Rd (base + 9) (u8 d) rs]. split; [reflexivity |]. simpl.
      rewrite Ne. simpl.
      split; [lia |]. intros C. inversion C; subst. simpl in *. contradiction. }
  set (data := u8 (Z.land (u8 d) (Z.lnot 0x3f))).
  set (h0 := Rd (base + 9) (u8 d) 0 :: h).
  destruct (vcocap_search_refines dev base data 6 (code_ok_masked d) 32 (Z.shiftr 32 1) 0 h0
              search_inv_start ltac:(discriminate)) as (ts & Ets & Hlen & Hclean).
  cbv zeta in Hlen, Hclean. change (Z.shiftr 32 1) with 16 in *.
  exists (Rd (base + 9) (u8 d) 0 :: ts).
  assert (Er : reads_at (base + 10) (Rd (base + 9) (u8 d) 0 :: ts) = reads_at (base + 10) ts)
    by (simpl; rewrite Ne; reflexivity).
  cbv zeta. rewrite Er. cbn [writes_at].
  destruct (vcocap_search dev base data 6 32 16 0 h0) as [[[c vt] | e] h1] eqn:S;
    simpl in Ets.
  - split.
    { destruct (negb (vt =? VCO_NORM)); simpl; rewrite Ets; simpl;
        rewrite <- app_assoc; reflexivity. }
    split; [exact Hlen |].
    intros C. inversion C as [| ? ? _ C']; subst. specialize (Hclean C').
    destruct Hclean as [Hw Ho]. split; [exact Hw |].
    destruct (snd (vcocap_search_spec 6 32 16 _)) as [c' |].
    + destruct Ho as [Ho Hc]. simpl in Ho. injection Ho as -> ->.
      simpl. exists data. split; [apply code_ok_masked |]. split; [exact Hc | reflexivity].
    + destruct Ho as [Ho | (c' & vt' & Ho & Hne)]; simpl in Ho; [discriminate |].
      injection Ho as -> ->. apply Z.eqb_neq in Hne. rewrite Hne. reflexivity.
  - split; [simpl; rewrite Ets; simpl; rewrite <- app_assoc; reflexivity |].
    split; [exact Hlen |].
    intros C. inversion C as [| ? ? _ C']; subst. specialize (Hclean C').
    destruct Hclean as [Hw Ho]. split; [exact Hw |].
    destruct (snd (vcocap_search_spec 6 32 16 _)) as [c' |].
    + destruct Ho as [Ho _]. simpl in Ho. discriminate.
    + destruct Ho as [Ho | (c' & vt' & Ho & Hne)]; simpl in Ho; [| discriminate].
      injection Ho as ->. reflexivity.
Qed.

Lemma tune_vcocap_search_ok dev base h data vcocap vtune hA :
  tune_vcocap_search dev base h = (Ok (data, vcocap, vtune), hA) ->
  code_ok data /\ 1 <= vcocap <= 63 /\ vtune = VCO_NORM.
Proof.
  intros E.
  destruct (failfast_tune_vcocap_search dev base h) as (ts' & Et' & C).
  destruct (tune_vcocap_search_refines dev base h) as (ts & Et & _ & R).
  rewrite Et in Et'. apply trace_unique in Et'. subst ts'.
  rewrite E in C, R. cbv zeta in R. cbn [fst] in C, R. destruct (R C) as [_ O].
  destruct (snd (vcocap_search_spec 6 32 16 _)) as [c |].
  - destruct O as (data' & Hd & Hc & [= -> -> ->]). auto.
  - discriminate.
Qed.

(** Phase B keeps the two limits inside the trim range. *)
Lemma scan_down_range dev base data fuel :
  forall s vt h s' vt' h',
  0 <= s ->
  vcocap_scan_down dev base data fuel s vt h = (Ok (s', vt'), h') ->
  0 <= s' <= s.
Proof.
  induction fuel as [| fuel IH]; intros s vt h s' vt' h' Hs; simpl.
  - intros [= <- <- <-]. lia.
  - destruct ((s >? 0) && negb (vt =? VCO_HIGH)) eqn:C.
    + apply andb_prop in C as [C _]. apply Z.gtb_lt in C.
      unfold bind.
      destruct (LMS_WRITE dev (base + 9) (Z.lor (s - 1) data) h) as [[[] | e] h1]; [| discriminate].
      destruct (LMS_READ dev (base + 10) h1) as [[v | e] h2]; [| discriminate].
      intros H. apply IH in H; lia.
    + intros [= <- <- <-]. lia.
Qed.

Lemma scan_up_range dev base data fuel :
  forall s vt h s' vt' h',
  s <= 64 ->
  vcocap_scan_up dev base data fuel s vt h = (Ok (s', vt'), h') ->
  s <= s' <= 64.
Proof.
  induction fuel as [| fuel IH]; intros s vt h s' vt' h' Hs; simpl.
  - intros [= <- <- <-]. lia.
  - destruct ((s <? 64) && negb (vt =? VCO_LOW)) eqn:C.
    + apply andb_prop in C as [C _]. apply Z.ltb_lt in C.
      unfold bind.
      destruct (LMS_WRITE dev (base + 9) (Z.lor (s + 1) data) h) as [[[] | e] h1]; [| discriminate].
      destruct (LMS_READ dev (base + 10) h1) as [[v | e] h2]; [| discriminate].
      intros H. apply IH in H; lia.
    + intros [= <- <- <-]. lia.
Qed.

(** The fuel of the two scans is all the loops can use: they leave by
    their own test. *)
Lemma scan_down_exit dev base data fuel :
  forall s vt h s' vt' h',
  0 <= s -> (Z.to_nat s <= fuel)%nat ->
  vcocap_scan_down dev base data fuel s vt h = (Ok (s', vt'), h') ->
  s' = 0 \/ vt' = VCO_HIGH.
Proof.
  induction fuel as [| fuel IH]; intros s vt h s' vt' h' Hs Hf; simpl.
  - intros [= <- <- <-]. lia.
  - destruct ((s >? 0) && negb (vt =? VCO_HIGH)) eqn:C.
    + apply andb_prop in C as [C _]. apply Z.gtb_lt in C.
      unfold bind.
      destruct (LMS_WRITE dev (base + 9) (Z.lor (s - 1) data) h) as [[[] | e] h1]; [| discriminate].
      destruct (LMS_READ dev (base + 10) h1) as [[v | e] h2]; [| discriminate].
      intros H. apply IH in H; [assumption | lia | lia].
    + intros [= <- <- <-].
      apply andb_false_iff in C as [C | C].
      * left. rewrite Z.gtb_ltb in C. apply Z.ltb_ge in C. lia.
      * right. apply negb_false_iff, Z.eqb_eq in C. exact C.
Qed.

Lemma scan_up_exit dev base data fuel :
  forall s vt h s' vt' h',
  s <= 64 -> (Z.to_nat (64 - s) <= fuel)%nat ->
  vcocap_scan_up dev base data fuel s vt h = (Ok (s', vt'), h') ->
  s' = 64 \/ vt' = VCO_LOW.
Proof.
  induction fuel as [| fuel IH]; intros s vt h s' vt' h' Hs Hf; simpl.
  - intros [= <- <- <-]. lia.
  - destruct ((s <? 64) && negb (vt =? VCO_LOW)) eqn:C.
    + apply andb_prop in C as [C _]. apply Z.ltb_lt in C.
      unfold bind.
      destruct (LMS_WRITE dev (base + 9) (Z.lor (s + 1) data) h) as [[[] | e] h1]; [| discriminate].
      destruct (LMS_READ dev (base + 10) h1) as [[v | e] h2]; [| discriminate].
      intros H. apply IH in H; [assumption | lia | lia].
    + intros [= <- <- <-].
      apply andb_false_iff in C as [C | C].
      * left. apply Z.ltb_ge in C. lia.
      * right. apply negb_false_iff, Z.eqb_eq in C. exact C.
Qed.

(** Phase B: each scan leaves by its own test, and the limits are one
    code inside the codes the scans stopped at. *)
Lemma tune_vcocap_limits_edges dev base data vcocap h start stop h' :
  1 <= vcocap <= 63 ->
  tune_vcocap_limits dev base data vcocap VCO_NORM h = (Ok (start, stop), h') ->
  1 <= start <= vcocap /\ vcocap - 1 <= stop <= 63 /\
  exists vt1 h1 vt h3 vt2,
    vcocap_scan_down dev base data (Z.to_nat vcocap) vcocap VCO_NORM h
      = (Ok (start - 1, vt1), h1) /\
    (start - 1 = 0 \/ vt1 = VCO_HIGH) /\
    vcocap_scan_up dev base data (Z.to_nat (64 - vcocap)) vcocap vt h3
      = (Ok (stop + 1, vt2), h') /\
    (stop + 1 = 64 \/ vt2 = VCO_LOW).
Proof.
  intros Hv. unfold tune_vcocap_limits, bind.
  destruct (vcocap_scan_down dev base data (Z.to_nat vcocap) vcocap VCO_NORM h)
    as [[[s1 vt1] | e] h1] eqn:D; [| discriminate].
  assert (X1 : s1 = 0 \/ vt1 = VCO_HIGH)
    by (apply (scan_down_exit _ _ _ _ _ _ _ _ _ _) in D; [exact D | lia | lia]).
  assert (R1 : 0 <= s1 <= vcocap - 1).
  { destruct (Z.to_nat vcocap) as [| fuel] eqn:F; [lia |].
    simpl in D.
    replace (vcocap >? 0) with true in D by (symmetry; apply Z.gtb_lt; lia).
    cbn [andb negb VCO_NORM VCO_HIGH Z.eqb] in D. unfold bind in D.
    destruct (LMS_WRITE dev (base + 9) (Z.lor (vcocap - 1) data) h) as [[[] | e] ha];
      [| discriminate].
    destruct (LMS_READ dev (base + 10) ha) as [[v | e] hb]; [| discriminate].
    apply scan_down_range in D; lia. }
  destruct (LMS_WRITE dev (base + 9) (Z.lor vcocap data) h1) as [[[] | e] h2]; [| discriminate].
  destruct (LMS_READ dev (base + 10) h2) as [[v | e] h3]; [| discriminate].
  destruct (vcocap_scan_up dev base data (Z.to_nat (64 - vcocap)) vcocap (Z.shiftr v 6) h3)
    as [[[s2 vt2] | e] h4] eqn:U; [| discriminate].
  assert (X2 : s2 = 64 \/ vt2 = VCO_LOW)
    by (apply (scan_up_exit _ _ _ _ _ _ _ _ _ _) in U; [exact U | lia | lia]).
  assert (R2 : vcocap <= s2 <= 64)
    by (apply scan_up_range in U; [exact U | lia]).
  intros [= <- <- <-].
  split; [lia |]. split; [lia |].
  exists vt1, h1, (Z.shiftr v 6), h3, vt2.
  replace (s1 + 1 - 1) with s1 by lia. replace (s2 - 1 + 1) with s2 by lia.
  repeat split; assumption.
Qed.

Lemma tune_vcocap_center_run dev base data start_i stop_i h :
  tune_vcocap_center dev base data start_i stop_i h =
  let w := u8 (Z.lor (u8 (Z.shiftr (start_i + stop_i) 1)) data) in
  let ws := lms_write dev h (base + 9) w in
  let h1 := Wr (base + 9) w ws :: h in
  if ws =? 0 then
    let '(rs, v) := lms_read dev h1 (base + 10) in
    let h2 := Rd (base + 10) (u8 v) rs :: h1 in
    if rs =? 0 then
      (if Z.shiftr (u8 v) 6 =? VCO_NORM then Ok tt else Err BLADERF_ERR_UNEXPECTED, h2)
    else (Err rs, h2)
  else (Err ws, h1).
Proof.
  unfold tune_vcocap_center, bind, LMS_WRITE, LMS_READ. cbv zeta.
  destruct (lms_write dev h (base + 9) _ =? 0); [| reflexivity].
  destruct (lms_read dev _ (base + 10)) as [rs v].
  destruct (rs =? 0); [| reflexivity].
  destruct (Z.shiftr (u8 v) 6 =? VCO_NORM); reflexivity.
Qed.



Example tune_vcocap_script :
  fst (tune_vcocap vco_dev 0x20 0 []) = Ok tt /\
  writes_at 0x29 (rev (snd (tune_vcocap vco_dev 0x20 0 [])))
  = [32; 16; 24; 23; 22; 21; 20; 24; 25; 26; 27; 28; 24].
Proof. split; vm_compute; reflexivity. Qed.

(* ------------------------------------------------------------------ *)
(** * Setting the frequency *)

Lemma failfast_get_loopback dev : failfast (lms_get_loopback_mode dev).
Proof. unfold lms_get_loopback_mode. ff. Qed.

Lemma read_error_negative dev addr h s h' :
  negative_errors dev -> LMS_READ dev addr h = (Err s, h') -> s < 0.
Proof.
  intros [N _]. unfold LMS_READ. specialize (N h addr).
  destruct (lms_read dev h addr) as [st v]. simpl in N.
  destruct (Z.eqb_spec st 0); intros [= <- <-]. lia.
Qed.

Lemma get_loopback_error_negative dev h s h' :
  negative_errors dev -> lms_get_loopback_mode dev h = (Err s, h') -> s < 0.
Proof.
  intros N. unfold lms_get_loopback_mode, bind.
  destruct (LMS_READ dev 8 h) as [[v1 | e1] h1] eqn:R1.
  - destruct (LMS_READ dev 70 h1) as [[v2 | e2] h2] eqn:R2.
    + discriminate.
    + intros [= <- <-]. eapply read_error_negative; eauto.
  - intros [= <- <-]. eapply read_error_negative; eauto.
Qed.

Lemma failfast_write_pll_config dev module frequency freqsel :
  negative_errors dev ->
  failfast (write_pll_config dev module frequency freqsel).
Proof.
  intros N. unfold write_pll_config.
  apply failfast_bind; [apply failfast_read | intros regval].
  set (addr := match module with BLADERF_MODULE_RX => _ | BLADERF_MODULE_TX => _ end).
  eapply failfast_ext with
    (m' := bind (lms_get_loopback_mode dev)
             (fun lb => LMS_WRITE dev addr
                (if match lb with BLADERF_LB_NONE => 0 | _ => 1 end =? 0
                 then u8 (Z.lor (Z.shiftl freqsel 2)
                            (if frequency <? BLADERF_BAND_HIGH then 1 else 2))
                 else u8 (Z.lor (Z.land regval (Z.lnot 0xfc)) (Z.shiftl freqsel 2))))).
  - intros h. unfold is_loopback_enabled, bind.
    destruct (lms_get_loopback_mode dev h) as [[lb | s] h1] eqn:G.
    + destruct lb; reflexivity.
    + apply get_loopback_error_negative in G; [| assumption].
      replace (s <? 0) with true by (symmetry; apply Z.ltb_lt; assumption).
      reflexivity.
  - apply failfast_bind; [apply failfast_get_loopback | intros lb; apply failfast_write].
Qed.

Lemma failfast_pll_program dev module freq f :
  negative_errors dev -> failfast (pll_program dev module freq f).
Proof.
  intros N. unfold pll_program.
  apply failfast_bind; [apply failfast_write_pll_config; assumption | intros _].
  destruct (pack_divider (nint f) (nfrac f)) as [[[d0 d1] d2] d3].
  ff.
Qed.

(** What [dsm_disable] does on the bus. *)
Lemma dsm_disable_run dev h :
  let '(rs, d) := lms_read dev h 0x09 in
  let h1 := Rd 0x09 (u8 d) rs :: h in
  let v := u8 (Z.land (u8 d) (Z.lnot 0x05)) in
  let ws := lms_write dev h1 0x09 v in
  dsm_disable dev h
  = if rs =? 0 then (if ws =? 0 then Ok tt else Err ws, Wr 0x09 v ws :: h1)
    else (Err rs, h1).
Proof.
  unfold dsm_disable, bind, LMS_READ, LMS_WRITE.
  destruct (lms_read dev h 9) as [rs d]. destruct (rs =? 0); reflexivity.
Qed.

Lemma dsm_bits_cleared (d : Z) : Z.land (u8 (Z.land (u8 d) (Z.lnot 0x05))) 0x05 = 0.
Proof.
  assert (C : all_u8 (fun d => Z.land (u8 (Z.land d (Z.lnot 0x05))) 0x05 =? 0) = true)
    by (vm_compute; reflexivity).
  apply Z.eqb_eq. apply (all_u8_spec _ C). apply u8_range.
Qed.

Example set_frequency_failure_cleans_up :
  fst (lms_set_frequency io_fails_at_7 BLADERF_MODULE_RX 2412000000 []) = BLADERF_ERR_IO /\
  firstn 2 (snd (lms_set_frequency io_fails_at_7 BLADERF_MODULE_RX 2412000000 []))
    = [Wr 0x09 0 0; Rd 0x09 5 0] /\
  length (snd (lms_set_frequency io_fails_at_7 BLADERF_MODULE_RX 2412000000 [])) = 10%nat.
Proof. repeat split. Qed.

(* ------------------------------------------------------------------ *)
(** * DC calibration: one submodule *)

(** Claim C1 (retry on 31), as amended.  When the calibration loop
    started with count 31 gives the value 31, it is run once more with
    count 0.  If that run gives 0, [dc_cal_submodule] returns status 0
    with [converged] false and touches nothing else: the submodule
    counts as not converged.  If it gives another value the submodule
    converges (after storing the value, for the LPF tuning module). *)
Theorem dc_cal_submodule_retry dev module submodule state h h0 h1 :
  dc_cal_submodule_setup dev module submodule h = (Ok tt, h0) ->
  lms_dc_cal_loop dev (base_addr state) submodule 31 h0 = (Ok 31, h1) ->
  forall v h2,
  lms_dc_cal_loop dev (base_addr state) submodule 0 h1 = (Ok v, h2) ->
  (v = 0 ->
   dc_cal_submodule dev module submodule (state, h) = (Ok false, (state, h2))) /\
  (v <> 0 -> module <> BLADERF_DC_CAL_LPF_TUNING ->
   dc_cal_submodule dev module submodule (state, h) = (Ok true, (state, h2))) /\
  (v <> 0 -> module = BLADERF_DC_CAL_LPF_TUNING ->
   dc_cal_submodule dev module submodule (state, h)
   = (match fst (lpf_tuning_store dev v h2) with
      | Ok _ => Ok true
      | Err e => Err e
      end, (state, snd (lpf_tuning_store dev v h2)))).
Proof.
  intros Hsetup Hfirst v h2 Hretry.
  assert (R : on_bus (dc_cal_regval dev (base_addr state) submodule) (state, h0)
              = (Ok (if v =? 0 then None else Some v), (state, h2))).
  { rewrite on_bus_run. unfold dc_cal_regval.
    rewrite (bind_ok _ _ _ _ _ Hfirst). cbn [Z.eqb Pos.eqb].
    rewrite (bind_ok _ _ _ _ _ Hretry).
    destruct (v =? 0); reflexivity. }
  assert (E : dc_cal_submodule dev module submodule (state, h)
             = match (if v =? 0 then None else Some v) with
               | None => (Ok false, (state, h2))
               | Some dc_regval =>
                   (match module with
                    | BLADERF_DC_CAL_LPF_TUNING => on_bus (lpf_tuning_store dev dc_regval)
                    | _ => ret tt
                    end ;; ret true) (state, h2)
               end).
  { unfold dc_cal_submodule.
    rewrite (bind_ok (on_bus (dc_cal_submodule_setup dev module submodule)) _ (state, h) tt (state, h0))
      by (rewrite on_bus_run, Hsetup; reflexivity).
    unfold get_state at 1. unfold bind at 1. cbn [fst].
    rewrite (bind_ok _ _ _ _ _ R).
    destruct (v =? 0); reflexivity. }
  split; [ | split ].
  - intros ->. exact E.
  - intros Hv Hm. apply Z.eqb_neq in Hv. rewrite Hv in E. rewrite E.
    destruct module; try reflexivity. congruence.
  - intros Hv ->. apply Z.eqb_neq in Hv. rewrite Hv in E. rewrite E.
    unfold bind. rewrite on_bus_run.
    destruct (lpf_tuning_store dev v h2) as [[[] | e] h3]; reflexivity.
Qed.

Lemma dc_cal_submodule_retry_witness :
  dc_cal_submodule_setup txlpf_31_then_0 BLADERF_DC_CAL_TX_LPF 0 [] = (Ok tt, []) /\
  lms_dc_cal_loop txlpf_31_then_0 0x30 0 31 []
    = (Ok 31, snd (lms_dc_cal_loop txlpf_31_then_0 0x30 0 31 [])) /\
  lms_dc_cal_loop txlpf_31_then_0 0x30 0 0
      (snd (lms_dc_cal_loop txlpf_31_then_0 0x30 0 31 []))
    = (Ok 0, snd (lms_dc_cal_loop txlpf_31_then_0 0x30 0 0
                    (snd (lms_dc_cal_loop txlpf_31_then_0 0x30 0 31 [])))) /\
  fst (dc_cal_submodule txlpf_31_then_0 BLADERF_DC_CAL_TX_LPF 0
         (set_module_regs 0x30 2 dc_cal_state_zero, [])) = Ok false.
Proof.
  assert (H0 : dc_cal_submodule_setup txlpf_31_then_0 BLADERF_DC_CAL_TX_LPF 0 []
               = (Ok tt, [])) by reflexivity.
  assert (H1 : lms_dc_cal_loop txlpf_31_then_0
                 (base_addr (set_module_regs 0x30 2 dc_cal_state_zero)) 0 31 []
               = (Ok 31, snd (lms_dc_cal_loop txlpf_31_then_0 0x30 0 31 [])))
    by (vm_compute; reflexivity).
  assert (H2 : lms_dc_cal_loop txlpf_31_then_0
                 (base_addr (set_module_regs 0x30 2 dc_cal_state_zero)) 0 0
                 (snd (lms_dc_cal_loop txlpf_31_then_0 0x30 0 31 []))
               = (Ok 0, snd (lms_dc_cal_loop txlpf_31_then_0 0x30 0 0
                          (snd (lms_dc_cal_loop txlpf_31_then_0 0x30 0 31 [])))))
    by (vm_compute; reflexivity).
  split; [exact H0 |]. split; [exact H1 |]. split; [exact H2 |].
  pose proof (proj1 (dc_cal_submodule_retry txlpf_31_then_0 BLADERF_DC_CAL_TX_LPF 0
                    (set_module_regs 0x30 2 dc_cal_state_zero) [] [] _ H0 H1 0 _ H2)
             eq_refl) as E.
  exact (f_equal fst E).
Defined.

Lemma dc_cal_retry_zero_not_converged :
  exists h1 h2,
    lms_dc_cal_loop txlpf_31_then_0 0x30 0 31 [] = (Ok 31, h1) /\
    lms_dc_cal_loop txlpf_31_then_0 0x30 0 0 h1 = (Ok 0, h2) /\
    fst (dc_cal_submodule txlpf_31_then_0 BLADERF_DC_CAL_TX_LPF 0
           (set_module_regs 0x30 2 dc_cal_state_zero, [])) = Ok false /\
    fst (dc_cal_submodule txlpf_31_then_0 BLADERF_DC_CAL_TX_LPF 0
           (set_module_regs 0x30 2 dc_cal_state_zero, [])) <> Ok true.
Proof.
  eexists. eexists. split; [ vm_compute; reflexivity | ].
  split; [ vm_compute; reflexivity | ].
  split; [ vm_compute; reflexivity | vm_compute; discriminate ].
Qed.

Example calibrate_txlpf_31_then_0 :
  option_map fst (lms_calibrate_dc 40 txlpf_31_then_0 BLADERF_DC_CAL_TX_LPF [])
  = Some BLADERF_ERR_UNEXPECTED.
Proof. vm_compute. reflexivity. Qed.

(* ------------------------------------------------------------------ *)
(** * DC calibration: termination *)

Lemma dc_cal_poll_S dev base n h :
  dc_cal_poll dev base (S n) h =
  let '(rs, v) := lms_read dev h (base + 1) in
  let h1 := Rd (base + 1) (u8 v) rs :: h in
  if rs =? 0 then
    if cal_done (u8 v) then
      let '(rs', v') := lms_read dev h1 base in
      let h2 := Rd base (u8 v') rs' :: h1 in
      if rs' =? 0 then (Ok (Z.land (u8 v') 0x3f), h2) else (Err rs', h2)
    else dc_cal_poll dev base n h1
  else (Err rs, h1).
Proof.
  simpl. unfold bind, LMS_READ, cal_done.
  destruct (lms_read dev h (base + 1)) as [rs v]. cbv zeta.
  destruct (rs =? 0); [| reflexivity].
  destruct (Z.land (Z.shiftr (u8 v) 1) 1 =? 0); [| reflexivity].
  destruct (lms_read dev _ base) as [rs' v'].
  destruct (rs' =? 0); reflexivity.
Qed.

Lemma dc_cal_poll_spec dev base n :
  forall h, exists ts,
    snd (dc_cal_poll dev base n h) = rev ts ++ h /\
    let polls := reads_at (base + 1) ts in
    (length polls <= n)%nat /\ (length ts <= S n)%nat /\
    (clean ts ->
     match find cal_done polls with
     | Some _ =>
         exists v, reads_at base ts = [v] /\
                   fst (dc_cal_poll dev base n h) = Ok (Z.land v 0x3f)
     | None =>
         length polls = n /\
         fst (dc_cal_poll dev base n h) = Err BLADERF_ERR_UNEXPECTED
     end).
Proof.
  assert (Ne1 : (base + 1 =? base) = false) by (apply Z.eqb_neq; lia).
  assert (Ne2 : (base =? base + 1) = false) by (apply Z.eqb_neq; lia).
  induction n as [| n IH]; intros h.
  - exists []. simpl. repeat split; auto.
  - rewrite dc_cal_poll_S.
    destruct (lms_read dev h (base + 1)) as [rs v]. cbv zeta.
    destruct (Z.eqb_spec rs 0) as [-> | Hrs].
    2:{ exists [Rd (base + 1) (u8 v) rs]. split; [reflexivity |]. simpl.
        rewrite Z.eqb_refl. apply Z.eqb_neq in Hrs. rewrite Hrs. simpl.
        split; [lia |]. split; [lia |].
        intros C. inversion C; subst. simpl in *. apply Z.eqb_neq in Hrs. contradiction. }
    destruct (cal_done (u8 v)) eqn:D.
    + destruct (lms_read dev _ base) as [rs' v'].
      exists [Rd (base + 1) (u8 v) 0; Rd base (u8 v') rs'].
      split; [destruct (rs' =? 0); reflexivity |]. simpl.
      rewrite !Z.eqb_refl, Ne1, Ne2. simpl.
      destruct (Z.eqb_spec rs' 0) as [-> | Hrs'].
      * simpl. rewrite D. split; [lia |]. split; [lia |]. intros _. eauto.
      * simpl. split; [lia |]. split; [lia |].
        intros C. inversion C as [| ? ? _ C']; subst. inversion C'; subst.
        simpl in *. contradiction.
    + destruct (IH (Rd (base + 1) (u8 v) 0 :: h)) as (ts & Ets & Hp & Hl & Hc).
      exists (Rd (base + 1) (u8 v) 0 :: ts).
      split; [rewrite Ets; simpl; rewrite <- app_assoc; reflexivity |].
      cbv zeta in *. cbn [reads_at]. rewrite !Z.eqb_refl, Ne1. cbn [andb].
      cbn [length find]. rewrite D.
      split; [lia |]. split; [lia |].
      intros C. inversion C as [| ? ? _ C']; subst. specialize (Hc C').
      destruct (find cal_done (reads_at (base + 1) ts)).
      * exact Hc.
      * destruct Hc as [Hc1 Hc2]. split; [lia | exact Hc2].
Qed.

Lemma poll_outcome_poll dev base :
  poll_outcome base (dc_cal_poll dev base max_cal_count).
Proof.
  intros h. destruct (dc_cal_poll_spec dev base max_cal_count h) as (ts & E & L & _ & C).
  exists ts. cbv zeta in *. unfold max_cal_count in *. auto.
Qed.

Lemma poll_outcome_write dev base a v (k : M hist Z) :
  poll_outcome base k -> poll_outcome base (LMS_WRITE dev a v ;; k).
Proof.
  intros K h.
  set (ws := lms_write dev h a (u8 v)).
  assert (R : (LMS_WRITE dev a v ;; k) h
              = if ws =? 0 then k (Wr a (u8 v) ws :: h)
                else (Err ws, Wr a (u8 v) ws :: h)).
  { unfold bind, LMS_WRITE. fold ws. destruct (ws =? 0); reflexivity. }
  rewrite R. clear R.
  destruct (Z.eqb_spec ws 0) as [Hws | Hws].
  - destruct (K (Wr a (u8 v) ws :: h)) as (ts & E & L & C).
    exists (Wr a (u8 v) ws :: ts).
    split; [rewrite E; simpl; rewrite <- app_assoc; reflexivity |].
    cbv zeta in *. cbn [reads_at]. split; [exact L |].
    intros X. inversion X; subst. apply C. assumption.
  - exists [Wr a (u8 v) ws]. split; [reflexivity |]. simpl. split; [lia |].
    intros X. inversion X; subst. simpl in *. contradiction.
Qed.

Lemma poll_outcome_read dev base a (k : Z -> M hist Z) :
  a <> base + 1 -> a <> base ->
  (forall v, poll_outcome base (k v)) ->
  poll_outcome base (v <- LMS_READ dev a ;; k v).
Proof.
  intros N1 N0 K h.
  destruct (lms_read dev h a) as [rs v] eqn:Hrd.
  assert (R : (v <- LMS_READ dev a ;; k v) h
              = if rs =? 0 then k (u8 v) (Rd a (u8 v) rs :: h)
                else (Err rs, Rd a (u8 v) rs :: h)).
  { unfold bind, LMS_READ. rewrite Hrd. destruct (rs =? 0); reflexivity. }
  rewrite R. clear R.
  apply Z.eqb_neq in N1, N0.
  destruct (Z.eqb_spec rs 0) as [-> | Hrs].
  - destruct (K (u8 v) (Rd a (u8 v) 0 :: h)) as (ts & E & L & C).
    exists (Rd a (u8 v) 0 :: ts).
    split; [rewrite E; simpl; rewrite <- app_assoc; reflexivity |].
    cbv zeta in *. cbn [reads_at]. rewrite N1, N0. cbn [andb]. split; [exact L |].
    intros X. inversion X; subst. apply C. assumption.
  - exists [Rd a (u8 v) rs]. split; [reflexivity |]. simpl. rewrite N1. simpl.
    split; [lia |].
    intros X. inversion X; subst. simpl in *. contradiction.
Qed.

Lemma poll_outcome_loop dev base cal_address dc_cntval :
  poll_outcome base (lms_dc_cal_loop dev base cal_address dc_cntval).
Proof.
  unfold lms_dc_cal_loop.
  apply poll_outcome_read; [lia | lia | intros val].
  repeat apply poll_outcome_write.
  apply poll_outcome_poll.
Qed.

(** The bus-level pieces of the calibration are fail-fast. *)
Lemma failfast_dc_cal_poll dev base n : failfast (dc_cal_poll dev base n).
Proof. induction n as [| n IH]; simpl; ff. Qed.
#[local] Hint Resolve failfast_dc_cal_poll : failfast.

Lemma failfast_dc_cal_loop dev base a c : failfast (lms_dc_cal_loop dev base a c).
Proof. unfold lms_dc_cal_loop. ff. Qed.
#[local] Hint Resolve failfast_dc_cal_loop : failfast.

Lemma failfast_dc_cal_regval dev base sub : failfast (dc_cal_regval dev base sub).
Proof. unfold dc_cal_regval. ff. Qed.

Lemma failfast_lms_set dev a m : failfast (lms_set dev a m).
Proof. unfold lms_set. ff. Qed.

Lemma failfast_lms_clear dev a m : failfast (lms_clear dev a m).
Proof. unfold lms_clear. ff. Qed.
#[local] Hint Resolve failfast_dc_cal_regval failfast_lms_set failfast_lms_clear : failfast.

Lemma failfast_submodule_setup dev module sub :
  failfast (dc_cal_submodule_setup dev module sub).
Proof.
  unfold dc_cal_submodule_setup, rxvga2_submodule_setup. destruct module; ff.
Qed.

Lemma failfast_lpf_tuning_store dev v : failfast (lpf_tuning_store dev v).
Proof. unfold lpf_tuning_store. ff. Qed.

Lemma failfast_rxvga1_set_gain dev g : failfast (lms_rxvga1_set_gain dev g).
Proof. unfold lms_rxvga1_set_gain. ff. Qed.

Lemma failfast_rxvga2_set_gain dev g : failfast (lms_rxvga2_set_gain dev g).
Proof. unfold lms_rxvga2_set_gain. ff. Qed.
#[local] Hint Resolve failfast_submodule_setup failfast_lpf_tuning_store
  failfast_rxvga1_set_gain failfast_rxvga2_set_gain : failfast.

Ltac cal_step :=
  repeat first
    [ apply nonzero_ret | apply nonzero_get_state | apply nonzero_set_state
    | apply nonzero_on_bus, failfast_nonzero; solve [ auto with failfast nocore ]
    | apply nonzero_bind; [ | intros ? ]
    | apply keeps_ret | apply keeps_get_state | apply keeps_on_bus
    | apply keeps_bind; [ | intros ? ]
    | match goal with
      | |- nonzero_err (match ?x with _ => _ end) => destruct x
      | |- keeps_state (match ?x with _ => _ end) => destruct x
      | |- nonzero_err (if ?x then _ else _) => destruct x
      | |- keeps_state (if ?x then _ else _) => destruct x
      end ].

Lemma nonzero_submodule dev module sub : nonzero_err (dc_cal_submodule dev module sub).
Proof. unfold dc_cal_submodule. cal_step. Qed.

Lemma keeps_submodule dev module sub : keeps_state (dc_cal_submodule dev module sub).
Proof. unfold dc_cal_submodule. cal_step. Qed.

Lemma nonzero_submodules dev module n : forall i, nonzero_err (dc_cal_submodules dev module n i).
Proof.
  induction n as [| n IH]; intros i; simpl.
  - cal_step.
  - apply nonzero_bind; [apply nonzero_submodule | intros [|]; [apply IH | cal_step]].
Qed.

Lemma keeps_submodules dev module n : forall i, keeps_state (dc_cal_submodules dev module n i).
Proof.
  induction n as [| n IH]; intros i; simpl.
  - cal_step.
  - apply keeps_bind; [apply keeps_submodule | intros [|]; [apply IH | cal_step]].
Qed.

Lemma nonzero_module dev module : nonzero_err (dc_cal_module dev module).
Proof.
  unfold dc_cal_module. apply nonzero_bind; [cal_step | intros s; apply nonzero_submodules].
Qed.

Lemma keeps_module dev module : keeps_state (dc_cal_module dev module).
Proof.
  unfold dc_cal_module. apply keeps_bind; [cal_step | intros s; apply keeps_submodules].
Qed.

Lemma nonzero_retry dev module l : nonzero_err (dc_cal_retry_adjustment dev module l).
Proof. unfold dc_cal_retry_adjustment. destruct module; cal_step. Qed.

(** What the adjustment does, module by module. *)
Lemma retry_adjustment_run dev module l s h :
  dc_cal_retry_adjustment dev module l (s, h) =
  let lower1 :=
    let gain := rxvga1_curr_gain s - 1 in
    let '(r, h') := lms_rxvga1_set_gain dev gain h in
    (match r with Ok _ => Ok l | Err e => Err e end,
     (set_rxvga1_curr_gain gain s, h')) in
  let lower2 :=
    let gain := rxvga2_curr_gain s - 3 in
    let '(r, h') := lms_rxvga2_set_gain dev gain h in
    (match r with Ok _ => Ok l | Err e => Err e end,
     (set_rxvga2_curr_gain gain s, h')) in
  match module with
  | BLADERF_DC_CAL_LPF_TUNING | BLADERF_DC_CAL_TX_LPF => (Ok true, (s, h))
  | BLADERF_DC_CAL_RX_LPF =>
      if rxvga1_curr_gain s >? BLADERF_RXVGA1_GAIN_MIN then lower1
      else (Ok true, (s, h))
  | BLADERF_DC_CAL_RXVGA2 =>
      if rxvga1_curr_gain s >? BLADERF_RXVGA1_GAIN_MIN then lower1
      else if rxvga2_curr_gain s >? BLADERF_RXVGA2_GAIN_MIN then lower2
      else (Ok true, (s, h))
  end.
Proof.
  unfold dc_cal_retry_adjustment. rewrite bind_get_state. cbn [fst]. cbv zeta.
  destruct module; try reflexivity.
  - destruct (rxvga1_curr_gain s >? BLADERF_RXVGA1_GAIN_MIN); [| reflexivity].
    rewrite bind_set_state. cbn [fst snd]. rewrite bind_on_bus.
    destruct (lms_rxvga1_set_gain dev _ h) as [[[] | e] h']; reflexivity.
  - destruct (rxvga1_curr_gain s >? BLADERF_RXVGA1_GAIN_MIN).
    + rewrite bind_set_state. cbn [fst snd]. rewrite bind_on_bus.
      destruct (lms_rxvga1_set_gain dev _ h) as [[[] | e] h']; reflexivity.
    + destruct (rxvga2_curr_gain s >? BLADERF_RXVGA2_GAIN_MIN); [| reflexivity].
      rewrite bind_set_state. cbn [fst snd]. rewrite bind_on_bus.
      destruct (lms_rxvga2_set_gain dev _ h) as [[[] | e] h']; reflexivity.
Qed.

Lemma dc_cal_converge_exit dev module fuel c l st w :
  negb c && negb l && (st =? 0) = false ->
  dc_cal_converge dev module fuel c l st w = Some (c, st, w).
Proof. intros E. destruct fuel; simpl; rewrite E; reflexivity. Qed.

Ltac cal_run :=
  repeat (first
    [ rewrite bind_set_state
    | rewrite bind_get_state
    | rewrite bind_on_bus;
      match goal with
      | |- context [match ?m ?h with _ => _ end] =>
          destruct (m h) as [[? | ?] ?]; [ | discriminate ]
      end
    | rewrite on_bus_run;
      match goal with
      | |- context [fst (?m ?h)] => destruct (m h) as [[? | ?] ?]
      end ]; cbn [fst snd]).

Lemma calibrate_dc_error_status dev module status w :
  status <> 0 -> fst (lms_calibrate_dc_error dev module status w) = status.
Proof.
  intros H. unfold lms_calibrate_dc_error.
  destruct (dc_cal_module_deinit dev module w) as [r w1].
  destruct (dc_cal_restore dev module w1) as [t w2].
  apply Z.eqb_neq in H. simpl. rewrite H. simpl. rewrite H. reflexivity.
Qed.

Example calibrate_rxlpf_stuck :
  option_map fst (lms_calibrate_dc 56 rxlpf_stuck BLADERF_DC_CAL_RX_LPF [])
    = Some BLADERF_ERR_UNEXPECTED /\
  option_map (fun r => writes_at 0x76 (rev (snd r)))
    (lms_calibrate_dc 56 rxlpf_stuck BLADERF_DC_CAL_RX_LPF [])
    = Some (map (index rxvga1_lut_val2code)
              [30; 29; 28; 27; 26; 25; 24; 23; 22; 21; 20; 19; 18; 17; 16; 15;
               14; 13; 12; 11; 10; 9; 8; 7; 6; 5; 5]).
Proof. split; vm_compute; reflexivity. Qed.

(* ------------------------------------------------------------------ *)
(** * Successful runs on memory registers *)

Lemma bind_inv {S A B} (m : M S A) (k : A -> M S B) s b s2 :
  bind m k s = (Ok b, s2) -> exists a s1, m s = (Ok a, s1) /\ k a s1 = (Ok b, s2).
Proof.
  unfold bind. destruct (m s) as [[a | e] s1]; [eauto | discriminate].
Qed.

Lemma ret_inv {S A} (a b : A) (s s' : S) : ret a s = (Ok b, s') -> b = a /\ s' = s.
Proof. unfold ret. intros E. inversion E. auto. Qed.

Lemma LMS_READ_inv dev a h d h1 :
  LMS_READ dev a h = (Ok d, h1) -> h1 = Rd a d 0 :: h /\ 0 <= d < 256.
Proof.
  unfold LMS_READ. destruct (lms_read dev h a) as [st v].
  destruct (Z.eqb_spec st 0) as [-> | _]; [| discriminate].
  intros [= <- <-]. split; [reflexivity | apply u8_range].
Qed.

Lemma LMS_WRITE_inv dev a v h u h1 :
  LMS_WRITE dev a v h = (Ok u, h1) -> h1 = Wr a (u8 v) 0 :: h.
Proof.
  unfold LMS_WRITE. destruct (Z.eqb_spec (lms_write dev h a (u8 v)) 0) as [-> | _];
    [| discriminate].
  intros E. inversion E. reflexivity.
Qed.

Lemma LMS_READ_mem dev init a h :
  memory_at dev init a ->
  LMS_READ dev a h = (Ok (stored init h a), Rd a (stored init h a) 0 :: h).
Proof. intros Hm. apply LMS_READ_ok, Hm. Qed.

Lemma LMS_READ_mem_inv dev init a h d h1 :
  memory_at dev init a ->
  LMS_READ dev a h = (Ok d, h1) -> d = stored init h a /\ h1 = Rd a d 0 :: h.
Proof. intros Hm. rewrite (LMS_READ_mem _ _ _ _ Hm). intros [= <- <-]. auto. Qed.

Lemma stored_range init h a : 0 <= stored init h a < 256.
Proof. apply u8_range. Qed.

Lemma stored_Rd init a d s h b : stored init (Rd a d s :: h) b = stored init h b.
Proof. reflexivity. Qed.

Lemma stored_Wr_same init a v s h : stored init (Wr a (u8 v) s :: h) a = u8 v.
Proof.
  unfold stored. simpl. rewrite Z.eqb_refl. apply u8_small, u8_range.
Qed.

Lemma stored_Wr_other init a v s h b :
  a <> b -> stored init (Wr a v s :: h) b = stored init h b.
Proof.
  intros Hne. unfold stored. simpl.
  destruct (Z.eqb_spec a b); [contradiction | reflexivity].
Qed.

(** The content of a register after a run whose transactions are
    known. *)
Ltac stored_step :=
  match goal with
  | |- context [stored ?i (Rd ?a ?d ?s :: ?h) ?b] =>
      rewrite (stored_Rd i a d s h b)
  | |- context [stored ?i (Wr ?a (u8 ?v) ?s :: ?h) ?a] =>
      rewrite (stored_Wr_same i a v s h)
  | |- context [stored ?i (Wr ?a ?v ?s :: ?h) ?b] =>
      rewrite (stored_Wr_other i a v s h b) by lia
  end.

Ltac norm_addr :=
  repeat match goal with
         | |- context [pll_base ?m + ?k] =>
             let v := eval compute in (pll_base m + k) in
             progress change (pll_base m + k) with v
         | |- context [lpf_reg BLADERF_MODULE_RX] =>
             progress change (lpf_reg BLADERF_MODULE_RX) with 0x54
         | |- context [lpf_reg BLADERF_MODULE_TX] =>
             progress change (lpf_reg BLADERF_MODULE_TX) with 0x34
         | |- context [0x54 + 1] => progress change (0x54 + 1) with 0x55
         | |- context [0x34 + 1] => progress change (0x34 + 1) with 0x35
         end.

Ltac stored_simpl := norm_addr; repeat stored_step.

(** A read-modify-write of a memory register, followed by a read. *)
Lemma rmw_stored dev init a (f : Z -> Z) h h1 :
  memory_at dev init a ->
  (data <- LMS_READ dev a ;; LMS_WRITE dev a (f data)) h = (Ok tt, h1) ->
  stored init h1 a = u8 (f (stored init h a)) /\
  (forall b, a <> b -> stored init h1 b = stored init h b).
Proof.
  intros Hm H. apply bind_inv in H as (d & h0 & Hr & Hw).
  apply (LMS_READ_mem_inv _ _ _ _ _ _ Hm) in Hr as [-> ->].
  apply LMS_WRITE_inv in Hw as ->. split.
  - apply stored_Wr_same.
  - intros b Hb. rewrite stored_Wr_other by assumption. reflexivity.
Qed.

(** What a getter that decodes one memory register answers. *)
Lemma read_decode {A} dev init a (g : Z -> M hist A) h :
  memory_at dev init a ->
  (data <- LMS_READ dev a ;; g data) h
  = g (stored init h a) (Rd a (stored init h a) 0 :: h).
Proof. intros Hm. apply bind_ok, LMS_READ_mem, Hm. Qed.

(** Run a check over every 8-bit value. *)
Ltac by_all_u8 d Hd :=
  revert d Hd; apply all_u8_spec; vm_compute; reflexivity.

(* ------------------------------------------------------------------ *)
(** * LPF bandwidth and mode *)

Lemma lms_bw_code_inv bw : lms_bw_of_code (lms_bw_code bw) = bw.
Proof. destruct bw; reflexivity. Qed.

Lemma bandwidth_field d bw :
  0 <= d < 256 ->
  let v := u8 (Z.lor (u8 (Z.land d (Z.lnot 0x3c))) (Z.shiftl (lms_bw_code bw) 2)) in
  Z.land (Z.shiftr v 2) 0xf = lms_bw_code bw /\ Z.land v 0xc3 = Z.land d 0xc3.
Proof.
  intros Hd. cbv zeta.
  assert (C : (Z.land (Z.shiftr (u8 (Z.lor (u8 (Z.land d (Z.lnot 0x3c)))
                 (Z.shiftl (lms_bw_code bw) 2))) 2) 0xf =? lms_bw_code bw)
              && (Z.land (u8 (Z.lor (u8 (Z.land d (Z.lnot 0x3c)))
                 (Z.shiftl (lms_bw_code bw) 2))) 0xc3 =? Z.land d 0xc3) = true).
  { destruct bw; by_all_u8 d Hd. }
  apply andb_prop in C as [C1 C2]. split; apply Z.eqb_eq; assumption.
Qed.

Lemma get_bandwidth_stored dev init module h :
  memory_at dev init (lpf_reg module) ->
  fst (lms_get_bandwidth dev module h)
  = Ok (lms_bw_of_code (Z.land (Z.shiftr (stored init h (lpf_reg module)) 2) 0xf)).
Proof.
  intros Hm. unfold lms_get_bandwidth. rewrite (read_decode _ _ _ _ _ Hm). reflexivity.
Qed.

(** Property X1 (bandwidth round trip).
    Setting the bandwidth and reading it back: the LPF register is a
    memory.  The bandwidth read back is the one set, and the bits of the
    register outside the 4-bit field [5:2] are as they were. *)
Theorem bandwidth_roundtrip dev init module bw h h1 :
  memory_at dev init (lpf_reg module) ->
  lms_set_bandwidth dev module bw h = (Ok tt, h1) ->
  fst (lms_get_bandwidth dev module h1) = Ok bw /\
  Z.land (stored init h1 (lpf_reg module)) 0xc3
  = Z.land (stored init h (lpf_reg module)) 0xc3.
Proof.
  intros Hm Hset. unfold lms_set_bandwidth in Hset.
  apply (rmw_stored _ _ _ (fun data => u8 (Z.lor (u8 (Z.land data (Z.lnot 0x3c)))
           (Z.shiftl (lms_bw_code bw) 2))) _ _ Hm) in Hset as [E _].
  rewrite (get_bandwidth_stored _ _ _ _ Hm), E.
  rewrite u8_small by apply u8_range.
  destruct (bandwidth_field _ bw (stored_range init h (lpf_reg module))) as [F1 F2].
  rewrite F1, F2, lms_bw_code_inv. split; reflexivity.
Qed.

Lemma bandwidth_roundtrip_witness :
  let init := fun _ : Z => 0xff in
  let dev := regfile init in
  let module := BLADERF_MODULE_RX in
  let bw := BW_5MHz in
  let h := @nil xact in
  let h1 := snd (lms_set_bandwidth dev module bw h) in
  memory_at dev init (lpf_reg module) /\
  lms_set_bandwidth dev module bw h = (Ok tt, h1) /\
  fst (lms_get_bandwidth dev module h1) = Ok bw /\
  Z.land (stored init h1 (lpf_reg module)) 0xc3
  = Z.land (stored init h (lpf_reg module)) 0xc3.
Proof.
  intros init dev module bw h h1.
  assert (Hm : memory_at dev init (lpf_reg module)) by (intros h0; reflexivity).
  assert (Hr : lms_set_bandwidth dev module bw h = (Ok tt, h1)) by reflexivity.
  exact (conj Hm (conj Hr (bandwidth_roundtrip dev init module bw h h1 Hm Hr))).
Defined.

Lemma lpf_reg_next module : lpf_reg module <> lpf_reg module + 1.
Proof. lia. Qed.

Lemma lpf_reg_prev module : lpf_reg module + 1 <> lpf_reg module.
Proof. lia. Qed.

Lemma get_mode_stored dev init module h :
  memory_at dev init (lpf_reg module) ->
  memory_at dev init (lpf_reg module + 1) ->
  fst (lms_lpf_get_mode dev module h)
  = match Z.testbit (stored init h (lpf_reg module)) 1,
          Z.testbit (stored init h (lpf_reg module + 1)) 6 with
    | true, false => Ok BLADERF_LPF_NORMAL
    | false, true => Ok BLADERF_LPF_BYPASSED
    | false, false => Ok BLADERF_LPF_DISABLED
    | true, true => Err BLADERF_ERR_INVAL
    end.
Proof.
  intros Hl Hh. unfold lms_lpf_get_mode.
  rewrite (read_decode _ _ _ _ _ Hl), (read_decode _ _ _ _ _ Hh).
  rewrite stored_Rd. rewrite !land_bit by lia.
  destruct (Z.testbit _ 1), (Z.testbit _ 6); reflexivity.
Qed.

Lemma testbit_u8_high v j : 8 <= j -> Z.testbit (u8 v) j = false.
Proof. intros Hj. unfold u8. apply Z.mod_pow2_bits_high. lia. Qed.

Lemma testbit_byte_high d j : 0 <= d < 256 -> 8 <= j -> Z.testbit d j = false.
Proof. intros Hd Hj. rewrite <- (u8_small d Hd). apply testbit_u8_high, Hj. Qed.

Lemma bit_set d k :
  0 <= d < 256 -> 0 <= k < 8 ->
  forall j, 0 <= j ->
  Z.testbit (u8 (Z.lor d (Z.shiftl 1 k))) j = (Z.testbit d j || (j =? k)).
Proof.
  intros Hd Hk j Hj. destruct (Z.lt_ge_cases j 8) as [Hlt | Hge].
  - rewrite testbit_u8 by lia.
    rewrite Z.lor_spec, Z.shiftl_mul_pow2, Z.mul_1_l, Z.pow2_bits_eqb by lia.
    rewrite (Z.eqb_sym k j). reflexivity.
  - rewrite testbit_u8_high, (testbit_byte_high d j) by assumption.
    destruct (Z.eqb_spec j k); [lia | reflexivity].
Qed.

Lemma bit_clear d k :
  0 <= d < 256 -> 0 <= k < 8 ->
  forall j, 0 <= j ->
  Z.testbit (u8 (Z.land d (Z.lnot (Z.shiftl 1 k)))) j = (Z.testbit d j && negb (j =? k)).
Proof.
  intros Hd Hk j Hj. destruct (Z.lt_ge_cases j 8) as [Hlt | Hge].
  - rewrite testbit_u8 by lia.
    rewrite Z.land_spec, Z.lnot_spec, Z.shiftl_mul_pow2, Z.mul_1_l, Z.pow2_bits_eqb by lia.
    rewrite (Z.eqb_sym k j). reflexivity.
  - rewrite testbit_u8_high, (testbit_byte_high d j) by assumption. reflexivity.
Qed.

(** Prove an equation between two expressions of the byte [d] by
    checking the 256 cases. *)
Ltac byte_cases d Hd :=
  apply Z.eqb_eq; revert d Hd; apply all_u8_spec; vm_compute; reflexivity.

Lemma bw_field_enable d :
  0 <= d < 256 ->
  Z.land (Z.shiftr (u8 (Z.lor d (Z.shiftl 1 1))) 2) 0xf = Z.land (Z.shiftr d 2) 0xf.
Proof. intros Hd. byte_cases d Hd. Qed.

Lemma bw_field_disable d :
  0 <= d < 256 ->
  Z.land (Z.shiftr (u8 (Z.land d (Z.lnot (Z.shiftl 1 1)))) 2) 0xf
  = Z.land (Z.shiftr d 2) 0xf.
Proof. intros Hd. byte_cases d Hd. Qed.

(** The two registers after a successful [lms_lpf_set_mode]. *)
Lemma lpf_set_mode_stored dev init module mode h h1 :
  memory_at dev init (lpf_reg module) ->
  memory_at dev init (lpf_reg module + 1) ->
  lms_lpf_set_mode dev module mode h = (Ok tt, h1) ->
  let dl := stored init h (lpf_reg module) in
  let dh := stored init h (lpf_reg module + 1) in
  stored init h1 (lpf_reg module)
  = match mode with
    | BLADERF_LPF_NORMAL => u8 (Z.lor dl (Z.shiftl 1 1))
    | _ => u8 (Z.land dl (Z.lnot (Z.shiftl 1 1)))
    end /\
  stored init h1 (lpf_reg module + 1)
  = match mode with
    | BLADERF_LPF_BYPASSED => u8 (Z.lor dh (Z.shiftl 1 6))
    | _ => u8 (Z.land dh (Z.lnot (Z.shiftl 1 6)))
    end.
Proof.
  intros Hl Hh Hset. cbv zeta. unfold lms_lpf_set_mode in Hset.
  rewrite (read_decode _ _ _ _ _ Hl), (read_decode _ _ _ _ _ Hh) in Hset.
  rewrite stored_Rd in Hset.
  destruct mode; cbv beta iota in Hset;
    apply bind_inv in Hset as ([] & h0 & W1 & W2);
    apply LMS_WRITE_inv in W1 as ->; apply LMS_WRITE_inv in W2 as ->;
    rewrite stored_Wr_same, (stored_Wr_other _ _ _ _ _ _ (lpf_reg_prev module)),
      stored_Wr_same, !(u8_small (u8 _)) by apply u8_range;
    split; reflexivity.
Qed.

(** Property X2 (LPF mode round trip).
    Setting the LPF mode and reading it back, the two LPF registers
    being memories: the mode read back is the one set (never the invalid
    "enabled and bypassed"), and the bandwidth selection is as it
    was. *)
Theorem lpf_mode_roundtrip dev init module mode h h1 :
  memory_at dev init (lpf_reg module) ->
  memory_at dev init (lpf_reg module + 1) ->
  lms_lpf_set_mode dev module mode h = (Ok tt, h1) ->
  fst (lms_lpf_get_mode dev module h1) = Ok mode /\
  fst (lms_get_bandwidth dev module h1) = fst (lms_get_bandwidth dev module h).
Proof.
  intros Hl Hh Hset.
  destruct (lpf_set_mode_stored _ _ _ _ _ _ Hl Hh Hset) as [El Eh].
  pose proof (stored_range init h (lpf_reg module)) as Rl.
  pose proof (stored_range init h (lpf_reg module + 1)) as Rh.
  rewrite (get_mode_stored _ _ _ _ Hl Hh), !(get_bandwidth_stored _ _ _ _ Hl), El, Eh.
  destruct mode;
    rewrite ?bit_set, ?bit_clear, ?bw_field_enable, ?bw_field_disable by lia;
    change (1 =? 1) with true; change (6 =? 6) with true;
    rewrite ?orb_true_r, ?andb_false_r; split; reflexivity.
Qed.

Lemma lpf_mode_roundtrip_witness :
  let init := fun _ : Z => 0xff in
  let dev := regfile init in
  let module := BLADERF_MODULE_TX in
  let mode := BLADERF_LPF_BYPASSED in
  let h := @nil xact in
  let h1 := snd (lms_lpf_set_mode dev module mode h) in
  memory_at dev init (lpf_reg module) /\
  memory_at dev init (lpf_reg module + 1) /\
  lms_lpf_set_mode dev module mode h = (Ok tt, h1) /\
  fst (lms_lpf_get_mode dev module h1) = Ok mode /\
  fst (lms_get_bandwidth dev module h1) = fst (lms_get_bandwidth dev module h).
Proof.
  intros init dev module mode h h1.
  assert (Hm : memory_at dev init (lpf_reg module)) by (intros h0; reflexivity).
  assert (Hn : memory_at dev init (lpf_reg module + 1)) by (intros h0; reflexivity).
  assert (Hr : lms_lpf_set_mode dev module mode h = (Ok tt, h1)) by reflexivity.
  exact (conj Hm (conj Hn (conj Hr
           (lpf_mode_roundtrip dev init module mode h h1 Hm Hn Hr)))).
Defined.

(** The two registers after a successful [lms_lpf_enable]. *)
Lemma lpf_enable_stored dev init module enable h h1 :
  memory_at dev init (lpf_reg module) ->
  memory_at dev init (lpf_reg module + 1) ->
  lms_lpf_enable dev module enable h = (Ok tt, h1) ->
  let dl := stored init h (lpf_reg module) in
  let dh := stored init h (lpf_reg module + 1) in
  stored init h1 (lpf_reg module)
  = (if enable then u8 (Z.lor dl (Z.shiftl 1 1))
     else u8 (Z.land dl (Z.lnot (Z.shiftl 1 1)))) /\
  Z.testbit (stored init h1 (lpf_reg module + 1)) 6 = false.
Proof.
  intros Hl Hh Hen. cbv zeta. unfold lms_lpf_enable in Hen.
  rewrite (read_decode _ _ _ _ _ Hl) in Hen.
  apply bind_inv in Hen as ([] & h0 & W1 & Hen).
  apply LMS_WRITE_inv in W1 as ->.
  rewrite (read_decode _ _ _ _ _ Hh) in Hen.
  rewrite (stored_Wr_other _ _ _ _ _ _ (lpf_reg_next module)), stored_Rd in Hen.
  pose proof (stored_range init h (lpf_reg module + 1)) as Rh.
  rewrite land_bit in Hen by lia. rewrite negb_involutive in Hen.
  destruct (Z.testbit (stored init h (lpf_reg module + 1)) 6) eqn:B.
  - apply LMS_WRITE_inv in Hen as ->.
    rewrite stored_Wr_same, (stored_Wr_other _ _ _ _ _ _ (lpf_reg_prev module)),
      stored_Rd, stored_Wr_same.
    rewrite (u8_small (u8 _)) by apply u8_range.
    split; [destruct enable; apply u8_small, u8_range |].
    rewrite bit_clear by lia. apply andb_false_r.
  - injection Hen as <-.
    rewrite !stored_Rd, stored_Wr_same,
      (stored_Wr_other _ _ _ _ _ _ (lpf_reg_next module)), stored_Rd.
    split; [destruct enable; apply u8_small, u8_range | exact B].
Qed.

(** Property X3 (LPF enable).
    [lms_lpf_enable] on memory registers: afterwards the LPF is in
    Normal mode when it was enabled and Disabled when it was disabled,
    whatever the mode before (a bypass is removed either way); the
    bandwidth selection is as it was. *)
Theorem lpf_enable_mode dev init module enable h h1 :
  memory_at dev init (lpf_reg module) ->
  memory_at dev init (lpf_reg module + 1) ->
  lms_lpf_enable dev module enable h = (Ok tt, h1) ->
  fst (lms_lpf_get_mode dev module h1)
  = Ok (if enable then BLADERF_LPF_NORMAL else BLADERF_LPF_DISABLED) /\
  fst (lms_get_bandwidth dev module h1) = fst (lms_get_bandwidth dev module h).
Proof.
  intros Hl Hh Hen.
  destruct (lpf_enable_stored _ _ _ _ _ _ Hl Hh Hen) as [El Eh].
  pose proof (stored_range init h (lpf_reg module)) as Rl.
  rewrite (get_mode_stored _ _ _ _ Hl Hh), !(get_bandwidth_stored _ _ _ _ Hl), El, Eh.
  destruct enable;
    rewrite ?bit_set, ?bit_clear, ?bw_field_enable, ?bw_field_disable by lia;
    change (1 =? 1) with true;
    rewrite ?orb_true_r, ?andb_false_r; split; reflexivity.
Qed.

Lemma lpf_enable_mode_witness :
  let init := fun _ : Z => 0xff in
  let dev := regfile init in
  let module := BLADERF_MODULE_RX in
  let enable := true in
  let h := @nil xact in
  let h1 := snd (lms_lpf_enable dev module enable h) in
  memory_at dev init (lpf_reg module) /\
  memory_at dev init (lpf_reg module + 1) /\
  lms_lpf_enable dev module enable h = (Ok tt, h1) /\
  fst (lms_lpf_get_mode dev module h1)
  = Ok (if enable then BLADERF_LPF_NORMAL else BLADERF_LPF_DISABLED) /\
  fst (lms_get_bandwidth dev module h1) = fst (lms_get_bandwidth dev module h).
Proof.
  intros init dev module enable h h1.
  assert (Hm : memory_at dev init (lpf_reg module)) by (intros h0; reflexivity).
  assert (Hn : memory_at dev init (lpf_reg module + 1)) by (intros h0; reflexivity).
  assert (Hr : lms_lpf_enable dev module enable h = (Ok tt, h1)) by reflexivity.
  exact (conj Hm (conj Hn (conj Hr
           (lpf_enable_mode dev init module enable h h1 Hm Hn Hr)))).
Defined.

(* ------------------------------------------------------------------ *)
(** * LNA gain and LNA selection *)

Lemma lna_gain_code_inv gain :
  gain <> BLADERF_LNA_GAIN_UNKNOWN -> lna_gain_of_code (lna_gain_code gain) = gain.
Proof. destruct gain; [contradiction | reflexivity ..]. Qed.

Lemma lna_gain_field d c :
  0 <= d < 256 -> 0 <= c <= 3 ->
  let v := u8 (Z.lor (u8 (Z.land d (Z.lnot (Z.shiftl 3 6)))) (Z.shiftl (Z.land c 3) 6)) in
  Z.land (Z.shiftr v 6) 3 = c /\ Z.land (Z.shiftr v 4) 0x3 = Z.land (Z.shiftr d 4) 0x3.
Proof.
  intros Hd Hc. cbv zeta.
  assert (C : c = 0 \/ c = 1 \/ c = 2 \/ c = 3) by lia.
  destruct C as [-> | [-> | [-> | ->]]]; split; byte_cases d Hd.
Qed.

Lemma lna_select_field d c :
  0 <= d < 256 -> 0 <= c <= 3 ->
  let v := u8 (Z.lor (u8 (Z.land d (Z.lnot (Z.shiftl 3 4)))) (Z.shiftl (Z.land c 3) 4)) in
  Z.land (Z.shiftr v 4) 0x3 = c /\ Z.land (Z.shiftr v 6) 3 = Z.land (Z.shiftr d 6) 3.
Proof.
  intros Hd Hc. cbv zeta.
  assert (C : c = 0 \/ c = 1 \/ c = 2 \/ c = 3) by lia.
  destruct C as [-> | [-> | [-> | ->]]]; split; byte_cases d Hd.
Qed.

Lemma lna_get_gain_stored dev init h :
  memory_at dev init 0x75 ->
  fst (lms_lna_get_gain dev h)
  = match lna_gain_of_code (Z.land (Z.shiftr (stored init h 0x75) 6) 3) with
    | BLADERF_LNA_GAIN_UNKNOWN => Err BLADERF_ERR_INVAL
    | gain => Ok gain
    end.
Proof.
  intros Hm. unfold lms_lna_get_gain. rewrite (read_decode _ _ _ _ _ Hm).
  cbv zeta. destruct (lna_gain_of_code _); reflexivity.
Qed.

Lemma get_lna_stored dev init h :
  memory_at dev init 0x75 ->
  fst (lms_get_lna dev h)
  = Ok (lms_lna_of_code (Z.land (Z.shiftr (stored init h 0x75) 4) 0x3)).
Proof.
  intros Hm. unfold lms_get_lna. rewrite (read_decode _ _ _ _ _ Hm). reflexivity.
Qed.

Lemma lna_gain_code_range gain : 0 <= lna_gain_code gain <= 3.
Proof. destruct gain; simpl; lia. Qed.

Lemma lms_lna_code_range lna : 0 <= lms_lna_code lna <= 3.
Proof. destruct lna; simpl; lia. Qed.

Lemma lms_lna_code_inv lna : lms_lna_of_code (lms_lna_code lna) = lna.
Proof. destruct lna; reflexivity. Qed.

(** Property X4 (LNA gain round trip).
    Setting the LNA gain and reading it back, register 0x75 being a
    memory: the gain read back is the one set, and the LNA selection
    held by the same register is as it was. *)
Theorem lna_gain_roundtrip dev init gain h h1 :
  memory_at dev init 0x75 ->
  lms_lna_set_gain dev gain h = (Ok tt, h1) ->
  fst (lms_lna_get_gain dev h1) = Ok gain /\
  fst (lms_get_lna dev h1) = fst (lms_get_lna dev h).
Proof.
  intros Hm Hset.
  assert (Hg : gain <> BLADERF_LNA_GAIN_UNKNOWN) by (intros ->; discriminate).
  assert (E : stored init h1 0x75
              = u8 (Z.lor (u8 (Z.land (stored init h 0x75) (Z.lnot (Z.shiftl 3 6))))
                          (Z.shiftl (Z.land (lna_gain_code gain) 3) 6))).
  { destruct gain; [contradiction | ..];
      unfold lms_lna_set_gain in Hset;
      rewrite (read_decode _ _ _ _ _ Hm) in Hset;
      apply LMS_WRITE_inv in Hset as ->;
      rewrite stored_Wr_same; apply u8_small, u8_range. }
  destruct (lna_gain_field _ _ (stored_range init h 0x75) (lna_gain_code_range gain))
    as [F1 F2].
  rewrite (lna_get_gain_stored _ _ _ Hm), !(get_lna_stored _ _ _ Hm), E, F1, F2.
  rewrite (lna_gain_code_inv _ Hg). split; [destruct gain; congruence | reflexivity].
Qed.

Lemma lna_gain_roundtrip_witness :
  let init := fun _ : Z => 0xff in
  let dev := regfile init in
  let gain := BLADERF_LNA_GAIN_MID in
  let h := @nil xact in
  let h1 := snd (lms_lna_set_gain dev gain h) in
  memory_at dev init 0x75 /\
  lms_lna_set_gain dev gain h = (Ok tt, h1) /\
  fst (lms_lna_get_gain dev h1) = Ok gain /\
  fst (lms_get_lna dev h1) = fst (lms_get_lna dev h).
Proof.
  intros init dev gain h h1.
  assert (Hm : memory_at dev init 0x75) by (intros h0; reflexivity).
  assert (Hr : lms_lna_set_gain dev gain h = (Ok tt, h1)) by reflexivity.
  exact (conj Hm (conj Hr (lna_gain_roundtrip dev init gain h h1 Hm Hr))).
Defined.

Lemma lna_select_roundtrip_stored dev init lna h h1 :
  memory_at dev init 0x75 ->
  lms_select_lna dev lna h = (Ok tt, h1) ->
  fst (lms_get_lna dev h1) = Ok lna /\
  fst (lms_lna_get_gain dev h1) = fst (lms_lna_get_gain dev h).
Proof.
  intros Hm Hset. unfold lms_select_lna in Hset.
  rewrite (read_decode _ _ _ _ _ Hm) in Hset.
  apply LMS_WRITE_inv in Hset as ->.
  destruct (lna_select_field _ _ (stored_range init h 0x75) (lms_lna_code_range lna))
    as [F1 F2].
  rewrite !(lna_get_gain_stored _ _ _ Hm), (get_lna_stored _ _ _ Hm).
  rewrite stored_Wr_same, (u8_small (u8 _)) by apply u8_range.
  rewrite F1, F2, lms_lna_code_inv. split; reflexivity.
Qed.

(** Property X5 (LNA selection round trip).
    Selecting an LNA and reading the selection back, register 0x75 being
    a memory: the LNA read back is the one selected, and the LNA gain
    held by the same register is as it was. *)
Theorem lna_select_roundtrip dev init lna h h1 :
  memory_at dev init 0x75 ->
  lms_select_lna dev lna h = (Ok tt, h1) ->
  fst (lms_get_lna dev h1) = Ok lna /\
  fst (lms_lna_get_gain dev h1) = fst (lms_lna_get_gain dev h).
Proof. apply lna_select_roundtrip_stored. Qed.

Lemma lna_select_roundtrip_witness :
  let init := fun _ : Z => 0xff in
  let dev := regfile init in
  let lna := LNA_2 in
  let h := @nil xact in
  let h1 := snd (lms_select_lna dev lna h) in
  memory_at dev init 0x75 /\
  lms_select_lna dev lna h = (Ok tt, h1) /\
  fst (lms_get_lna dev h1) = Ok lna /\
  fst (lms_lna_get_gain dev h1) = fst (lms_lna_get_gain dev h).
Proof.
  intros init dev lna h h1.
  assert (Hm : memory_at dev init 0x75) by (intros h0; reflexivity).
  assert (Hr : lms_select_lna dev lna h = (Ok tt, h1)) by reflexivity.
  exact (conj Hm (conj Hr (lna_select_roundtrip dev init lna h h1 Hm Hr))).
Defined.

(* ------------------------------------------------------------------ *)
(** * Gain round trips *)

Lemma range_cases (lo : Z) (n : nat) (p : Z -> bool) :
  forallb p (map (fun k => lo + Z.of_nat k) (seq 0 n)) = true ->
  forall v, lo <= v < lo + Z.of_nat n -> p v = true.
Proof.
  rewrite forallb_forall. intros H v Hv. apply H.
  apply in_map_iff. exists (Z.to_nat (v - lo)). split; [lia | apply in_seq; lia].
Qed.

Lemma rxvga1_tables_inverse g :
  5 <= g <= 30 ->
  let data := Z.land (u8 (index rxvga1_lut_val2code g)) 0x7f in
  index rxvga1_lut_code2val (if data >? 120 then 120 else data) = g.
Proof.
  intros Hg. cbv zeta. apply Z.eqb_eq.
  apply (range_cases 5 26
           (fun g => index rxvga1_lut_code2val
                       (if Z.land (u8 (index rxvga1_lut_val2code g)) 0x7f >? 120
                        then 120 else Z.land (u8 (index rxvga1_lut_val2code g)) 0x7f)
                     =? g)); [vm_compute; reflexivity | lia].
Qed.

(** Property X6 (RXVGA1 gain round trip).
    RXVGA1 set then get, register 0x76 being a memory: the gain read
    back is the requested gain clamped into the range of the stage; the
    two conversion tables are inverse to each other on that range. *)
Theorem rxvga1_gain_roundtrip dev init gain h h1 :
  memory_at dev init 0x76 ->
  lms_rxvga1_set_gain dev gain h = (Ok tt, h1) ->
  fst (lms_rxvga1_get_gain dev h1)
  = Ok (clamp BLADERF_RXVGA1_GAIN_MIN BLADERF_RXVGA1_GAIN_MAX gain).
Proof.
  intros Hm Hset. unfold lms_rxvga1_set_gain in Hset.
  apply LMS_WRITE_inv in Hset as ->.
  unfold lms_rxvga1_get_gain. rewrite (read_decode _ _ _ _ _ Hm).
  rewrite stored_Wr_same, rxvga1_clamp_eq. cbv zeta. unfold ret. cbn [fst].
  f_equal. apply rxvga1_tables_inverse.
  apply (clamp_range BLADERF_RXVGA1_GAIN_MIN BLADERF_RXVGA1_GAIN_MAX).
  unfold BLADERF_RXVGA1_GAIN_MIN, BLADERF_RXVGA1_GAIN_MAX. lia.
Qed.

Lemma rxvga1_gain_roundtrip_witness :
  let init := fun _ : Z => 0 in
  let dev := regfile init in
  let gain := 40 in
  let h := @nil xact in
  let h1 := snd (lms_rxvga1_set_gain dev gain h) in
  memory_at dev init 0x76 /\
  lms_rxvga1_set_gain dev gain h = (Ok tt, h1) /\
  fst (lms_rxvga1_get_gain dev h1)
  = Ok (clamp BLADERF_RXVGA1_GAIN_MIN BLADERF_RXVGA1_GAIN_MAX gain).
Proof.
  intros init dev gain h h1.
  assert (Hm : memory_at dev init 0x76) by (intros h0; reflexivity).
  assert (Hr : lms_rxvga1_set_gain dev gain h = (Ok tt, h1)) by reflexivity.
  exact (conj Hm (conj Hr (rxvga1_gain_roundtrip dev init gain h h1 Hm Hr))).
Defined.

(** Property X7 (RXVGA2 gain round trip).
    RXVGA2 set then get, register 0x65 being a memory: the code holds a
    third of the clamped request, so the gain read back is the clamped
    request rounded down to a multiple of 3 dB. *)
Theorem rxvga2_gain_roundtrip dev init gain h h1 :
  memory_at dev init 0x65 ->
  lms_rxvga2_set_gain dev gain h = (Ok tt, h1) ->
  let g := clamp BLADERF_RXVGA2_GAIN_MIN BLADERF_RXVGA2_GAIN_MAX gain in
  fst (lms_rxvga2_get_gain dev h1) = Ok (g - g mod 3).
Proof.
  intros Hm Hset. cbv zeta. unfold lms_rxvga2_set_gain in Hset.
  apply LMS_WRITE_inv in Hset as ->.
  unfold lms_rxvga2_get_gain. rewrite (read_decode _ _ _ _ _ Hm).
  rewrite stored_Wr_same, rxvga2_clamp_eq. cbv zeta. unfold ret. cbn [fst].
  pose proof (clamp_range BLADERF_RXVGA2_GAIN_MIN BLADERF_RXVGA2_GAIN_MAX gain) as R.
  set (g := clamp _ _ gain) in *.
  unfold BLADERF_RXVGA2_GAIN_MIN, BLADERF_RXVGA2_GAIN_MAX in R.
  rewrite Z.quot_div_nonneg by lia.
  rewrite (u8_small (g / 3)) by (Z.to_euclidean_division_equations; lia).
  rewrite u8_small by (Z.to_euclidean_division_equations; lia).
  f_equal. Z.to_euclidean_division_equations; lia.
Qed.

Lemma rxvga2_gain_roundtrip_witness :
  let init := fun _ : Z => 0 in
  let dev := regfile init in
  let gain := 17 in
  let h := @nil xact in
  let h1 := snd (lms_rxvga2_set_gain dev gain h) in
  memory_at dev init 0x65 /\
  lms_rxvga2_set_gain dev gain h = (Ok tt, h1) /\
  fst (lms_rxvga2_get_gain dev h1) = Ok 15.
Proof.
  intros init dev gain h h1.
  assert (Hm : memory_at dev init 0x65) by (intros h0; reflexivity).
  assert (Hr : lms_rxvga2_set_gain dev gain h = (Ok tt, h1)) by reflexivity.
  exact (conj Hm (conj Hr (rxvga2_gain_roundtrip dev init gain h h1 Hm Hr))).
Defined.

(** Property X8 (TXVGA1 gain round trip).
    TXVGA1 set then get, register 0x41 being a memory: the gain read
    back is the requested gain clamped into the range of the stage. *)
Theorem txvga1_gain_roundtrip dev init gain h h1 :
  memory_at dev init 0x41 ->
  lms_txvga1_set_gain dev gain h = (Ok tt, h1) ->
  fst (lms_txvga1_get_gain dev h1)
  = Ok (clamp BLADERF_TXVGA1_GAIN_MIN BLADERF_TXVGA1_GAIN_MAX gain).
Proof.
  intros Hm Hset. unfold lms_txvga1_set_gain in Hset.
  apply LMS_WRITE_inv in Hset as ->.
  unfold lms_txvga1_get_gain. rewrite (read_decode _ _ _ _ _ Hm).
  rewrite stored_Wr_same, txvga1_clamp_eq. cbv zeta. unfold ret. cbn [fst].
  pose proof (clamp_range BLADERF_TXVGA1_GAIN_MIN BLADERF_TXVGA1_GAIN_MAX gain) as R.
  set (g := clamp _ _ gain) in *.
  unfold BLADERF_TXVGA1_GAIN_MIN, BLADERF_TXVGA1_GAIN_MAX in R.
  rewrite s8_small by lia. rewrite u8_small by lia.
  f_equal.
  assert (E : Z.land (g + 35) 0x1f = g + 35).
  { apply Z.eqb_eq.
    apply (range_cases 0 32 (fun c => Z.land c 0x1f =? c));
      [vm_compute; reflexivity | lia]. }
  rewrite E. lia.
Qed.

Lemma txvga1_gain_roundtrip_witness :
  let init := fun _ : Z => 0 in
  let dev := regfile init in
  let gain := -50 in
  let h := @nil xact in
  let h1 := snd (lms_txvga1_set_gain dev gain h) in
  memory_at dev init 0x41 /\
  lms_txvga1_set_gain dev gain h = (Ok tt, h1) /\
  fst (lms_txvga1_get_gain dev h1)
  = Ok (clamp BLADERF_TXVGA1_GAIN_MIN BLADERF_TXVGA1_GAIN_MAX gain).
Proof.
  intros init dev gain h h1.
  assert (Hm : memory_at dev init 0x41) by (intros h0; reflexivity).
  assert (Hr : lms_txvga1_set_gain dev gain h = (Ok tt, h1)) by reflexivity.
  exact (conj Hm (conj Hr (txvga1_gain_roundtrip dev init gain h h1 Hm Hr))).
Defined.

(** Property X9 (TXVGA2 gain round trip).
    TXVGA2 set then get, register 0x45 being a memory: the gain read
    back is the requested gain clamped into the range of the stage. *)
Theorem txvga2_gain_roundtrip dev init gain h h1 :
  memory_at dev init 0x45 ->
  lms_txvga2_set_gain dev gain h = (Ok tt, h1) ->
  fst (lms_txvga2_get_gain dev h1)
  = Ok (clamp BLADERF_TXVGA2_GAIN_MIN BLADERF_TXVGA2_GAIN_MAX gain).
Proof.
  intros Hm Hset. unfold lms_txvga2_set_gain in Hset.
  rewrite (read_decode _ _ _ _ _ Hm) in Hset.
  apply LMS_WRITE_inv in Hset as ->.
  unfold lms_txvga2_get_gain. rewrite (read_decode _ _ _ _ _ Hm).
  rewrite stored_Wr_same, txvga2_clamp_eq. cbv zeta. unfold ret. cbn [fst].
  pose proof (clamp_range BLADERF_TXVGA2_GAIN_MIN BLADERF_TXVGA2_GAIN_MAX gain) as R.
  set (g := clamp _ _ gain) in *.
  unfold BLADERF_TXVGA2_GAIN_MIN, BLADERF_TXVGA2_GAIN_MAX in R.
  destruct (txvga2_field_spec (stored init h 0x45) g (stored_range _ _ _)) as [F _];
    [lia |].
  unfold txvga2_field in F. rewrite (u8_small (u8 _)) by apply u8_range.
  rewrite F. destruct (Z.gtb_spec g 25); [lia | reflexivity].
Qed.

Lemma txvga2_gain_roundtrip_witness :
  let init := fun _ : Z => 0xff in
  let dev := regfile init in
  let gain := 31 in
  let h := @nil xact in
  let h1 := snd (lms_txvga2_set_gain dev gain h) in
  memory_at dev init 0x45 /\
  lms_txvga2_set_gain dev gain h = (Ok tt, h1) /\
  fst (lms_txvga2_get_gain dev h1)
  = Ok (clamp BLADERF_TXVGA2_GAIN_MIN BLADERF_TXVGA2_GAIN_MAX gain).
Proof.
  intros init dev gain h h1.
  assert (Hm : memory_at dev init 0x45) by (intros h0; reflexivity).
  assert (Hr : lms_txvga2_set_gain dev gain h = (Ok tt, h1)) by reflexivity.
  exact (conj Hm (conj Hr (txvga2_gain_roundtrip dev init gain h h1 Hm Hr))).
Defined.

(* ------------------------------------------------------------------ *)
(** * What the gain getters can answer *)

(** Property X10 (range of the gain getters).
    The gains the getters report, whatever the registers hold: RXVGA1,
    TXVGA1 and TXVGA2 always answer inside the range of the stage and
    the LNA gain is never the unknown one; RXVGA2 answers three times
    the register code reduced to 8 bits, which is not clamped. *)
Theorem gain_getters_range dev h :
  (forall g h', lms_rxvga1_get_gain dev h = (Ok g, h') ->
     BLADERF_RXVGA1_GAIN_MIN <= g <= BLADERF_RXVGA1_GAIN_MAX) /\
  (forall g h', lms_txvga1_get_gain dev h = (Ok g, h') ->
     BLADERF_TXVGA1_GAIN_MIN <= g <= BLADERF_TXVGA1_GAIN_MAX) /\
  (forall g h', lms_txvga2_get_gain dev h = (Ok g, h') ->
     BLADERF_TXVGA2_GAIN_MIN <= g <= BLADERF_TXVGA2_GAIN_MAX) /\
  (forall g h', lms_lna_get_gain dev h = (Ok g, h') ->
     g <> BLADERF_LNA_GAIN_UNKNOWN) /\
  (forall g h', lms_rxvga2_get_gain dev h = (Ok g, h') ->
     exists code, h' = Rd 0x65 code 0 :: h /\ 0 <= code < 256 /\
                  g = (3 * code) mod 256).
Proof.
  repeat apply conj; intros g h' H.
  - unfold lms_rxvga1_get_gain in H.
    apply bind_inv in H as (d & h0 & Hr & H). apply LMS_READ_inv in Hr as [-> Hd].
    injection H as <- _.
    assert (C : (5 <=? index rxvga1_lut_code2val
                         (if Z.land d 0x7f >? 120 then 120 else Z.land d 0x7f))
                && (index rxvga1_lut_code2val
                      (if Z.land d 0x7f >? 120 then 120 else Z.land d 0x7f) <=? 30)
                = true).
    { revert d Hd. apply all_u8_spec. vm_compute. reflexivity. }
    apply andb_prop in C as [C1 C2]. apply Z.leb_le in C1, C2.
    unfold BLADERF_RXVGA1_GAIN_MIN, BLADERF_RXVGA1_GAIN_MAX. lia.
  - unfold lms_txvga1_get_gain in H.
    apply bind_inv in H as (d & h0 & Hr & H). apply LMS_READ_inv in Hr as [-> Hd].
    injection H as <- _.
    assert (C : (0 <=? Z.land d 0x1f) && (Z.land d 0x1f <=? 31) = true).
    { revert d Hd. apply all_u8_spec. vm_compute. reflexivity. }
    apply andb_prop in C as [C1 C2]. apply Z.leb_le in C1, C2.
    unfold BLADERF_TXVGA1_GAIN_MIN, BLADERF_TXVGA1_GAIN_MAX. lia.
  - unfold lms_txvga2_get_gain in H.
    apply bind_inv in H as (d & h0 & Hr & H). apply LMS_READ_inv in Hr as [-> Hd].
    injection H as <- _.
    assert (C : (0 <=? Z.land (Z.shiftr d 3) 0x1f) = true).
    { revert d Hd. apply all_u8_spec. vm_compute. reflexivity. }
    apply Z.leb_le in C.
    unfold BLADERF_TXVGA2_GAIN_MIN, BLADERF_TXVGA2_GAIN_MAX.
    destruct (Z.gtb_spec (Z.land (Z.shiftr d 3) 0x1f) 25); lia.
  - unfold lms_lna_get_gain in H.
    apply bind_inv in H as (d & h0 & Hr & H). cbv zeta in H.
    destruct (lna_gain_of_code _); [discriminate | ..];
      injection H as <- _; discriminate.
  - unfold lms_rxvga2_get_gain in H.
    apply bind_inv in H as (d & h0 & Hr & H). apply LMS_READ_inv in Hr as [-> Hd].
    injection H as <- <-. exists d. repeat split; try lia.
    unfold u8. f_equal. lia.
Qed.

Lemma gain_getters_range_witness :
  let init := fun _ : Z => 0xff in
  let dev := regfile init in
  let h := @nil xact in
  lms_rxvga1_get_gain dev h = (Ok 30, [Rd 0x76 0xff 0]) /\
  BLADERF_RXVGA1_GAIN_MIN <= 30 <= BLADERF_RXVGA1_GAIN_MAX.
Proof.
  intros init dev h.
  assert (Hr : lms_rxvga1_get_gain dev h = (Ok 30, [Rd 0x76 0xff 0])) by reflexivity.
  exact (conj Hr (proj1 (gain_getters_range dev h) 30 [Rd 0x76 0xff 0] Hr)).
Defined.

(* ------------------------------------------------------------------ *)
(** * PA selection *)

Lemma pa_field d pa :
  0 <= d < 256 ->
  let d1 := u8 (Z.lor (u8 (Z.land d (Z.lnot 0x1C))) (Z.shiftl 1 1)) in
  let v := u8 (match pa with
               | PA_AUX => u8 (Z.land d1 (Z.lnot (Z.shiftl 1 1)))
               | PA_1 => u8 (Z.lor d1 (Z.shiftl 2 2))
               | PA_2 => u8 (Z.lor d1 (Z.shiftl 4 2))
               | PA_NONE => d1
               end) in
  Z.land (Z.shiftr v 2) 7 = match pa with PA_1 => 2 | PA_2 => 4 | _ => 0 end /\
  Z.land (Z.shiftr v 1) 1 = match pa with PA_AUX => 0 | _ => 1 end /\
  Z.land v 0xe1 = Z.land d 0xe1.
Proof.
  intros Hd. cbv zeta. destruct pa; repeat split; byte_cases d Hd.
Qed.

(** What a successful [lms_select_pa] leaves in register 0x44, whatever
    it read there. *)
Lemma select_pa_stored dev init pa h h1 :
  lms_select_pa dev pa h = (Ok tt, h1) ->
  let v := stored init h1 0x44 in
  Z.land (Z.shiftr v 2) 7 = match pa with PA_1 => 2 | PA_2 => 4 | _ => 0 end /\
  Z.land (Z.shiftr v 1) 1 = match pa with PA_AUX => 0 | _ => 1 end /\
  exists d, h1 = Wr 0x44 (stored init h1 0x44) 0 :: Rd 0x44 d 0 :: h /\
            Z.land v 0xe1 = Z.land d 0xe1.
Proof.
  intros Hset. cbv zeta. unfold lms_select_pa in Hset.
  apply bind_inv in Hset as (d & h0 & R & W).
  apply LMS_READ_inv in R as [-> Hd]. apply LMS_WRITE_inv in W as ->.
  rewrite stored_Wr_same.
  destruct (pa_field d pa Hd) as (F1 & F2 & F3). cbv zeta in F1, F2, F3.
  split; [exact F1 |]. split; [exact F2 |]. exists d. split; [reflexivity | exact F3].
Qed.

(** Property X11 (PA selection).
    The PA selection on the memory register 0x44: afterwards the field
    PA_EN[2:0] holds 010 for PA1, 100 for PA2 and 000 otherwise, the AUX
    PA power-down bit is clear for the AUX PA only, so at most one
    amplifier is on; the other bits of the register, the peak detector
    bit among them, are as they were. *)
Theorem pa_selection dev init pa h h1 :
  memory_at dev init 0x44 ->
  lms_select_pa dev pa h = (Ok tt, h1) ->
  let v := stored init h1 0x44 in
  Z.land (Z.shiftr v 2) 7 = match pa with PA_1 => 2 | PA_2 => 4 | _ => 0 end /\
  Z.land (Z.shiftr v 1) 1 = match pa with PA_AUX => 0 | _ => 1 end /\
  Z.land v 0xe1 = Z.land (stored init h 0x44) 0xe1.
Proof.
  intros Hm Hset. cbv zeta. unfold lms_select_pa in Hset.
  rewrite (read_decode _ _ _ _ _ Hm) in Hset.
  apply LMS_WRITE_inv in Hset as ->. rewrite stored_Wr_same.
  apply pa_field, stored_range.
Qed.

Lemma pa_selection_witness :
  let init := fun _ : Z => 0xff in
  let dev := regfile init in
  let pa := PA_2 in
  let h := @nil xact in
  let h1 := snd (lms_select_pa dev pa h) in
  memory_at dev init 0x44 /\
  lms_select_pa dev pa h = (Ok tt, h1) /\
  Z.land (Z.shiftr (stored init h1 0x44) 2) 7 = 4 /\
  Z.land (Z.shiftr (stored init h1 0x44) 1) 1 = 1 /\
  Z.land (stored init h1 0x44) 0xe1 = Z.land (stored init h 0x44) 0xe1.
Proof.
  intros init dev pa h h1.
  assert (Hm : memory_at dev init 0x44) by (intros h0; reflexivity).
  assert (Hr : lms_select_pa dev pa h = (Ok tt, h1)) by reflexivity.
  exact (conj Hm (conj Hr (pa_selection dev init pa h h1 Hm Hr))).
Defined.

(* ------------------------------------------------------------------ *)
(** * Single-bit switches *)

Lemma toggles_set dev addr k :
  0 <= k < 8 ->
  toggles dev (data <- LMS_READ dev addr ;;
               LMS_WRITE dev addr (u8 (Z.lor data (Z.shiftl 1 k)))) addr k true.
Proof.
  intros Hk init h h1 Hm Hrun.
  apply (rmw_stored _ _ _ (fun data => u8 (Z.lor data (Z.shiftl 1 k))) _ _ Hm)
    in Hrun as [E F].
  split.
  - intros j Hj. rewrite E, (u8_small (u8 _)) by apply u8_range.
    rewrite bit_set by (try apply stored_range; lia).
    destruct (Z.eqb_spec j k); [apply orb_true_r | apply orb_false_r].
  - intros b Hb. apply F. congruence.
Qed.

Lemma toggles_clear dev addr k :
  0 <= k < 8 ->
  toggles dev (data <- LMS_READ dev addr ;;
               LMS_WRITE dev addr (u8 (Z.land data (Z.lnot (Z.shiftl 1 k))))) addr k false.
Proof.
  intros Hk init h h1 Hm Hrun.
  apply (rmw_stored _ _ _ (fun data => u8 (Z.land data (Z.lnot (Z.shiftl 1 k)))) _ _ Hm)
    in Hrun as [E F].
  split.
  - intros j Hj. rewrite E, (u8_small (u8 _)) by apply u8_range.
    rewrite bit_clear by (try apply stored_range; lia).
    destruct (Z.eqb_spec j k); [apply andb_false_r | apply andb_true_r].
  - intros b Hb. apply F. congruence.
Qed.

(** Property X12 (active-high enables).
    The enables that are active high: each one switches a single bit of
    one register to the value asked for, on a memory register, and
    changes nothing else: RX (0x05 bit 2), TX (0x05 bit 3), the PLL of a
    module (bit 3 of its control register), RXVGA2 (0x64 bit 1), the RF
    front end of TX (0x40 bit 1) and of RX (0x70 bit 0), and the RF
    loopback switch (0x0b bit 0). *)
Theorem enable_switches dev enable :
  toggles dev (lms_rx_enable dev enable) 0x05 2 enable /\
  toggles dev (lms_tx_enable dev enable) 0x05 3 enable /\
  (forall module,
     toggles dev (lms_pll_enable dev module enable) (pll_ctrl_reg module) 3 enable) /\
  toggles dev (lms_rxvga2_enable dev enable) 0x64 1 enable /\
  toggles dev (lms_enable_rffe dev BLADERF_MODULE_TX enable) 0x40 1 enable /\
  toggles dev (lms_enable_rffe dev BLADERF_MODULE_RX enable) 0x70 0 enable /\
  toggles dev (enable_rf_loopback_switch dev enable) 0x0b 0 enable.
Proof.
  repeat apply conj; try intros module; destruct enable;
    first [ apply toggles_set; lia | apply toggles_clear; lia ].
Qed.

Lemma enable_switches_witness :
  let init := fun _ : Z => 0xf0 in
  let dev := regfile init in
  let h := @nil xact in
  let h1 := snd (lms_rx_enable dev true h) in
  memory_at dev init 0x05 /\
  lms_rx_enable dev true h = (Ok tt, h1) /\
  (forall j, 0 <= j ->
     Z.testbit (stored init h1 0x05) j
     = if j =? 2 then true else Z.testbit (stored init h 0x05) j) /\
  (forall b, b <> 0x05 -> stored init h1 b = stored init h b).
Proof.
  intros init dev h h1.
  assert (Hm : memory_at dev init 0x05) by (intros h0; reflexivity).
  assert (Hr : lms_rx_enable dev true h = (Ok tt, h1)) by reflexivity.
  exact (conj Hm (conj Hr (proj1 (enable_switches dev true) init h h1 Hm Hr))).
Defined.

(** Property X13 (active-low switches).
    The switches that are active low: enabling RXVGA1 clears bit 3 of
    register 0x7d and enabling the peak detector clears bit 0 of
    register 0x44, disabling sets the bit; the top-level power down
    clears bit 4 of register 0x05.  Nothing else changes. *)
Theorem active_low_switches dev enable :
  toggles dev (lms_rxvga1_enable dev enable) 0x7d 3 (negb enable) /\
  toggles dev (lms_peakdetect_enable dev enable) 0x44 0 (negb enable) /\
  toggles dev (lms_power_down dev) 0x05 4 false.
Proof.
  repeat apply conj; try destruct enable;
    first [ apply toggles_set; lia | apply toggles_clear; lia ].
Qed.

Lemma active_low_switches_witness :
  let init := fun _ : Z => 0xff in
  let dev := regfile init in
  let h := @nil xact in
  let h1 := snd (lms_rxvga1_enable dev true h) in
  memory_at dev init 0x7d /\
  lms_rxvga1_enable dev true h = (Ok tt, h1) /\
  (forall j, 0 <= j ->
     Z.testbit (stored init h1 0x7d) j
     = if j =? 3 then false else Z.testbit (stored init h 0x7d) j) /\
  (forall b, b <> 0x7d -> stored init h1 b = stored init h b).
Proof.
  intros init dev h h1.
  assert (Hm : memory_at dev init 0x7d) by (intros h0; reflexivity).
  assert (Hr : lms_rxvga1_enable dev true h = (Ok tt, h1)) by reflexivity.
  exact (conj Hm (conj Hr (proj1 (active_low_switches dev true) init h h1 Hm Hr))).
Defined.

(** Property X14 (LNA power).
    Powering the LNAs: bit 0 of register 0x7d and bit 1 of register
    0x70 are both cleared to power the LNAs up and both set to power
    them down; the other bits of the two registers are as they were. *)
Theorem lna_power_switch dev init enable h h1 :
  memory_at dev init 0x7d -> memory_at dev init 0x70 ->
  enable_lna_power dev enable h = (Ok tt, h1) ->
  (forall j, 0 <= j ->
     Z.testbit (stored init h1 0x7d) j
     = if j =? 0 then negb enable else Z.testbit (stored init h 0x7d) j) /\
  (forall j, 0 <= j ->
     Z.testbit (stored init h1 0x70) j
     = if j =? 1 then negb enable else Z.testbit (stored init h 0x70) j).
Proof.
  intros M1 M2 Hrun. unfold enable_lna_power in Hrun.
  rewrite (read_decode _ _ _ _ _ M1) in Hrun.
  apply bind_inv in Hrun as ([] & h0 & W1 & Hrun).
  apply LMS_WRITE_inv in W1 as ->.
  rewrite (read_decode _ _ _ _ _ M2) in Hrun.
  apply LMS_WRITE_inv in Hrun as ->.
  pose proof (stored_range init h 0x7d) as R1.
  pose proof (stored_range init h 0x70) as R2.
  split; intros j Hj; stored_simpl;
    destruct enable; rewrite (u8_small (u8 _)) by apply u8_range;
    rewrite ?bit_set, ?bit_clear by lia;
    [ destruct (Z.eqb_spec j 0) | destruct (Z.eqb_spec j 0)
    | destruct (Z.eqb_spec j 1) | destruct (Z.eqb_spec j 1) ]; simpl;
    rewrite ?andb_false_r, ?andb_true_r, ?orb_true_r, ?orb_false_r; reflexivity.
Qed.

Lemma lna_power_switch_witness :
  let init := fun _ : Z => 0xff in
  let dev := regfile init in
  let enable := true in
  let h := @nil xact in
  let h1 := snd (enable_lna_power dev enable h) in
  memory_at dev init 0x7d /\ memory_at dev init 0x70 /\
  enable_lna_power dev enable h = (Ok tt, h1) /\
  (forall j, 0 <= j ->
     Z.testbit (stored init h1 0x7d) j
     = if j =? 0 then negb enable else Z.testbit (stored init h 0x7d) j) /\
  (forall j, 0 <= j ->
     Z.testbit (stored init h1 0x70) j
     = if j =? 1 then negb enable else Z.testbit (stored init h 0x70) j).
Proof.
  intros init dev enable h h1.
  assert (Hm : memory_at dev init 0x7d) by (intros h0; reflexivity).
  assert (Hn : memory_at dev init 0x70) by (intros h0; reflexivity).
  assert (Hr : enable_lna_power dev enable h = (Ok tt, h1)) by reflexivity.
  exact (conj Hm (conj Hn (conj Hr
           (lna_power_switch dev init enable h h1 Hm Hn Hr)))).
Defined.

(* ------------------------------------------------------------------ *)
(** * Sampling selection *)

Lemma get_sampling_stored dev init h :
  memory_at dev init 0x09 -> memory_at dev init 0x64 ->
  fst (lms_get_sampling dev h)
  = Ok (match Z.testbit (stored init h 0x09) 7, Z.testbit (stored init h 0x64) 1 with
        | false, true => BLADERF_SAMPLING_INTERNAL
        | true, false => BLADERF_SAMPLING_EXTERNAL
        | _, _ => BLADERF_SAMPLING_UNKNOWN
        end).
Proof.
  intros M1 M2. unfold lms_get_sampling.
  rewrite (read_decode _ _ _ _ _ M1), (read_decode _ _ _ _ _ M2).
  rewrite stored_Rd, !land_bit by lia.
  destruct (Z.testbit _ 7), (Z.testbit _ 1); reflexivity.
Qed.

(** Property X15 (sampling selection).
    Sampling selection, registers 0x09 and 0x64 being memories:
    [lms_get_sampling] answers Internal when the ADC pin bit (0x09 bit
    7) is clear and RXVGA2 is on (0x64 bit 1), External when the bit is
    set and RXVGA2 is off, and Unknown for the two mixed states; after a
    successful [lms_select_sampling] it answers the sampling selected. *)
Theorem sampling_roundtrip dev init h :
  memory_at dev init 0x09 -> memory_at dev init 0x64 ->
  fst (lms_get_sampling dev h)
  = Ok (match Z.testbit (stored init h 0x09) 7, Z.testbit (stored init h 0x64) 1 with
        | false, true => BLADERF_SAMPLING_INTERNAL
        | true, false => BLADERF_SAMPLING_EXTERNAL
        | _, _ => BLADERF_SAMPLING_UNKNOWN
        end) /\
  (forall sampling h1,
     lms_select_sampling dev sampling h = (Ok tt, h1) ->
     fst (lms_get_sampling dev h1) = Ok sampling).
Proof.
  intros M1 M2. split; [apply get_sampling_stored; assumption |].
  intros sampling h1 Hsel.
  rewrite (get_sampling_stored _ _ _ M1 M2).
  pose proof (stored_range init h 0x09) as R1.
  pose proof (stored_range init h 0x64) as R2.
  destruct sampling; [discriminate | ..]; unfold lms_select_sampling in Hsel.
  - rewrite (read_decode _ _ _ _ _ M1) in Hsel.
    apply bind_inv in Hsel as ([] & h0 & W1 & Hsel).
    apply LMS_WRITE_inv in W1 as ->.
    rewrite (read_decode _ _ _ _ _ M2) in Hsel.
    apply LMS_WRITE_inv in Hsel as ->.
    stored_simpl. rewrite !(u8_small (u8 _)) by apply u8_range.
    rewrite bit_set, bit_clear by lia. simpl.
    rewrite andb_false_r, orb_true_r. reflexivity.
  - rewrite (read_decode _ _ _ _ _ M2) in Hsel.
    apply bind_inv in Hsel as ([] & h0 & W1 & Hsel).
    apply LMS_WRITE_inv in W1 as ->.
    rewrite (read_decode _ _ _ _ _ M1) in Hsel.
    apply LMS_WRITE_inv in Hsel as ->.
    stored_simpl. rewrite !(u8_small (u8 _)) by apply u8_range.
    rewrite bit_set, bit_clear by lia. simpl.
    rewrite andb_false_r, orb_true_r. reflexivity.
Qed.

Lemma sampling_roundtrip_witness :
  let init := fun _ : Z => 0xff in
  let dev := regfile init in
  let h := @nil xact in
  let h1 := snd (lms_select_sampling dev BLADERF_SAMPLING_INTERNAL h) in
  memory_at dev init 0x09 /\ memory_at dev init 0x64 /\
  fst (lms_get_sampling dev h) = Ok BLADERF_SAMPLING_UNKNOWN /\
  lms_select_sampling dev BLADERF_SAMPLING_INTERNAL h = (Ok tt, h1) /\
  fst (lms_get_sampling dev h1) = Ok BLADERF_SAMPLING_INTERNAL.
Proof.
  intros init dev h h1.
  assert (Hm : memory_at dev init 0x09) by (intros h0; reflexivity).
  assert (Hn : memory_at dev init 0x64) by (intros h0; reflexivity).
  assert (Hr : lms_select_sampling dev BLADERF_SAMPLING_INTERNAL h = (Ok tt, h1))
    by reflexivity.
  exact (conj Hm (conj Hn (conj
           (proj1 (sampling_roundtrip dev init h Hm Hn)) (conj Hr
           (proj2 (sampling_roundtrip dev init h Hm Hn)
              BLADERF_SAMPLING_INTERNAL h1 Hr))))).
Defined.

(* ------------------------------------------------------------------ *)
(** * PLL dithering *)

Lemma dither_field d n :
  0 <= d < 256 -> 1 <= n <= 8 ->
  let v := u8 (Z.lor (u8 (Z.land (u8 (Z.lor d (Z.shiftl 1 7))) (Z.lnot (Z.shiftl 7 4))))
                     (Z.shiftl (Z.land (n - 1) 7) 4)) in
  Z.land (Z.shiftr v 7) 1 = 1 /\ Z.land (Z.shiftr v 4) 7 = n - 1 /\
  Z.land v 0x0f = Z.land d 0x0f.
Proof.
  intros Hd Hn. cbv zeta.
  assert (C : n = 1 \/ n = 2 \/ n = 3 \/ n = 4 \/ n = 5 \/ n = 6 \/ n = 7 \/ n = 8) by lia.
  repeat (destruct C as [-> | C]); try subst n; repeat split; byte_cases d Hd.
Qed.

Lemma dither_off_field d :
  0 <= d < 256 ->
  let v := u8 (Z.land d (Z.lnot (Z.shiftl 1 7))) in
  Z.land (Z.shiftr v 7) 1 = 0 /\ Z.land v 0x7f = Z.land d 0x7f.
Proof. intros Hd. cbv zeta. split; byte_cases d Hd. Qed.

(** Property X16 (PLL dithering).
    PLL dithering.  A number of bits outside 1..8 is refused with
    [BLADERF_ERR_INVAL] before the bus is touched.  Otherwise, on a
    memory register, enabling sets bit 7 and stores [nbits - 1] in the
    field [6:4], keeping the low four bits; disabling clears bit 7 and
    keeps the seven other bits, the stored number of bits included. *)
Theorem dither_enable_field dev init module nbits enable h :
  memory_at dev init (pll_ctrl_reg module) ->
  (nbits < 1 \/ nbits > 8 ->
   lms_dither_enable dev module nbits enable h = (Err BLADERF_ERR_INVAL, h)) /\
  (forall h1,
     1 <= nbits <= 8 ->
     lms_dither_enable dev module nbits enable h = (Ok tt, h1) ->
     let d := stored init h (pll_ctrl_reg module) in
     let v := stored init h1 (pll_ctrl_reg module) in
     if enable then
       Z.land (Z.shiftr v 7) 1 = 1 /\ Z.land (Z.shiftr v 4) 7 = nbits - 1 /\
       Z.land v 0x0f = Z.land d 0x0f
     else
       Z.land (Z.shiftr v 7) 1 = 0 /\ Z.land v 0x7f = Z.land d 0x7f).
Proof.
  intros Hm. split.
  - intros Hn. unfold lms_dither_enable.
    destruct (Z.ltb_spec nbits 1), (Z.gtb_spec nbits 8); try reflexivity; lia.
  - intros h1 Hn Hrun. cbv zeta. unfold lms_dither_enable in Hrun.
    destruct (Z.ltb_spec nbits 1), (Z.gtb_spec nbits 8); try lia.
    cbn [orb] in Hrun. rewrite (read_decode _ _ _ _ _ Hm) in Hrun.
    apply LMS_WRITE_inv in Hrun as ->. rewrite stored_Wr_same.
    destruct enable; rewrite (u8_small (u8 _)) by apply u8_range.
    + apply dither_field; [apply stored_range | lia].
    + apply dither_off_field, stored_range.
Qed.

Lemma dither_enable_field_witness :
  let init := fun _ : Z => 0x0f in
  let dev := regfile init in
  let module := BLADERF_MODULE_TX in
  let h := @nil xact in
  let h1 := snd (lms_dither_enable dev module 3 true h) in
  memory_at dev init (pll_ctrl_reg module) /\
  lms_dither_enable dev module 9 true h = (Err BLADERF_ERR_INVAL, h) /\
  lms_dither_enable dev module 3 true h = (Ok tt, h1) /\
  Z.land (Z.shiftr (stored init h1 (pll_ctrl_reg module)) 7) 1 = 1 /\
  Z.land (Z.shiftr (stored init h1 (pll_ctrl_reg module)) 4) 7 = 3 - 1 /\
  Z.land (stored init h1 (pll_ctrl_reg module)) 0x0f
  = Z.land (stored init h (pll_ctrl_reg module)) 0x0f.
Proof.
  intros init dev module h h1.
  assert (Hm : memory_at dev init (pll_ctrl_reg module)) by (intros h0; reflexivity).
  assert (H9 : 9 < 1 \/ 9 > 8) by (right; lia).
  assert (H3 : 1 <= 3 <= 8) by lia.
  assert (Hr : lms_dither_enable dev module 3 true h = (Ok tt, h1)) by reflexivity.
  exact (conj Hm (conj
           (proj1 (dither_enable_field dev init module 9 true h Hm) H9) (conj Hr
           (proj2 (dither_enable_field dev init module 3 true h Hm) h1 H3 Hr)))).
Defined.

(* ------------------------------------------------------------------ *)
(** * The footprint of driver code *)

Lemma written_app ts1 ts2 : written (ts1 ++ ts2) = written ts1 ++ written ts2.
Proof. unfold written. apply flat_map_app. Qed.

Lemma writes_only_ret {R} A (r : R) : writes_only A (ret r).
Proof. intros h. exists []. split; reflexivity. Qed.

Lemma writes_only_fail {R} A s : writes_only A (@fail hist R s).
Proof. intros h. exists []. split; reflexivity. Qed.

Lemma writes_only_read A dev addr : writes_only A (LMS_READ dev addr).
Proof.
  intros h. unfold LMS_READ. destruct (lms_read dev h addr) as [st v].
  exists [Rd addr (u8 v) st]. split; reflexivity.
Qed.

Lemma writes_only_write (A : Z -> bool) dev addr v :
  A addr = true -> writes_only A (LMS_WRITE dev addr v).
Proof.
  intros Ha h. unfold LMS_WRITE.
  exists [Wr addr (u8 v) (lms_write dev h addr (u8 v))]. split; [reflexivity |].
  simpl. rewrite Ha. reflexivity.
Qed.

Lemma writes_only_bind {R Q} A (m : M hist R) (k : R -> M hist Q) :
  writes_only A m -> (forall r, writes_only A (k r)) -> writes_only A (bind m k).
Proof.
  intros Hm Hk h. destruct (Hm h) as (ts1 & E1 & P1).
  unfold bind. destruct (m h) as [[r | e] h1]; simpl in *.
  - destruct (Hk r h1) as (ts2 & E2 & P2). exists (ts1 ++ ts2). split.
    + rewrite E2, E1, rev_app_distr, app_assoc. reflexivity.
    + rewrite written_app, forallb_app, P1, P2. reflexivity.
  - exists ts1. auto.
Qed.

Lemma writes_only_if {R} A (b : bool) (m1 m2 : M hist R) :
  writes_only A m1 -> writes_only A m2 -> writes_only A (if b then m1 else m2).
Proof. destruct b; auto. Qed.

Lemma writes_only_weaken {R} (A B : Z -> bool) (m : M hist R) :
  (forall a, A a = true -> B a = true) -> writes_only A m -> writes_only B m.
Proof.
  intros HAB Hm h. destruct (Hm h) as (ts & E & P). exists ts. split; [exact E |].
  rewrite forallb_forall in *. auto.
Qed.

(** A callee that returns its status leaves the history its run made. *)
Lemma writes_only_checked A (c : hist -> Z * hist) :
  (forall h, exists ts, snd (c h) = rev ts ++ h /\ forallb A (written ts) = true) ->
  writes_only A (checked c).
Proof.
  intros Hc h. destruct (Hc h) as (ts & E & P). exists ts. split; [| exact P].
  unfold checked. destruct (c h). exact E.
Qed.

Create HintDb writes.

#[local] Hint Resolve writes_only_ret writes_only_fail writes_only_read : writes.

Ltac wo :=
  repeat first
    [ solve [ auto with writes nocore ]
    | apply writes_only_bind; [ | intros ? ]
    | apply writes_only_if
    | apply writes_only_write; solve [ reflexivity | apply Z.eqb_refl ]
    | match goal with
      | |- writes_only _ (match ?p with (_, _) => _ end) => destruct p
      | |- writes_only _ (match ?p with Some _ => _ | None => _ end) => destruct p
      end ].

(** A register outside the footprint of a run holds what it held. *)
Lemma stored_frame init (A : Z -> bool) ts h a :
  forallb A (written ts) = true -> A a = false ->
  stored init (rev ts ++ h) a = stored init h a.
Proof.
  revert h. induction ts as [| t ts IH]; intros h P Ha; [reflexivity |].
  simpl rev. rewrite <- app_assoc. simpl app.
  destruct t as [b v s | b v s]; simpl in P.
  - rewrite (IH _ P Ha). reflexivity.
  - apply andb_prop in P as [Pt Pts]. rewrite (IH _ Pts Ha).
    apply stored_Wr_other. intros ->. rewrite Ha in Pt. discriminate.
Qed.

(* ------------------------------------------------------------------ *)
(** * The getters are read-only *)

Lemma nowhere_get_loopback dev : writes_only nowhere (lms_get_loopback_mode dev).
Proof. unfold lms_get_loopback_mode. wo. Qed.

Lemma nowhere_get_frequency dev module : writes_only nowhere (lms_get_frequency dev module).
Proof. unfold lms_get_frequency. wo. Qed.

Lemma nowhere_lpf_get_mode dev module : writes_only nowhere (lms_lpf_get_mode dev module).
Proof. unfold lms_lpf_get_mode. wo. Qed.

Lemma nowhere_dump_from dev regs : writes_only nowhere (dump_registers_from dev regs).
Proof. induction regs as [| r regs IH]; simpl; wo. Qed.

(** Property X17 (read-only getters).
    None of the getters writes to the chip, whatever the device
    answers: LPF mode, bandwidth, the five gains, the LNA selection, the
    loopback mode, the frequency, the sampling and the register dump
    only read. *)
Theorem getters_read_only dev :
  (forall module, writes_only nowhere (lms_lpf_get_mode dev module)) /\
  (forall module, writes_only nowhere (lms_get_bandwidth dev module)) /\
  writes_only nowhere (lms_lna_get_gain dev) /\
  writes_only nowhere (lms_get_lna dev) /\
  writes_only nowhere (lms_rxvga1_get_gain dev) /\
  writes_only nowhere (lms_rxvga2_get_gain dev) /\
  writes_only nowhere (lms_txvga1_get_gain dev) /\
  writes_only nowhere (lms_txvga2_get_gain dev) /\
  writes_only nowhere (lms_get_loopback_mode dev) /\
  (forall module, writes_only nowhere (lms_get_frequency dev module)) /\
  writes_only nowhere (lms_get_sampling dev) /\
  writes_only nowhere (lms_dump_registers dev).
Proof.
  repeat apply conj; try intros module.
  - apply nowhere_lpf_get_mode.
  - unfold lms_get_bandwidth. wo.
  - unfold lms_lna_get_gain. wo. cbv zeta. destruct (lna_gain_of_code _); wo.
  - unfold lms_get_lna. wo.
  - unfold lms_rxvga1_get_gain. wo.
  - unfold lms_rxvga2_get_gain. wo.
  - unfold lms_txvga1_get_gain. wo.
  - unfold lms_txvga2_get_gain. wo.
  - apply nowhere_get_loopback.
  - apply nowhere_get_frequency.
  - unfold lms_get_sampling. wo.
  - apply nowhere_dump_from.
Qed.

(* ------------------------------------------------------------------ *)
(** * The register dump *)

Lemma dump_from_trace dev regs h :
  exists ts rest,
    snd (dump_registers_from dev regs h) = rev ts ++ h /\
    regs = map xact_addr ts ++ rest /\
    written ts = [] /\
    match fst (dump_registers_from dev regs h) with
    | Ok _ => rest = [] /\ clean ts
    | Err s => s <> 0 /\ stops_at ts s
    end.
Proof.
  revert h. induction regs as [| r regs IH]; intros h; simpl.
  - exists [], []. repeat split. constructor.
  - unfold bind, LMS_READ. destruct (lms_read dev h r) as [st v].
    destruct (Z.eqb_spec st 0) as [-> | Hne].
    + destruct (IH (Rd r (u8 v) 0 :: h)) as (ts & rest & E & Er & W & P).
      exists (Rd r (u8 v) 0 :: ts), rest. simpl. rewrite <- app_assoc. simpl.
      split; [exact E |]. split; [f_equal; exact Er |]. split; [exact W |].
      destruct (fst (dump_registers_from dev regs _)) as [u | s].
      * destruct P as [-> C]. split; [reflexivity |]. constructor; [reflexivity | exact C].
      * destruct P as [Hs S]. split; [exact Hs |].
        apply (stops_at_app [Rd r (u8 v) 0]); [repeat constructor | exact S].
    + exists [Rd r (u8 v) st], regs. simpl. repeat split; try assumption.
      exists [], (Rd r (u8 v) st). repeat split. constructor.
Qed.

(** Property X18 (register dump).
    [lms_dump_registers] reads the registers of the dump set in table
    order and never writes; it stops at the first read that fails, with
    the status of that read, and otherwise has read the whole set. *)
Theorem dump_registers_trace dev h :
  exists ts rest,
    snd (lms_dump_registers dev h) = rev ts ++ h /\
    lms_reg_dumpset = map xact_addr ts ++ rest /\
    written ts = [] /\
    match fst (lms_dump_registers dev h) with
    | Ok _ => rest = [] /\ clean ts
    | Err s => s <> 0 /\ stops_at ts s
    end.
Proof. apply dump_from_trace. Qed.

(* ------------------------------------------------------------------ *)
(** * The footprint of tuning *)

Lemma trace_trans (h h1 h2 : hist) ts1 ts2 :
  h1 = rev ts1 ++ h -> h2 = rev ts2 ++ h1 -> h2 = rev (ts1 ++ ts2) ++ h.
Proof. intros -> ->. rewrite rev_app_distr, app_assoc. reflexivity. Qed.

Lemma written_both (A : Z -> bool) ts1 ts2 :
  forallb A (written ts1) = true -> forallb A (written ts2) = true ->
  forallb A (written (ts1 ++ ts2)) = true.
Proof. intros P1 P2. rewrite written_app, forallb_app, P1, P2. reflexivity. Qed.

Lemma loopback_enabled_reads dev h :
  exists ts, snd (is_loopback_enabled dev h) = rev ts ++ h /\ written ts = [].
Proof.
  destruct (nowhere_get_loopback dev h) as (ts & E & P). exists ts.
  unfold is_loopback_enabled. destruct (lms_get_loopback_mode dev h) as [[lb | s] h1].
  - split; [exact E |]. destruct (written ts); [reflexivity | discriminate].
  - split; [exact E |]. destruct (written ts); [reflexivity | discriminate].
Qed.

Lemma writes_write_pll_config (A : Z -> bool) dev module frequency freqsel :
  A (pll_base module + 5) = true ->
  writes_only A (write_pll_config dev module frequency freqsel).
Proof.
  intros Ha. unfold write_pll_config.
  apply writes_only_bind; [apply writes_only_read | intros regval].
  intros h. destruct (loopback_enabled_reads dev h) as (ts1 & E1 & P1).
  destruct (is_loopback_enabled dev h) as [status h1]. simpl in E1.
  destruct (status <? 0).
  - exists ts1. split; [exact E1 |]. rewrite P1. reflexivity.
  - match goal with |- context [LMS_WRITE dev ?a ?v h1] =>
      destruct (writes_only_write A dev a v) with (h := h1) as (ts2 & E2 & P2)
    end.
    { destruct module; exact Ha. }
    exists (ts1 ++ ts2). split.
    + eapply trace_trans; eassumption.
    + apply written_both; [rewrite P1; reflexivity | exact P2].
Qed.

Lemma writes_vcocap_search dev base data n vcocap step vtune :
  writes_only (fun a => a =? base + 9) (vcocap_search dev base data n vcocap step vtune).
Proof. revert vcocap step vtune. induction n as [| n IH]; intros; simpl; wo. Qed.

Lemma writes_scan_down dev base data fuel start_i vtune :
  writes_only (fun a => a =? base + 9) (vcocap_scan_down dev base data fuel start_i vtune).
Proof. revert start_i vtune. induction fuel as [| n IH]; intros; simpl; wo. Qed.

Lemma writes_scan_up dev base data fuel stop_i vtune :
  writes_only (fun a => a =? base + 9) (vcocap_scan_up dev base data fuel stop_i vtune).
Proof. revert stop_i vtune. induction fuel as [| n IH]; intros; simpl; wo. Qed.

#[local] Hint Resolve writes_vcocap_search writes_scan_down writes_scan_up : writes.

Lemma writes_tune_vcocap dev base data :
  writes_only (fun a => a =? base + 9) (tune_vcocap dev base data).
Proof.
  unfold tune_vcocap, tune_vcocap_search, tune_vcocap_limits, tune_vcocap_center. wo.
Qed.

Lemma writes_dsm_enable dev module : writes_only (tuning_regs module) (dsm_enable dev).
Proof. unfold dsm_enable. wo. Qed.

Lemma writes_dsm_disable dev module : writes_only (tuning_regs module) (dsm_disable dev).
Proof. unfold dsm_disable. wo. Qed.

Lemma tuning_regs_vcocap module a :
  (a =? pll_base module + 9) = true -> tuning_regs module a = true.
Proof. intros E. apply Z.eqb_eq in E. subst a. destruct module; reflexivity. Qed.

Lemma writes_pll_program dev module freq f :
  writes_only (tuning_regs module) (pll_program dev module freq f).
Proof.
  unfold pll_program.
  apply writes_only_bind;
    [apply writes_write_pll_config; destruct module; reflexivity | intros _].
  destruct (pack_divider (nint f) (nfrac f)) as [[[d0 d1] d2] d3].
  assert (T : forall data, writes_only (tuning_regs module)
                             (tune_vcocap dev (pll_base module) data)).
  { intros data. eapply writes_only_weaken;
      [apply tuning_regs_vcocap | apply writes_tune_vcocap]. }
  destruct module; wo.
Qed.

(** Property X19 (footprint of tuning).
    Tuning a module writes only the DSM enables in register 0x09 and
    the PLL registers of that module (its base + 0..3 and + 5..9),
    whatever the device answers and however the run ends: the PLL of the
    other module, the gains, the filters and the loopback switches are
    never written. *)
Theorem set_frequency_footprint dev module freq :
  writes_only (tuning_regs module) (checked (lms_set_frequency dev module freq)).
Proof.
  apply writes_only_checked. intros h. unfold lms_set_frequency.
  destruct (writes_dsm_enable dev module h) as (ts1 & E1 & P1).
  destruct (dsm_enable dev h) as [[u | e] h1]; simpl in E1; [| exists ts1; auto].
  destruct (writes_pll_program dev module (clamp_frequency freq)
              (hz_to_descriptor freq) h1) as (ts2 & E2 & P2).
  destruct (pll_program dev module (clamp_frequency freq) (hz_to_descriptor freq) h1)
    as [r h2]. simpl in E2.
  unfold lms_set_frequency_error.
  destruct (writes_dsm_disable dev module h2) as (ts3 & E3 & P3).
  destruct (dsm_disable dev h2) as [r' h3]. simpl in E3. simpl.
  exists ((ts1 ++ ts2) ++ ts3). split.
  - eapply trace_trans; [eapply trace_trans |]; eassumption.
  - repeat apply written_both; assumption.
Qed.

(* ------------------------------------------------------------------ *)
(** * Reading the frequency back *)

Lemma clamp_frequency_range freq :
  BLADERF_FREQUENCY_MIN <= clamp_frequency freq <= BLADERF_FREQUENCY_MAX.
Proof.
  unfold clamp_frequency, BLADERF_FREQUENCY_MIN, BLADERF_FREQUENCY_MAX.
  destruct (Z.ltb_spec freq 232500000); [lia |].
  destruct (Z.gtb_spec freq 3800000000); lia.
Qed.

Lemma clamp_frequency_fixed f :
  BLADERF_FREQUENCY_MIN <= f <= BLADERF_FREQUENCY_MAX -> clamp_frequency f = f.
Proof.
  unfold clamp_frequency, BLADERF_FREQUENCY_MIN, BLADERF_FREQUENCY_MAX. intros Hf.
  destruct (Z.ltb_spec f 232500000); [lia |].
  destruct (Z.gtb_spec f 3800000000); lia.
Qed.

Lemma band_value_range b : In b bands -> 0 <= value b < 64.
Proof.
  unfold bands. simpl. intros Hin.
  repeat (destruct Hin as [<- | Hin]; [simpl; lia |]). contradiction.
Qed.

(** The descriptor of a request, for the band of the clamped request. *)
Lemma descriptor_shape freq :
  exists b,
    In b bands /\
    let f := clamp_frequency freq in
    let X := Z.shiftl 1 (Z.land (value b) 7 - 3) in
    (X = 2 \/ X = 4 \/ X = 8 \/ X = 16) /\ 0 <= f /\ X * f <= 7600000000 /\
    hz_to_descriptor freq
    = mk_lms_freq X (nint_of X f) (nfrac_of X f) (value b) ref_clock.
Proof.
  pose proof (clamp_frequency_range freq) as Hf.
  set (f := clamp_frequency freq) in *.
  destruct (find_freqsel_first bands f (value (hd (FREQ_RANGE 0 0 0) bands))
              (band_covers f Hf)) as (pre & b & post & Hbands & Hb & _ & Hsel).
  assert (Hin : In b bands) by (rewrite Hbands; apply in_or_app; right; left; reflexivity).
  pose proof (band_vco b f Hin Hb) as [HX HXf]. cbv zeta in HX, HXf.
  assert (Hf0 : 0 <= f) by (unfold BLADERF_FREQUENCY_MIN in Hf; lia).
  exists b. split; [exact Hin |]. cbv zeta.
  split; [exact HX |]. split; [exact Hf0 |]. split; [exact HXf |].
  unfold hz_to_descriptor. fold f. rewrite Hsel.
  rewrite <- (descriptor_eq _ (value b) f HX Hf0 HXf). reflexivity.
Qed.

(** The decoding of four divider registers. *)
Lemma unpack_registers q b a c d :
  0 <= q < 2 ^ 8 -> 0 <= b < 2 -> 0 <= a < 2 ^ 7 -> 0 <= c < 2 ^ 8 -> 0 <= d < 2 ^ 8 ->
  unpack_divider (q, b * 2 ^ 7 + a, c, d) = (2 * q + b, a * 2 ^ 16 + c * 2 ^ 8 + d).
Proof.
  intros Hq Hb Ha Hc Hd. unfold unpack_divider, u16, u32.
  rewrite land_bit7. change 0x7f with (Z.ones 7).
  rewrite Z.land_ones, !Z.shiftl_mul_pow2 by lia.
  replace ((b * 2 ^ 7 + a) / 2 ^ 7) with b
    by (rewrite Z.add_comm, Z.div_add, Z.div_small by lia; lia).
  replace ((b * 2 ^ 7 + a) mod 2 ^ 7) with a
    by (rewrite Z.add_comm, Z.mod_add, Z.mod_small by lia; reflexivity).
  rewrite (Z.mod_small b 2) by lia.
  f_equal.
  - rewrite (Z.mod_small (q * 2 ^ 1)) by lia.
    rewrite lor_add by (change (2 ^ 1) with 2; lia).
    rewrite Z.mod_small by lia. lia.
  - rewrite (Z.mod_small (a * 2 ^ 16)) by lia.
    rewrite (Z.mod_small (c * 2 ^ 8)) by lia.
    rewrite (lor_add 16 a (c * 2 ^ 8)) by lia.
    rewrite (Z.mod_small (a * 2 ^ 16 + c * 2 ^ 8)) by lia.
    replace (a * 2 ^ 16 + c * 2 ^ 8) with ((a * 2 ^ 8 + c) * 2 ^ 8) by lia.
    rewrite lor_add by lia. rewrite Z.mod_small by lia. lia.
Qed.

(** Packing and decoding the dividers keeps [nint] and the low 23 bits
    of [nfrac]. *)
Lemma unpack_pack_wrap ni nf :
  0 <= ni < 2 ^ 9 -> 0 <= nf <= 2 ^ 23 ->
  unpack_divider (pack_divider ni nf) = (ni, nf mod 2 ^ 23).
Proof.
  intros Hi Hf.
  assert (S : forall nf', 0 <= nf' < 2 ^ 23 ->
                unpack_divider (pack_divider ni nf') = (ni, nf')).
  { intros nf' Hf'. rewrite pack_divider_eq by assumption.
    rewrite unpack_registers.
    - f_equal; [Z.to_euclidean_division_equations; lia |].
      pose proof (Z.div_mod nf' (2 ^ 8)).
      pose proof (Z.div_mod (nf' / 2 ^ 8) (2 ^ 8)).
      replace (nf' / 2 ^ 16) with (nf' / 2 ^ 8 / 2 ^ 8)
        by (rewrite Z.div_div by lia; reflexivity).
      lia.
    - Z.to_euclidean_division_equations; lia.
    - apply Z.mod_pos_bound; lia.
    - split; [apply Z.div_pos | apply Z.div_lt_upper_bound]; lia.
    - apply Z.mod_pos_bound; lia.
    - apply Z.mod_pos_bound; lia. }
  destruct (Z.eq_dec nf (2 ^ 23)) as [-> | Hne].
  - change (2 ^ 23 mod 2 ^ 23) with 0. rewrite <- (S 0) by lia. reflexivity.
  - rewrite Z.mod_small by lia. apply S. lia.
Qed.

Lemma get_frequency_stored dev init module h :
  (forall k, In k [0; 1; 2; 3; 5] -> memory_at dev init (pll_base module + k)) ->
  fst (lms_get_frequency dev module h)
  = let base := pll_base module in
    let dividers := unpack_divider (stored init h (base + 0), stored init h (base + 1),
                                    stored init h (base + 2), stored init h (base + 3)) in
    let fs := Z.shiftr (stored init h (base + 5)) 2 in
    Ok (mk_lms_freq (u8 (Z.shiftl 1 (Z.land fs 7 - 3))) (fst dividers) (snd dividers)
          fs 38400000).
Proof.
  intros Hm. cbv zeta. unfold lms_get_frequency.
  rewrite (read_decode _ _ _ _ _ (Hm 0 ltac:(simpl; tauto))).
  rewrite (read_decode _ _ _ _ _ (Hm 1 ltac:(simpl; tauto))).
  rewrite (read_decode _ _ _ _ _ (Hm 2 ltac:(simpl; tauto))).
  rewrite (read_decode _ _ _ _ _ (Hm 3 ltac:(simpl; tauto))).
  rewrite !stored_Rd.
  destruct (unpack_divider _) as [ni nf].
  rewrite (read_decode _ _ _ _ _ (Hm 5 ltac:(simpl; tauto))).
  rewrite !stored_Rd. reflexivity.
Qed.

Lemma nonzero_dsm_enable dev : nonzero_err (dsm_enable dev).
Proof. apply failfast_nonzero. unfold dsm_enable. ff. Qed.

Lemma nonzero_write_pll_config dev module frequency freqsel :
  nonzero_err (write_pll_config dev module frequency freqsel).
Proof.
  unfold write_pll_config.
  apply nonzero_bind; [apply failfast_nonzero, failfast_read | intros regval].
  intros h e h'. destruct (is_loopback_enabled dev h) as [status hL].
  destruct (Z.ltb_spec status 0).
  - intros [= <- <-]. lia.
  - apply (failfast_nonzero _ (failfast_write _ _ _)).
Qed.

Lemma nonzero_pll_program dev module freq f :
  nonzero_err (pll_program dev module freq f).
Proof.
  unfold pll_program.
  apply nonzero_bind; [apply nonzero_write_pll_config | intros _].
  destruct (pack_divider (nint f) (nfrac f)) as [[[d0 d1] d2] d3].
  apply failfast_nonzero. ff.
Qed.

Lemma writes_dsm_disable_09 dev : writes_only (fun a => a =? 0x09) (dsm_disable dev).
Proof. unfold dsm_disable. wo. Qed.

Lemma freqsel_readback fs regval (selout : bool) (loopback : bool) :
  0 <= fs < 64 -> 0 <= regval < 256 ->
  Z.shiftr (u8 (if loopback
                then u8 (Z.lor (Z.land regval (Z.lnot 0xfc)) (Z.shiftl fs 2))
                else u8 (Z.lor (Z.shiftl fs 2) (if selout then 1 else 2)))) 2 = fs.
Proof.
  intros Hfs Hr. apply Z.eqb_eq.
  assert (C : forallb (fun fs =>
                all_u8 (fun regval =>
                  forallb (fun selout : bool => forallb (fun loopback : bool =>
                    Z.shiftr (u8 (if loopback
                       then u8 (Z.lor (Z.land regval (Z.lnot 0xfc)) (Z.shiftl fs 2))
                       else u8 (Z.lor (Z.shiftl fs 2) (if selout then 1 else 2)))) 2
                    =? fs) [true; false]) [true; false]))
              (map (fun k => 0 + Z.of_nat k) (seq 0 64)) = true)
    by (vm_compute; reflexivity).
  assert (Hfs' : 0 <= fs < 0 + Z.of_nat 64) by lia.
  pose proof (range_cases 0 64 _ C fs Hfs') as C1. cbv beta in C1.
  pose proof (all_u8_spec _ C1 regval Hr) as C2. cbv beta in C2.
  rewrite forallb_forall in C2.
  assert (I1 : In selout [true; false]) by (destruct selout; simpl; tauto).
  assert (I2 : In loopback [true; false]) by (destruct loopback; simpl; tauto).
  specialize (C2 selout I1). rewrite forallb_forall in C2.
  exact (C2 loopback I2).
Qed.

(** A successful [lms_set_frequency]: the DSMs were enabled, the band
    register was read and loopback was looked up, and the run left the
    packed dividers and the new band register behind. *)
Lemma set_frequency_run dev init module freq h h1 :
  lms_set_frequency dev module freq h = (0, h1) ->
  let d := hz_to_descriptor freq in
  let base := pll_base module in
  exists hE regval status hb,
    dsm_enable dev h = (Ok tt, hE) /\
    LMS_READ dev (base + 5) hE = (Ok regval, Rd (base + 5) regval 0 :: hE) /\
    is_loopback_enabled dev (Rd (base + 5) regval 0 :: hE) = (status, hb) /\
    0 <= regval < 256 /\
    stored init h1 (base + 5)
    = u8 (if status =? 0
          then u8 (Z.lor (Z.shiftl (freqsel d) 2)
                     (if clamp_frequency freq <? BLADERF_BAND_HIGH then 1 else 2))
          else u8 (Z.lor (Z.land regval (Z.lnot 0xfc)) (Z.shiftl (freqsel d) 2))) /\
    (stored init h1 (base + 0), stored init h1 (base + 1),
     stored init h1 (base + 2), stored init h1 (base + 3))
    = pack_divider (nint d) (nfrac d).
Proof.
  intros H. cbv zeta. unfold lms_set_frequency in H.
  destruct (dsm_enable dev h) as [[[] | e] hE] eqn:EN.
  2: { injection H as -> ->. exfalso. exact (nonzero_dsm_enable _ _ _ _ EN eq_refl). }
  destruct (pll_program dev module (clamp_frequency freq) (hz_to_descriptor freq) hE)
    as [r hP] eqn:PP.
  unfold lms_set_frequency_error in H.
  destruct (writes_dsm_disable_09 dev hP) as (ts3 & E3 & P3).
  destruct (dsm_disable dev hP) as [r' hD]. simpl in E3.
  destruct r as [[] | e].
  2: { simpl in H. pose proof (nonzero_pll_program _ _ _ _ _ _ _ PP) as Hne.
       destruct (Z.eqb_spec e 0); [contradiction |].
       injection H as -> _. contradiction. }
  simpl in H. injection H as _ <-. subst hD.
  unfold pll_program in PP.
  apply bind_inv in PP as ([] & hA & WP & PP).
  unfold pack_divider in PP. cbv iota beta in PP.
  apply bind_inv in PP as ([] & hB0 & W0 & PP). apply LMS_WRITE_inv in W0.
  apply bind_inv in PP as ([] & hB1 & W1 & PP). apply LMS_WRITE_inv in W1.
  apply bind_inv in PP as ([] & hB2 & W2 & PP). apply LMS_WRITE_inv in W2.
  apply bind_inv in PP as ([] & hB3 & W3 & PP). apply LMS_WRITE_inv in W3.
  match type of PP with ?m hB3 = _ =>
    assert (W : writes_only (fun a => (pll_base module + 6 <=? a)
                                      && (a <=? pll_base module + 9)) m)
  end.
  { assert (T : forall data,
               writes_only (fun a => (pll_base module + 6 <=? a)
                                     && (a <=? pll_base module + 9))
                 (tune_vcocap dev (pll_base module) data)).
    { intros data. eapply writes_only_weaken; [| apply writes_tune_vcocap].
      intros a Ha. apply Z.eqb_eq in Ha. subst a. destruct module; reflexivity. }
    destruct module; wo. }
  destruct (W hB3) as (ts & E & P). rewrite PP in E. simpl in E. clear W PP.
  unfold write_pll_config in WP.
  apply bind_inv in WP as (regval & ha & R & WP). cbv beta in WP.
  pose proof R as R'. apply LMS_READ_inv in R' as [-> Hregval].
  destruct (is_loopback_enabled dev _) as [status hb] eqn:LE.
  destruct (status <? 0); [discriminate |].
  apply LMS_WRITE_inv in WP.
  subst hP hB3 hB2 hB1 hB0 hA.
  assert (F : forall a, (a =? 0x09) = false ->
                ((pll_base module + 6 <=? a) && (a <=? pll_base module + 9)) = false ->
                forall g, stored init (rev ts3 ++ rev ts ++ g) a = stored init g a).
  { intros a H1 H2 g.
    rewrite (stored_frame init _ ts3 _ a P3 H1).
    exact (stored_frame init _ ts _ a P H2). }
  exists hE, regval, status, hb.
  split; [reflexivity |].
  split; [destruct module; exact R |].
  split; [destruct module; exact LE |].
  split; [exact Hregval |].
  split.
  - destruct module; rewrite !F by reflexivity; stored_simpl; reflexivity.
  - unfold pack_divider.
    destruct module; rewrite !F by reflexivity; stored_simpl;
      rewrite !(u8_small (u8 _)) by apply u8_range; reflexivity.
Qed.

(** The divider and band registers after a successful
    [lms_set_frequency]. *)
Lemma set_frequency_stored dev init module freq h h1 :
  lms_set_frequency dev module freq h = (0, h1) ->
  let d := hz_to_descriptor freq in
  let base := pll_base module in
  (stored init h1 (base + 0), stored init h1 (base + 1),
   stored init h1 (base + 2), stored init h1 (base + 3))
  = pack_divider (nint d) (nfrac d) /\
  (0 <= freqsel d < 64 -> Z.shiftr (stored init h1 (base + 5)) 2 = freqsel d).
Proof.
  intros H. cbv zeta.
  destruct (set_frequency_run dev init module freq h h1 H)
    as (hE & regval & status & hb & _ & _ & _ & Hregval & E5 & Ediv).
  split; [exact Ediv |].
  intros Hfs. rewrite E5.
  destruct (status =? 0);
    [ exact (freqsel_readback _ regval (clamp_frequency freq <? BLADERF_BAND_HIGH)
               false Hfs Hregval)
    | exact (freqsel_readback _ regval true true Hfs Hregval) ].
Qed.

(** Property X20 (tuning read back).
    Tuning and reading the frequency back, the divider registers
    (base + 0..3) and the band register (base + 5) of the PLL being
    memories: after a successful [lms_set_frequency],
    [lms_get_frequency] returns the descriptor computed for the request
    with [nfrac] reduced to the 23 bits the registers hold; it is that
    descriptor itself whenever its [nfrac] is below 2^23. *)
Theorem frequency_set_get dev init module freq h h1 :
  (forall k, In k [0; 1; 2; 3; 5] -> memory_at dev init (pll_base module + k)) ->
  lms_set_frequency dev module freq h = (0, h1) ->
  let d := hz_to_descriptor freq in
  fst (lms_get_frequency dev module h1)
  = Ok (mk_lms_freq (x d) (nint d) (nfrac d mod 2 ^ 23) (freqsel d) (reference d)) /\
  (nfrac d < 2 ^ 23 -> fst (lms_get_frequency dev module h1) = Ok d).
Proof.
  intros Hm Hset. cbv zeta.
  destruct (set_frequency_stored dev init module freq h h1 Hset) as [Ediv Efs].
  cbv zeta in Ediv, Efs.
  destruct (descriptor_shape freq) as (b & Hin & HX & Hf0 & HXf & Hd). cbv zeta in HX, HXf, Hd.
  pose proof (band_value_range b Hin) as Hv.
  pose proof (pll_arith _ _ HX Hf0 HXf) as (Hn & Hfr & _).
  rewrite Hd in *. cbn [x nint nfrac freqsel reference] in *.
  specialize (Efs Hv).
  assert (G : fst (lms_get_frequency dev module h1)
              = Ok (mk_lms_freq (Z.shiftl 1 (Z.land (value b) 7 - 3))
                      (nint_of (Z.shiftl 1 (Z.land (value b) 7 - 3)) (clamp_frequency freq))
                      (nfrac_of (Z.shiftl 1 (Z.land (value b) 7 - 3)) (clamp_frequency freq)
                       mod 2 ^ 23)
                      (value b) ref_clock)).
  { rewrite (get_frequency_stored _ _ _ _ Hm). cbv zeta.
    rewrite Ediv, Efs, unpack_pack_wrap by lia. cbn [fst snd].
    rewrite u8_small by lia. reflexivity. }
  split; [exact G |].
  intros Hlt. rewrite G, Z.mod_small by lia. reflexivity.
Qed.

Lemma frequency_set_get_witness :
  let init := fun _ : Z => 0 in
  let dev := regfile init in
  let module := BLADERF_MODULE_RX in
  let freq := 2412000000 in
  let h := @nil xact in
  let h1 := snd (lms_set_frequency dev module freq h) in
  (forall k, In k [0; 1; 2; 3; 5] -> memory_at dev init (pll_base module + k)) /\
  lms_set_frequency dev module freq h = (0, h1) /\
  nfrac (hz_to_descriptor freq) < 2 ^ 23 /\
  fst (lms_get_frequency dev module h1) = Ok (hz_to_descriptor freq).
Proof.
  intros init dev module freq h h1.
  assert (Hm : forall k, In k [0; 1; 2; 3; 5] ->
                 memory_at dev init (pll_base module + k))
    by (intros k _ h0; reflexivity).
  assert (Hr : lms_set_frequency dev module freq h = (0, h1))
    by (vm_compute; reflexivity).
  assert (Hf : nfrac (hz_to_descriptor freq) < 2 ^ 23) by (vm_compute; reflexivity).
  exact (conj Hm (conj Hr (conj Hf
           (proj2 (frequency_set_get dev init module freq h h1 Hm Hr) Hf)))).
Defined.

(** Property X21 (overflow of the fractional divider).
    The fractional divider can overflow its field.  For a frequency [f]
    of the supported range, [nfrac] is at most 2^23, and it is 2^23, one
    more than the 23-bit field holds, exactly when the VCO divider is 2
    and [f + 1] is a multiple of 19.2 MHz; then the integer divider is
    not incremented, the divider registers hold a fraction of 0 and the
    frequency they stand for is [f + 1 - 19200000]. *)
Theorem fractional_divider_range (f : Z) :
  BLADERF_FREQUENCY_MIN <= f <= BLADERF_FREQUENCY_MAX ->
  let d := hz_to_descriptor f in
  0 <= nfrac d <= 2 ^ 23 /\
  (nfrac d = 2 ^ 23 <-> x d = 2 /\ (f + 1) mod 19200000 = 0) /\
  (nfrac d = 2 ^ 23 ->
   unpack_divider (pack_divider (nint d) (nfrac d)) = (nint d, 0) /\
   lms_frequency_to_hz (mk_lms_freq (x d) (nint d) 0 (freqsel d) (reference d))
   = f + 1 - 19200000).
Proof.
  intros Hf. cbv zeta.
  destruct (descriptor_shape f) as (b & Hin & HX & Hf0 & HXf & Hd). cbv zeta in HX, HXf, Hd.
  rewrite (clamp_frequency_fixed f Hf) in *.
  pose proof (pll_arith _ _ HX Hf0 HXf) as (Hn & Hfr & _).
  rewrite Hd. cbn [x nint nfrac freqsel reference].
  set (X := Z.shiftl 1 (Z.land (value b) 7 - 3)) in *.
  assert (Hiff : nfrac_of X f = 2 ^ 23 <-> X = 2 /\ (f + 1) mod 19200000 = 0).
  { unfold nfrac_of, nint_of, ref_clock in *.
    unfold BLADERF_FREQUENCY_MIN, BLADERF_FREQUENCY_MAX in Hf.
    change (2 ^ 23) with 8388608 in *. change (38400000 / 2) with 19200000.
    destruct HX as [-> | [-> | [-> | ->]]];
      (split; [intros E | intros [E1 E2]; try discriminate]);
      Z.to_euclidean_division_equations; lia. }
  split; [exact Hfr |]. split; [exact Hiff |].
  intros E. destruct (proj1 Hiff E) as [EX Emod]. split.
  - rewrite unpack_pack_wrap by lia. rewrite E. reflexivity.
  - rewrite to_hz_eq by (try assumption; lia).
    unfold hz_of, nint_of, ref_clock, u32 in *. rewrite EX in *.
    unfold BLADERF_FREQUENCY_MIN, BLADERF_FREQUENCY_MAX in Hf.
    change (2 ^ 23) with 8388608 in *. change (2 ^ 32) with 4294967296.
    unfold nfrac_of, nint_of, ref_clock in E. change (38400000 / 2) with 19200000 in E.
    Z.to_euclidean_division_equations; lia.
Qed.

Lemma fractional_divider_range_witness :
  let f := 2419199999 in
  BLADERF_FREQUENCY_MIN <= f <= BLADERF_FREQUENCY_MAX /\
  nfrac (hz_to_descriptor f) = 2 ^ 23 /\
  lms_frequency_to_hz
    (mk_lms_freq (x (hz_to_descriptor f)) (nint (hz_to_descriptor f)) 0
       (freqsel (hz_to_descriptor f)) (reference (hz_to_descriptor f)))
  = f + 1 - 19200000.
Proof.
  intros f.
  assert (Hf : BLADERF_FREQUENCY_MIN <= f <= BLADERF_FREQUENCY_MAX)
    by (unfold BLADERF_FREQUENCY_MIN, BLADERF_FREQUENCY_MAX, f; lia).
  assert (Hn : nfrac (hz_to_descriptor f) = 2 ^ 23) by (vm_compute; reflexivity).
  exact (conj Hf (conj Hn
           (proj2 (proj2 (proj2 (fractional_divider_range f Hf)) Hn)))).
Defined.

(* ------------------------------------------------------------------ *)
(** * The loopback state machine *)

Lemma bind_last {R} (m : M hist R) (k : M hist unit) h h1 :
  (m ;; k) h = (Ok tt, h1) -> exists h0, k h0 = (Ok tt, h1).
Proof. intros H. apply bind_inv in H as (r & h0 & _ & H). eauto. Qed.

(** Property X22 (loopback set then get).
    The whole transition protocol, then the decoder: registers 0x08 and
    0x46 being memories, [lms_get_loopback_mode] after a successful
    [lms_set_loopback_mode] returns the mode that was set, for each of
    the eight modes; a value that is none of them is refused with
    [BLADERF_ERR_INVAL] before anything is touched. *)
Theorem set_loopback_roundtrip dev init h :
  memory_at dev init 0x08 -> memory_at dev init 0x46 ->
  (forall mode h1,
     lms_set_loopback_mode dev mode h = (Ok tt, h1) ->
     fst (lms_get_loopback_mode dev h1) = Ok mode) /\
  lms_set_loopback_mode dev BLADERF_LB_FIRMWARE h = (Err BLADERF_ERR_INVAL, h).
Proof.
  intros M08 M46. split; [| reflexivity].
  intros mode h1 Hset.
  assert (Hm : mode <> BLADERF_LB_FIRMWARE) by (intros ->; discriminate).
  assert (Hp : exists h0, loopback_path dev mode h0 = (Ok tt, h1)).
  { destruct mode; [contradiction | ..]; unfold lms_set_loopback_mode in Hset;
      do 5 (apply bind_last in Hset as [? Hset]); eauto. }
  destruct Hp as [h0 Hp].
  exact (loopback_roundtrip dev init mode h0 h1 Hm M08 M46 Hp).
Qed.

Lemma set_loopback_roundtrip_witness :
  let init := fun _ : Z => 0 in
  let dev := regfile init in
  let mode := BLADERF_LB_RF_LNA2 in
  let h := @nil xact in
  let h1 := snd (lms_set_loopback_mode dev mode h) in
  memory_at dev init 0x08 /\ memory_at dev init 0x46 /\
  lms_set_loopback_mode dev mode h = (Ok tt, h1) /\
  fst (lms_get_loopback_mode dev h1) = Ok mode.
Proof.
  intros init dev mode h h1.
  assert (Hm : memory_at dev init 0x08) by (intros h0; reflexivity).
  assert (Hn : memory_at dev init 0x46) by (intros h0; reflexivity).
  assert (Hr : lms_set_loopback_mode dev mode h = (Ok tt, h1))
    by (vm_compute; reflexivity).
  exact (conj Hm (conj Hn (conj Hr
           (proj1 (set_loopback_roundtrip dev init h Hm Hn) mode h1 Hr)))).
Defined.

Lemma get_loopback_stored dev init h :
  memory_at dev init 0x08 -> memory_at dev init 0x46 ->
  lms_get_loopback_mode dev h
  = (Ok (loopback_decode (stored init h 0x08) (stored init h 0x46)),
     Rd 0x46 (stored init h 0x46) 0 :: Rd 0x08 (stored init h 0x08) 0 :: h).
Proof.
  intros M08 M46. unfold lms_get_loopback_mode.
  rewrite (read_decode _ _ _ _ _ M08), (read_decode _ _ _ _ _ M46).
  rewrite stored_Rd. reflexivity.
Qed.

Lemma freqsel_descriptor_range freq : 0 <= freqsel (hz_to_descriptor freq) < 64.
Proof.
  destruct (descriptor_shape freq) as (b & Hin & _ & _ & _ & Hd). cbv zeta in Hd.
  rewrite Hd. apply band_value_range, Hin.
Qed.

Lemma output_buffer_kept fs regval :
  0 <= fs < 64 -> 0 <= regval < 256 ->
  Z.land (u8 (u8 (Z.lor (Z.land regval (Z.lnot 0xfc)) (Z.shiftl fs 2)))) 3
  = Z.land regval 3.
Proof.
  intros Hfs Hr. apply Z.eqb_eq.
  assert (C : forallb (fun fs =>
                all_u8 (fun regval =>
                  Z.land (u8 (u8 (Z.lor (Z.land regval (Z.lnot 0xfc)) (Z.shiftl fs 2)))) 3
                  =? Z.land regval 3))
              (map (fun k => 0 + Z.of_nat k) (seq 0 64)) = true)
    by (vm_compute; reflexivity).
  assert (Hfs' : 0 <= fs < 0 + Z.of_nat 64) by lia.
  pose proof (range_cases 0 64 _ C fs Hfs') as C1. cbv beta in C1.
  exact (all_u8_spec _ C1 regval Hr).
Qed.

(** Property X23 (tuning in loopback).
    Tuning while a loopback mode is engaged, registers 0x08 and 0x46
    being memories: [lms_select_band] returns 0 after the two reads of
    the loopback lookup and writes nothing, so the PA and LNA selection
    stay as the loopback left them; and a successful
    [lms_set_frequency] keeps the output buffer bits [1:0] of the band
    register of the PLL, a memory too. *)
Theorem tuning_in_loopback dev init module freq h mode :
  memory_at dev init 0x08 -> memory_at dev init 0x46 ->
  fst (lms_get_loopback_mode dev h) = Ok mode -> mode <> BLADERF_LB_NONE ->
  lms_select_band dev module freq h
  = (0, Rd 0x46 (stored init h 0x46) 0 :: Rd 0x08 (stored init h 0x08) 0 :: h) /\
  (forall h1,
     memory_at dev init (pll_base module + 5) ->
     lms_set_frequency dev module freq h = (0, h1) ->
     Z.land (stored init h1 (pll_base module + 5)) 3
     = Z.land (stored init h (pll_base module + 5)) 3).
Proof.
  intros M08 M46 Hget Hmode.
  rewrite (get_loopback_stored _ _ _ M08 M46) in Hget. injection Hget as Hdec.
  split.
  - unfold lms_select_band, is_loopback_enabled.
    rewrite (get_loopback_stored _ _ _ M08 M46), Hdec.
    destruct mode; try reflexivity. contradiction.
  - intros h1 M5 Hset.
    destruct (set_frequency_run dev init module freq h h1 Hset)
      as (hE & regval & status & hb & EN & R & LE & Hregval & E5 & _).
    unfold dsm_enable in EN.
    apply bind_inv in EN as (d & h0 & R9 & W9).
    apply LMS_READ_inv in R9 as [-> Hd]. apply LMS_WRITE_inv in W9 as ->.
    apply (LMS_READ_mem_inv _ _ _ _ _ _ M5) in R as [Ereg _].
    unfold is_loopback_enabled in LE.
    rewrite (get_loopback_stored _ _ _ M08 M46) in LE.
    assert (Es : status = 1).
    { revert LE. stored_simpl. rewrite Hdec.
      destruct mode; try contradiction; intros [= <- _]; reflexivity. }
    rewrite E5, Es. cbn [Z.eqb].
    rewrite (output_buffer_kept _ _ (freqsel_descriptor_range freq) Hregval).
    rewrite Ereg. f_equal.
    destruct module; stored_simpl; reflexivity.
Qed.

Lemma tuning_in_loopback_witness :
  let init := fun _ : Z => 0 in
  let dev := regfile init in
  let module := BLADERF_MODULE_TX in
  let freq := 915000000 in
  let mode := BLADERF_LB_BB_TXLPF_RXVGA2 in
  let h := snd (lms_set_loopback_mode dev mode []) in
  memory_at dev init 0x08 /\ memory_at dev init 0x46 /\
  fst (lms_get_loopback_mode dev h) = Ok mode /\ mode <> BLADERF_LB_NONE /\
  lms_select_band dev module freq h
  = (0, Rd 0x46 (stored init h 0x46) 0 :: Rd 0x08 (stored init h 0x08) 0 :: h).
Proof.
  intros init dev module freq mode h.
  assert (Hm : memory_at dev init 0x08) by (intros h0; reflexivity).
  assert (Hn : memory_at dev init 0x46) by (intros h0; reflexivity).
  assert (Hg : fst (lms_get_loopback_mode dev h) = Ok mode)
    by (vm_compute; reflexivity).
  assert (Hne : mode <> BLADERF_LB_NONE) by discriminate.
  exact (conj Hm (conj Hn (conj Hg (conj Hne
           (proj1 (tuning_in_loopback dev init module freq h mode Hm Hn Hg Hne)))))).
Defined.

Lemma nonzero_select_pa dev pa : nonzero_err (lms_select_pa dev pa).
Proof. apply failfast_nonzero. unfold lms_select_pa. ff. Qed.

Lemma nonzero_select_lna dev lna : nonzero_err (lms_select_lna dev lna).
Proof. apply failfast_nonzero. unfold lms_select_lna. ff. Qed.

(** Property X24 (automatic band selection).
    Automatic band selection out of loopback, registers 0x08 and 0x46
    being memories that decode to no loopback: for RX the LNA selected
    is LNA 2 from the high band on and LNA 1 below (register 0x75 being
    a memory); for TX the PA enabled is PA 2 from the high band on and
    PA 1 below, the AUX PA being powered down. *)
Theorem select_band_by_frequency dev init freq h :
  memory_at dev init 0x08 -> memory_at dev init 0x46 ->
  fst (lms_get_loopback_mode dev h) = Ok BLADERF_LB_NONE ->
  (forall h1,
     memory_at dev init 0x75 ->
     lms_select_band dev BLADERF_MODULE_RX freq h = (0, h1) ->
     fst (lms_get_lna dev h1)
     = Ok (if freq >=? BLADERF_BAND_HIGH then LNA_2 else LNA_1)) /\
  (forall h1,
     lms_select_band dev BLADERF_MODULE_TX freq h = (0, h1) ->
     Z.land (Z.shiftr (stored init h1 0x44) 2) 7
     = (if freq >=? BLADERF_BAND_HIGH then 4 else 2) /\
     Z.land (Z.shiftr (stored init h1 0x44) 1) 1 = 1).
Proof.
  intros M08 M46 Hget.
  rewrite (get_loopback_stored _ _ _ M08 M46) in Hget. injection Hget as Hdec.
  split; intros h1.
  - intros M75 Hsel. unfold lms_select_band, is_loopback_enabled in Hsel.
    rewrite (get_loopback_stored _ _ _ M08 M46), Hdec in Hsel. cbn [Z.ltb Z.gtb Z.compare] in Hsel.
    destruct (lms_select_lna dev _ _) as [[[] | e] h2] eqn:S.
    + injection Hsel as <-.
      exact (proj1 (lna_select_roundtrip_stored dev init _ _ _ M75 S)).
    + injection Hsel as -> _. exfalso. exact (nonzero_select_lna _ _ _ _ _ S eq_refl).
  - intros Hsel. unfold lms_select_band, is_loopback_enabled in Hsel.
    rewrite (get_loopback_stored _ _ _ M08 M46), Hdec in Hsel. cbn [Z.ltb Z.gtb Z.compare] in Hsel.
    destruct (lms_select_pa dev _ _) as [[[] | e] h2] eqn:S.
    + injection Hsel as <-.
      destruct (select_pa_stored dev init _ _ _ S) as (F1 & F2 & _).
      rewrite F1, F2. destruct (freq >=? BLADERF_BAND_HIGH); split; reflexivity.
    + injection Hsel as -> _. exfalso. exact (nonzero_select_pa _ _ _ _ _ S eq_refl).
Qed.

Lemma select_band_by_frequency_witness :
  let init := fun _ : Z => 0 in
  let dev := regfile init in
  let freq := 2412000000 in
  let h := @nil xact in
  let h1 := snd (lms_select_band dev BLADERF_MODULE_RX freq h) in
  memory_at dev init 0x08 /\ memory_at dev init 0x46 /\
  fst (lms_get_loopback_mode dev h) = Ok BLADERF_LB_NONE /\
  memory_at dev init 0x75 /\
  lms_select_band dev BLADERF_MODULE_RX freq h = (0, h1) /\
  fst (lms_get_lna dev h1) = Ok LNA_2.
Proof.
  intros init dev freq h h1.
  assert (Hm : memory_at dev init 0x08) by (intros h0; reflexivity).
  assert (Hn : memory_at dev init 0x46) by (intros h0; reflexivity).
  assert (Hg : fst (lms_get_loopback_mode dev h) = Ok BLADERF_LB_NONE)
    by (vm_compute; reflexivity).
  assert (Hl : memory_at dev init 0x75) by (intros h0; reflexivity).
  assert (Hr : lms_select_band dev BLADERF_MODULE_RX freq h = (0, h1))
    by (vm_compute; reflexivity).
  exact (conj Hm (conj Hn (conj Hg (conj Hl (conj Hr
           (proj1 (select_band_by_frequency dev init freq h Hm Hn Hg) h1 Hl Hr)))))).
Defined.

Ltac frame_step :=
  match goal with
  | P : forallb ?A (written ?ts) = true |- context [stored ?i (rev ?ts ++ ?g) ?a] =>
      rewrite (stored_frame i A ts g a P) by reflexivity
  end.

Ltac stored_all := norm_addr; repeat first [stored_step | frame_step].

(** Close a goal on the bits of a byte that a run left in a register. *)
Ltac byte_goal :=
  repeat rewrite (u8_small (u8 _)) by apply u8_range;
  first
    [ match goal with
      | Hd : 0 <= ?d < 256 |- ?L = _ :> Z =>
          match L with context [d] => clear - Hd; byte_cases d Hd end
      end
    | repeat (rewrite ?bit_set, ?bit_clear
               by first [assumption | apply stored_range | apply u8_range | lia]);
      cbn [Z.eqb Pos.eqb negb];
      rewrite ?orb_true_r, ?andb_false_r, ?andb_true_r; reflexivity ].

(** Unfold a successful run into its transactions; a read of a memory
    register yields the register's content. *)
Ltac inv_run H :=
  cbv beta iota zeta in H;
  lazymatch type of H with
  | bind _ _ _ = (Ok _, _) =>
      let d := fresh "d" in
      let h0 := fresh "h" in
      let R := fresh "R" in
      apply bind_inv in H as (d & h0 & R & H); inv_run R; inv_run H
  | LMS_READ ?dev ?a _ = (Ok _, _) =>
      first
        [ match goal with
          | M : memory_at dev _ a |- _ =>
              apply (LMS_READ_mem_inv _ _ _ _ _ _ M) in H as [-> ->]
          end
        | let Hd := fresh "Hd" in apply LMS_READ_inv in H as [-> Hd] ]
  | LMS_WRITE _ _ _ _ = (Ok _, _) => apply LMS_WRITE_inv in H as ->
  | ret _ _ = (Ok _, _) => apply ret_inv in H as [-> ->]
  | _ => idtac
  end.

Lemma frame_run {R} (A : Z -> bool) (m : M hist R) h r h1 :
  writes_only A m -> m h = (r, h1) ->
  exists ts, h1 = rev ts ++ h /\ forallb A (written ts) = true.
Proof. intros W E. destruct (W h) as (ts & Es & P). rewrite E in Es. eauto. Qed.

Lemma writes_rxlpf_enable dev lpf_mode :
  writes_only (fun a => (a =? 0x54) || (a =? 0x55)) (rxlpf_enable_if_disabled dev lpf_mode).
Proof.
  unfold rxlpf_enable_if_disabled, lms_lpf_set_mode.
  destruct lpf_mode; wo.
Qed.

(** Property X25 (RF loopback state).
    Entering an RF loopback mode: after a successful
    [lms_set_loopback_mode] to LNA 1, 2 or 3 (register 0x7d being a
    memory), the AUX PA is on with PA 1 and PA 2 off, that LNA is
    selected and the RX PLL output buffer carries the same number, the
    RF loopback switch is closed, the LNAs are powered down, and RXVGA1
    and RXVGA2 are enabled. *)
Theorem rf_loopback_state dev init mode h h1 :
  memory_at dev init 0x7d ->
  loopback_lna mode <> LNA_NONE ->
  lms_set_loopback_mode dev mode h = (Ok tt, h1) ->
  let code := lms_lna_code (loopback_lna mode) in
  Z.land (Z.shiftr (stored init h1 0x44) 1) 0xf = 0 /\
  Z.land (Z.shiftr (stored init h1 0x75) 4) 0x3 = code /\
  Z.land (stored init h1 0x25) 3 = code /\
  Z.testbit (stored init h1 0x0b) 0 = true /\
  Z.testbit (stored init h1 0x7d) 0 = true /\
  Z.testbit (stored init h1 0x70) 1 = true /\
  Z.testbit (stored init h1 0x7d) 3 = false /\
  Z.testbit (stored init h1 0x64) 1 = true.
Proof.
  intros M7d Hlna Hset. cbv zeta.
  destruct mode; try (exfalso; apply Hlna; reflexivity);
    unfold lms_set_loopback_mode in Hset;
    do 3 (apply bind_last in Hset as [? Hset]);
    apply bind_inv in Hset as ([] & hD & RX & Hset);
    unfold loopback_rx in RX;
    apply bind_inv in RX as (lpf_mode & hG & _ & RX);
    apply bind_inv in RX as ([] & h2 & S1 & RX);
    apply bind_inv in RX as ([] & h3 & S2 & RX);
    apply bind_inv in RX as ([] & h4 & S3 & RX);
    unfold enable_lna_power in S1; inv_run S1;
    unfold lms_rxvga1_enable in S2; inv_run S2;
    destruct (frame_run _ _ _ _ _ (writes_rxlpf_enable dev lpf_mode) S3)
      as (tsL & EL & PL);
    unfold lms_rxvga2_enable, lms_select_lna, enable_rf_loopback_switch in RX;
    inv_run RX;
    unfold loopback_tx, lms_select_pa, loopback_path in Hset; inv_run Hset;
    match type of Hset with
    | context [loopback_path_bits ?m ?a ?b] =>
        destruct (loopback_path_bits m a b) as [[v46 v08] |]; [| discriminate]
    end;
    inv_run Hset; subst h4; clear S3;
    repeat apply conj; stored_all; byte_goal.
Qed.

Lemma rf_loopback_state_witness :
  let init := fun _ : Z => 0 in
  let dev := regfile init in
  let mode := BLADERF_LB_RF_LNA3 in
  let h := @nil xact in
  let h1 := snd (lms_set_loopback_mode dev mode h) in
  memory_at dev init 0x7d /\
  loopback_lna mode <> LNA_NONE /\
  lms_set_loopback_mode dev mode h = (Ok tt, h1) /\
  Z.land (Z.shiftr (stored init h1 0x44) 1) 0xf = 0 /\
  Z.land (Z.shiftr (stored init h1 0x75) 4) 0x3 = 3 /\
  Z.land (stored init h1 0x25) 3 = 3 /\
  Z.testbit (stored init h1 0x0b) 0 = true /\
  Z.testbit (stored init h1 0x7d) 0 = true /\
  Z.testbit (stored init h1 0x70) 1 = true /\
  Z.testbit (stored init h1 0x7d) 3 = false /\
  Z.testbit (stored init h1 0x64) 1 = true.
Proof.
  intros init dev mode h h1.
  assert (Hm : memory_at dev init 0x7d) by (intros h0; reflexivity).
  assert (Hl : loopback_lna mode <> LNA_NONE) by discriminate.
  assert (Hr : lms_set_loopback_mode dev mode h = (Ok tt, h1))
    by (vm_compute; reflexivity).
  exact (conj Hm (conj Hl (conj Hr (rf_loopback_state dev init mode h h1 Hm Hl Hr)))).
Defined.

(** Property X26 (baseband loopback state).
    Entering a baseband loopback mode: after a successful
    [lms_set_loopback_mode] every PA is off and no LNA is selected, as
    the protocol left them when it started, and RXVGA2 is enabled; for
    the modes that feed RXVGA2 the RX LPF is disabled (enable and bypass
    bits clear), for the modes that feed the RX LPF RXVGA1 is
    disabled. *)
Theorem bb_loopback_state dev init mode h h1 :
  In mode [ BLADERF_LB_BB_TXLPF_RXVGA2; BLADERF_LB_BB_TXVGA1_RXVGA2;
            BLADERF_LB_BB_TXLPF_RXLPF; BLADERF_LB_BB_TXVGA1_RXLPF ] ->
  lms_set_loopback_mode dev mode h = (Ok tt, h1) ->
  Z.land (Z.shiftr (stored init h1 0x44) 1) 0xf = 1 /\
  Z.land (Z.shiftr (stored init h1 0x75) 4) 0x3 = 0 /\
  Z.testbit (stored init h1 0x64) 1 = true /\
  match mode with
  | BLADERF_LB_BB_TXLPF_RXVGA2 | BLADERF_LB_BB_TXVGA1_RXVGA2 =>
      Z.testbit (stored init h1 0x54) 1 = false /\
      Z.testbit (stored init h1 0x55) 6 = false
  | _ => Z.testbit (stored init h1 0x7d) 3 = true
  end.
Proof.
  intros Hin Hset. simpl in Hin.
  destruct Hin as [<- | [<- | [<- | [<- | []]]]];
    unfold lms_set_loopback_mode in Hset;
    apply bind_inv in Hset as ([] & hA & PA & Hset);
    apply bind_inv in Hset as ([] & hB & LNA & Hset);
    apply bind_inv in Hset as ([] & hC & LP & Hset);
    apply bind_inv in Hset as ([] & hD & RX & Hset);
    unfold lms_select_pa in PA; inv_run PA;
    unfold lms_select_lna in LNA; inv_run LNA;
    unfold loopback_path in LP; inv_run LP;
    match type of LP with
    | context [loopback_path_bits ?m ?a ?b] =>
        destruct (loopback_path_bits m a b) as [[v46 v08] |]; [| discriminate]
    end;
    inv_run LP;
    unfold loopback_rx in RX;
    apply bind_inv in RX as (lpf_mode & hG & G & RX);
    destruct (frame_run _ _ _ _ _ (nowhere_lpf_get_mode dev BLADERF_MODULE_RX) G)
      as (tsG & EG & PG); subst hG; clear G.
  1, 2: unfold lms_rxvga2_enable, lms_lpf_set_mode in RX; inv_run RX.
  3, 4: apply bind_inv in RX as ([] & h3 & S2 & RX);
        apply bind_inv in RX as ([] & h4 & S3 & RX);
        unfold lms_rxvga1_enable in S2; inv_run S2;
        destruct (frame_run _ _ _ _ _ (writes_rxlpf_enable dev lpf_mode) S3)
          as (tsL & EL & PL); subst h4; clear S3;
        unfold lms_rxvga2_enable in RX; inv_run RX.
  all: unfold loopback_tx, loopback_path in Hset; inv_run Hset;
    match type of Hset with
    | context [loopback_path_bits ?m ?a ?b] =>
        destruct (loopback_path_bits m a b) as [[w46 w08] |]; [| discriminate]
    end;
    inv_run Hset;
    repeat apply conj; stored_all; byte_goal.
Qed.

Lemma bb_loopback_state_witness :
  let init := fun _ : Z => 0 in
  let dev := regfile init in
  let mode := BLADERF_LB_BB_TXVGA1_RXLPF in
  let h := @nil xact in
  let h1 := snd (lms_set_loopback_mode dev mode h) in
  In mode [ BLADERF_LB_BB_TXLPF_RXVGA2; BLADERF_LB_BB_TXVGA1_RXVGA2;
            BLADERF_LB_BB_TXLPF_RXLPF; BLADERF_LB_BB_TXVGA1_RXLPF ] /\
  lms_set_loopback_mode dev mode h = (Ok tt, h1) /\
  Z.land (Z.shiftr (stored init h1 0x44) 1) 0xf = 1 /\
  Z.land (Z.shiftr (stored init h1 0x75) 4) 0x3 = 0 /\
  Z.testbit (stored init h1 0x64) 1 = true /\
  Z.testbit (stored init h1 0x7d) 3 = true.
Proof.
  intros init dev mode h h1.
  assert (Hi : In mode [ BLADERF_LB_BB_TXLPF_RXVGA2; BLADERF_LB_BB_TXVGA1_RXVGA2;
                         BLADERF_LB_BB_TXLPF_RXLPF; BLADERF_LB_BB_TXVGA1_RXLPF ])
    by (simpl; tauto).
  assert (Hr : lms_set_loopback_mode dev mode h = (Ok tt, h1))
    by (vm_compute; reflexivity).
  exact (conj Hi (conj Hr (bb_loopback_state dev init mode h h1 Hi Hr))).
Defined.

(* ------------------------------------------------------------------ *)
(** * Loading and fetching DC calibration values *)

Lemma writes_set_dc_cal_value dev base dc_addr value :
  (base + 2 =? 0x09) = false -> (base + 3 =? 0x09) = false ->
  writes_only (fun a => negb (a =? 0x09)) (set_dc_cal_value dev base dc_addr value).
Proof.
  intros H2 H3. unfold set_dc_cal_value.
  repeat first
    [ apply writes_only_bind; [ | intros ? ]
    | apply writes_only_write; cbv beta; rewrite ?H2, ?H3; reflexivity
    | apply writes_only_read | apply writes_only_ret ].
Qed.

Lemma writes_when (A : Z -> bool) (c : bool) (m : M hist unit) :
  writes_only A m -> writes_only A (when c m).
Proof. intros W. destruct c; [exact W | apply writes_only_ret]. Qed.

(** The end of a group: loads, then the disable of its clock. *)
Lemma group_end dev init k :
  memory_at dev init 0x09 ->
  forall ha h1, lms_clear dev 0x09 (Z.shiftl 1 k) ha = (Ok tt, h1) ->
    stored init h1 0x09
    = u8 (Z.land (stored init ha 0x09) (Z.lnot (Z.shiftl 1 k))).
Proof.
  intros Hm ha h1 C.
  apply (rmw_stored _ _ _ (fun regval => Z.land regval (Z.lnot (Z.shiftl 1 k))) _ _ Hm)
    in C as [Ec _].
  exact Ec.
Qed.

Lemma group_load init k (w rest : M hist unit) :
  writes_only (fun a => negb (a =? 0x09)) w ->
  (forall ha h1, rest ha = (Ok tt, h1) ->
     stored init h1 0x09
     = u8 (Z.land (stored init ha 0x09) (Z.lnot (Z.shiftl 1 k)))) ->
  forall ha h1, (w ;; rest) ha = (Ok tt, h1) ->
    stored init h1 0x09
    = u8 (Z.land (stored init ha 0x09) (Z.lnot (Z.shiftl 1 k))).
Proof.
  intros W R ha h1 Hrun.
  apply bind_inv in Hrun as ([] & hb & I & Hrun).
  destruct (frame_run _ _ _ _ _ W I) as (ts & -> & P).
  rewrite (R _ _ Hrun), (stored_frame init _ ts ha 9 P eq_refl). reflexivity.
Qed.

(** A group of loads between the enable and the disable of its clock. *)
Lemma clock_group dev init k c (rest : M hist unit) h h1 :
  0 <= k < 8 -> memory_at dev init 0x09 ->
  (forall ha h1, rest ha = (Ok tt, h1) ->
     stored init h1 0x09
     = u8 (Z.land (stored init ha 0x09) (Z.lnot (Z.shiftl 1 k)))) ->
  when c (lms_set dev 0x09 (Z.shiftl 1 k) ;; rest) h = (Ok tt, h1) ->
  forall j, 0 <= j ->
    Z.testbit (stored init h1 0x09) j
    = Z.testbit (stored init h 0x09) j && negb ((j =? k) && c).
Proof.
  intros Hk Hm R Hrun j Hj. destruct c.
  - cbv [when] in Hrun.
    apply bind_inv in Hrun as ([] & ha & S & Hrun).
    apply (rmw_stored _ _ _ (fun regval => Z.lor regval (Z.shiftl 1 k)) _ _ Hm)
      in S as [Ea _].
    rewrite (R _ _ Hrun), Ea.
    rewrite bit_clear by (try apply u8_range; lia).
    rewrite bit_set by (try apply stored_range; lia).
    destruct (Z.eqb_spec j k); simpl;
      rewrite ?andb_false_r, ?andb_true_r, ?orb_false_r; reflexivity.
  - apply ret_inv in Hrun as [_ ->]. rewrite andb_false_r, andb_true_r. reflexivity.
Qed.

(** Property X27 (loading DC calibration values).
    Loading stored DC calibration values, the clock register 0x09 being
    a memory.  When no value is to be loaded (all ten are negative) the
    bus is not touched.  After a successful load, the calibration clock
    of every group that had a value to load is off, whether it was on
    before or not, and the other bits of the clock register are as they
    were. *)
Theorem set_dc_cals_clocks dev init dc_cals h :
  memory_at dev init 0x09 ->
  ((forall j, dc_cals_clock dc_cals j = false) ->
   lms_set_dc_cals dev dc_cals h = (Ok tt, h)) /\
  (forall h1,
     lms_set_dc_cals dev dc_cals h = (Ok tt, h1) ->
     forall j, 0 <= j ->
       Z.testbit (stored init h1 0x09) j
       = Z.testbit (stored init h 0x09) j && negb (dc_cals_clock dc_cals j)).
Proof.
  intros Hm. split.
  - intros Hnone. unfold lms_set_dc_cals.
    assert (E5 : (lpf_tuning dc_cals >=? 0) = false).
    { specialize (Hnone 5). unfold dc_cals_clock in Hnone.
      destruct (lpf_tuning dc_cals >=? 0); [discriminate Hnone | reflexivity]. }
    assert (E1 : (tx_lpf_i dc_cals >=? 0) || (tx_lpf_q dc_cals >=? 0) = false).
    { specialize (Hnone 1). unfold dc_cals_clock in Hnone.
      destruct (tx_lpf_i dc_cals >=? 0), (tx_lpf_q dc_cals >=? 0);
        try discriminate Hnone; reflexivity. }
    assert (E3 : (rx_lpf_i dc_cals >=? 0) || (rx_lpf_q dc_cals >=? 0) = false).
    { specialize (Hnone 3). unfold dc_cals_clock in Hnone.
      destruct (rx_lpf_i dc_cals >=? 0), (rx_lpf_q dc_cals >=? 0);
        try discriminate Hnone; reflexivity. }
    assert (E4 : (dc_ref dc_cals >=? 0) ||
                 (rxvga2a_i dc_cals >=? 0) || (rxvga2a_q dc_cals >=? 0) ||
                 (rxvga2b_i dc_cals >=? 0) || (rxvga2b_q dc_cals >=? 0) = false).
    { specialize (Hnone 4). unfold dc_cals_clock in Hnone.
      destruct (dc_ref dc_cals >=? 0), (rxvga2a_i dc_cals >=? 0),
        (rxvga2a_q dc_cals >=? 0), (rxvga2b_i dc_cals >=? 0),
        (rxvga2b_q dc_cals >=? 0); try discriminate Hnone; reflexivity. }
    cbv zeta. rewrite E5, E1, E3, E4. reflexivity.
  - intros h1 Hrun j Hj. unfold lms_set_dc_cals in Hrun. cbv zeta in Hrun.
    apply bind_inv in Hrun as ([] & ha & G1 & Hrun).
    apply bind_inv in Hrun as ([] & hb & G2 & Hrun).
    apply bind_inv in Hrun as ([] & hc & G3 & G4).
    assert (V : forall base dc_addr value, In base [0x00; 0x30; 0x50; 0x60] ->
                writes_only (fun a => negb (a =? 0x09))
                  (set_dc_cal_value dev base dc_addr value)).
    { intros base dc_addr value Hb. simpl in Hb.
      destruct Hb as [<- | [<- | [<- | [<- | []]]]];
        apply writes_set_dc_cal_value; reflexivity. }
    assert (R : forall k rest, 
              (forall ha h1, rest ha = (Ok tt, h1) ->
                 stored init h1 0x09
                 = u8 (Z.land (stored init ha 0x09) (Z.lnot (Z.shiftl 1 k)))) ->
              forall c base dc_addr value, In base [0x00; 0x30; 0x50; 0x60] ->
              forall ha h1,
                (when c (set_dc_cal_value dev base dc_addr value) ;; rest) ha = (Ok tt, h1) ->
                stored init h1 0x09
                = u8 (Z.land (stored init ha 0x09) (Z.lnot (Z.shiftl 1 k)))).
    { intros k rest Hr c base dc_addr value Hb.
      apply group_load; [apply writes_when, V, Hb | exact Hr]. }
    apply (clock_group dev init 5) with (j := j) in G1;
      [| lia | exact Hm | | exact Hj].
    2:{ apply (R 5 _ (group_end dev init 5 Hm) true); simpl; tauto. }
    apply (clock_group dev init 1) with (j := j) in G2;
      [| lia | exact Hm | | exact Hj].
    2:{ repeat (apply R; [| simpl; tauto]). exact (group_end dev init 1 Hm). }
    apply (clock_group dev init 3) with (j := j) in G3;
      [| lia | exact Hm | | exact Hj].
    2:{ repeat (apply R; [| simpl; tauto]). exact (group_end dev init 3 Hm). }
    apply (clock_group dev init 4) with (j := j) in G4;
      [| lia | exact Hm | | exact Hj].
    2:{ repeat (apply R; [| simpl; tauto]). exact (group_end dev init 4 Hm). }
    rewrite G4, G3, G2, G1. unfold dc_cals_clock.
    rewrite !negb_orb, <- !andb_assoc. reflexivity.
Qed.

Lemma set_dc_cals_clocks_witness :
  let init := fun _ : Z => 0xff in
  let dev := regfile init in
  let dc_cals := mk_dc_cals (-1) 12 (-1) (-1) (-1) (-1) (-1) (-1) (-1) (-1) in
  let h := @nil xact in
  let h1 := snd (lms_set_dc_cals dev dc_cals h) in
  memory_at dev init 0x09 /\
  lms_set_dc_cals dev dc_cals h = (Ok tt, h1) /\
  Z.testbit (stored init h1 0x09) 1
  = Z.testbit (stored init h 0x09) 1 && negb (dc_cals_clock dc_cals 1) /\
  Z.testbit (stored init h1 0x09) 5
  = Z.testbit (stored init h 0x09) 5 && negb (dc_cals_clock dc_cals 5).
Proof.
  intros init dev dc_cals h h1.
  assert (Hm : memory_at dev init 0x09) by (intros h0; reflexivity).
  assert (Hr : lms_set_dc_cals dev dc_cals h = (Ok tt, h1)) by reflexivity.
  assert (H1 : 0 <= 1) by lia.
  assert (H5 : 0 <= 5) by lia.
  exact (conj Hm (conj Hr (conj
           (proj2 (set_dc_cals_clocks dev init dc_cals h Hm) h1 Hr 1 H1)
           (proj2 (set_dc_cals_clocks dev init dc_cals h Hm) h1 Hr 5 H5)))).
Defined.

Lemma writes_get_dc_cal_value dev base dc_addr :
  dc_addr_regs (base + 3) = true ->
  writes_only dc_addr_regs (get_dc_cal_value dev base dc_addr).
Proof.
  intros Hb. unfold get_dc_cal_value.
  apply writes_only_bind; [apply writes_only_write; exact Hb | intros _].
  wo.
Qed.

Lemma get_dc_cal_value_inv dev base dc_addr h v h1 :
  get_dc_cal_value dev base dc_addr h = (Ok v, h1) ->
  h1 = Rd base v 0 :: Wr (base + 3) (u8 (Z.lor 0x08 dc_addr)) 0 :: h /\
  0 <= v < 256.
Proof.
  unfold get_dc_cal_value. intros H.
  apply bind_inv in H as ([] & h0 & W & H).
  apply bind_inv in H as (d & h2 & R & H).
  apply LMS_WRITE_inv in W as ->.
  apply LMS_READ_inv in R as [-> Hd]. apply ret_inv in H as [-> ->]. auto.
Qed.

(** Property X28 (fetching DC calibration values).
    Fetching the DC calibration values is not read-only.  Every run,
    whatever the device answers, starts with the write of 0x08 to the
    address register 0x03 of the LPF tuning module, and no run writes
    anything but the address registers (base + 3) of the four
    calibration modules.  A run that succeeds is exactly ten address
    loads, each followed by the read of the value register of its
    module, and returns the ten values read: raw 8-bit contents between
    0 and 255, never the negative "unset" value, so that loading them
    back loads all ten. *)
Theorem get_dc_cals_values dev :
  (forall h, exists ts,
     snd (lms_get_dc_cals dev h)
     = rev ts ++ Wr 0x03 0x08 (lms_write dev h 0x03 0x08) :: h) /\
  writes_only dc_addr_regs (lms_get_dc_cals dev) /\
  (forall h c h1,
     lms_get_dc_cals dev h = (Ok c, h1) ->
     h1 = [ Rd 0x60 (rxvga2b_q c) 0; Wr 0x63 0x0c 0;
            Rd 0x60 (rxvga2b_i c) 0; Wr 0x63 0x0b 0;
            Rd 0x60 (rxvga2a_q c) 0; Wr 0x63 0x0a 0;
            Rd 0x60 (rxvga2a_i c) 0; Wr 0x63 0x09 0;
            Rd 0x60 (dc_ref c) 0; Wr 0x63 0x08 0;
            Rd 0x50 (rx_lpf_q c) 0; Wr 0x53 0x09 0;
            Rd 0x50 (rx_lpf_i c) 0; Wr 0x53 0x08 0;
            Rd 0x30 (tx_lpf_q c) 0; Wr 0x33 0x09 0;
            Rd 0x30 (tx_lpf_i c) 0; Wr 0x33 0x08 0;
            Rd 0x00 (lpf_tuning c) 0; Wr 0x03 0x08 0 ] ++ h /\
     Forall (fun v => 0 <= v < 256)
       [ lpf_tuning c; tx_lpf_i c; tx_lpf_q c; rx_lpf_i c; rx_lpf_q c;
         dc_ref c; rxvga2a_i c; rxvga2a_q c; rxvga2b_i c; rxvga2b_q c ] /\
     forall j, dc_cals_clock c j = (j =? 5) || (j =? 1) || (j =? 3) || (j =? 4)).
Proof.
  split; [| split].
  - intros h. unfold lms_get_dc_cals.
    match goal with
    | |- context [bind (get_dc_cal_value dev 0 0) ?k] => set (K := k)
    end.
    assert (WK : forall v, writes_only dc_addr_regs (K v)).
    { intros v. unfold K.
      repeat (apply writes_only_bind;
              [apply writes_get_dc_cal_value; reflexivity | intros ?]).
      apply writes_only_ret. }
    unfold bind at 1. unfold get_dc_cal_value at 1. unfold bind at 1.
    unfold LMS_WRITE at 1. change (u8 (Z.lor 8 0)) with 8. change (0 + 3) with 3.
    set (ws := lms_write dev h 3 8). set (h0 := Wr 3 8 ws :: h).
    destruct (ws =? 0); [| exists []; reflexivity].
    assert (WR : writes_only dc_addr_regs (regval <- LMS_READ dev 0 ;; ret regval))
      by wo.
    destruct (WR h0) as (t1 & E1 & _).
    destruct ((regval <- LMS_READ dev 0 ;; ret regval) h0) as [[v | e] h1];
      cbn [snd] in E1.
    + destruct (WK v h1) as (t2 & E2 & _). exists (t1 ++ t2).
      rewrite E2, E1, rev_app_distr, <- app_assoc. reflexivity.
    + exists t1. exact E1.
  - unfold lms_get_dc_cals.
    repeat (apply writes_only_bind;
            [apply writes_get_dc_cal_value; reflexivity | intros ?]).
    apply writes_only_ret.
  - intros h c h1 H. unfold lms_get_dc_cals in H.
    apply bind_inv in H as (v0 & h0 & V0 & H). apply get_dc_cal_value_inv in V0 as [-> V0].
    apply bind_inv in H as (v1 & h2 & V1 & H). apply get_dc_cal_value_inv in V1 as [-> V1].
    apply bind_inv in H as (v2 & h3 & V2 & H). apply get_dc_cal_value_inv in V2 as [-> V2].
    apply bind_inv in H as (v3 & h4 & V3 & H). apply get_dc_cal_value_inv in V3 as [-> V3].
    apply bind_inv in H as (v4 & h5 & V4 & H). apply get_dc_cal_value_inv in V4 as [-> V4].
    apply bind_inv in H as (v5 & h6 & V5 & H). apply get_dc_cal_value_inv in V5 as [-> V5].
    apply bind_inv in H as (v6 & h7 & V6 & H). apply get_dc_cal_value_inv in V6 as [-> V6].
    apply bind_inv in H as (v7 & h8 & V7 & H). apply get_dc_cal_value_inv in V7 as [-> V7].
    apply bind_inv in H as (v8 & h9 & V8 & H). apply get_dc_cal_value_inv in V8 as [-> V8].
    apply bind_inv in H as (v9 & h10 & V9 & H). apply get_dc_cal_value_inv in V9 as [-> V9].
    apply ret_inv in H as [-> ->]. cbn [lpf_tuning tx_lpf_i tx_lpf_q rx_lpf_i rx_lpf_q
      dc_ref rxvga2a_i rxvga2a_q rxvga2b_i rxvga2b_q].
    split; [reflexivity |].
    split; [repeat (apply Forall_cons; [assumption |]); apply Forall_nil |].
    intros j. unfold dc_cals_clock.
    cbn [lpf_tuning tx_lpf_i tx_lpf_q rx_lpf_i rx_lpf_q
      dc_ref rxvga2a_i rxvga2a_q rxvga2b_i rxvga2b_q].
    replace (v0 >=? 0) with true by (symmetry; apply Z.geb_le; lia).
    replace (v1 >=? 0) with true by (symmetry; apply Z.geb_le; lia).
    replace (v3 >=? 0) with true by (symmetry; apply Z.geb_le; lia).
    replace (v5 >=? 0) with true by (symmetry; apply Z.geb_le; lia).
    cbn [orb]. rewrite !andb_true_r. reflexivity.
Qed.

Lemma get_dc_cals_values_witness :
  let init := fun a : Z => a in
  let dev := regfile init in
  let h := @nil xact in
  let run := lms_get_dc_cals dev h in
  let c := mk_dc_cals 0 0x30 0x30 0x50 0x50 0x60 0x60 0x60 0x60 0x60 in
  run = (Ok c, snd run) /\
  written (rev (snd run))
  = [0x03; 0x33; 0x33; 0x53; 0x53; 0x63; 0x63; 0x63; 0x63; 0x63] /\
  Forall (fun v => 0 <= v < 256)
    [ lpf_tuning c; tx_lpf_i c; tx_lpf_q c; rx_lpf_i c; rx_lpf_q c;
      dc_ref c; rxvga2a_i c; rxvga2a_q c; rxvga2b_i c; rxvga2b_q c ].
Proof.
  intros init dev h run c.
  assert (Hr : run = (Ok c, snd run)) by reflexivity.
  destruct (proj2 (proj2 (get_dc_cals_values dev)) h c (snd run) Hr) as (E & F & _).
  split; [exact Hr |]. split; [rewrite E; reflexivity | exact F].
Defined.

(* ------------------------------------------------------------------ *)
(** * DC calibration: what it writes and what it puts back *)

Lemma wrote_refl A h : wrote A h h.
Proof. exists []. split; reflexivity. Qed.

Lemma wrote_trans A h h1 h2 : wrote A h h1 -> wrote A h1 h2 -> wrote A h h2.
Proof.
  intros (ts1 & E1 & P1) (ts2 & E2 & P2). exists (ts1 ++ ts2). split.
  - eapply trace_trans; eassumption.
  - apply written_both; assumption.
Qed.

Lemma wrote_Wr (A : Z -> bool) a v s h : A a = true -> wrote A h (Wr a v s :: h).
Proof. intros Ha. exists [Wr a v s]. split; [reflexivity |]. simpl. rewrite Ha. reflexivity. Qed.

Lemma wrote_then_Wr (A : Z -> bool) a v s h h1 :
  A a = true -> wrote A h h1 -> wrote A h (Wr a v s :: h1).
Proof. intros Ha W. eapply wrote_trans; [exact W | apply wrote_Wr, Ha]. Qed.

Lemma wrote_stored init (A : Z -> bool) h h1 a :
  wrote A h h1 -> A a = false -> stored init h1 a = stored init h a.
Proof. intros (ts & -> & P) Ha. exact (stored_frame init A ts h a P Ha). Qed.

Lemma wrote_weaken (A B : Z -> bool) h h1 :
  (forall a, A a = true -> B a = true) -> wrote A h h1 -> wrote B h h1.
Proof.
  intros HAB (ts & E & P). exists ts. split; [exact E |].
  rewrite forallb_forall in *. auto.
Qed.

(** ** Code that only reads *)

Lemma reads_ret {R} (r : R) : cal_reads (ret r).
Proof. intros w. apply wrote_refl. Qed.

Lemma reads_set_state f : cal_reads (set_state f).
Proof. intros w. apply wrote_refl. Qed.

Lemma reads_on_bus {R} (m : M hist R) : writes_only nowhere m -> cal_reads (on_bus m).
Proof.
  intros W [s h]. unfold on_bus. simpl. pose proof (W h) as Hw.
  destruct (m h) as [r h1]. exact Hw.
Qed.

Lemma reads_bind {R Q} (m : M cal_world R) (k : R -> M cal_world Q) :
  cal_reads m -> (forall r, cal_reads (k r)) -> cal_reads (bind m k).
Proof.
  intros Hm Hk w. specialize (Hm w). unfold bind.
  destruct (m w) as [[r | e] w1]; simpl in *.
  - eapply wrote_trans; [exact Hm | apply Hk].
  - exact Hm.
Qed.

Lemma nowhere_lna_get_gain dev : writes_only nowhere (lms_lna_get_gain dev).
Proof.
  unfold lms_lna_get_gain. apply writes_only_bind; [apply writes_only_read | intros d].
  destruct (lna_gain_of_code _); wo.
Qed.

Lemma nowhere_rxvga1_get_gain dev : writes_only nowhere (lms_rxvga1_get_gain dev).
Proof. unfold lms_rxvga1_get_gain. wo. Qed.

Lemma nowhere_rxvga2_get_gain dev : writes_only nowhere (lms_rxvga2_get_gain dev).
Proof. unfold lms_rxvga2_get_gain. wo. Qed.

Lemma backup_reads dev module : cal_reads (dc_cal_backup dev module).
Proof.
  unfold dc_cal_backup.
  destruct (is_rx_cal module);
    repeat first
      [ apply reads_ret | apply reads_set_state
      | apply reads_bind; [ | intros ? ]
      | apply reads_on_bus;
        first [ apply writes_only_read | apply nowhere_lna_get_gain
              | apply nowhere_rxvga1_get_gain | apply nowhere_rxvga2_get_gain ] ].
Qed.

(** What a successful backup saved, where the registers are memories. *)
Lemma backup_values dev init module s0 h w :
  dc_cal_backup dev module (s0, h) = (Ok tt, w) ->
  (memory_at dev init 0x09 -> clk_en (fst w) = stored init h 0x09) /\
  (is_rx_cal module = true ->
   (memory_at dev init 0x71 -> reg0x71 (fst w) = stored init h 0x71) /\
   (memory_at dev init 0x7c -> reg0x7c (fst w) = stored init h 0x7c)).
Proof.
  unfold dc_cal_backup. rewrite bind_set_state, bind_on_bus. cbn [fst snd].
  destruct (LMS_READ dev 9 h) as [[v9 | e] h9] eqn:R9; [| discriminate].
  rewrite bind_set_state. cbn [fst snd].
  destruct (is_rx_cal module).
  - rewrite bind_on_bus.
    destruct (LMS_READ dev 113 h9) as [[v71 | e] h71] eqn:R71; [| discriminate].
    rewrite bind_set_state, bind_on_bus. cbn [fst snd].
    destruct (LMS_READ dev 124 h71) as [[v7c | e] h7c] eqn:R7c; [| discriminate].
    rewrite bind_set_state, bind_on_bus. cbn [fst snd].
    destruct (lms_lna_get_gain dev h7c) as [[g | e] hg] eqn:Rg; [| discriminate].
    rewrite bind_set_state, bind_on_bus. cbn [fst snd].
    destruct (lms_rxvga1_get_gain dev hg) as [[g1 | e] hg1] eqn:Rg1; [| discriminate].
    rewrite bind_set_state, bind_on_bus. cbn [fst snd].
    destruct (lms_rxvga2_get_gain dev hg1) as [[g2 | e] hg2] eqn:Rg2; [| discriminate].
    unfold set_state. intros [= <-]. simpl.
    split; [| intros _; split]; intros Hm.
    + apply (LMS_READ_mem_inv _ _ _ _ _ _ Hm) in R9 as [-> _]. reflexivity.
    + apply LMS_READ_inv in R9 as [-> _].
      apply (LMS_READ_mem_inv _ _ _ _ _ _ Hm) in R71 as [-> _]. reflexivity.
    + apply LMS_READ_inv in R9 as [-> _]. apply LMS_READ_inv in R71 as [-> _].
      apply (LMS_READ_mem_inv _ _ _ _ _ _ Hm) in R7c as [-> _]. reflexivity.
  - intros [= <-]. simpl. split; [| discriminate]. intros Hm.
    apply (LMS_READ_mem_inv _ _ _ _ _ _ Hm) in R9 as [-> _]. reflexivity.
Qed.

(** ** Code that keeps the saved values *)

Lemma keeps_cal_ret {R} module (r : R) : cal_keeps module (ret r).
Proof. intros w Hb. repeat split; [exact Hb | apply wrote_refl]. Qed.

Lemma keeps_cal_set_state module f :
  (forall s, backup_fields (f s) = backup_fields s /\ base_addr (f s) = base_addr s) ->
  cal_keeps module (set_state f).
Proof.
  intros Hf w Hb. destruct (Hf (fst w)) as [F B]. simpl.
  repeat split; [exact F | congruence | apply wrote_refl].
Qed.

Lemma keeps_cal_on_bus {R} module (m : M hist R) :
  writes_only (cal_regs module) m -> cal_keeps module (on_bus m).
Proof.
  intros W [s h] Hb. unfold on_bus. simpl. pose proof (W h) as Hw.
  destruct (m h) as [r h1]. simpl in *. auto.
Qed.

Lemma keeps_cal_bind {R Q} module (m : M cal_world R) (k : R -> M cal_world Q) :
  cal_keeps module m -> (forall r, cal_keeps module (k r)) ->
  cal_keeps module (bind m k).
Proof.
  intros Hm Hk w Hb. destruct (Hm w Hb) as (F & B & Wm). unfold bind.
  destruct (m w) as [[r | e] w1]; simpl in *.
  - destruct (Hk r w1 B) as (F2 & B2 & W2). repeat split.
    + congruence.
    + exact B2.
    + eapply wrote_trans; eassumption.
  - auto.
Qed.

Lemma keeps_cal_get_state {Q} module (k : dc_cal_state -> M cal_world Q) :
  (forall s, base_addr s = cal_base module -> cal_keeps module (k s)) ->
  cal_keeps module (bind get_state k).
Proof. intros Hk w Hb. rewrite bind_get_state. exact (Hk (fst w) Hb w Hb). Qed.

Lemma writes_poll A dev base n : writes_only A (dc_cal_poll dev base n).
Proof. induction n as [| n IH]; simpl; wo. Qed.

Lemma writes_dc_cal_loop (A : Z -> bool) dev base cal_address dc_cntval :
  A (base + 2) = true -> A (base + 3) = true ->
  writes_only A (lms_dc_cal_loop dev base cal_address dc_cntval).
Proof.
  intros H2 H3. unfold lms_dc_cal_loop.
  repeat first
    [ apply writes_poll
    | apply writes_only_bind; [ | intros ? ]
    | apply writes_only_read
    | apply writes_only_write; first [exact H2 | exact H3] ].
Qed.

Lemma writes_dc_cal_regval (A : Z -> bool) dev base submodule :
  A (base + 2) = true -> A (base + 3) = true ->
  writes_only A (dc_cal_regval dev base submodule).
Proof.
  intros H2 H3. unfold dc_cal_regval.
  apply writes_only_bind; [apply writes_dc_cal_loop; assumption | intros v].
  destruct (v =? 31); [| apply writes_only_ret].
  apply writes_only_bind; [apply writes_dc_cal_loop; assumption | intros v0].
  destruct (v0 =? 0); apply writes_only_ret.
Qed.

Lemma writes_lna_set_gain (A : Z -> bool) dev gain :
  A 0x75 = true -> writes_only A (lms_lna_set_gain dev gain).
Proof.
  intros Ha. unfold lms_lna_set_gain.
  destruct gain;
    repeat first
      [ apply writes_only_fail | apply writes_only_read
      | apply writes_only_bind; [ | intros ? ]
      | apply writes_only_write; exact Ha ].
Qed.

Ltac cal_wo :=
  repeat first
    [ apply keeps_cal_ret
    | apply keeps_cal_set_state; intros []; split; reflexivity
    | apply keeps_cal_bind; [ | intros ? ]
    | apply keeps_cal_on_bus ].

Lemma keeps_cal_submodule dev module sub : cal_keeps module (dc_cal_submodule dev module sub).
Proof.
  unfold dc_cal_submodule.
  apply keeps_cal_bind; [apply keeps_cal_on_bus | intros _].
  { unfold dc_cal_submodule_setup, rxvga2_submodule_setup, lms_set, lms_clear.
    destruct module; wo. }
  apply keeps_cal_get_state. intros s Hs. rewrite Hs.
  apply keeps_cal_bind; [apply keeps_cal_on_bus | intros r].
  { apply writes_dc_cal_regval; destruct module; reflexivity. }
  destruct r as [dc_regval |]; [| apply keeps_cal_ret].
  apply keeps_cal_bind; [| intros _; apply keeps_cal_ret].
  destruct module; try apply keeps_cal_ret.
  apply keeps_cal_on_bus. unfold lpf_tuning_store. wo.
Qed.

Lemma keeps_cal_submodules dev module n :
  forall i, cal_keeps module (dc_cal_submodules dev module n i).
Proof.
  induction n as [| n IH]; intros i; simpl.
  - apply keeps_cal_ret.
  - apply keeps_cal_bind; [apply keeps_cal_submodule | intros [|]];
      [apply IH | apply keeps_cal_ret].
Qed.

Lemma keeps_cal_module dev module : cal_keeps module (dc_cal_module dev module).
Proof.
  unfold dc_cal_module. apply keeps_cal_get_state. intros s _.
  apply keeps_cal_submodules.
Qed.

Lemma keeps_cal_retry dev module l :
  cal_keeps module (dc_cal_retry_adjustment dev module l).
Proof.
  unfold dc_cal_retry_adjustment. apply keeps_cal_get_state. intros s _.
  unfold lms_rxvga1_set_gain, lms_rxvga2_set_gain.
  destruct module; try apply keeps_cal_ret.
  - destruct (_ >? _); cal_wo; wo.
  - destruct (_ >? _); [cal_wo; wo |].
    destruct (_ >? _); cal_wo; wo.
Qed.

Lemma keeps_cal_deinit dev module : cal_keeps module (dc_cal_module_deinit dev module).
Proof.
  unfold dc_cal_module_deinit, lms_set, lms_clear.
  destruct module; cal_wo; wo.
Qed.

Lemma init_tail module f (rest : M cal_world unit) w :
  (forall s, backup_fields (f s) = backup_fields s /\ base_addr (f s) = cal_base module) ->
  cal_keeps module rest ->
  backup_fields (fst (snd ((set_state f ;; rest) w))) = backup_fields (fst w) /\
  base_addr (fst (snd ((set_state f ;; rest) w))) = cal_base module /\
  wrote (cal_regs module) (snd w) (snd (snd ((set_state f ;; rest) w))).
Proof.
  intros Hf K. rewrite bind_set_state. destruct (Hf (fst w)) as [F B].
  destruct (K (f (fst w), snd w) B) as (F2 & B2 & W2). simpl in *.
  repeat split; [congruence | exact B2 | exact W2].
Qed.

(** The initialisation sets the base address and keeps the saved
    values. *)
Lemma init_run dev module w :
  backup_fields (fst (snd (dc_cal_module_init dev module w))) = backup_fields (fst w) /\
  base_addr (fst (snd (dc_cal_module_init dev module w))) = cal_base module /\
  wrote (cal_regs module) (snd w) (snd (snd (dc_cal_module_init dev module w))).
Proof.
  unfold dc_cal_module_init.
  destruct module; cbv beta iota;
    (apply init_tail; [intros []; split; reflexivity |]);
    apply keeps_cal_get_state; intros s _;
    unfold lms_set, lms_clear, lms_rxvga1_set_gain, lms_rxvga2_set_gain;
    cal_wo; first [apply writes_lna_set_gain; reflexivity | wo].
Qed.

(** The loop keeps the saved values, whatever its outcome. *)
Lemma converge_run dev module :
  forall fuel c l st w c' st' w',
    base_addr (fst w) = cal_base module ->
    dc_cal_converge dev module fuel c l st w = Some (c', st', w') ->
    backup_fields (fst w') = backup_fields (fst w) /\
    base_addr (fst w') = cal_base module /\
    wrote (cal_regs module) (snd w) (snd w').
Proof.
  induction fuel as [| fuel IH]; intros c l st w c' st' w' Hb; simpl.
  - destruct (negb c && negb l && (st =? 0)); [discriminate |].
    intros [= _ _ <-]. repeat split; [exact Hb | apply wrote_refl].
  - destruct (negb c && negb l && (st =? 0)).
    2:{ intros [= _ _ <-]. repeat split; [exact Hb | apply wrote_refl]. }
    destruct (keeps_cal_module dev module w Hb) as (F1 & B1 & W1).
    destruct (dc_cal_module dev module w) as [[[|] | e] w1]; simpl in F1, B1, W1.
    + intros H. apply IH in H as (F2 & B2 & W2); [| exact B1].
      repeat split; [congruence | exact B2 | eapply wrote_trans; eassumption].
    + destruct (keeps_cal_retry dev module l w1 B1) as (F3 & B3 & W3).
      destruct (dc_cal_retry_adjustment dev module l w1) as [[l1 | e] w2];
        simpl in F3, B3, W3; intros H; apply IH in H as (F2 & B2 & W2);
        try exact B3;
        (repeat split;
         [congruence | exact B2
         | eapply wrote_trans; [exact W1 | eapply wrote_trans; eassumption]]).
    + intros H. apply IH in H as (F2 & B2 & W2); [| exact B1].
      repeat split; [congruence | exact B2 | eapply wrote_trans; eassumption].
Qed.

(** The restore writes back every saved register, whatever fails. *)
Lemma restore_run dev init module w :
  wrote (cal_regs module) (snd w) (snd (snd (dc_cal_restore dev module w))) /\
  stored init (snd (snd (dc_cal_restore dev module w))) 0x09 = u8 (clk_en (fst w)) /\
  (is_rx_cal module = true ->
   stored init (snd (snd (dc_cal_restore dev module w))) 0x71 = u8 (reg0x71 (fst w)) /\
   stored init (snd (snd (dc_cal_restore dev module w))) 0x7c = u8 (reg0x7c (fst w))).
Proof.
  destruct w as [s h]. unfold dc_cal_restore, on_bus.
  assert (G : forall h0, exists ts,
             snd (lms_lna_set_gain dev (lna_gain s) h0) = rev ts ++ h0 /\
             forallb (fun a => a =? 0x75) (written ts) = true).
  { intros h0. apply (writes_lna_set_gain (fun a => a =? 0x75)). reflexivity. }
  destruct module; cbn [is_rx_cal fst snd];
    unfold lms_rxvga1_set_gain, lms_rxvga2_set_gain, LMS_WRITE; cbn [fst snd].
  - split; [| split]; [apply wrote_Wr; reflexivity | apply stored_Wr_same | discriminate].
  - split; [| split]; [apply wrote_Wr; reflexivity | apply stored_Wr_same | discriminate].
  - match goal with
    | |- context [lms_lna_set_gain dev (lna_gain s) ?h0] =>
        destruct (G h0) as (ts & E & P);
        destruct (lms_lna_set_gain dev (lna_gain s) h0) as [r hg]
    end.
    cbn [fst snd] in *. subst hg. split; [| split; [| intros _; split]].
    + do 2 (apply wrote_then_Wr; [reflexivity |]).
      eapply wrote_trans;
        [| exists ts; split; [reflexivity |];
           rewrite forallb_forall in *; intros a Ha; apply P in Ha;
           apply Z.eqb_eq in Ha; subst a; reflexivity ].
      do 2 (apply wrote_then_Wr; [reflexivity |]).
      apply wrote_Wr; reflexivity.
    + do 2 (rewrite stored_Wr_other by lia).
      rewrite (stored_frame init _ ts _ 9 P eq_refl).
      do 2 (rewrite stored_Wr_other by lia). apply stored_Wr_same.
    + do 2 (rewrite stored_Wr_other by lia).
      rewrite (stored_frame init _ ts _ 113 P eq_refl).
      rewrite stored_Wr_other by lia. apply stored_Wr_same.
    + do 2 (rewrite stored_Wr_other by lia).
      rewrite (stored_frame init _ ts _ 124 P eq_refl).
      apply stored_Wr_same.
  - match goal with
    | |- context [lms_lna_set_gain dev (lna_gain s) ?h0] =>
        destruct (G h0) as (ts & E & P);
        destruct (lms_lna_set_gain dev (lna_gain s) h0) as [r hg]
    end.
    cbn [fst snd] in *. subst hg. split; [| split; [| intros _; split]].
    + do 2 (apply wrote_then_Wr; [reflexivity |]).
      eapply wrote_trans;
        [| exists ts; split; [reflexivity |];
           rewrite forallb_forall in *; intros a Ha; apply P in Ha;
           apply Z.eqb_eq in Ha; subst a; reflexivity ].
      do 2 (apply wrote_then_Wr; [reflexivity |]).
      apply wrote_Wr; reflexivity.
    + do 2 (rewrite stored_Wr_other by lia).
      rewrite (stored_frame init _ ts _ 9 P eq_refl).
      do 2 (rewrite stored_Wr_other by lia). apply stored_Wr_same.
    + do 2 (rewrite stored_Wr_other by lia).
      rewrite (stored_frame init _ ts _ 113 P eq_refl).
      rewrite stored_Wr_other by lia. apply stored_Wr_same.
    + do 2 (rewrite stored_Wr_other by lia).
      rewrite (stored_frame init _ ts _ 124 P eq_refl).
      apply stored_Wr_same.
Qed.

(** The exit path: deinit, then restore. *)
Lemma error_run dev init module status w :
  base_addr (fst w) = cal_base module ->
  wrote (cal_regs module) (snd w)
    (snd (snd (lms_calibrate_dc_error dev module status w))) /\
  stored init (snd (snd (lms_calibrate_dc_error dev module status w))) 0x09
  = u8 (clk_en (fst w)) /\
  (is_rx_cal module = true ->
   stored init (snd (snd (lms_calibrate_dc_error dev module status w))) 0x71
   = u8 (reg0x71 (fst w)) /\
   stored init (snd (snd (lms_calibrate_dc_error dev module status w))) 0x7c
   = u8 (reg0x7c (fst w))).
Proof.
  intros Hb. unfold lms_calibrate_dc_error.
  destruct (keeps_cal_deinit dev module w Hb) as (F & _ & W).
  destruct (dc_cal_module_deinit dev module w) as [r w1]. cbn [fst snd] in F, W.
  destruct (restore_run dev init module w1) as (W2 & S9 & Srx).
  destruct (dc_cal_restore dev module w1) as [t w2]. cbn [fst snd] in *.
  unfold backup_fields in F. injection F as F1 F2 F3 _ _ _.
  rewrite <- F1, <- F2, <- F3.
  repeat split; [eapply wrote_trans; eassumption | exact S9 | apply Srx; assumption ..].
Qed.

(** The whole calibration, from a successful backup on. *)
Lemma calibrate_run dev init fuel module h w0 st h1 :
  dc_cal_backup dev module (dc_cal_state_zero, h) = (Ok tt, w0) ->
  lms_calibrate_dc fuel dev module h = Some (st, h1) ->
  wrote (cal_regs module) (snd w0) h1 /\
  stored init h1 0x09 = u8 (clk_en (fst w0)) /\
  (is_rx_cal module = true ->
   stored init h1 0x71 = u8 (reg0x71 (fst w0)) /\
   stored init h1 0x7c = u8 (reg0x7c (fst w0))).
Proof.
  intros B. unfold lms_calibrate_dc. rewrite B.
  destruct (init_run dev module w0) as (F1 & B1 & W1).
  destruct (dc_cal_module_init dev module w0) as [[[] | e] w1]; cbn [fst snd] in F1, B1, W1.
  - destruct (dc_cal_converge dev module fuel false false 0 w1)
      as [[[c st2] w2] |] eqn:C; [| discriminate].
    apply converge_run in C as (F2 & B2 & W2); [| exact B1].
    match goal with
    | |- context [lms_calibrate_dc_error dev module ?s w2] =>
        destruct (error_run dev init module s w2 B2) as (W3 & S9 & Srx);
        destruct (lms_calibrate_dc_error dev module s w2) as [st3 w3]
    end.
    cbn [fst snd] in *. intros [= _ <-].
    unfold backup_fields in F1, F2.
    injection F1 as E1 E2 E3 _ _ _. injection F2 as E4 E5 E6 _ _ _.
    rewrite <- E1, <- E2, <- E3, <- E4, <- E5, <- E6.
    repeat split;
      [eapply wrote_trans; [exact W1 | eapply wrote_trans; eassumption]
      | exact S9 | apply Srx; assumption ..].
  - destruct (error_run dev init module e w1 B1) as (W3 & S9 & Srx).
    destruct (lms_calibrate_dc_error dev module e w1) as [st3 w3].
    cbn [fst snd] in *. intros [= _ <-].
    unfold backup_fields in F1. injection F1 as E1 E2 E3 _ _ _.
    rewrite <- E1, <- E2, <- E3.
    repeat split; [eapply wrote_trans; eassumption | exact S9 | apply Srx; assumption ..].
Qed.

(** Property X29 (footprint of the DC calibration).
    A run of the DC calibration of [module] that returns, with any
    status, wrote no register outside the clock enables (0x09), the
    value and control registers of the module's calibration block
    (base + 2, base + 3), the module's comparator and DAC switches and,
    for the two RX modules, the LNA connection and the three RX gains. *)
Theorem calibrate_dc_footprint dev fuel module h st h1 :
  lms_calibrate_dc fuel dev module h = Some (st, h1) ->
  exists ts, h1 = rev ts ++ h /\ forallb (cal_regs module) (written ts) = true.
Proof.
  intros H. pose proof (backup_reads dev module (dc_cal_state_zero, h)) as R.
  destruct (dc_cal_backup dev module (dc_cal_state_zero, h)) as [[[] | e] w0] eqn:B.
  - destruct (calibrate_run dev (fun _ => 0) fuel module h w0 st h1 B H) as (W & _).
    cbn [fst snd] in R. apply wrote_trans with (h1 := snd w0); [| exact W].
    eapply wrote_weaken; [| exact R]. discriminate.
  - unfold lms_calibrate_dc in H. rewrite B in H. injection H as _ <-.
    cbn [fst snd] in R. eapply wrote_weaken; [| exact R]. discriminate.
Qed.

Lemma calibrate_dc_footprint_witness :
  let init := fun _ : Z => 0 in
  let dev := regfile init in
  let module := BLADERF_DC_CAL_TX_LPF in
  let h := @nil xact in
  let h1 := match lms_calibrate_dc 1 dev module h with
            | Some (_, h1) => h1
            | None => []
            end in
  lms_calibrate_dc 1 dev module h = Some (0, h1) /\
  exists ts, h1 = rev ts ++ h /\ forallb (cal_regs module) (written ts) = true.
Proof.
  intros init dev module h h1.
  assert (Hr : lms_calibrate_dc 1 dev module h = Some (0, h1))
    by (vm_compute; reflexivity).
  exact (conj Hr (calibrate_dc_footprint dev 1 module h 0 h1 Hr)).
Defined.

(** Property X30 (DC calibration restores what it saved).
    Whatever its outcome, a DC calibration that returns leaves the
    clock enables as it found them: register 0x09, when it is a memory,
    holds afterwards what it held before.  For the two RX modules the
    same is true of the LNA connection registers 0x71 and 0x7c.  A
    calibration whose backup fails returns the backup's status and has
    written nothing at all. *)
Theorem calibrate_dc_restores dev init fuel module h st h1 :
  lms_calibrate_dc fuel dev module h = Some (st, h1) ->
  (memory_at dev init 0x09 -> stored init h1 0x09 = stored init h 0x09) /\
  (is_rx_cal module = true ->
   (memory_at dev init 0x71 -> stored init h1 0x71 = stored init h 0x71) /\
   (memory_at dev init 0x7c -> stored init h1 0x7c = stored init h 0x7c)) /\
  (forall e w, dc_cal_backup dev module (dc_cal_state_zero, h) = (Err e, w) ->
     st = e /\ exists ts, h1 = rev ts ++ h /\ written ts = []).
Proof.
  intros H. pose proof (backup_reads dev module (dc_cal_state_zero, h)) as R.
  destruct (dc_cal_backup dev module (dc_cal_state_zero, h)) as [[[] | e] w0] eqn:B.
  - destruct (calibrate_run dev init fuel module h w0 st h1 B H) as (W & S9 & Srx).
    destruct (backup_values dev init module _ h w0 B) as (V9 & Vrx).
    cbn [fst snd] in R.
    split; [| split]; [| | discriminate].
    + intros Hm. rewrite S9, (V9 Hm). apply u8_small, stored_range.
    + intros Hrx. destruct (Srx Hrx) as [S71 S7c]. destruct (Vrx Hrx) as [V71 V7c].
      split; intros Hm.
      * rewrite S71, (V71 Hm). apply u8_small, stored_range.
      * rewrite S7c, (V7c Hm). apply u8_small, stored_range.
  - unfold lms_calibrate_dc in H. rewrite B in H. injection H as <- <-.
    cbn [fst snd] in R.
    assert (Same : forall a, stored init (snd w0) a = stored init h a).
    { intros a. eapply wrote_stored; [exact R | reflexivity]. }
    split; [| split].
    + intros _. apply Same.
    + intros _. split; intros _; apply Same.
    + intros e0 w [= <- <-]. split; [reflexivity |].
      destruct R as (ts & E & P). exists ts. split; [exact E |].
      destruct (written ts); [reflexivity | discriminate].
Qed.

Lemma calibrate_dc_restores_witness :
  let init := fun a : Z => if a =? 0x75 then 0xc0 else 0x5a in
  let dev := regfile init in
  let module := BLADERF_DC_CAL_RX_LPF in
  let h := @nil xact in
  let h1 := match lms_calibrate_dc 1 dev module h with
            | Some (_, h1) => h1
            | None => []
            end in
  lms_calibrate_dc 1 dev module h = Some (BLADERF_ERR_UNEXPECTED, h1) /\
  In (Wr 0x7c 0x5e 0) h1 /\
  memory_at dev init 0x09 /\ memory_at dev init 0x7c /\
  stored init h1 0x09 = stored init h 0x09 /\
  stored init h1 0x7c = stored init h 0x7c.
Proof.
  intros init dev module h h1.
  assert (Hr : lms_calibrate_dc 1 dev module h = Some (BLADERF_ERR_UNEXPECTED, h1))
    by (vm_compute; reflexivity).
  assert (Hi : In (Wr 0x7c 0x5e 0) h1) by (vm_compute; tauto).
  assert (Hm : memory_at dev init 0x09) by (intros h0; reflexivity).
  assert (Hn : memory_at dev init 0x7c) by (intros h0; reflexivity).
  exact (conj Hr (conj Hi (conj Hm (conj Hn (conj
           (proj1 (calibrate_dc_restores dev init 1 module h _ h1 Hr) Hm)
           (proj2 (proj1 (proj2 (calibrate_dc_restores dev init 1 module h _ h1 Hr))
                     eq_refl) Hn)))))).
Defined.

(* ------------------------------------------------------------------ *)
(** * Setting the frequency: the DSM clean-up *)

(** The steps between the DSM enable and the clean-up leave register
    0x09 alone. *)
Lemma pll_program_keeps_09 dev module freq f :
  writes_only (fun a => negb (a =? 0x09)) (pll_program dev module freq f).
Proof.
  unfold pll_program.
  apply writes_only_bind;
    [apply writes_write_pll_config; destruct module; reflexivity | intros _].
  destruct (pack_divider (nint f) (nfrac f)) as [[[d0 d1] d2] d3].
  assert (T : forall data, writes_only (fun a => negb (a =? 0x09))
                             (tune_vcocap dev (pll_base module) data)).
  { intros data. eapply writes_only_weaken; [| apply writes_tune_vcocap].
    intros a E. apply Z.eqb_eq in E. subst a. destruct module; reflexivity. }
  destruct module; wo.
Qed.

(** The transactions of the clean-up and its status. *)
Lemma dsm_disable_trace dev h :
  exists tc,
    snd (dsm_disable dev h) = rev tc ++ h /\
    (1 <= length tc <= 2)%nat /\
    status_of (fst (dsm_disable dev h)) = first_error tc.
Proof.
  pose proof (dsm_disable_run dev h) as D.
  destruct (lms_read dev h 9) as [rs d]. cbv zeta in D. rewrite D.
  set (h1 := Rd 9 (u8 d) rs :: h).
  set (v := u8 (Z.land (u8 d) (Z.lnot 5))).
  set (ws := lms_write dev h1 9 v).
  destruct (Z.eqb_spec rs 0) as [-> | Hrs].
  - exists [Rd 9 (u8 d) 0; Wr 9 v ws]. split; [reflexivity |]. split; [simpl; lia |].
    simpl. destruct (Z.eqb_spec ws 0) as [-> | Hws]; reflexivity.
  - exists [Rd 9 (u8 d) rs]. split; [reflexivity |]. split; [simpl; lia |].
    simpl. apply Z.eqb_neq in Hrs. rewrite Hrs. reflexivity.
Qed.

Lemma dsm_bits (x j : Z) :
  0 <= x < 256 -> 0 <= j ->
  Z.testbit (u8 (Z.land (u8 (Z.lor x 0x05)) (Z.lnot 0x05))) j
  = Z.testbit x j && negb ((j =? 0) || (j =? 2)).
Proof.
  intros Hx Hj. destruct (Z.lt_ge_cases j 8) as [Hlt | Hge].
  - rewrite testbit_u8, Z.land_spec, Z.lnot_spec, testbit_u8, Z.lor_spec by lia.
    assert (C : j = 0 \/ j = 1 \/ j = 2 \/ j = 3 \/ j = 4 \/ j = 5 \/ j = 6 \/ j = 7)
      by lia.
    destruct C as [-> | [-> | [-> | [-> | [-> | [-> | [-> | ->]]]]]]];
      cbn [Z.eqb Pos.eqb orb negb]; change (Z.testbit 5 0) with true;
      change (Z.testbit 5 1) with false; change (Z.testbit 5 2) with true;
      change (Z.testbit 5 3) with false; change (Z.testbit 5 4) with false;
      change (Z.testbit 5 5) with false; change (Z.testbit 5 6) with false;
      change (Z.testbit 5 7) with false;
      rewrite ?orb_true_r, ?orb_false_r, ?andb_true_r, ?andb_false_r;
      cbn [negb]; rewrite ?andb_true_r, ?andb_false_r; reflexivity.
  - rewrite testbit_u8_high, (testbit_byte_high x j) by assumption. reflexivity.
Qed.

(** Claim C6 (DSM clean-up), as amended.  A failure of the DSM enable
    (step 5) is returned at once, without a clean-up.  Once the DSMs
    were turned on, whatever the outcome [rb] of the steps that follow,
    [lms_set_frequency] ends by reading register 0x09 and, only if that
    read succeeds, writing it back with both DSM enable bits cleared; a
    register 0x09 that holds what is written to it then has both bits
    clear on return and its other bits as on entry.  The result is the
    status of steps 5 to 9 when it is not 0 and the status of the
    clean-up otherwise; on a transport whose failure codes are
    negative, the status of steps 5 to 9 is that of their first failed
    transaction (or UnexpectedState when none failed and the VCO did
    not lock), and nothing follows that transaction but the clean-up. *)
Theorem set_frequency_dsm_cleanup dev module freq h :
  (* step 5 failed: its status is returned at once *)
  (forall e h5, dsm_enable dev h = (Err e, h5) ->
     lms_set_frequency dev module freq h = (e, h5)) /\
  (* step 5 succeeded: the clean-up is the last thing on the bus *)
  (forall h5, dsm_enable dev h = (Ok tt, h5) ->
     exists rb hb,
       pll_program dev module (clamp_frequency freq) (hz_to_descriptor freq) h5
       = (rb, hb) /\
       (let '(rs, d) := lms_read dev hb 0x09 in
        let h1 := Rd 0x09 (u8 d) rs :: hb in
        let v := u8 (Z.land (u8 d) (Z.lnot 0x05)) in
        let ws := lms_write dev h1 0x09 v in
        Z.land v 0x05 = 0 /\
        lms_set_frequency dev module freq h
        = if rs =? 0
          then (if status_of rb =? 0 then ws else status_of rb, Wr 0x09 v ws :: h1)
          else (if status_of rb =? 0 then rs else status_of rb, h1))) /\
  (* held by a memory register, both bits are clear on return *)
  (forall init h5,
     memory_at dev init 0x09 -> dsm_enable dev h = (Ok tt, h5) ->
     forall j, 0 <= j ->
       Z.testbit (stored init (snd (lms_set_frequency dev module freq h)) 0x09) j
       = Z.testbit (stored init h 0x09) j && negb ((j =? 0) || (j =? 2))) /\
  (* the result: the first error of steps 5 to 9, else that of the clean-up *)
  (negative_errors dev ->
   exists ts tc s,
     snd (lms_set_frequency dev module freq h) = rev tc ++ rev ts ++ h /\
     (forall e h5, dsm_enable dev h = (Err e, h5) -> tc = []) /\
     (forall h5, dsm_enable dev h = (Ok tt, h5) -> (1 <= length tc <= 2)%nat) /\
     (s = 0 -> clean ts) /\
     (s <> 0 -> stops_at ts s \/ (clean ts /\ s = BLADERF_ERR_UNEXPECTED)) /\
     (s = first_error ts \/ (clean ts /\ s = BLADERF_ERR_UNEXPECTED)) /\
     fst (lms_set_frequency dev module freq h)
     = if s =? 0 then first_error tc else s).
Proof.
  split; [| split; [| split]].
  - intros e h5 H5. unfold lms_set_frequency. rewrite H5. reflexivity.
  - intros h5 H5.
    destruct (pll_program dev module (clamp_frequency freq) (hz_to_descriptor freq) h5)
      as [rb hb] eqn:P.
    exists rb, hb. split; [reflexivity |].
    pose proof (dsm_disable_run dev hb) as D.
    destruct (lms_read dev hb 9) as [rs d]. cbv zeta in *.
    split; [apply dsm_bits_cleared |].
    unfold lms_set_frequency. rewrite H5, P. unfold lms_set_frequency_error. rewrite D.
    set (ws := lms_write dev _ 9 _).
    destruct (rs =? 0).
    + destruct (Z.eqb_spec ws 0) as [E | E]; simpl; [rewrite E |]; reflexivity.
    + reflexivity.
  - intros init h5 Hm H5 j Hj.
    unfold lms_set_frequency. rewrite H5.
    apply (rmw_stored _ _ _ (fun data => Z.lor data 0x05) _ _ Hm) in H5 as [E5 _].
    destruct (pll_program dev module (clamp_frequency freq) (hz_to_descriptor freq) h5)
      as [rb hb] eqn:P.
    destruct (frame_run _ _ _ _ _ (pll_program_keeps_09 dev module _ _) P)
      as (ts & -> & W).
    unfold lms_set_frequency_error.
    pose proof (dsm_disable_run dev (rev ts ++ h5)) as D.
    rewrite (Hm (rev ts ++ h5)) in D. cbv zeta in D.
    change (0 =? 0) with true in D. cbv iota in D. rewrite D. cbn [fst snd].
    rewrite stored_Wr_same.
    fold (stored init (rev ts ++ h5) 9).
    rewrite (stored_frame init _ ts h5 9 W eq_refl), E5.
    apply dsm_bits; [apply stored_range | exact Hj].
  - intros N. unfold lms_set_frequency.
    assert (F5 : failfast (dsm_enable dev)) by (unfold dsm_enable; ff).
    destruct (F5 h) as (t5 & E5 & P5).
    destruct (dsm_enable dev h) as [[[] | e] h5] eqn:H5; cbn [fst snd] in E5, P5.
    + pose proof (failfast_pll_program dev module (clamp_frequency freq)
                    (hz_to_descriptor freq) N h5) as (t6 & E6 & P6).
      destruct (pll_program dev module (clamp_frequency freq) (hz_to_descriptor freq) h5)
        as [rb hb]. cbn [fst snd] in E6, P6.
      unfold lms_set_frequency_error.
      destruct (dsm_disable_trace dev hb) as (tc & Ec & Lc & Sc).
      destruct (dsm_disable dev hb) as [rc hc]. cbn [fst snd] in Ec, Sc |- *.
      exists (t5 ++ t6), tc, (status_of rb).
      split; [rewrite Ec, E6, E5, rev_app_distr, <- app_assoc; reflexivity |].
      split; [discriminate |]. split; [intros _ _; exact Lc |].
      rewrite Sc. destruct rb as [[] | s]; cbn [status_of].
      * assert (C : clean (t5 ++ t6)) by (apply clean_app; assumption).
        split; [intros _; exact C |].
        split; [intros X; contradiction X; reflexivity |].
        split; [left; symmetry; apply first_error_clean, C | reflexivity].
      * destruct P6 as [Hs P6]. split; [intros X; contradiction |].
        assert (D : stops_at (t5 ++ t6) s \/
                    (clean (t5 ++ t6) /\ s = BLADERF_ERR_UNEXPECTED)).
        { destruct P6 as [S | [C U]].
          - left. apply stops_at_app; assumption.
          - right. split; [apply clean_app; assumption | exact U]. }
        split; [intros _; exact D |].
        split; [| apply Z.eqb_neq in Hs; rewrite Hs; reflexivity].
        destruct D as [S | CU]; [left | right; exact CU].
        symmetry. apply first_error_stops; assumption.
    + exists t5, [], e.
      split; [exact E5 |]. split; [reflexivity |]. split; [discriminate |].
      destruct P5 as [Hs P5]. split; [intros X; contradiction |].
      split; [intros _; exact P5 |].
      split; [| apply Z.eqb_neq in Hs; rewrite Hs; reflexivity].
      destruct P5 as [S | CU]; [left | right; exact CU].
      symmetry. apply first_error_stops; assumption.
Qed.

Lemma set_frequency_dsm_cleanup_witness :
  let dev := io_fails_at_7 in
  let run := lms_set_frequency dev BLADERF_MODULE_RX 2412000000 [] in
  let init := fun _ : Z => 0xff in
  let mem := regfile init in
  let kept := lms_set_frequency mem BLADERF_MODULE_TX 915000000 [] in
  (* a transaction of step 6 fails *)
  negative_errors dev /\
  fst run = BLADERF_ERR_IO /\
  (exists ts tc s,
     snd run = rev tc ++ rev ts ++ [] /\
     (s <> 0 -> stops_at ts s \/ (clean ts /\ s = BLADERF_ERR_UNEXPECTED)) /\
     fst run = (if s =? 0 then first_error tc else s)) /\
  (* on a register file *)
  memory_at mem init 0x09 /\
  dsm_enable mem [] = (Ok tt, snd (dsm_enable mem [])) /\
  Z.testbit (stored init (snd kept) 0x09) 0
  = Z.testbit (stored init [] 0x09) 0 && negb ((0 =? 0) || (0 =? 2)) /\
  Z.testbit (stored init (snd kept) 0x09) 1
  = Z.testbit (stored init [] 0x09) 1 && negb ((1 =? 0) || (1 =? 2)).
Proof.
  intros dev run init mem kept.
  assert (N : negative_errors dev).
  { split; intros; simpl; destruct (Nat.eqb _ _); unfold BLADERF_ERR_IO; lia. }
  assert (Hm : memory_at mem init 0x09) by (intros h0; reflexivity).
  assert (H5 : dsm_enable mem [] = (Ok tt, snd (dsm_enable mem []))) by reflexivity.
  assert (H0 : 0 <= 0) by lia. assert (H1 : 0 <= 1) by lia.
  split; [exact N |]. split; [reflexivity |]. split.
  - destruct (proj2 (proj2 (proj2
                (set_frequency_dsm_cleanup dev BLADERF_MODULE_RX 2412000000 []))) N)
      as (ts & tc & s & E & _ & _ & _ & S & _ & R).
    exists ts, tc, s. auto.
  - split; [exact Hm |]. split; [exact H5 |].
    pose proof (proj1 (proj2 (proj2
                 (set_frequency_dsm_cleanup mem BLADERF_MODULE_TX 915000000 [])))
                 init _ Hm H5) as C.
    split; [exact (C 0 H0) | exact (C 1 H1)].
Defined.

(** Counterexample to C6 as stated: the DSMs are turned on, every step
    that follows succeeds, the read of the clean-up fails and
    [lms_set_frequency] returns its status without a write: the only
    write to register 0x09 is the one that set both enable bits, which
    the register still holds. *)
Lemma set_frequency_cleanup_read_fails :
  let run := lms_set_frequency cleanup_read_fails BLADERF_MODULE_RX 2412000000 [] in
  fst (dsm_enable cleanup_read_fails []) = Ok tt /\
  fst run = BLADERF_ERR_IO /\
  writes_at 0x09 (rev (snd run)) = [0x05] /\
  firstn 1 (snd run) = [Rd 0x09 0x05 BLADERF_ERR_IO] /\
  Z.land (last_write (fun _ => 0) (snd run) 0x09) 0x05 = 0x05.
Proof. vm_compute. repeat split. Qed.

(** A positive status of the loopback lookup is taken for "loopback
    enabled": tuning goes on and returns 0, although a transaction of
    step 6 failed. *)
Example set_frequency_positive_status :
  let run := lms_set_frequency lookup_status_positive BLADERF_MODULE_RX 2412000000 [] in
  fst run = 0 /\ nth_error (rev (snd run)) 3 = Some (Rd 0x08 0 1).
Proof. vm_compute. repeat split. Qed.

(* ------------------------------------------------------------------ *)
(** * DC calibration: the retry loop *)

Example retry_gains :
  rxvga1_retry_gains
  = [29; 28; 27; 26; 25; 24; 23; 22; 21; 20; 19; 18; 17; 16; 15; 14; 13; 12;
     11; 10; 9; 8; 7; 6; 5] /\
  rxvga2_retry_gains = [27; 24; 21; 18; 15; 12; 9; 6; 3; 0].
Proof. split; reflexivity. Qed.

(** A submodule reads the base address in the state and nothing else. *)
Lemma submodule_indep dev module i s s' h :
  base_addr s = base_addr s' ->
  dc_cal_submodule dev module i (s, h)
  = (fst (dc_cal_submodule dev module i (s', h)),
     (s, snd (snd (dc_cal_submodule dev module i (s', h))))).
Proof.
  intros Hb. unfold dc_cal_submodule. rewrite !bind_on_bus.
  destruct (dc_cal_submodule_setup dev module i h) as [[[] | e] h0]; [| reflexivity].
  rewrite !bind_get_state. cbn [fst]. rewrite Hb. rewrite !bind_on_bus.
  destruct (dc_cal_regval dev (base_addr s') i h0) as [[[v |] | e] h1];
    try reflexivity.
  destruct module; try reflexivity.
  rewrite !bind_on_bus.
  destruct (lpf_tuning_store dev v h1) as [[[] | e] h2]; reflexivity.
Qed.

Lemma attempt_indep dev module ids : forall s s' h,
  base_addr s = base_addr s' ->
  attempt_spec dev module ids (s, h)
  = (fst (attempt_spec dev module ids (s', h)),
     (s, snd (snd (attempt_spec dev module ids (s', h))))).
Proof.
  induction ids as [| i ids IH]; intros s s' h Hb; [reflexivity |].
  cbn [attempt_spec]. unfold bind.
  rewrite (submodule_indep dev module i s s' h Hb).
  pose proof (keeps_submodule dev module i (s', h)) as K.
  destruct (dc_cal_submodule dev module i (s', h)) as [[[|] | e] [s1 h1]];
    cbn [fst snd] in *; subst s1; try reflexivity.
  apply IH, Hb.
Qed.

Lemma retry_spec_indep dev module plan : forall s s' h,
  base_addr s = base_addr s' ->
  retry_spec dev module plan s h = retry_spec dev module plan s' h.
Proof.
  induction plan as [| adjust plan IH]; intros s s' h Hb; cbn [retry_spec];
    rewrite (attempt_indep dev module _ s s' h Hb);
    destruct (attempt_spec dev module (submodule_ids module) (s', h))
      as [[[|] | e] [s1 h1]]; cbn [fst snd]; try reflexivity.
  destruct (adjust h1) as [[[] | e] h2]; [| reflexivity].
  apply IH, Hb.
Qed.

(** With the number of submodules the initialisation sets, the loop of
    [dc_cal_module] is an attempt over the submodules of the module. *)
Lemma module_attempt dev module s h :
  num_submodules s = Z.of_nat (length (submodule_ids module)) ->
  dc_cal_module dev module (s, h)
  = attempt_spec dev module (submodule_ids module) (s, h).
Proof.
  intros H. unfold dc_cal_module. rewrite bind_get_state. cbn [fst]. rewrite H.
  destruct module; reflexivity.
Qed.

(** The state the initialisation leaves. *)
Lemma init_state dev module w w' :
  dc_cal_module_init dev module w = (Ok tt, w') ->
  num_submodules (fst w') = Z.of_nat (length (submodule_ids module)) /\
  (is_rx_cal module = true ->
   rxvga1_curr_gain (fst w') = BLADERF_RXVGA1_GAIN_MAX /\
   rxvga2_curr_gain (fst w') = BLADERF_RXVGA2_GAIN_MAX).
Proof.
  destruct w as [s h]. unfold dc_cal_module_init.
  destruct module; cbv beta iota; cal_run;
    intros E; apply (f_equal snd) in E; cbn [snd] in E; subst w';
    (split; [reflexivity |]);
    first [discriminate | intros _; split; reflexivity].
Qed.

(** The exit path reads the saved values in the state and nothing
    else. *)
Lemma error_indep dev module status s s' h :
  backup_fields s = backup_fields s' ->
  fst (lms_calibrate_dc_error dev module status (s, h))
  = fst (lms_calibrate_dc_error dev module status (s', h)) /\
  snd (snd (lms_calibrate_dc_error dev module status (s, h)))
  = snd (snd (lms_calibrate_dc_error dev module status (s', h))).
Proof.
  intros F. unfold backup_fields in F. injection F as F1 F2 F3 F4 F5 F6.
  unfold lms_calibrate_dc_error.
  assert (D : dc_cal_module_deinit dev module (s, h)
              = (fst (dc_cal_module_deinit dev module (s', h)),
                 (s, snd (snd (dc_cal_module_deinit dev module (s', h)))))).
  { unfold dc_cal_module_deinit. destruct module; try reflexivity;
      repeat (rewrite !bind_on_bus;
              match goal with
              | |- context [match ?m ?h0 with _ => _ end] =>
                  destruct (m h0) as [[[] | ?] ?]; try reflexivity
              end);
      rewrite !on_bus_run; reflexivity. }
  rewrite D.
  destruct (dc_cal_module_deinit dev module (s', h)) as [r [s1 h1]] eqn:Ed.
  cbn [fst snd].
  assert (K : keeps_state (dc_cal_module_deinit dev module))
    by (unfold dc_cal_module_deinit; destruct module; cal_step).
  specialize (K (s', h)). rewrite Ed in K. cbn [fst snd] in K. subst s1.
  unfold dc_cal_restore. cbn [fst snd]. rewrite F1, F2, F3, F4, F5, F6.
  destruct (is_rx_cal module).
  - rewrite !on_bus_run. cbn [fst snd].
    repeat match goal with
           | |- context [on_bus ?m (?st, ?h0)] => rewrite (on_bus_run m st h0)
           end.
    cbn [fst snd]. split; reflexivity.
  - rewrite !on_bus_run. cbn [fst snd]. split; reflexivity.
Qed.


Lemma keeps_attempt dev module ids : keeps_state (attempt_spec dev module ids).
Proof.
  induction ids as [| i ids IH]; cbn [attempt_spec].
  - apply keeps_ret.
  - apply keeps_bind; [apply keeps_submodule | intros [|]; [apply IH | apply keeps_ret]].
Qed.

Lemma nonzero_attempt dev module ids : nonzero_err (attempt_spec dev module ids).
Proof.
  induction ids as [| i ids IH]; cbn [attempt_spec].
  - apply nonzero_ret.
  - apply nonzero_bind; [apply nonzero_submodule | intros [|]; [apply IH | apply nonzero_ret]].
Qed.

(** One turn of the loop of [lms_calibrate_dc]. *)
Lemma converge_step dev module fuel s h :
  num_submodules s = Z.of_nat (length (submodule_ids module)) ->
  dc_cal_converge dev module (S fuel) false false 0 (s, h)
  = match attempt_spec dev module (submodule_ids module) (s, h) with
    | (Err e, w) => Some (false, e, w)
    | (Ok true, w) => Some (true, 0, w)
    | (Ok false, w) =>
        match dc_cal_retry_adjustment dev module false w with
        | (Err e, w') => Some (false, e, w')
        | (Ok true, w') => Some (false, 0, w')
        | (Ok false, w') => dc_cal_converge dev module fuel false false 0 w'
        end
    end.
Proof.
  intros Hn. cbn [dc_cal_converge negb andb Z.eqb]. rewrite (module_attempt _ _ _ _ Hn).
  destruct (attempt_spec dev module (submodule_ids module) (s, h))
    as [[[|] | e] w] eqn:A.
  - apply dc_cal_converge_exit. reflexivity.
  - destruct (dc_cal_retry_adjustment dev module false w) as [[[|] | e] w'] eqn:R.
    + apply dc_cal_converge_exit. reflexivity.
    + reflexivity.
    + apply dc_cal_converge_exit. apply nonzero_retry in R.
      apply Z.eqb_neq in R. rewrite R. reflexivity.
  - apply dc_cal_converge_exit. apply nonzero_attempt in A.
    apply Z.eqb_neq in A. rewrite A. reflexivity.
Qed.

Lemma status_nonzero (e : Z) :
  e <> 0 -> (if negb false && (e =? 0) then BLADERF_ERR_UNEXPECTED else e) = e.
Proof. intros H. apply Z.eqb_neq in H. rewrite H. reflexivity. Qed.

(** The modules without an adjustment: one attempt. *)
Lemma converge_no_retry dev module fuel s h :
  module = BLADERF_DC_CAL_LPF_TUNING \/ module = BLADERF_DC_CAL_TX_LPF ->
  (0 < fuel)%nat ->
  num_submodules s = Z.of_nat (length (submodule_ids module)) ->
  exists c st s' h',
    dc_cal_converge dev module fuel false false 0 (s, h) = Some (c, st, (s', h')) /\
    backup_fields s' = backup_fields s /\
    (if negb c && (st =? 0) then BLADERF_ERR_UNEXPECTED else st, h')
    = retry_spec dev module [] s h.
Proof.
  intros Hm Hf Hn. destruct fuel as [| fuel]; [lia |].
  rewrite (converge_step _ _ _ _ _ Hn). cbn [retry_spec].
  pose proof (keeps_attempt dev module (submodule_ids module) (s, h)) as K.
  destruct (attempt_spec dev module (submodule_ids module) (s, h))
    as [[[|] | e] [s1 h1]] eqn:A; cbn [fst snd] in K; subst s1; cbn [fst snd].
  - exists true, 0, s, h1. repeat split.
  - rewrite retry_adjustment_run. cbv zeta.
    destruct Hm as [-> | ->]; exists false, 0, s, h1; repeat split.
  - exists false, e, s, h1. split; [reflexivity |]. split; [reflexivity |].
    rewrite status_nonzero by (eapply nonzero_attempt; exact A). reflexivity.
Qed.

(** RXVGA2 is lowered by 3 dB per attempt, RXVGA1 being at its
    minimum. *)
Lemma converge_rxvga2_low dev : forall n2 fuel s h,
  (n2 < fuel)%nat ->
  rxvga1_curr_gain s = BLADERF_RXVGA1_GAIN_MIN ->
  rxvga2_curr_gain s = 3 * Z.of_nat n2 ->
  num_submodules s = Z.of_nat (length (submodule_ids BLADERF_DC_CAL_RXVGA2)) ->
  exists c st s' h',
    dc_cal_converge dev BLADERF_DC_CAL_RXVGA2 fuel false false 0 (s, h)
    = Some (c, st, (s', h')) /\
    backup_fields s' = backup_fields s /\
    (if negb c && (st =? 0) then BLADERF_ERR_UNEXPECTED else st, h')
    = retry_spec dev BLADERF_DC_CAL_RXVGA2
        (map (lms_rxvga2_set_gain dev) (lowered 3 (3 * Z.of_nat n2) n2)) s h.
Proof.
  induction n2 as [| n2 IH]; intros fuel s h Hf H1 H2 Hn;
    (destruct fuel as [| fuel]; [lia |]);
    rewrite (converge_step _ _ _ _ _ Hn); cbn [retry_spec lowered map];
    pose proof (keeps_attempt dev BLADERF_DC_CAL_RXVGA2
                  (submodule_ids BLADERF_DC_CAL_RXVGA2) (s, h)) as K;
    destruct (attempt_spec dev BLADERF_DC_CAL_RXVGA2
                (submodule_ids BLADERF_DC_CAL_RXVGA2) (s, h))
      as [[[|] | e] [s1 h1]] eqn:A; cbn [fst snd] in K; subst s1; cbn [fst snd].
  - exists true, 0, s, h1. repeat split.
  - rewrite retry_adjustment_run. cbv zeta. rewrite H1, H2.
    change (BLADERF_RXVGA1_GAIN_MIN >? BLADERF_RXVGA1_GAIN_MIN) with false.
    change (3 * Z.of_nat 0 >? BLADERF_RXVGA2_GAIN_MIN) with false. cbv iota.
    exists false, 0, s, h1. repeat split.
  - exists false, e, s, h1. split; [reflexivity |]. split; [reflexivity |].
    rewrite status_nonzero by (eapply nonzero_attempt; exact A). reflexivity.
  - exists true, 0, s, h1. repeat split.
  - rewrite retry_adjustment_run. cbv zeta. rewrite H1, H2.
    change (BLADERF_RXVGA1_GAIN_MIN >? BLADERF_RXVGA1_GAIN_MIN) with false. cbv iota.
    replace (3 * Z.of_nat (S n2) >? BLADERF_RXVGA2_GAIN_MIN) with true
      by (symmetry; apply Z.gtb_lt; unfold BLADERF_RXVGA2_GAIN_MIN; lia).
    destruct (lms_rxvga2_set_gain dev (3 * Z.of_nat (S n2) - 3) h1)
      as [[[] | e] h2] eqn:G.
    + destruct (IH fuel (set_rxvga2_curr_gain (3 * Z.of_nat (S n2) - 3) s) h2)
        as (c & st & s' & h' & C & F & R);
        [lia | exact H1 | cbn [rxvga2_curr_gain set_rxvga2_curr_gain]; lia
         | exact Hn |].
      exists c, st, s', h'. split; [exact C |]. split; [rewrite F; reflexivity |].
      rewrite R. replace (3 * Z.of_nat (S n2) - 3) with (3 * Z.of_nat n2) by lia.
      apply retry_spec_indep. reflexivity.
    + exists false, e, (set_rxvga2_curr_gain (3 * Z.of_nat (S n2) - 3) s), h2.
      split; [reflexivity |]. split; [reflexivity |].
      rewrite status_nonzero
        by (eapply (failfast_nonzero _ (failfast_rxvga2_set_gain dev _)); exact G).
      reflexivity.
  - exists false, e, s, h1. split; [reflexivity |]. split; [reflexivity |].
    rewrite status_nonzero by (eapply nonzero_attempt; exact A). reflexivity.
Qed.

(** RXVGA1 is lowered by 1 dB per attempt down to its minimum, for the
    RX LPF module. *)
Lemma converge_rx_lpf dev : forall n1 fuel s h,
  (n1 < fuel)%nat ->
  rxvga1_curr_gain s = BLADERF_RXVGA1_GAIN_MIN + Z.of_nat n1 ->
  num_submodules s = Z.of_nat (length (submodule_ids BLADERF_DC_CAL_RX_LPF)) ->
  exists c st s' h',
    dc_cal_converge dev BLADERF_DC_CAL_RX_LPF fuel false false 0 (s, h)
    = Some (c, st, (s', h')) /\
    backup_fields s' = backup_fields s /\
    (if negb c && (st =? 0) then BLADERF_ERR_UNEXPECTED else st, h')
    = retry_spec dev BLADERF_DC_CAL_RX_LPF
        (map (lms_rxvga1_set_gain dev)
           (lowered 1 (BLADERF_RXVGA1_GAIN_MIN + Z.of_nat n1) n1)) s h.
Proof.
  induction n1 as [| n1 IH]; intros fuel s h Hf H1 Hn;
    (destruct fuel as [| fuel]; [lia |]);
    rewrite (converge_step _ _ _ _ _ Hn); cbn [retry_spec lowered map];
    pose proof (keeps_attempt dev BLADERF_DC_CAL_RX_LPF
                  (submodule_ids BLADERF_DC_CAL_RX_LPF) (s, h)) as K;
    destruct (attempt_spec dev BLADERF_DC_CAL_RX_LPF
                (submodule_ids BLADERF_DC_CAL_RX_LPF) (s, h))
      as [[[|] | e] [s1 h1]] eqn:A; cbn [fst snd] in K; subst s1; cbn [fst snd].
  - exists true, 0, s, h1. repeat split.
  - rewrite retry_adjustment_run. cbv zeta. rewrite H1.
    change (BLADERF_RXVGA1_GAIN_MIN + Z.of_nat 0 >? BLADERF_RXVGA1_GAIN_MIN)
      with false. cbv iota.
    exists false, 0, s, h1. repeat split.
  - exists false, e, s, h1. split; [reflexivity |]. split; [reflexivity |].
    rewrite status_nonzero by (eapply nonzero_attempt; exact A). reflexivity.
  - exists true, 0, s, h1. repeat split.
  - rewrite retry_adjustment_run. cbv zeta. rewrite H1.
    replace (BLADERF_RXVGA1_GAIN_MIN + Z.of_nat (S n1) >? BLADERF_RXVGA1_GAIN_MIN)
      with true by (symmetry; apply Z.gtb_lt; lia).
    destruct (lms_rxvga1_set_gain dev (BLADERF_RXVGA1_GAIN_MIN + Z.of_nat (S n1) - 1) h1)
      as [[[] | e] h2] eqn:G.
    + destruct (IH fuel (set_rxvga1_curr_gain
                           (BLADERF_RXVGA1_GAIN_MIN + Z.of_nat (S n1) - 1) s) h2)
        as (c & st & s' & h' & C & F & R);
        [lia | cbn [rxvga1_curr_gain set_rxvga1_curr_gain]; lia | exact Hn |].
      exists c, st, s', h'. split; [exact C |]. split; [rewrite F; reflexivity |].
      rewrite R.
      replace (BLADERF_RXVGA1_GAIN_MIN + Z.of_nat (S n1) - 1)
        with (BLADERF_RXVGA1_GAIN_MIN + Z.of_nat n1) by lia.
      apply retry_spec_indep. reflexivity.
    + exists false, e,
        (set_rxvga1_curr_gain (BLADERF_RXVGA1_GAIN_MIN + Z.of_nat (S n1) - 1) s), h2.
      split; [reflexivity |]. split; [reflexivity |].
      rewrite status_nonzero
        by (eapply (failfast_nonzero _ (failfast_rxvga1_set_gain dev _)); exact G).
      reflexivity.
  - exists false, e, s, h1. split; [reflexivity |]. split; [reflexivity |].
    rewrite status_nonzero by (eapply nonzero_attempt; exact A). reflexivity.
Qed.

(** The RXVGA2 module lowers RXVGA1 first, then RXVGA2. *)
Lemma converge_rxvga2 dev n2 : forall n1 fuel s h,
  (n1 + n2 < fuel)%nat ->
  rxvga1_curr_gain s = BLADERF_RXVGA1_GAIN_MIN + Z.of_nat n1 ->
  rxvga2_curr_gain s = 3 * Z.of_nat n2 ->
  num_submodules s = Z.of_nat (length (submodule_ids BLADERF_DC_CAL_RXVGA2)) ->
  exists c st s' h',
    dc_cal_converge dev BLADERF_DC_CAL_RXVGA2 fuel false false 0 (s, h)
    = Some (c, st, (s', h')) /\
    backup_fields s' = backup_fields s /\
    (if negb c && (st =? 0) then BLADERF_ERR_UNEXPECTED else st, h')
    = retry_spec dev BLADERF_DC_CAL_RXVGA2
        (map (lms_rxvga1_set_gain dev)
           (lowered 1 (BLADERF_RXVGA1_GAIN_MIN + Z.of_nat n1) n1) ++
         map (lms_rxvga2_set_gain dev) (lowered 3 (3 * Z.of_nat n2) n2)) s h.
Proof.
  induction n1 as [| n1 IH]; intros fuel s h Hf H1 H2 Hn.
  { apply converge_rxvga2_low; [lia | exact H1 | exact H2 | exact Hn]. }
  destruct fuel as [| fuel]; [lia |].
  rewrite (converge_step _ _ _ _ _ Hn). cbn [retry_spec lowered map app].
  pose proof (keeps_attempt dev BLADERF_DC_CAL_RXVGA2
                (submodule_ids BLADERF_DC_CAL_RXVGA2) (s, h)) as K.
  destruct (attempt_spec dev BLADERF_DC_CAL_RXVGA2
              (submodule_ids BLADERF_DC_CAL_RXVGA2) (s, h))
    as [[[|] | e] [s1 h1]] eqn:A; cbn [fst snd] in K; subst s1; cbn [fst snd].
  - exists true, 0, s, h1. repeat split.
  - rewrite retry_adjustment_run. cbv zeta. rewrite H1.
    replace (BLADERF_RXVGA1_GAIN_MIN + Z.of_nat (S n1) >? BLADERF_RXVGA1_GAIN_MIN)
      with true by (symmetry; apply Z.gtb_lt; lia).
    destruct (lms_rxvga1_set_gain dev (BLADERF_RXVGA1_GAIN_MIN + Z.of_nat (S n1) - 1) h1)
      as [[[] | e] h2] eqn:G.
    + destruct (IH fuel (set_rxvga1_curr_gain
                           (BLADERF_RXVGA1_GAIN_MIN + Z.of_nat (S n1) - 1) s) h2)
        as (c & st & s' & h' & C & F & R);
        [lia | cbn [rxvga1_curr_gain set_rxvga1_curr_gain]; lia | exact H2
         | exact Hn |].
      exists c, st, s', h'. split; [exact C |]. split; [rewrite F; reflexivity |].
      rewrite R.
      replace (BLADERF_RXVGA1_GAIN_MIN + Z.of_nat (S n1) - 1)
        with (BLADERF_RXVGA1_GAIN_MIN + Z.of_nat n1) by lia.
      apply retry_spec_indep. reflexivity.
    + exists false, e,
        (set_rxvga1_curr_gain (BLADERF_RXVGA1_GAIN_MIN + Z.of_nat (S n1) - 1) s), h2.
      split; [reflexivity |]. split; [reflexivity |].
      rewrite status_nonzero
        by (eapply (failfast_nonzero _ (failfast_rxvga1_set_gain dev _)); exact G).
      reflexivity.
  - exists false, e, s, h1. split; [reflexivity |]. split; [reflexivity |].
    rewrite status_nonzero by (eapply nonzero_attempt; exact A). reflexivity.
Qed.

(** The loop of [lms_calibrate_dc] after the initialisation follows the
    retry plan of the module. *)
Lemma converge_plan dev module fuel w0 s h :
  (36 <= fuel)%nat ->
  dc_cal_module_init dev module w0 = (Ok tt, (s, h)) ->
  exists c st s' h',
    dc_cal_converge dev module fuel false false 0 (s, h) = Some (c, st, (s', h')) /\
    backup_fields s' = backup_fields s /\
    (if negb c && (st =? 0) then BLADERF_ERR_UNEXPECTED else st, h')
    = retry_spec dev module (retry_plan dev module) s h.
Proof.
  intros Hf I. destruct (init_state _ _ _ _ I) as [Hn Hg]. cbn [fst] in Hn, Hg.
  destruct module.
  - apply converge_no_retry; [auto | lia | exact Hn].
  - apply converge_no_retry; [auto | lia | exact Hn].
  - destruct (Hg eq_refl) as [H1 _].
    apply (converge_rx_lpf dev 25); [lia | rewrite H1; reflexivity | exact Hn].
  - destruct (Hg eq_refl) as [H1 H2].
    apply (converge_rxvga2 dev 10 25);
      [lia | rewrite H1; reflexivity | rewrite H2; reflexivity | exact Hn].
Qed.

(** Claim C7 (calibration terminates).  The poll loop of
    [lms_dc_cal_loop] reads the status at most 25 times; without a bus
    failure it succeeds with the 6-bit result as soon as a poll shows
    "done" and returns UnexpectedState after 25 polls that do not.  A
    failure of that loop, UnexpectedState included, is the failure of
    its submodule.  [lms_calibrate_dc] returns for every module and
    device, within 36 turns of its loop, and does what the
    specification says: after backup and initialisation it makes an
    attempt over the submodules of the module and, while the attempt
    does not converge, applies the next adjustment of the retry plan
    (RXVGA1 lowered by 1 dB from 29 down to 5 for RX LPF and RXVGA2,
    then RXVGA2 lowered by 3 dB from 27 down to 0 for RXVGA2, nothing
    for LPF tuning and TX LPF); an error ends the loop with its status,
    and an attempt that does not converge when the plan is used up ends
    it with UnexpectedState.  A non-zero status of the loop is the
    status returned. *)
Theorem dc_calibration_bounded dev module :
  (* the poll loop *)
  (forall base cal_address dc_cntval,
     poll_outcome base (lms_dc_cal_loop dev base cal_address dc_cntval)) /\
  (* a failure of the poll loop fails the submodule *)
  (forall submodule s h h0 e h1,
     dc_cal_submodule_setup dev module submodule h = (Ok tt, h0) ->
     lms_dc_cal_loop dev (base_addr s) submodule 31 h0 = (Err e, h1) ->
     dc_cal_submodule dev module submodule (s, h) = (Err e, (s, h1))) /\
  (* the calibration returns, and follows the retry plan *)
  (forall h fuel,
     (36 <= fuel)%nat ->
     lms_calibrate_dc fuel dev module h = Some (calibrate_dc_spec dev module h)) /\
  (length (retry_plan dev module) < 36)%nat /\
  (* a failure of the retry loop is what the calibration returns *)
  (forall h w0 w1,
     dc_cal_backup dev module (dc_cal_state_zero, h) = (Ok tt, w0) ->
     dc_cal_module_init dev module w0 = (Ok tt, w1) ->
     fst (retry_spec dev module (retry_plan dev module) (fst w1) (snd w1)) <> 0 ->
     fst (calibrate_dc_spec dev module h)
     = fst (retry_spec dev module (retry_plan dev module) (fst w1) (snd w1))).
Proof.
  split; [| split; [| split; [| split]]].
  - intros. apply poll_outcome_loop.
  - intros submodule s h h0 e h1 S L. unfold dc_cal_submodule.
    rewrite bind_on_bus, S, bind_get_state. cbn [fst]. rewrite bind_on_bus.
    unfold dc_cal_regval, bind. rewrite L. reflexivity.
  - intros h fuel Hf. unfold lms_calibrate_dc, calibrate_dc_spec.
    destruct (dc_cal_backup dev module (dc_cal_state_zero, h)) as [[[] | e] w0];
      [| reflexivity].
    destruct (dc_cal_module_init dev module w0) as [[[] | e] [s1 h1]] eqn:I.
    2:{ destruct (lms_calibrate_dc_error dev module e (s1, h1)) as [st w].
        reflexivity. }
    destruct (converge_plan dev module fuel w0 s1 h1 Hf I)
      as (c & st & s' & h' & C & F & R).
    rewrite C. cbn [fst snd]. rewrite <- R.
    destruct (error_indep dev module
                (if negb c && (st =? 0) then BLADERF_ERR_UNEXPECTED else st)
                s' s1 h' F) as [E1 E2].
    destruct (lms_calibrate_dc_error dev module _ (s', h')) as [st1 wa].
    destruct (lms_calibrate_dc_error dev module _ (s1, h')) as [st2 wb].
    cbn [fst snd] in E1, E2. rewrite E1, E2. reflexivity.
  - destruct module; unfold retry_plan;
      rewrite ?length_app, ?length_map;
      change (length rxvga1_retry_gains) with 25%nat;
      change (length rxvga2_retry_gains) with 10%nat; cbn [length]; lia.
  - intros h w0 w1 B I Hs. unfold calibrate_dc_spec. rewrite B, I.
    destruct (retry_spec dev module (retry_plan dev module) (fst w1) (snd w1))
      as [st h2]. cbn [fst] in Hs |- *.
    pose proof (calibrate_dc_error_status dev module st (fst w1, h2) Hs) as S.
    destruct (lms_calibrate_dc_error dev module st (fst w1, h2)) as [st' w].
    exact S.
Qed.

Lemma dc_calibration_bounded_witness :
  let never_done := regfile (fun a => if a =? 0x31 then 0x02 else 0) in
  (* 26 attempts with RXVGA1 from 30 dB down to 5 dB, then UnexpectedState *)
  lms_calibrate_dc 36 rxlpf_stuck BLADERF_DC_CAL_RX_LPF []
  = Some (calibrate_dc_spec rxlpf_stuck BLADERF_DC_CAL_RX_LPF []) /\
  fst (calibrate_dc_spec rxlpf_stuck BLADERF_DC_CAL_RX_LPF [])
  = BLADERF_ERR_UNEXPECTED /\
  writes_at 0x76 (rev (snd (calibrate_dc_spec rxlpf_stuck BLADERF_DC_CAL_RX_LPF [])))
  = map (index rxvga1_lut_val2code)
      [30; 29; 28; 27; 26; 25; 24; 23; 22; 21; 20; 19; 18; 17; 16; 15;
       14; 13; 12; 11; 10; 9; 8; 7; 6; 5; 5] /\
  (* a poll that never shows "done": 25 reads, UnexpectedState, no retry *)
  lms_calibrate_dc 36 never_done BLADERF_DC_CAL_TX_LPF []
  = Some (calibrate_dc_spec never_done BLADERF_DC_CAL_TX_LPF []) /\
  fst (calibrate_dc_spec never_done BLADERF_DC_CAL_TX_LPF [])
  = BLADERF_ERR_UNEXPECTED /\
  length (reads_at 0x31
            (rev (snd (calibrate_dc_spec never_done BLADERF_DC_CAL_TX_LPF []))))
  = 25%nat.
Proof.
  intros never_done.
  split;
    [exact (proj1 (proj2 (proj2 (dc_calibration_bounded rxlpf_stuck
                                   BLADERF_DC_CAL_RX_LPF))) [] 36%nat (le_n 36)) |].
  split; [vm_compute; reflexivity |]. split; [vm_compute; reflexivity |].
  split;
    [exact (proj1 (proj2 (proj2 (dc_calibration_bounded never_done
                                   BLADERF_DC_CAL_TX_LPF))) [] 36%nat (le_n 36)) |].
  split; vm_compute; reflexivity.
Defined.
